(* ===== verification/_CoqProject ===== *)
-Q . S2P
Prelude.v
Utility.v
Scan.v
Config.v
Platform.v
WifiSta.v
WifiAp.v
WifiConnect.v
Mqtt.v
Nvs.v
Http.v
Main.v
HttpHandlers.v
Ota.v
HttpInfo.v
Ds18b20.v
Publish.v
HttpServer.v
App.v
