(* ===== verification/Prelude.v ===== *)
(** * A verification development of mqtt-temperature (augustpevko)

    The program is ESP-IDF firmware for a temperature gateway.  At boot
    ([main_init] in src/main/main.c) it loads three configuration blobs
    from NVS (src/main/aug_nvs.c), joins a Wi-Fi network in station mode
    (src/main/aug_wifi_sta.c) or opens its own access point
    (src/main/aug_wifi_ap.c, whose channel is chosen by the scan of
    src/main/aug_wifi_scan.c), starts an HTTP control surface
    (src/main/aug_http_server.c) and an MQTT client
    (src/main/aug_mqtt_client.c) that publishes DS18B20 readings.  The
    modules talk through a custom esp_event loop created in main.c with
    a queue of two events: the station's handler posts FAILED_ATTEMPTS
    when its retries run out, the access point's idle task posts IDLE,
    the HTTP handlers post INIT_STA, INIT_MQTT, OTA_UPDATE and RESTART,
    and the callbacks of [register_events] switch mode, reconfigure
    MQTT, or persist the configuration and reboot.

    The model is a shallow embedding in a state and error monad [M]
    (this file): a C function is a function from the [World] (all module
    globals, the NVS store, the custom loop's queue and callbacks, a
    script of radio events, the scan results, an oracle for the results
    of the ESP-IDF calls, and a trace of what can be observed) to a new
    world and an outcome: a return value, an abort of ESP_ERROR_CHECK
    (abort() and a device reset), a deliberate reset, or a wait that
    never ends.  The oracle gives each ESP-IDF call one result for a
    given world ([w_plat]): theorems "for any platform behaviour" cover
    every such assignment of results, not results that change from one
    call to the next within a run.  [AUG_RETURN_CHECK] and [ESP_ERROR_CHECK] are the
    combinators [return_check] and [error_check].  Three program logics
    are built on it here: [keeps] (a computation leaves a part of the
    state as it was, with the tactic [solve_keeps_with]), [preserves]
    (an invariant holds after every outcome, error returns included)
    and [hoare] (partial correctness, with a rule per combinator).

    Files, in dependency order, and what they model:
    - [Prelude]: error codes, the monad, the macros of aug_utility.h
      (AUG_RETURN_CHECK, AUG_EXIT_CHECK, AUG_EXIT_NULL_CHECK), frame
      conditions and Hoare rules, the [first_index] loop of the table searches, C buffers
      ([memcpy], [c_str]), uint8_t arithmetic.
    - [Utility]: aug_utility.c: each string constant, table, size and
      conversion loop of the source as a definition of its own, proved
      equal to the instances of one Section over a table; round trips,
      the size computed by MAX_OF_8, the error path.
    - [Scan]: the histogram with uint8_t cells and the minimum search of
      [aug_get_least_freq_channel]; refinement of the least used channel
      when no counter wraps, the range of the result, and for every
      scan the choice by the counts modulo 256.
    - [Config]: the structs of aug_wifi.h and the defaults of aug_wifi.c
      (the Kconfig values, and the constants the [#if] chains select
      from Kconfig choices, are Section variables).
    - [Platform]: the ESP-IDF calls as an oracle, the event types, the
      module globals as records, the [World], [esp_event_post_to] on the
      custom loop (a full queue blocks the poster for ever), the static
      initialisers.
    - [WifiSta]: [event_handler], the retry state machine, and
      [aug_wifi_sta_disconnect]; retry exhaustion after N + 1
      disconnections, no post before, and the bound on [retry_num].
    - [WifiAp]: the access point: station counting, one period of
      [idle_check_task], [aug_wifi_ap_start] (with the scan's driver
      calls) and [aug_wifi_ap_stop]; the default loop's delivery of
      radio events ([deliver]).  The idle check samples rather than
      measures a window, and repeats; a stop after a start frees what
      the start allocated, as aug_wifi_ap.h promises.
    - [WifiConnect]: [aug_wifi_sta_connect] and its blocking
      [xEventGroupWaitBits], whose loop takes radio events from the
      script with fuel one more than the script's length (no delivery
      lengthens it, so the fuel is enough; running out of script is the
      wait that never ends).  Connection gives up after
      [max_retry - retry_num] retries or succeeds on GOT_IP.
    - [Mqtt]: aug_mqtt_client.c over a model of the esp-mqtt client,
      with [aug_mqtt_uri_t] and the static [mqtt_config] whose broker
      URI pointer main.c sets.
    - [Nvs]: aug_nvs.c over the world's store; the class [ObjectRepr]
      is the interface of a struct seen as bytes (the [uint8_t*] casts
      of the code), with instances for the two configuration structs;
      round trips of the three blobs, errors that change nothing.
    - [Http]: the server's lifecycle in aug_http_server.c: the seven
      [register_*] helpers fill the server's table of [httpd_uri_t]
      (the library refuses a NULL server, a route already registered
      and a ninth handler).
    - [Main]: main.c: [deinit_modules], the callbacks, [register_events],
      the custom loop's dispatch [loop_step], and [main_init]; mode
      exclusivity of every loop step for any platform behaviour, and a
      boot whose connection fails: the
      FAILED_ATTEMPTS it posts is drained before [register_events] and
      the device stays in station mode; a boot that returns has pointed
      the MQTT configuration at the URI buffer before creating the
      client, which therefore holds the buffer's URI.
    - [HttpHandlers]: the option handlers of aug_http_server.c (the four
      setters, [set_sta_options], the two set_options handlers and their
      400/500 answers) over models of ESP-IDF's [httpd_query_key_value]
      and newlib's [atoi].  An abstract specification [sta_options_spec]
      over the key=value pairs of the query, and the simulation
      [implements] between setters and specification, composed along
      AUG_RETURN_CHECK: the handler refines the specification (a refused
      option keeps what was written before it); any query leaves a
      configuration NVS can store.
    - [Ota]: [ota_update_handler]: the receive loop, its [size_t]
      arithmetic, and what follows it; termination without timeouts, a
      stall for ever on timeouts, and no partial image made bootable.
    - [HttpInfo]: the handlers that report and post ([send_sta_info],
      [init_sta_handler], [send_mqtt_info], [init_mqtt_handler],
      [restart_handler], [index_handler]) with [snprintf]'s [%s] (which
      reads past a character array without a NUL into the memory after
      it) and [%d] ([int_to_dec]); the reports of terminated arrays are
      never cut, they go out before the post (the restart is posted
      first), a 32-byte SSID runs into the password, and an unnamed auth
      mode is answered 500 twice.
    - [Ds18b20]: aug_ds18b20.c in a monad of its own over [ds_world]
      (the module's globals and the 1-Wire driver's answers as data):
      the search, with DEFAULT_ONEWIRE_MAX_DS18B20 a Section variable,
      keeps exactly the first DS18B20s the bus yields and never writes
      past the array (a refinement against [found_ds18b20s]); a bus
      without a DS18B20 makes the init fail, which [main_init] turns
      into an abort.
    - [Publish]: [get_mac_hash] (with its uint8_t truncation) and one
      period of [publish_task] over the sensor state and the answers of
      [aug_mqtt_is_connected] ([next_is_connected]): the messages of
      exactly the sensors before the first disconnected check, with
      "%.2f" temperatures uncut by their 8-byte buffer.
    - [HttpServer]: the httpd library's dispatch of a request to the
      first matching entry of the table (405 and 404 otherwise) and the
      routing the module promises ([route]); the table [aug_http_start]
      builds implements it, and every handler that posts gets the loop
      handle; a refused registration leaves a server that answers 404.
    - [App]: [app_main] of main.c with [aug_nvs_init], [verify_app] and
      [main_loop], and [aug_wifi_init]/[aug_wifi_deinit] of aug_wifi.c,
      over a [Device] that holds beside the [World] the NVS partition,
      the TCP/IP stack, the default event loop and the OTA image state;
      a full partition is erased with every saved configuration, a
      pending image is confirmed before anything that can abort, the
      default loop is created once, and the main task parks for good.

    Bounds and fuel: [wait_bits] has fuel [S (length (w_radio w))]; the
    custom loop is drained at boot with fuel the length of its queue;
    the query scanner has fuel [S (length query)], enough because each
    round consumes a key and its '=' ([query_find_terminates]); the OTA
    loop takes its fuel as a parameter, and [content_len + 1] rounds are
    enough without timeouts ([ota_receive_terminates]) while no fuel is
    enough when every reception times out ([ota_update_handler_stalls]);
    [size_t] is 32 bits and wraps; the device search has fuel beyond
    the length of the bus, enough because each round consumes an item
    ([search_loop_run]); a period of [publish_task] runs at most
    [sensors_number] rounds, the loop's own bound; [int_to_dec] has
    fuel 10, one round per digit of an [int];
    C ints are [Z] with the range [INT_MIN..INT_MAX] stated where it
    matters (the retry counter, the four-byte encoding of ints in NVS);
    uint8_t cells wrap modulo 256.

    Not modelled: the [xTaskCreate] of [publish_task] at the end of
    [main_init] (its task is modelled on its own), the delay between two
    periods of [publish_task] and of [main_loop]'s idle wait, the contents of the
    index page (not in the repository), the radio, the 1-Wire bus, the
    MQTT and HTTP protocols and the flash, which are libraries the
    sources call; their results enter the model as data.  The headers
    of src/main/include are declarations: each function is modelled
    from its .c file, and the promises of the doc comments are theorems
    about those models.  CONFIG_HTTPD_MAX_URI_LEN (MQTT_MAX_URI_LEN) and
    the other Kconfig values are outside the repository; the URI buffer
    uses the ESP-IDF default 512, the others are Section variables. *)

From stdpp Require Export base list strings.
From Stdlib Require Export ZArith Lia Ascii.

Open Scope Z_scope.

(** ** ESP-IDF error codes (esp_err.h).  [esp_err_t] is a C [int]. *)

Definition esp_err_t := Z.
Definition ESP_OK : esp_err_t := 0.
Definition ESP_FAIL : esp_err_t := -1.
Definition ESP_ERR_NO_MEM : esp_err_t := 257.
Definition ESP_ERR_INVALID_ARG : esp_err_t := 258.
Definition ESP_ERR_NOT_FOUND : esp_err_t := 261.
Definition ESP_ERR_NVS_NOT_FOUND : esp_err_t := 4354.
Definition ESP_ERR_HTTPD_RESULT_TRUNC : esp_err_t := 45060.

(** ** Outcomes and the state and error monad *)

(** A C function either returns a value, aborts the program through
    [ESP_ERROR_CHECK] (abort() and a device reset) with the failing code,
    resets the device on purpose ([esp_restart], which does not return),
    or blocks forever (a wait with portMAX_DELAY that nothing ends). *)
Inductive outcome (A : Type) : Type :=
| Ret (a : A)
| Abort (e : esp_err_t)
| Reset
| Blocked.
Arguments Ret {A} a.
Arguments Abort {A} e.
Arguments Reset {A}.
Arguments Blocked {A}.

Definition M (S A : Type) : Type := S -> S * outcome A.

#[export] Instance M_ret {S} : MRet (M S) := fun A a s => (s, Ret a).
#[export] Instance M_bind {S} : MBind (M S) := fun A B k c s =>
  match c s with
  | (s', Ret a) => k a s'
  | (s', Abort e) => (s', Abort e)
  | (s', Reset) => (s', Reset)
  | (s', Blocked) => (s', Blocked)
  end.

Section Monad.
Context {S : Type}.

Definition get : M S S := fun s => (s, Ret s).
Definition gets {A} (f : S -> A) : M S A := fun s => (s, Ret (f s)).
Definition put (s : S) : M S unit := fun _ => (s, Ret tt).
Definition modify (f : S -> S) : M S unit := fun s => (f s, Ret tt).
Definition abort {A} (e : esp_err_t) : M S A := fun s => (s, Abort e).
Definition block {A} : M S A := fun s => (s, Blocked).
Definition reset {A} : M S A := fun s => (s, Reset).

(** [AUG_RETURN_CHECK] of aug_utility.h: return the error of [c] from
  the enclosing function unless it is [ESP_OK]. *)
Definition return_check (c : M S esp_err_t) (k : M S esp_err_t) : M S esp_err_t :=
err ← c; if Z.eqb err ESP_OK then k else mret err.

(** [ESP_ERROR_CHECK] of esp_err.h: abort on an error. *)
Definition error_check {A} (c : M S esp_err_t) (k : M S A) : M S A :=
err ← c; if Z.eqb err ESP_OK then k else abort err.

(** The same with a result that is already a value. *)
Definition error_check_val {A} (err : esp_err_t) (k : M S A) : M S A :=
if Z.eqb err ESP_OK then k else abort err.

(** [AUG_EXIT_CHECK] of aug_utility.h: an error is passed to
    [ESP_ERROR_CHECK], which aborts with it. *)
Definition AUG_EXIT_CHECK {A} (result : M S esp_err_t) (k : M S A) : M S A :=
err ← result; if negb (Z.eqb err ESP_OK) then abort err else k.

(** [AUG_EXIT_NULL_CHECK] of aug_utility.h: a NULL pointer (here
    [false]) aborts through [ESP_ERROR_CHECK(ESP_FAIL)]. *)
Definition AUG_EXIT_NULL_CHECK {A} (result : bool) (k : M S A) : M S A :=
if negb result then abort ESP_FAIL else k.
End Monad.

Declare Scope aug_scope.
Delimit Scope aug_scope with aug.
Open Scope aug_scope.

Notation "'AUG_RETURN_CHECK' c ; k" := (return_check c k)
  (at level 10, c at level 100, k at level 200) : aug_scope.
Notation "'ESP_ERROR_CHECK' c ; k" := (error_check c k)
  (at level 10, c at level 100, k at level 200) : aug_scope.

Create HintDb aug.
Create HintDb keeps.
Create HintDb preserves.
Create Rewrite HintDb aug_rw.

Section MonadLaws.
Context {S : Type}.

Lemma bind_ret_l {A B} (a : A) (k : A -> M S B) s :
(x ← mret a; k x) s = k a s.
Proof. reflexivity. Qed.

Lemma bind_gets {A B} (f : S -> A) (k : A -> M S B) s :
  (x ← gets f; k x) s = k (f s) s.
Proof. reflexivity. Qed.

Lemma bind_run {A B} (c : M S A) (k : A -> M S B) s s' a :
c s = (s', Ret a) -> (x ← c; k x) s = k a s'.
Proof. intros H. unfold mbind, M_bind. by rewrite H. Qed.

Lemma bind_abort {A B} (c : M S A) (k : A -> M S B) s s' e :
c s = (s', Abort e) -> (x ← c; k x) s = (s', Abort e).
Proof. intros H. unfold mbind, M_bind. by rewrite H. Qed.

Lemma bind_blocked {A B} (c : M S A) (k : A -> M S B) s s' :
c s = (s', Blocked) -> (x ← c; k x) s = (s', Blocked).
Proof. intros H. unfold mbind, M_bind. by rewrite H. Qed.

Lemma return_check_ok (c k : M S esp_err_t) s s' :
c s = (s', Ret ESP_OK) -> return_check c k s = k s'.
Proof. intros H. unfold return_check. by rewrite (bind_run _ _ _ _ _ H). Qed.

Lemma return_check_err (c k : M S esp_err_t) s s' e :
c s = (s', Ret e) -> e <> ESP_OK -> return_check c k s = (s', Ret e).
Proof.
intros H Hne. unfold return_check. rewrite (bind_run _ _ _ _ _ H).
destruct (Z.eqb_spec e ESP_OK); [congruence | reflexivity].
Qed.

(** [AUG_EXIT_CHECK] is [ESP_ERROR_CHECK] of its result. *)
Lemma AUG_EXIT_CHECK_error_check {A} (c : M S esp_err_t) (k : M S A) s :
  AUG_EXIT_CHECK c k s = error_check c k s.
Proof.
unfold AUG_EXIT_CHECK, error_check, mbind, M_bind.
destruct (c s) as [s' [a| | |]]; [by destruct (Z.eqb a ESP_OK)|done..].
Qed.

Lemma error_check_ok {A} (c : M S esp_err_t) (k : M S A) s s' :
c s = (s', Ret ESP_OK) -> error_check c k s = k s'.
Proof. intros H. unfold error_check. by rewrite (bind_run _ _ _ _ _ H). Qed.

Lemma error_check_err {A} (c : M S esp_err_t) (k : M S A) s s' e :
c s = (s', Ret e) -> e <> ESP_OK -> error_check c k s = (s', Abort e).
Proof.
intros H Hne. unfold error_check. rewrite (bind_run _ _ _ _ _ H).
destruct (Z.eqb_spec e ESP_OK); [congruence | reflexivity].
Qed.
End MonadLaws.

(** Run [f] on each element in order, as a [for] loop over a list. *)
Fixpoint mapM_ {S A} (f : A -> M S unit) (l : list A) : M S unit :=
  match l with
  | [] => mret tt
  | x :: l' => f x ;; mapM_ f l'
  end.

Lemma mapM_cons {S A} (f : A -> M S unit) x l s :
  mapM_ f (x :: l) s = (f x ;; mapM_ f l) s.
Proof. reflexivity. Qed.

Lemma mapM_app {S A} (f : A -> M S unit) l1 l2 s :
  mapM_ f (l1 ++ l2) s = (mapM_ f l1 ;; mapM_ f l2) s.
Proof.
  revert s. induction l1 as [|x l1 IH]; intros s; [reflexivity|].
  simpl. unfold mbind, M_bind. destruct (f x s) as [s' [a| | |]]; [|done..].
  rewrite IH. unfold mbind, M_bind. by destruct (mapM_ f l1 s') as [s'' [[]| | |]].
Qed.

(** Unfold the monad plumbing of a goal. *)
Ltac mrun :=
  unfold return_check, error_check, error_check_val, mbind, M_bind, mret, M_ret,
    get, gets, put, modify, abort, block, reset in *; simpl in *.

(** ** Frame conditions

    [keeps f c]: whatever its outcome, [c] leaves the part [f] of the
    state as it was.  The lemmas below decompose the monad, and
    [solve_keeps] applies them down a definition. *)

Definition keeps {S A B} (f : S -> B) (c : M S A) : Prop := forall s, f (fst (c s)) = f s.

Section Keeps.
Context {S B : Type} (f : S -> B).

Lemma keeps_ret {A} (a : A) : keeps f (mret a).
Proof. intros s. reflexivity. Qed.

Lemma keeps_bind {A C} (c : M S A) (k : A -> M S C) :
  keeps f c -> (forall a, keeps f (k a)) -> keeps f (c ≫= k).
Proof.
  intros Hc Hk s. unfold mbind, M_bind. specialize (Hc s).
  destruct (c s) as [s' [a| | |]]; simpl in *; try done. by rewrite Hk.
Qed.

Lemma keeps_gets {A} (g : S -> A) : keeps f (gets g).
Proof. intros s. reflexivity. Qed.

Lemma keeps_get : keeps f get.
Proof. intros s. reflexivity. Qed.

Lemma keeps_abort {A} e : keeps f (abort (A := A) e).
Proof. intros s. reflexivity. Qed.

Lemma keeps_block {A} : keeps f (block (A := A)).
Proof. intros s. reflexivity. Qed.

Lemma keeps_reset {A} : keeps f (reset (A := A)).
Proof. intros s. reflexivity. Qed.

Lemma keeps_modify (g : S -> S) : (forall s, f (g s) = f s) -> keeps f (modify g).
Proof. intros Hg s. apply Hg. Qed.

Lemma keeps_return_check (c k : M S esp_err_t) : keeps f c -> keeps f k -> keeps f (return_check c k).
Proof.
  intros Hc Hk. apply keeps_bind; [done|]. intros a. by destruct (Z.eqb a ESP_OK); [|apply keeps_ret].
Qed.

Lemma keeps_error_check {A} (c : M S esp_err_t) (k : M S A) :
  keeps f c -> keeps f k -> keeps f (error_check c k).
Proof.
  intros Hc Hk. apply keeps_bind; [done|]. intros a. by destruct (Z.eqb a ESP_OK); [|apply keeps_abort].
Qed.

Lemma keeps_mapM_ {A} (g : A -> M S unit) l : (forall x, keeps f (g x)) -> keeps f (mapM_ g l).
Proof.
  intros Hg. induction l as [|x l IH]; simpl; [apply keeps_ret|]. by apply keeps_bind.
Qed.

(** A run that returns leaves [f] as it was. *)
Lemma keeps_run {A} (c : M S A) s s' o : keeps f c -> c s = (s', o) -> f s' = f s.
Proof. intros Hc Hrun. specialize (Hc s). by rewrite Hrun in Hc. Qed.

End Keeps.

#[export] Hint Resolve keeps_ret keeps_gets keeps_get keeps_abort keeps_block keeps_reset : keeps.

(** One step of a frame proof; [tac] handles the definitions of a file. *)
Ltac keeps_step tac :=
  match goal with
  | |- keeps _ (mbind _ _) => apply keeps_bind; [|intros ?]
  | |- keeps _ (return_check _ _) => apply keeps_return_check
  | |- keeps _ (error_check _ _) => apply keeps_error_check
  | |- keeps _ (mapM_ _ _) => apply keeps_mapM_; intros ?
  | |- keeps _ (modify _) => apply keeps_modify; intros ?; solve [reflexivity | eauto]
  | |- keeps _ (if ?b then _ else _) => destruct b
  | |- keeps _ _ => solve [eauto with keeps]
  | |- keeps _ _ => tac
  | |- keeps _ _ => case_match
  end.

Ltac solve_keeps_with tac := repeat (keeps_step tac).

(** ** Invariants over every outcome

    [preserves I c]: from a state satisfying [I], [c] ends, whatever its
    outcome, in a state satisfying [I].  An error return that has
    already written part of the state is an outcome like any other. *)

Definition preserves {S A} (I : S -> Prop) (c : M S A) : Prop := forall s, I s -> I (fst (c s)).

Section Preserves.
Context {S : Type} (I : S -> Prop).

Lemma preserves_ret {A} (a : A) : preserves I (mret a).
Proof. intros s Hs. exact Hs. Qed.

Lemma preserves_bind {A C} (c : M S A) (k : A -> M S C) :
  preserves I c -> (forall a, preserves I (k a)) -> preserves I (c ≫= k).
Proof.
  intros Hc Hk s Hs. unfold mbind, M_bind. specialize (Hc s Hs).
  destruct (c s) as [s' [a| | |]]; simpl in *; [apply Hk| | |]; exact Hc.
Qed.

Lemma preserves_gets {A} (g : S -> A) : preserves I (gets g).
Proof. intros s Hs. exact Hs. Qed.

Lemma preserves_get : preserves I get.
Proof. intros s Hs. exact Hs. Qed.

Lemma preserves_gets_bind {A B} (f : S -> A) (k : A -> M S B) :
  (forall s, I s -> I (fst (k (f s) s))) -> preserves I (x ← gets f; k x).
Proof. intros Hk s Hs. rewrite bind_gets. auto. Qed.

Lemma preserves_modify (g : S -> S) : (forall s, I s -> I (g s)) -> preserves I (modify g).
Proof. intros Hg s Hs. by apply Hg. Qed.

Lemma preserves_keeps {A B} (f : S -> B) (c : M S A) :
  keeps f c -> (forall s s', f s' = f s -> I s -> I s') -> preserves I c.
Proof. intros Hc HI s Hs. eapply HI; [apply Hc|exact Hs]. Qed.

Lemma preserves_return_check (c k : M S esp_err_t) :
  preserves I c -> preserves I k -> preserves I (return_check c k).
Proof.
  intros Hc Hk. apply preserves_bind; [done|]. intros a.
  by destruct (Z.eqb a ESP_OK); [|apply preserves_ret].
Qed.

End Preserves.

#[export] Hint Resolve preserves_ret preserves_gets preserves_get : preserves.

Ltac preserves_step :=
  match goal with
  | |- preserves _ (mbind _ _) => apply preserves_bind; [|intros ?]
  | |- preserves _ (return_check _ _) => apply preserves_return_check
  | |- preserves _ (if ?b then _ else _) => destruct b
  | |- preserves _ (let '(_, _) := ?p in _) => destruct p
  | |- preserves _ _ => solve [eauto with preserves]
  end.

(** ** Partial correctness

    [hoare P c Q]: from a state satisfying [P], if [c] returns [a] (it
    may also abort, reset or block), the final state satisfies [Q a].
    The rules follow the combinators of the monad. *)

Definition hoare {S A} (P : S -> Prop) (c : M S A) (Q : A -> S -> Prop) : Prop :=
  forall s s' a, P s -> c s = (s', Ret a) -> Q a s'.

Section Hoare.
Context {S : Type}.
Implicit Types P : S -> Prop.

Lemma hoare_ret {A} P (Q : A -> S -> Prop) a : (forall s, P s -> Q a s) -> hoare P (mret a) Q.
Proof. intros H s s' a' Hp Hrun. injection Hrun as <- <-. auto. Qed.

Lemma hoare_bind {A B} P (Q : A -> S -> Prop) (R : B -> S -> Prop) c k :
  hoare P c Q -> (forall a, hoare (Q a) (k a) R) -> hoare P (c ≫= k) R.
Proof.
  intros Hc Hk s s' b Hp Hrun. unfold mbind, M_bind in Hrun.
  destruct (c s) as [s1 [a| | |]] eqn:E; try discriminate. eapply Hk; [|exact Hrun]. eauto.
Qed.

Lemma hoare_gets_bind {A B} P (f : S -> A) (k : A -> M S B) R :
  (forall a, hoare (fun s => P s /\ f s = a) (k a) R) -> hoare P (x ← gets f; k x) R.
Proof. intros Hk s s' b Hp Hrun. rewrite bind_gets in Hrun. eapply Hk; [|exact Hrun]. auto. Qed.

Lemma hoare_modify P (g : S -> S) (Q : unit -> S -> Prop) :
  (forall s, P s -> Q tt (g s)) -> hoare P (modify g) Q.
Proof. intros H s s' a Hp Hrun. injection Hrun as <- <-. auto. Qed.

Lemma hoare_abort {A} P (Q : A -> S -> Prop) e : hoare P (abort e) Q.
Proof. intros s s' a _ Hrun. discriminate. Qed.

Lemma hoare_reset {A} P (Q : A -> S -> Prop) : hoare P reset Q.
Proof. intros s s' a _ Hrun. discriminate. Qed.

Lemma hoare_block {A} P (Q : A -> S -> Prop) : hoare P block Q.
Proof. intros s s' a _ Hrun. discriminate. Qed.

Lemma hoare_weaken {A} P P' (Q Q' : A -> S -> Prop) c :
  hoare P' c Q' -> (forall s, P s -> P' s) -> (forall a s, Q' a s -> Q a s) -> hoare P c Q.
Proof. intros H HP HQ s s' a Hp Hrun. eauto. Qed.

Lemma hoare_if {A} P (b : bool) (c1 c2 : M S A) Q :
  (b = true -> hoare P c1 Q) -> (b = false -> hoare P c2 Q) -> hoare P (if b then c1 else c2) Q.
Proof. destruct b; auto. Qed.

(** [ESP_ERROR_CHECK]: the continuation runs only after [ESP_OK]. *)
Lemma hoare_error_check {A} P Q (R : A -> S -> Prop) (c : M S esp_err_t) k :
  hoare P c (fun r s => r = ESP_OK -> Q s) -> hoare Q k R -> hoare P (error_check c k) R.
Proof.
  intros Hc Hk. unfold error_check. eapply hoare_bind; [exact Hc|]. intros r.
  destruct (Z.eqb_spec r ESP_OK) as [->|]; [|apply hoare_abort].
  eapply hoare_weaken; [exact Hk | |done]. auto.
Qed.

(** [AUG_RETURN_CHECK]: an error is the result. *)
Lemma hoare_return_check P Q (R : esp_err_t -> S -> Prop) (c k : M S esp_err_t) :
  hoare P c (fun r s => if Z.eqb r ESP_OK then Q s else R r s) -> hoare Q k R ->
  hoare P (return_check c k) R.
Proof.
  intros Hc Hk. unfold return_check. eapply hoare_bind; [exact Hc|]. intros r.
  cbv beta. destruct (Z.eqb r ESP_OK); [exact Hk|]. apply hoare_ret. intros s Hs. exact Hs.
Qed.

Lemma hoare_mapM_ {A} (I : S -> Prop) (g : A -> M S unit) l :
  (forall x, hoare I (g x) (fun _ => I)) -> hoare I (mapM_ g l) (fun _ => I).
Proof.
  intros Hg. induction l as [|x l IH]; simpl; [by apply hoare_ret|].
  eapply hoare_bind; [apply Hg|]. intros ?. exact IH.
Qed.

(** Nothing is promised of the result. *)
Lemma hoare_true {A} P (c : M S A) : hoare P c (fun _ _ => True).
Proof. done. Qed.

(** Under [AUG_RETURN_CHECK], an error result satisfies any claim about
    results that are [ESP_OK]. *)
Lemma hoare_ok_only P (c : M S esp_err_t) (Q X : S -> Prop) :
  (forall s s', P s -> c s = (s', Ret ESP_OK) -> Q s') ->
  hoare P c (fun r s => if Z.eqb r ESP_OK then Q s else (r = ESP_OK -> X s)).
Proof.
  intros H s s' r Hp Hrun. destruct (Z.eqb_spec r ESP_OK) as [->|Hne]; [eauto|by intros].
Qed.

(** The same for a step that keeps the part [f] of the state on which
    the claim [I] about [ESP_OK] results bears. *)
Lemma hoare_ok_keeps {B} (f : S -> B) (I : B -> Prop) (c : M S esp_err_t) (X : S -> Prop) :
  keeps f c ->
  hoare (fun s => I (f s)) c (fun r s => if Z.eqb r ESP_OK then I (f s) else (r = ESP_OK -> X s)).
Proof.
  intros Hc. apply hoare_ok_only. intros s s' Hs Hrun. by rewrite (keeps_run _ _ _ _ _ Hc Hrun).
Qed.

(** A part of the state a computation keeps is an invariant of it. *)
Lemma hoare_keeps {A B} (f : S -> B) (c : M S A) v :
  keeps f c -> hoare (fun s => f s = v) c (fun _ s => f s = v).
Proof. intros Hk s s' a Hs Hrun. rewrite (keeps_run _ _ _ _ _ Hk Hrun). done. Qed.

(** The same for any property of that part. *)
Lemma hoare_keeps_inv {A B} (f : S -> B) (I : B -> Prop) (c : M S A) :
  keeps f c -> hoare (fun s => I (f s)) c (fun _ s => I (f s)).
Proof. intros Hk s s' a Hs Hrun. by rewrite (keeps_run _ _ _ _ _ Hk Hrun). Qed.

(** [ESP_ERROR_CHECK] of a step that keeps that part. *)
Lemma hoare_check_keeps_inv {A B} (f : S -> B) (I : B -> Prop) (c : M S esp_err_t) (k : M S A) R :
  keeps f c -> hoare (fun s => I (f s)) k R -> hoare (fun s => I (f s)) (error_check c k) R.
Proof.
  intros Hc Hk. eapply hoare_error_check; [|exact Hk].
  eapply hoare_weaken; [apply (hoare_keeps_inv f I), Hc|done|by intros].
Qed.

End Hoare.

(** ** Bounded loops *)

(** The first index [i < n] with [p i], as the loops
    [for (i = 0; i < n; ++i) if (p(i)) { ...; break; }] find it. *)
Fixpoint first_index_from (p : nat -> bool) (i fuel : nat) : option nat :=
  match fuel with
  | O => None
  | S fuel' => if p i then Some i else first_index_from p (S i) fuel'
  end.

Definition first_index (p : nat -> bool) (n : nat) : option nat :=
  first_index_from p 0 n.

Lemma first_index_from_spec p i fuel j :
  first_index_from p i fuel = Some j <->
  (i <= j < i + fuel)%nat /\ p j = true /\ (forall k, (i <= k < j)%nat -> p k = false).
Proof.
  revert i. induction fuel as [|fuel IH]; intros i; simpl.
  - split; [discriminate | lia].
  - destruct (p i) eqn:Hp.
    + split.
      * intros [= <-]. split; [lia|]. split; [done|]. intros k Hk. lia.
      * intros (Hj & Hpj & Hlt). f_equal.
        destruct (decide (i = j)) as [|Hne]; [done|].
        rewrite Hlt in Hp; [discriminate | lia].
    + rewrite IH. split.
      * intros (Hj & Hpj & Hlt). split; [lia|]. split; [done|].
        intros k Hk. destruct (decide (k = i)) as [->|]; [done|]. apply Hlt. lia.
      * intros (Hj & Hpj & Hlt). destruct (decide (i = j)) as [->|]; [congruence|].
        split; [lia|]. split; [done|]. intros k Hk. apply Hlt. lia.
Qed.

Lemma first_index_Some p n j :
  first_index p n = Some j <->
  (j < n)%nat /\ p j = true /\ (forall k, (k < j)%nat -> p k = false).
Proof.
  unfold first_index. rewrite first_index_from_spec.
  split; intros (? & ? & Hk); (split; [lia|]); split; auto; intros k ?; apply Hk; lia.
Qed.

Lemma first_index_from_None p i fuel :
  first_index_from p i fuel = None <-> (forall k, (i <= k < i + fuel)%nat -> p k = false).
Proof.
  revert i. induction fuel as [|fuel IH]; intros i; simpl.
  - split; [intros _ k Hk; lia | done].
  - destruct (p i) eqn:Hp.
    + split; [discriminate|]. intros H. rewrite H in Hp; [discriminate | lia].
    + rewrite IH. split.
      * intros H k Hk. destruct (decide (k = i)) as [->|]; [done|]. apply H. lia.
      * intros H k Hk. apply H. lia.
Qed.

Lemma first_index_None p n :
  first_index p n = None <-> (forall k, (k < n)%nat -> p k = false).
Proof.
  unfold first_index. rewrite first_index_from_None.
  split; intros H k Hk; apply H; lia.
Qed.

(** An element of a list, or its default, has the property all the
    list's elements and the default have. *)
Lemma nth_Forall {A} (P : A -> Prop) (l : list A) d i : Forall P l -> P d -> P (nth i l d).
Proof.
  intros Hl Hd. revert i. induction Hl as [|x l Hx Hl IH]; intros [|i]; simpl; auto.
Qed.

(** ** C strings and byte buffers *)

(** A C [char] buffer is a list of [ascii]; a string literal or a
    NUL-terminated value is a [string]. *)
Definition NUL : ascii := Ascii.zero.

(** [memcpy(dst, src, length src)] into a buffer at least as long. *)
Definition memcpy {A} (dst src : list A) : list A := src ++ drop (length src) dst.

(** The bytes of a string literal, with its terminating NUL: what
    [memcpy(buf, STR, strlen(STR) + 1)] copies. *)
Definition c_bytes (s : string) : list ascii := String.list_ascii_of_string s ++ [NUL].

(** The C string held in a buffer: the bytes before the first NUL. *)
Fixpoint c_str (buf : list ascii) : string :=
  match buf with
  | [] => EmptyString
  | c :: buf' => if Ascii.eqb c NUL then EmptyString else String c (c_str buf')
  end.

(** [sizeof] of a string literal is its length plus one for the NUL. *)
Definition sizeof_str (s : string) : nat := (String.length s + 1)%nat.

Lemma length_memcpy {A} (dst src : list A) :
  (length src <= length dst)%nat -> length (memcpy dst src) = length dst.
Proof. intros H. unfold memcpy. rewrite length_app, length_drop. lia. Qed.

Lemma c_str_app_nul (l rest : list ascii) :
  NUL ∉ l -> c_str (l ++ NUL :: rest) = String.string_of_list_ascii l.
Proof.
  induction l as [|c l IH]; intros Hn; simpl.
  - reflexivity.
  - destruct (Ascii.eqb_spec c NUL) as [->|Hne].
    + exfalso. apply Hn. by left.
    + rewrite IH; [done|]. intros Hin. apply Hn. by right.
Qed.

(** A buffer without a NUL is read whole, then what follows it. *)
Lemma c_str_app_no_nul (l rest : list ascii) :
  NUL ∉ l -> c_str (l ++ rest) = (String.string_of_list_ascii l ++ c_str rest)%string.
Proof.
  induction l as [|c l IH]; intros Hn; simpl; [reflexivity|].
  destruct (Ascii.eqb_spec c NUL) as [->|Hne]; [by destruct Hn; left|].
  rewrite IH; [reflexivity|]. intros Hin. apply Hn. by right.
Qed.

(** A buffer that holds a NUL reads the same whatever follows it. *)
Lemma c_str_app_has_nul (l rest : list ascii) : NUL ∈ l -> c_str (l ++ rest) = c_str l.
Proof.
  induction l as [|c l IH]; intros Hn; [by apply not_elem_of_nil in Hn|]. simpl.
  destruct (Ascii.eqb_spec c NUL) as [->|Hne]; [reflexivity|].
  rewrite IH; [reflexivity|]. apply elem_of_cons in Hn as [Hc|Hn]; [by subst c|exact Hn].
Qed.

Lemma c_str_memcpy (s : string) (dst : list ascii) :
  NUL ∉ String.list_ascii_of_string s -> c_str (memcpy dst (c_bytes s)) = s.
Proof.
  intros Hn. unfold memcpy, c_bytes. rewrite <- app_assoc. simpl.
  rewrite c_str_app_nul by done. apply String.string_of_list_ascii_of_string.
Qed.

Lemma length_string_append (s1 s2 : string) :
  String.length (s1 ++ s2)%string = (String.length s1 + String.length s2)%nat.
Proof. induction s1 as [|c s1 IH]; simpl; [done | by rewrite IH]. Qed.

Lemma length_list_ascii_of_string s :
  length (String.list_ascii_of_string s) = String.length s.
Proof. induction s as [|c s IH]; simpl; [done | by rewrite IH]. Qed.

Lemma length_c_bytes s : length (c_bytes s) = sizeof_str s.
Proof.
  unfold c_bytes, sizeof_str. rewrite length_app, length_list_ascii_of_string.
  simpl. lia.
Qed.

#[export] Hint Rewrite length_c_bytes length_list_ascii_of_string : aug_rw.
#[export] Hint Resolve length_memcpy : aug.

(** ** Unsigned 8-bit arithmetic (uint8_t wraps modulo 256) *)

Definition UINT8_MAX : Z := 255.
Definition INT_MAX : Z := 2147483647.
Definition INT_MIN : Z := -2147483648.
Definition u8 (z : Z) : Z := z mod 256.

Lemma u8_range z : 0 <= u8 z <= UINT8_MAX.
Proof. unfold u8, UINT8_MAX. pose proof (Z.mod_pos_bound z 256). lia. Qed.

Lemma u8_small z : 0 <= z < 256 -> u8 z = z.
Proof. intros H. unfold u8. apply Z.mod_small. lia. Qed.

#[export] Hint Resolve u8_range : aug.
