(* ===== verification/Utility.v ===== *)
(** * Utility: src/main/aug_utility.c and the macros of aug_utility.h

    The code keeps two pairs of parallel tables (authentication modes
    and SAE modes, an enum array and a string array each, the strings
    being [static const char[]] constants) and four conversion loops with
    the same shape.  Each constant, table, size and loop of the source is
    a definition here, written over the concrete table it reads
    ([aug_str_to_auth_mode], [aug_auth_mode_to_str], [aug_str_to_sae_mode],
    [aug_sae_mode_to_str]).  The Section [Conversion] states the loops once
    over a table given as Variables and proves their lemmas; the four
    functions are shown equal to its instances by [reflexivity].  The
    Section's Hypotheses (no duplicate strings or enum values, equal
    lengths, no NUL inside the strings, a maximum size that
    covers every string) are discharged for both tables by computation. *)

From S2P Require Import Prelude.

(** ** C string comparison *)

Definition str_head (s : string) : ascii :=
  match s with EmptyString => NUL | String c _ => c end.
Definition str_tail (s : string) : string :=
  match s with EmptyString => EmptyString | String _ s' => s' end.

(** [strncmp] of string.h: compare at most [n] characters, stopping at
    the first difference or at the terminating NUL. *)
Fixpoint strncmp (s1 s2 : string) (n : nat) : Z :=
  match n with
  | O => 0
  | S n' =>
      let c1 := str_head s1 in
      let c2 := str_head s2 in
      if negb (Ascii.eqb c1 c2)
      then Z.of_nat (nat_of_ascii c1) - Z.of_nat (nat_of_ascii c2)
      else if Ascii.eqb c1 NUL then 0 else strncmp (str_tail s1) (str_tail s2) n'
  end.

(** [string_cmp] (aug_utility.c): equal lengths and [strncmp] equal. *)
Definition string_cmp (str1 : string) (len1 : nat) (str2 : string) (len2 : nat) : bool :=
  if negb (Nat.eqb len1 len2) then false else Z.eqb (strncmp str1 str2 len2) 0.

(** A string without a NUL inside, as every C string is. *)
Definition no_nul (s : string) : bool :=
  forallb (fun c => negb (Ascii.eqb c NUL)) (String.list_ascii_of_string s).

(** ** The MAX_OF macros of aug_utility.h *)

(** [((a) > (b) ? (a) : (b))]. *)
Definition MAX_OF_2 (a b : nat) : nat := if Nat.ltb b a then a else b.
Definition MAX_OF_4 (a b c d : nat) : nat := MAX_OF_2 (MAX_OF_2 (MAX_OF_2 a b) c) d.
Definition MAX_OF_8 (a b c d e f g h : nat) : nat :=
  MAX_OF_2 (MAX_OF_4 a b c d) (MAX_OF_4 e f g h).

(** ** The conversion loops, over a table *)

Section Conversion.
Variable modes_enum : list Z.
Variable modes_str : list string.
Variable max_size : nat.

(** [aug_str_to_auth_mode] / [aug_str_to_sae_mode]: the first table
    string equal to the buffer gives the enum written to the out
    parameter; without one the out parameter is left as it was. *)
Definition str_to_mode (buffer : string) (buffer_len : nat) (mode : Z) : esp_err_t * Z :=
  match first_index
          (fun i => string_cmp buffer buffer_len (nth i modes_str ""%string)
                      (String.length (nth i modes_str ""%string)))
          (length modes_str) with
  | Some i => (ESP_OK, nth i modes_enum 0)
  | None => (ESP_FAIL, mode)
  end.

(** [aug_auth_mode_to_str] / [aug_sae_mode_to_str]: refuse a buffer
    smaller than the largest string, else copy the string of the first
    equal enum, with its NUL, to the front of the buffer. *)
Definition mode_to_str (mode : Z) (buffer : list ascii) (buffer_size : nat)
    : esp_err_t * list ascii :=
  if Nat.ltb buffer_size max_size then (ESP_FAIL, buffer)
  else match first_index (fun i => Z.eqb (nth i modes_enum 0) mode) (length modes_enum) with
       | Some i => (ESP_OK, memcpy buffer (c_bytes (nth i modes_str ""%string)))
       | None => (ESP_FAIL, buffer)
       end.

Hypothesis Hlen : length modes_enum = length modes_str.
Hypothesis Hstr_nodup : NoDup modes_str.
Hypothesis Henum_nodup : NoDup modes_enum.
Hypothesis Hno_nul : Forall (fun s => no_nul s = true) modes_str.
Hypothesis Hmax : Forall (fun s => (sizeof_str s <= max_size)%nat) modes_str.

Lemma no_nul_spec s : no_nul s = true <-> NUL ∉ String.list_ascii_of_string s.
Proof.
  unfold no_nul. rewrite forallb_forall. split.
  - intros H Hin. apply list_elem_of_In in Hin. specialize (H _ Hin).
    by rewrite Ascii.eqb_refl in H.
  - intros H c Hin. destruct (Ascii.eqb_spec c NUL) as [->|]; [|done].
    exfalso. apply H. by apply list_elem_of_In.
Qed.

Lemma strncmp_refl s n : strncmp s s n = 0.
Proof.
  revert s. induction n as [|n IH]; intros s; simpl; [done|].
  rewrite Ascii.eqb_refl. simpl. by destruct (Ascii.eqb _ _).
Qed.

Lemma strncmp_zero_eq s t :
  no_nul s = true -> no_nul t = true -> String.length s = String.length t ->
  strncmp s t (String.length t) = 0 -> s = t.
Proof.
  revert t. induction s as [|c s IH]; intros t Hs Ht Hl Hc;
    destruct t as [|d t]; simpl in *; try done.
  apply andb_prop in Hs as [Hc0 Hs]. apply andb_prop in Ht as [Hd0 Ht].
  destruct (Ascii.eqb_spec c d) as [<-|Hne]; simpl in Hc.
  - rewrite (negb_true_iff _) in Hc0. rewrite Hc0 in Hc.
    f_equal. apply IH; auto.
  - exfalso. apply Hne. rewrite <- (Ascii.ascii_nat_embedding c), <- (Ascii.ascii_nat_embedding d).
    f_equal. lia.
Qed.

Lemma string_cmp_iff s t :
  no_nul s = true -> no_nul t = true ->
  string_cmp s (String.length s) t (String.length t) = true <-> s = t.
Proof.
  intros Hs Ht. unfold string_cmp. split.
  - destruct (Nat.eqb_spec (String.length s) (String.length t)) as [Hl|]; [|done].
    simpl. intros Hz. apply Z.eqb_eq in Hz. by apply strncmp_zero_eq.
  - intros <-. rewrite Nat.eqb_refl. simpl. by rewrite strncmp_refl.
Qed.

Lemma nth_str_no_nul i : no_nul (nth i modes_str ""%string) = true.
Proof.
  destruct (decide (i < length modes_str)%nat) as [Hi|Hi].
  - rewrite Forall_forall in Hno_nul. apply Hno_nul, list_elem_of_In, nth_In. done.
  - rewrite nth_overflow; [done | lia].
Qed.

(** Reading the [i]-th string back finds the [i]-th enum. *)
Lemma str_to_mode_nth i mode :
  (i < length modes_str)%nat ->
  str_to_mode (nth i modes_str ""%string) (String.length (nth i modes_str ""%string)) mode
  = (ESP_OK, nth i modes_enum 0).
Proof.
  intros Hi. unfold str_to_mode.
  replace (first_index _ _) with (Some i); [done|]. symmetry.
  apply first_index_Some. split; [done|]. split.
  - apply string_cmp_iff; auto using nth_str_no_nul.
  - intros k Hk. apply not_true_iff_false. rewrite string_cmp_iff by auto using nth_str_no_nul.
    intros Heq. apply NoDup_nth in Heq; [lia | | lia | lia].
    by apply NoDup_ListNoDup.
Qed.

(** A successful conversion matched a table string. *)
Lemma str_to_mode_ok_inv s mode m :
  no_nul s = true ->
  str_to_mode s (String.length s) mode = (ESP_OK, m) ->
  exists i, (i < length modes_str)%nat /\ s = nth i modes_str ""%string /\ m = nth i modes_enum 0.
Proof.
  intros Hs. unfold str_to_mode.
  destruct (first_index _ _) as [i|] eqn:Hf; [|intros [=]; unfold ESP_FAIL, ESP_OK in *; lia].
  intros [= <-]. apply first_index_Some in Hf as (Hi & Hcmp & _).
  exists i. split; [done|]. split; [|done].
  by apply string_cmp_iff in Hcmp; auto using nth_str_no_nul.
Qed.

(** Printing the [i]-th enum copies the [i]-th string. *)
Lemma mode_to_str_nth i buffer :
  (i < length modes_enum)%nat -> (max_size <= length buffer)%nat ->
  mode_to_str (nth i modes_enum 0) buffer (length buffer)
  = (ESP_OK, memcpy buffer (c_bytes (nth i modes_str ""%string))).
Proof.
  intros Hi Hb. unfold mode_to_str.
  destruct (Nat.ltb_spec (length buffer) max_size); [lia|].
  replace (first_index _ _) with (Some i); [done|]. symmetry.
  apply first_index_Some. split; [done|]. split; [apply Z.eqb_refl|].
  intros k Hk. apply Z.eqb_neq. intros Heq.
  apply NoDup_nth in Heq; [lia | by apply NoDup_ListNoDup | lia | lia].
Qed.

Lemma sizeof_nth_le i : (i < length modes_str)%nat ->
  (length (c_bytes (nth i modes_str ""%string)) <= max_size)%nat.
Proof.
  intros Hi. rewrite length_c_bytes. rewrite Forall_forall in Hmax. apply Hmax, list_elem_of_In, nth_In. done.
Qed.

(** Round trip, enum first: printing a table enum into a large enough
    buffer and reading the C string back yields the same enum, and the
    copy stays inside the buffer. *)
Lemma mode_roundtrip i buffer mode :
  (i < length modes_enum)%nat -> (max_size <= length buffer)%nat ->
  exists buffer',
    mode_to_str (nth i modes_enum 0) buffer (length buffer) = (ESP_OK, buffer') /\
    length buffer' = length buffer /\
    str_to_mode (c_str buffer') (String.length (c_str buffer')) mode
    = (ESP_OK, nth i modes_enum 0).
Proof.
  intros Hi Hb. rewrite (mode_to_str_nth i) by done. eexists. split; [done|].
  assert (Hi' : (i < length modes_str)%nat) by lia.
  split; [apply length_memcpy; pose proof (sizeof_nth_le i Hi'); lia|].
  rewrite c_str_memcpy by (apply no_nul_spec, nth_str_no_nul).
  by apply str_to_mode_nth.
Qed.

(** Round trip, string first. *)
Lemma string_roundtrip s mode m buffer :
  no_nul s = true -> (max_size <= length buffer)%nat ->
  str_to_mode s (String.length s) mode = (ESP_OK, m) ->
  exists buffer',
    mode_to_str m buffer (length buffer) = (ESP_OK, buffer') /\ c_str buffer' = s.
Proof.
  intros Hs Hb Hok. apply str_to_mode_ok_inv in Hok as (i & Hi & -> & ->); [|done].
  rewrite mode_to_str_nth by lia. eexists. split; [done|].
  apply c_str_memcpy, no_nul_spec, nth_str_no_nul.
Qed.

(** The error paths: a small buffer or an enum outside the table
    returns [ESP_FAIL] and leaves the buffer as it was. *)
Lemma mode_to_str_fail mode buffer buffer_size :
  (buffer_size < max_size)%nat \/ mode ∉ modes_enum ->
  mode_to_str mode buffer buffer_size = (ESP_FAIL, buffer).
Proof.
  intros H. unfold mode_to_str.
  destruct (Nat.ltb_spec buffer_size max_size); [done|].
  destruct H as [|Hn]; [lia|].
  destruct (first_index _ _) as [i|] eqn:Hf; [|done].
  apply first_index_Some in Hf as (Hi & Heq & _). apply Z.eqb_eq in Heq.
  exfalso. apply Hn. rewrite <- Heq. apply list_elem_of_In, nth_In. done.
Qed.
End Conversion.

(** ** The two tables of aug_utility.c *)

(** Values of [wifi_auth_mode_t] and [wifi_sae_pwe_method_t]
    (esp_wifi_types.h of ESP-IDF 5). *)
Definition WIFI_AUTH_OPEN : Z := 0.
Definition WIFI_AUTH_WEP : Z := 1.
Definition WIFI_AUTH_WPA_PSK : Z := 2.
Definition WIFI_AUTH_WPA2_PSK : Z := 3.
Definition WIFI_AUTH_WPA_WPA2_PSK : Z := 4.
Definition WIFI_AUTH_ENTERPRISE : Z := 5.
Definition WIFI_AUTH_WPA3_PSK : Z := 6.
Definition WIFI_AUTH_WPA2_WPA3_PSK : Z := 7.
Definition WIFI_AUTH_WAPI_PSK : Z := 8.
Definition WPA3_SAE_PWE_UNSPECIFIED : Z := 0.
Definition WPA3_SAE_PWE_HUNT_AND_PECK : Z := 1.
Definition WPA3_SAE_PWE_HASH_TO_ELEMENT : Z := 2.
Definition WPA3_SAE_PWE_BOTH : Z := 3.

(** The mode strings, each a [static const char[]]. *)
Definition AUG_AUTH_OPEN : string := "open".
Definition AUG_AUTH_WEP : string := "wep".
Definition AUG_AUTH_WPA_PSK : string := "wpa_psk".
Definition AUG_AUTH_WPA2_PSK : string := "wpa2_psk".
Definition AUG_AUTH_WPA_WPA2_PSK : string := "wpa_wpa2_psk".
Definition AUG_AUTH_WPA3_PSK : string := "wpa3_psk".
Definition AUG_AUTH_WPA2_WPA3_PSK : string := "wpa2_wpa3_psk".
Definition AUG_AUTH_WAPI_PSK : string := "wapi_psk".

Definition AUG_AUTH_MODE_MAX_SIZE : nat :=
  MAX_OF_8 (sizeof_str AUG_AUTH_OPEN) (sizeof_str AUG_AUTH_WEP)
    (sizeof_str AUG_AUTH_WPA_PSK) (sizeof_str AUG_AUTH_WPA2_PSK)
    (sizeof_str AUG_AUTH_WPA_WPA2_PSK) (sizeof_str AUG_AUTH_WPA3_PSK)
    (sizeof_str AUG_AUTH_WPA2_WPA3_PSK) (sizeof_str AUG_AUTH_WAPI_PSK).

Definition AUG_AUTH_MODES_ENUM : list Z :=
  [WIFI_AUTH_OPEN; WIFI_AUTH_WEP; WIFI_AUTH_WPA_PSK; WIFI_AUTH_WPA2_PSK;
   WIFI_AUTH_WPA_WPA2_PSK; WIFI_AUTH_WPA3_PSK; WIFI_AUTH_WPA2_WPA3_PSK; WIFI_AUTH_WAPI_PSK].

Definition AUG_AUTH_MODES_STR : list string :=
  [AUG_AUTH_OPEN; AUG_AUTH_WEP; AUG_AUTH_WPA_PSK; AUG_AUTH_WPA2_PSK;
   AUG_AUTH_WPA_WPA2_PSK; AUG_AUTH_WPA3_PSK; AUG_AUTH_WPA2_WPA3_PSK; AUG_AUTH_WAPI_PSK].

Definition AUG_SAE_MODE_UNSPECIFIED : string := "unspecified".
Definition AUG_SAE_MODE_HUNT_AND_PECK : string := "hunt_and_peck".
Definition AUG_SAE_MODE_H2E : string := "h2e".
Definition AUG_SAE_MODE_BOTH : string := "both".

Definition AUG_SAE_MODE_MAX_SIZE : nat :=
  MAX_OF_4 (sizeof_str AUG_SAE_MODE_UNSPECIFIED) (sizeof_str AUG_SAE_MODE_HUNT_AND_PECK)
    (sizeof_str AUG_SAE_MODE_H2E) (sizeof_str AUG_SAE_MODE_BOTH).

Definition AUG_SAE_MODES_ENUM : list Z :=
  [WPA3_SAE_PWE_UNSPECIFIED; WPA3_SAE_PWE_HUNT_AND_PECK;
   WPA3_SAE_PWE_HASH_TO_ELEMENT; WPA3_SAE_PWE_BOTH].

Definition AUG_SAE_MODES_STR : list string :=
  [AUG_SAE_MODE_UNSPECIFIED; AUG_SAE_MODE_HUNT_AND_PECK; AUG_SAE_MODE_H2E; AUG_SAE_MODE_BOTH].

(** ** The four conversions of aug_utility.c *)

(** [aug_str_to_auth_mode]: the for loop over [AUG_AUTH_MODES_STR],
    left at the first string [string_cmp] finds equal to the buffer;
    [auth_mode] is the out parameter, unchanged when nothing matched. *)
Definition aug_str_to_auth_mode (buffer : string) (buffer_len : nat) (auth_mode : Z) : esp_err_t * Z :=
  let size_strs := length AUG_AUTH_MODES_STR in
  match first_index
          (fun i => string_cmp buffer buffer_len (nth i AUG_AUTH_MODES_STR ""%string)
                      (String.length (nth i AUG_AUTH_MODES_STR ""%string))) size_strs with
  | Some i => (ESP_OK, nth i AUG_AUTH_MODES_ENUM 0)
  | None => (ESP_FAIL, auth_mode)
  end.

(** [aug_auth_mode_to_str]: a buffer smaller than [AUG_AUTH_MODE_MAX_SIZE]
    is refused; else the string of the first equal enum is copied with
    its NUL ([strlen + 1] bytes) to the front of the buffer. *)
Definition aug_auth_mode_to_str (auth_mode : Z) (buffer : list ascii) (buffer_size : nat)
    : esp_err_t * list ascii :=
  if Nat.ltb buffer_size AUG_AUTH_MODE_MAX_SIZE then (ESP_FAIL, buffer)
  else
    let size_enum := length AUG_AUTH_MODES_ENUM in
    match first_index (fun i => Z.eqb (nth i AUG_AUTH_MODES_ENUM 0) auth_mode) size_enum with
    | Some i => (ESP_OK, memcpy buffer (c_bytes (nth i AUG_AUTH_MODES_STR ""%string)))
    | None => (ESP_FAIL, buffer)
    end.

Definition aug_str_to_sae_mode (buffer : string) (buffer_len : nat) (sae_mode : Z) : esp_err_t * Z :=
  let size_strs := length AUG_SAE_MODES_STR in
  match first_index
          (fun i => string_cmp buffer buffer_len (nth i AUG_SAE_MODES_STR ""%string)
                      (String.length (nth i AUG_SAE_MODES_STR ""%string))) size_strs with
  | Some i => (ESP_OK, nth i AUG_SAE_MODES_ENUM 0)
  | None => (ESP_FAIL, sae_mode)
  end.

Definition aug_sae_mode_to_str (sae_mode : Z) (buffer : list ascii) (buffer_size : nat)
    : esp_err_t * list ascii :=
  if Nat.ltb buffer_size AUG_SAE_MODE_MAX_SIZE then (ESP_FAIL, buffer)
  else
    let size_enum := length AUG_SAE_MODES_ENUM in
    match first_index (fun i => Z.eqb (nth i AUG_SAE_MODES_ENUM 0) sae_mode) size_enum with
    | Some i => (ESP_OK, memcpy buffer (c_bytes (nth i AUG_SAE_MODES_STR ""%string)))
    | None => (ESP_FAIL, buffer)
    end.

Definition aug_get_auth_mode_size : nat := AUG_AUTH_MODE_MAX_SIZE.
Definition aug_get_sae_mode_size : nat := AUG_SAE_MODE_MAX_SIZE.

(** ** The four conversions are the Section's loops over the two tables *)

Lemma aug_str_to_auth_mode_eq : aug_str_to_auth_mode = str_to_mode AUG_AUTH_MODES_ENUM AUG_AUTH_MODES_STR.
Proof. reflexivity. Qed.
Lemma aug_auth_mode_to_str_eq :
  aug_auth_mode_to_str = mode_to_str AUG_AUTH_MODES_ENUM AUG_AUTH_MODES_STR AUG_AUTH_MODE_MAX_SIZE.
Proof. reflexivity. Qed.
Lemma aug_str_to_sae_mode_eq : aug_str_to_sae_mode = str_to_mode AUG_SAE_MODES_ENUM AUG_SAE_MODES_STR.
Proof. reflexivity. Qed.
Lemma aug_sae_mode_to_str_eq :
  aug_sae_mode_to_str = mode_to_str AUG_SAE_MODES_ENUM AUG_SAE_MODES_STR AUG_SAE_MODE_MAX_SIZE.
Proof. reflexivity. Qed.

Lemma MAX_OF_2_max a b : MAX_OF_2 a b = Nat.max a b.
Proof. unfold MAX_OF_2. destruct (Nat.ltb_spec b a); lia. Qed.

(** ** The tables satisfy the Section's hypotheses *)

Lemma auth_table_facts :
  length AUG_AUTH_MODES_ENUM = length AUG_AUTH_MODES_STR /\ NoDup AUG_AUTH_MODES_STR /\
  NoDup AUG_AUTH_MODES_ENUM /\ Forall (fun s => no_nul s = true) AUG_AUTH_MODES_STR /\
  Forall (fun s => (sizeof_str s <= AUG_AUTH_MODE_MAX_SIZE)%nat) AUG_AUTH_MODES_STR.
Proof. split; [reflexivity|]. repeat split; apply (bool_decide_unpack _); vm_compute; reflexivity. Qed.

Lemma sae_table_facts :
  length AUG_SAE_MODES_ENUM = length AUG_SAE_MODES_STR /\ NoDup AUG_SAE_MODES_STR /\
  NoDup AUG_SAE_MODES_ENUM /\ Forall (fun s => no_nul s = true) AUG_SAE_MODES_STR /\
  Forall (fun s => (sizeof_str s <= AUG_SAE_MODE_MAX_SIZE)%nat) AUG_SAE_MODES_STR.
Proof. split; [reflexivity|]. repeat split; apply (bool_decide_unpack _); vm_compute; reflexivity. Qed.

Lemma elem_of_nth_index (l : list Z) x :
  x ∈ l -> exists i, (i < length l)%nat /\ x = nth i l 0.
Proof.
  intros Hx. apply list_elem_of_In, In_nth with (d := 0) in Hx as (i & Hi & <-).
  by exists i.
Qed.

(** ** Properties of the conversions of aug_utility.c *)

(** C36: Round trip through [aug_auth_mode_to_str] and
    [aug_str_to_auth_mode]: every authentication mode of the table,
    printed into a buffer of at least [AUG_AUTH_MODE_MAX_SIZE] bytes,
    succeeds without writing past the buffer, and the string it leaves
    there converts back to the same mode. *)
Theorem aug_auth_mode_roundtrip mode buffer old :
  mode ∈ AUG_AUTH_MODES_ENUM -> (AUG_AUTH_MODE_MAX_SIZE <= length buffer)%nat ->
  exists buffer',
    aug_auth_mode_to_str mode buffer (length buffer) = (ESP_OK, buffer') /\
    length buffer' = length buffer /\
    aug_str_to_auth_mode (c_str buffer') (String.length (c_str buffer')) old = (ESP_OK, mode).
Proof.
  intros Hm Hb. apply elem_of_nth_index in Hm as (i & Hi & ->).
  destruct auth_table_facts as (? & ? & ? & ? & ?). by apply mode_roundtrip.
Qed.

Lemma aug_auth_mode_roundtrip_witness :
  WIFI_AUTH_WPA2_PSK ∈ AUG_AUTH_MODES_ENUM /\
  (AUG_AUTH_MODE_MAX_SIZE <= length (repeat NUL 14))%nat /\
  exists buffer',
    aug_auth_mode_to_str WIFI_AUTH_WPA2_PSK (repeat NUL 14) (length (repeat NUL 14))
      = (ESP_OK, buffer') /\
    length buffer' = length (repeat NUL 14) /\
    aug_str_to_auth_mode (c_str buffer') (String.length (c_str buffer')) WIFI_AUTH_OPEN
      = (ESP_OK, WIFI_AUTH_WPA2_PSK).
Proof.
  assert (Hm : WIFI_AUTH_WPA2_PSK ∈ AUG_AUTH_MODES_ENUM)
    by (apply (bool_decide_unpack _); vm_compute; reflexivity).
  assert (Hb : (AUG_AUTH_MODE_MAX_SIZE <= length (repeat NUL 14))%nat) by (vm_compute; lia).
  split; [exact Hm|]. split; [exact Hb|].
  exact (aug_auth_mode_roundtrip WIFI_AUTH_WPA2_PSK (repeat NUL 14) WIFI_AUTH_OPEN Hm Hb).
Defined.

(** C37: Round trip from the string side: a NUL-free string that
    [aug_str_to_auth_mode] accepts is printed back, by
    [aug_auth_mode_to_str] of the mode it produced, as the same string. *)
Theorem aug_str_to_auth_mode_roundtrip s old m buffer :
  no_nul s = true -> (AUG_AUTH_MODE_MAX_SIZE <= length buffer)%nat ->
  aug_str_to_auth_mode s (String.length s) old = (ESP_OK, m) ->
  exists buffer',
    aug_auth_mode_to_str m buffer (length buffer) = (ESP_OK, buffer') /\ c_str buffer' = s.
Proof.
  intros Hs Hb Hok. destruct auth_table_facts as (? & ? & ? & ? & ?).
  eapply string_roundtrip; eauto.
Qed.

Lemma aug_str_to_auth_mode_roundtrip_witness :
  exists buffer',
    aug_auth_mode_to_str WIFI_AUTH_WPA3_PSK (repeat NUL 16) (length (repeat NUL 16))
      = (ESP_OK, buffer') /\ c_str buffer' = "wpa3_psk"%string.
Proof.
  apply (aug_str_to_auth_mode_roundtrip "wpa3_psk"%string WIFI_AUTH_OPEN); vm_compute; try reflexivity.
  lia.
Defined.

(** The same round trip for the SAE modes through
    [aug_sae_mode_to_str] and [aug_str_to_sae_mode]. *)
Theorem aug_sae_mode_roundtrip mode buffer old :
  mode ∈ AUG_SAE_MODES_ENUM -> (AUG_SAE_MODE_MAX_SIZE <= length buffer)%nat ->
  exists buffer',
    aug_sae_mode_to_str mode buffer (length buffer) = (ESP_OK, buffer') /\
    length buffer' = length buffer /\
    aug_str_to_sae_mode (c_str buffer') (String.length (c_str buffer')) old = (ESP_OK, mode).
Proof.
  intros Hm Hb. apply elem_of_nth_index in Hm as (i & Hi & ->).
  destruct sae_table_facts as (? & ? & ? & ? & ?). by apply mode_roundtrip.
Qed.

Lemma aug_sae_mode_roundtrip_witness :
  exists buffer',
    aug_sae_mode_to_str WPA3_SAE_PWE_BOTH (repeat NUL 14) (length (repeat NUL 14))
      = (ESP_OK, buffer') /\
    length buffer' = length (repeat NUL 14) /\
    aug_str_to_sae_mode (c_str buffer') (String.length (c_str buffer')) WPA3_SAE_PWE_UNSPECIFIED
      = (ESP_OK, WPA3_SAE_PWE_BOTH).
Proof.
  apply aug_sae_mode_roundtrip;
    [apply (bool_decide_unpack _); vm_compute; reflexivity | vm_compute; lia].
Defined.

(** [MAX_OF_8] of aug_utility.h computes the maximum of its eight
    arguments, so [AUG_AUTH_MODE_MAX_SIZE] (returned by
    [aug_get_auth_mode_size]) is the size of the longest mode string with
    its NUL, 14 bytes, and no string of the table is larger. *)
Theorem MAX_OF_8_max a b c d e f g h :
  MAX_OF_8 a b c d e f g h = foldr Nat.max 0%nat [a; b; c; d; e; f; g; h] /\
  aug_get_auth_mode_size = 14%nat /\
  Forall (fun s => (sizeof_str s <= aug_get_auth_mode_size)%nat) AUG_AUTH_MODES_STR.
Proof.
  split; [|split; [reflexivity | apply auth_table_facts]].
  unfold MAX_OF_8, MAX_OF_4. rewrite !MAX_OF_2_max. simpl.
  by rewrite Nat.max_0_r, !Nat.max_assoc.
Qed.

(** The error path of [aug_auth_mode_to_str]: a buffer smaller than
    [AUG_AUTH_MODE_MAX_SIZE] or a mode outside the table (for instance
    [WIFI_AUTH_ENTERPRISE]) gives [ESP_FAIL] and leaves the buffer as it
    was. *)
Theorem aug_auth_mode_to_str_fail mode buffer buffer_size :
  (buffer_size < AUG_AUTH_MODE_MAX_SIZE)%nat \/ mode ∉ AUG_AUTH_MODES_ENUM ->
  aug_auth_mode_to_str mode buffer buffer_size = (ESP_FAIL, buffer).
Proof. apply mode_to_str_fail, auth_table_facts. Qed.

Lemma aug_auth_mode_to_str_fail_witness :
  aug_auth_mode_to_str WIFI_AUTH_ENTERPRISE (repeat NUL 20) 20 = (ESP_FAIL, repeat NUL 20).
Proof.
  apply aug_auth_mode_to_str_fail. right.
  apply (bool_decide_unpack _); vm_compute; reflexivity.
Defined.
