(* ===== verification/Scan.v ===== *)
(** * Scan: the channel choice of src/main/aug_wifi_scan.c

    [aug_get_least_freq_channel] scans the visible access points and
    picks the channel for the device's own access point: a histogram
    [uint8_t count[256]] of the primary channels of the scan records,
    then a search over channels 1 to 13 for the smallest count, with a
    strict comparison (so the lowest channel wins a tie) starting from
    [min_elem = 0], [min_count = UINT8_MAX].  The scan records enter the
    model as the list of their [primary] fields (uint8_t, so in
    [0, 256)); the driver calls around the computation are modelled with
    the access point in [WifiAp].

    The counters are 8-bit: [count_channels] wraps them modulo 256 as the
    code does, and the theorems show both the intended behaviour (the
    least used channel, ties to the lowest, when no channel is seen 255
    times or more) and what the wrap-around does beyond that. *)

From S2P Require Import Prelude.

(** ** The model *)

(** [count[ap_info[i].primary]++] for every record, on 8-bit cells. *)
Definition count_step (count : list Z) (primary : Z) : list Z :=
  <[Z.to_nat primary := u8 (count !!! Z.to_nat primary + 1)]> count.

Definition count_channels (primaries : list Z) : list Z :=
  foldl count_step (replicate 256 0) primaries.

(** One iteration of [for (i = 1; i < 14; i++)]. *)
Definition min_step (count : list Z) (acc : Z * Z) (i : nat) : Z * Z :=
  let '(min_elem, min_count) := acc in
  if Nat.leb i 13 && Z.ltb (count !!! i) min_count
  then (Z.of_nat i, count !!! i) else (min_elem, min_count).

Definition min_search (count : list Z) : Z * Z :=
  foldl (min_step count) (0, UINT8_MAX) (seq 1 13).

(** The value returned by [aug_get_least_freq_channel] for a scan whose
    records have these primary channels. *)
Definition least_freq_channel (primaries : list Z) : Z :=
  fst (min_search (count_channels primaries)).

(** ** The reference: the least used channel, ties to the lowest *)

Definition occ (primaries : list Z) (c : Z) : nat := count_occ Z.eq_dec primaries c.

Definition is_least (primaries : list Z) (c : nat) : bool :=
  forallb (fun j => Nat.leb (occ primaries (Z.of_nat c)) (occ primaries (Z.of_nat j))) (seq 1 13).

(** The first channel of 1..13 whose count is below or equal to all. *)
Definition spec_least_channel (primaries : list Z) : Z :=
  match first_index (fun k => is_least primaries (S k)) 13 with
  | Some k => Z.of_nat (S k)
  | None => 0
  end.

(** The reference with the code's 8-bit counts: a channel's count is
    its number of records modulo 256; the first channel of 1..13 whose
    count is below 255 and below or equal to every other count, 0 when
    there is none. *)
Definition occ_u8 (primaries : list Z) (c : nat) : Z := u8 (Z.of_nat (occ primaries (Z.of_nat c))).

Definition is_least_u8 (primaries : list Z) (c : nat) : bool :=
  Z.ltb (occ_u8 primaries c) UINT8_MAX &&
  forallb (fun j => Z.leb (occ_u8 primaries c) (occ_u8 primaries j)) (seq 1 13).

Definition spec_least_channel_u8 (primaries : list Z) : Z :=
  match first_index (fun k => is_least_u8 primaries (S k)) 13 with
  | Some k => Z.of_nat (S k)
  | None => 0
  end.

(** ** The histogram *)

Definition channel_ok (p : Z) : Prop := 0 <= p < 256.

Lemma length_count_channels_foldl count l :
  length (foldl count_step count l) = length count.
Proof.
  revert count. induction l as [|p l IH]; intros count; simpl; [done|].
  rewrite IH. unfold count_step. apply length_insert.
Qed.

Lemma count_channels_foldl count l (c : nat) :
  length count = 256%nat -> Forall channel_ok l -> (c < 256)%nat ->
  Forall (fun z => 0 <= z < 256) count ->
  foldl count_step count l !!! c = u8 (count !!! c + Z.of_nat (occ l (Z.of_nat c))).
Proof.
  revert count. induction l as [|p l IH]; intros count Hlen Hl Hc Hcnt; cbn [foldl].
  - rewrite Z.add_0_r, u8_small; [done|].
    rewrite Forall_lookup in Hcnt. apply Hcnt with c.
    apply list_lookup_lookup_total_lt. lia.
  - apply Forall_cons in Hl as [Hp Hl]. unfold channel_ok in Hp.
    rewrite IH; unfold count_step; [| by rewrite length_insert | done | done |].
    2:{ apply Forall_insert; [done|]. pose proof (u8_range (count !!! Z.to_nat p + 1)). unfold UINT8_MAX in *. lia. }
    unfold occ. cbn [count_occ]. destruct (Z.eq_dec p (Z.of_nat c)) as [->|Hne].
    + rewrite Nat2Z.id, list_lookup_total_insert by lia.
      rewrite decide_True by (split; [done | lia]).
      unfold u8. rewrite Zplus_mod_idemp_l. f_equal. lia.
    + rewrite list_lookup_total_insert_ne by lia. done.
Qed.

(** [count[c]] after the loop is the number of records on channel [c],
    modulo 256. *)
Lemma count_channels_spec primaries (c : nat) :
  Forall channel_ok primaries -> (c < 256)%nat ->
  count_channels primaries !!! c = u8 (Z.of_nat (occ primaries (Z.of_nat c))).
Proof.
  intros Hl Hc. unfold count_channels.
  rewrite count_channels_foldl; [| by rewrite length_replicate | done | done |].
  - rewrite lookup_total_replicate_2 by lia. by rewrite Z.add_0_l.
  - apply Forall_replicate. lia.
Qed.

(** ** The minimum search *)

(** What the search has established after channels [1..n]. *)
Definition min_inv (count : list Z) (n : nat) (acc : Z * Z) : Prop :=
  let '(me, mc) := acc in
  (me = 0 /\ mc = UINT8_MAX /\ forall j, (1 <= j <= n)%nat -> UINT8_MAX <= count !!! j) \/
  (exists m, me = Z.of_nat m /\ (1 <= m <= n)%nat /\ mc = count !!! m /\ mc < UINT8_MAX /\
     (forall j, (1 <= j <= n)%nat -> mc <= count !!! j) /\
     (forall j, (1 <= j < m)%nat -> mc < count !!! j)).

Lemma min_search_prefix count n :
  (n <= 13)%nat -> min_inv count n (foldl (min_step count) (0, UINT8_MAX) (seq 1 n)).
Proof.
  induction n as [|n IH]; intros Hn.
  - left. split; [done|]. split; [done|]. intros j Hj. lia.
  - rewrite seq_S, foldl_app. simpl.
    destruct (foldl (min_step count) (0, UINT8_MAX) (seq 1 n)) as [me mc] eqn:Hacc.
    specialize (IH ltac:(lia)). unfold min_inv in IH |- *. simpl.
    replace (1 + n)%nat with (S n) by lia.
    destruct (Nat.leb_spec n 12); [|lia]. simpl.
    destruct (Z.ltb_spec (count !!! S n) mc) as [Hlt|Hge].
    + right. exists (S n). split; [done|]. split; [lia|]. split; [done|].
      destruct IH as [(-> & -> & Hall) | (m & -> & Hm & -> & Hmc & Hall & Hlow)].
      * split; [done|]. split.
        -- intros j Hj. destruct (decide (j = S n)) as [->|]; [lia|]. specialize (Hall j). lia.
        -- intros j Hj. specialize (Hall j). lia.
      * split; [lia|]. split.
        -- intros j Hj. destruct (decide (j = S n)) as [->|]; [lia|]. specialize (Hall j). lia.
        -- intros j Hj. specialize (Hall j). lia.
    + destruct IH as [(-> & -> & Hall) | (m & -> & Hm & -> & Hmc & Hall & Hlow)].
      * left. split; [done|]. split; [done|]. intros j Hj.
        destruct (decide (j = S n)) as [->|]; [lia|]. apply Hall. lia.
      * right. exists m. split; [done|]. split; [lia|]. split; [done|]. split; [done|].
        split; [|done]. intros j Hj.
        destruct (decide (j = S n)) as [->|]; [lia|]. apply Hall. lia.
Qed.

Lemma min_search_spec count : min_inv count 13 (min_search count).
Proof. apply min_search_prefix. lia. Qed.

#[export] Hint Resolve min_search_spec count_channels_spec : aug.

Lemma is_least_iff primaries c :
  is_least primaries c = true <->
  forall j, (1 <= j <= 13)%nat -> (occ primaries (Z.of_nat c) <= occ primaries (Z.of_nat j))%nat.
Proof.
  unfold is_least. rewrite forallb_forall. split.
  - intros H j Hj. apply Nat.leb_le, H, in_seq. lia.
  - intros H j Hj. apply in_seq in Hj. apply Nat.leb_le, H. lia.
Qed.

(** In the no-wrap case the 8-bit cells hold the true counts. *)
Lemma count_channels_small primaries (c : nat) :
  Forall channel_ok primaries -> (c < 256)%nat -> (occ primaries (Z.of_nat c) < 256)%nat ->
  count_channels primaries !!! c = Z.of_nat (occ primaries (Z.of_nat c)).
Proof. intros Hl Hc Ho. rewrite count_channels_spec by done. apply u8_small. lia. Qed.

(** ** Properties of [aug_get_least_freq_channel] *)

(** C33: Functional correctness against the reference: when the scan
    returns fewer than 255 records on each of the channels 1 to 13, the
    channel chosen by [aug_get_least_freq_channel] is the least used one
    of 1..13, ties going to the lowest channel number, as spec section 3
    describes the auto channel. *)
Theorem least_freq_channel_refines primaries :
  Forall channel_ok primaries ->
  (forall c, (1 <= c <= 13)%nat -> (occ primaries (Z.of_nat c) < 255)%nat) ->
  least_freq_channel primaries = spec_least_channel primaries.
Proof.
  intros Hl Hsmall. unfold least_freq_channel.
  assert (Hcnt : forall c, (1 <= c <= 13)%nat ->
            count_channels primaries !!! c = Z.of_nat (occ primaries (Z.of_nat c))).
  { intros c Hc. apply count_channels_small; [done | lia |]. specialize (Hsmall c Hc). lia. }
  pose proof (min_search_spec (count_channels primaries)) as Hinv.
  destruct (min_search _) as [me mc]. simpl in Hinv |- *.
  destruct Hinv as [(_ & _ & Hall) | (m & -> & Hm & -> & _ & Hall & Hlow)].
  - exfalso. specialize (Hall 1%nat ltac:(lia)). rewrite Hcnt in Hall by lia.
    specialize (Hsmall 1%nat ltac:(lia)). unfold UINT8_MAX in Hall. lia.
  - unfold spec_least_channel.
    replace (first_index _ 13) with (Some (Init.Nat.pred m)).
    { f_equal. lia. }
    symmetry. apply first_index_Some. split; [lia|]. split.
    + apply is_least_iff. intros j Hj. specialize (Hall j Hj).
      rewrite !Hcnt in Hall by lia. replace (S (Init.Nat.pred m)) with m by lia. lia.
    + intros k Hk. apply not_true_iff_false. rewrite is_least_iff. intros Hle.
      specialize (Hle m Hm). specialize (Hlow (S k) ltac:(lia)).
      rewrite !Hcnt in Hlow by lia. lia.
Qed.

Lemma least_freq_channel_refines_witness :
  Forall channel_ok [1; 6; 6; 11; 1; 3] /\
  (forall c, (1 <= c <= 13)%nat -> (occ [1; 6; 6; 11; 1; 3]%Z (Z.of_nat c) < 255)%nat) /\
  least_freq_channel [1; 6; 6; 11; 1; 3] = spec_least_channel [1; 6; 6; 11; 1; 3] /\
  least_freq_channel [1; 6; 6; 11; 1; 3] = 2.
Proof.
  assert (H1 : Forall channel_ok [1; 6; 6; 11; 1; 3]).
  { repeat constructor; unfold channel_ok; lia. }
  assert (H2 : forall c, (1 <= c <= 13)%nat -> (occ [1; 6; 6; 11; 1; 3]%Z (Z.of_nat c) < 255)%nat).
  { intros c Hc. do 14 (destruct c as [|c]; [vm_compute; lia|]). lia. }
  split; [exact H1|]. split; [exact H2|].
  split; [exact (least_freq_channel_refines _ H1 H2) | vm_compute; reflexivity].
Defined.

(** C34: Range of the result: [aug_get_least_freq_channel] returns a
    value in 0..13, and it returns 0 (not a Wi-Fi channel) exactly when
    every channel 1..13 has an 8-bit count of 255, that is when each was
    seen 255 times modulo 256. *)
Theorem least_freq_channel_range primaries :
  Forall channel_ok primaries ->
  0 <= least_freq_channel primaries <= 13 /\
  (least_freq_channel primaries = 0 <->
   forall c, (1 <= c <= 13)%nat -> u8 (Z.of_nat (occ primaries (Z.of_nat c))) = UINT8_MAX).
Proof.
  intros Hl. unfold least_freq_channel.
  pose proof (min_search_spec (count_channels primaries)) as Hinv.
  destruct (min_search _) as [me mc]. simpl in Hinv |- *.
  destruct Hinv as [(-> & -> & Hall) | (m & -> & Hm & -> & Hmc & Hall & _)].
  - split; [lia|]. split; [|done]. intros _ c Hc. specialize (Hall c Hc).
    rewrite count_channels_spec in Hall by (done || lia).
    pose proof (u8_range (Z.of_nat (occ primaries (Z.of_nat c)))). lia.
  - split; [lia|]. split; [lia|]. intros Hall255. exfalso.
    specialize (Hall255 m Hm). rewrite count_channels_spec in Hmc by (done || lia). lia.
Qed.

Lemma least_freq_channel_range_witness :
  Forall channel_ok (concat (map (fun c => replicate 255 (Z.of_nat c)) (seq 1 13))) /\
  least_freq_channel (concat (map (fun c => replicate 255 (Z.of_nat c)) (seq 1 13))) = 0.
Proof.
  assert (H : Forall channel_ok (concat (map (fun c => replicate 255 (Z.of_nat c)) (seq 1 13)))).
  { apply (bool_decide_unpack _). vm_compute. reflexivity. }
  split; [exact H|].
  apply (least_freq_channel_range _ H). intros c Hc.
  do 14 (destruct c as [|c]; [vm_compute; try lia; reflexivity|]). lia.
Defined.

(** C35: The counters of the histogram are [uint8_t], and for every
    scan [aug_get_least_freq_channel] chooses by the counts modulo 256:
    the first of channels 1..13 whose count modulo 256 is minimal and
    below 255, or 0 when every such count is 255.  Beyond 255 records on
    a channel the choice is no longer the least used channel (the
    witness: 256 access points on channel 1 and one on each other
    channel make channel 1, the busiest, the choice). *)
Theorem least_freq_channel_wraps primaries :
  Forall channel_ok primaries ->
  least_freq_channel primaries = spec_least_channel_u8 primaries.
Proof.
  intros Hl. unfold least_freq_channel, spec_least_channel_u8.
  assert (Hcnt : forall c, (1 <= c <= 13)%nat -> count_channels primaries !!! c = occ_u8 primaries c).
  { intros c Hc. unfold occ_u8. apply count_channels_spec; [done|lia]. }
  assert (Hleast : forall c, (1 <= c <= 13)%nat -> is_least_u8 primaries c = true <->
            occ_u8 primaries c < UINT8_MAX /\
            forall j, (1 <= j <= 13)%nat -> occ_u8 primaries c <= occ_u8 primaries j).
  { intros c Hc. unfold is_least_u8. rewrite andb_true_iff, Z.ltb_lt, forallb_forall.
    split; intros [H1 H2]; split; [done| |done|].
    - intros j Hj. apply Z.leb_le, H2, in_seq. lia.
    - intros j Hj. apply in_seq in Hj. apply Z.leb_le, H2. lia. }
  pose proof (min_search_spec (count_channels primaries)) as Hinv.
  destruct (min_search _) as [me mc]. simpl in Hinv |- *.
  destruct Hinv as [(-> & _ & Hall) | (m & -> & Hm & -> & Hmc & Hall & Hlow)].
  - replace (first_index _ 13) with (@None nat); [done|]. symmetry.
    apply first_index_None. intros k Hk. apply not_true_iff_false. rewrite Hleast by lia.
    intros [Hlt _]. specialize (Hall (S k) ltac:(lia)). rewrite Hcnt in Hall by lia. lia.
  - replace (first_index _ 13) with (Some (Init.Nat.pred m)).
    { f_equal. lia. }
    symmetry. apply first_index_Some. split; [lia|].
    replace (S (Init.Nat.pred m)) with m by lia. split.
    + apply Hleast; [lia|]. rewrite <- Hcnt by lia. split; [done|].
      intros j Hj. rewrite <- Hcnt by lia. by apply Hall.
    + intros k Hk. apply not_true_iff_false. rewrite Hleast by lia. intros [_ Hle].
      specialize (Hle m Hm). specialize (Hlow (S k) ltac:(lia)).
      rewrite !Hcnt in Hlow by lia. lia.
Qed.

Lemma least_freq_channel_wraps_witness :
  Forall channel_ok (replicate 256 1 ++ map Z.of_nat (seq 2 12)) /\
  least_freq_channel (replicate 256 1 ++ map Z.of_nat (seq 2 12)) = 1 /\
  spec_least_channel (replicate 256 1 ++ map Z.of_nat (seq 2 12)) = 2.
Proof.
  assert (H : Forall channel_ok (replicate 256 1 ++ map Z.of_nat (seq 2 12))).
  { apply (bool_decide_unpack _). vm_compute. reflexivity. }
  split; [exact H|]. split; [|vm_compute; reflexivity].
  rewrite (least_freq_channel_wraps _ H). vm_compute. reflexivity.
Defined.
