(* ===== verification/Config.v ===== *)
(** * Config: the configuration structs of src/main/include/aug_wifi.h
    and the default configurations of src/main/aug_wifi.c

    [aug_wifi_sta_config_t] and [aug_wifi_ap_config_t] wrap ESP-IDF's
    [wifi_config_t] union with [max_retry] and [timeout_idle].  Only the
    union members and fields the program reads or writes are modelled;
    the character arrays keep their C sizes (32 bytes of SSID, 64 of
    password, 32 of SAE password identifier) as lists of [ascii], and
    the C [int] and enum fields are [Z].  The Kconfig values the defaults
    use (CONFIG_AP_WIFI_SSID and the like) are not in the repository:
    they are Variables of the Section [Defaults], and so are the three
    constants (SAE mode, H2E identifier, scan threshold) that the [#if]
    chains of aug_wifi.c select from a Kconfig choice. *)

From S2P Require Import Prelude Utility.

Definition SSID_LEN : nat := 32.
Definition PASSWORD_LEN : nat := 64.
Definition SAE_H2E_IDENTIFIER_LEN : nat := 32.

(** The [sta] member of [wifi_config_t]. *)
Record wifi_sta_config_t := mk_wifi_sta_config {
  sta_ssid : list ascii;
  sta_password : list ascii;
  sta_threshold_authmode : Z;
  sta_sae_pwe_h2e : Z;
  sta_sae_h2e_identifier : list ascii
}.

(** [aug_wifi_sta_config_t] (aug_wifi.h). *)
Record aug_wifi_sta_config_t := mk_aug_wifi_sta_config {
  sta_wifi_config : wifi_sta_config_t;
  max_retry : Z
}.

(** The [ap] member of [wifi_config_t]. *)
Record wifi_ap_config_t := mk_wifi_ap_config {
  ap_ssid : list ascii;
  ap_password : list ascii;
  ap_ssid_len : Z;
  ap_channel : Z;
  ap_authmode : Z;
  ap_max_connection : Z;
  ap_sae_pwe_h2e : Z;
  ap_pmf_required : bool
}.

(** [aug_wifi_ap_config_t] (aug_wifi.h). *)
Record aug_wifi_ap_config_t := mk_aug_wifi_ap_config {
  ap_wifi_config : wifi_ap_config_t;
  timeout_idle : Z
}.

(** A field [char f[n]] initialised from a string literal: the bytes of
    the literal, then zeros up to [n]. *)
Definition char_array (n : nat) (s : string) : list ascii :=
  take n (String.list_ascii_of_string s ++ replicate n NUL).

(** The static zero-initialised configurations and what
    [memset] of the whole struct to zero leaves. *)
Definition zero_sta_config : aug_wifi_sta_config_t :=
  mk_aug_wifi_sta_config
    (mk_wifi_sta_config (replicate SSID_LEN NUL) (replicate PASSWORD_LEN NUL) 0 0
       (replicate SAE_H2E_IDENTIFIER_LEN NUL)) 0.

Definition zero_ap_config : aug_wifi_ap_config_t :=
  mk_aug_wifi_ap_config
    (mk_wifi_ap_config (replicate SSID_LEN NUL) (replicate PASSWORD_LEN NUL) 0 0 0 0 0 false) 0.

(** The sizes of the character arrays, as the C types fix them. *)
Definition sta_config_wf (c : aug_wifi_sta_config_t) : Prop :=
  length (sta_ssid (sta_wifi_config c)) = SSID_LEN /\
  length (sta_password (sta_wifi_config c)) = PASSWORD_LEN /\
  length (sta_sae_h2e_identifier (sta_wifi_config c)) = SAE_H2E_IDENTIFIER_LEN.

Definition ap_config_wf (c : aug_wifi_ap_config_t) : Prop :=
  length (ap_ssid (ap_wifi_config c)) = SSID_LEN /\
  length (ap_password (ap_wifi_config c)) = PASSWORD_LEN.

Lemma length_char_array n s : length (char_array n s) = n.
Proof. unfold char_array. rewrite length_take, length_app, length_replicate. lia. Qed.

#[export] Hint Rewrite length_char_array : aug_rw.

Section Defaults.

(** The Kconfig options the defaults are built from. *)
Variable CONFIG_AP_WIFI_SSID CONFIG_AP_WIFI_PASSWORD : string.
Variable CONFIG_MAX_STA_CONN CONFIG_TIMEOUT_IDLE : Z.
Variable CONFIG_ESP_WIFI_SOFTAP_SAE_SUPPORT : bool.
Variable CONFIG_STA_WIFI_SSID CONFIG_STA_WIFI_PASSWORD : string.
Variable CONFIG_MAXIMUM_RETRY : Z.
(** The constants that the [#if defined(CONFIG_WPA3_SAE_PWE_...)] and
    [#if defined(CONFIG_WIFI_AUTH_...)] chains of aug_wifi.c select from
    the Kconfig choice made at build time. *)
Variable DEFAULT_WIFI_SCAN_AUTH_MODE_THRESHOLD DEFAULT_WIFI_SAE_MODE : Z.
Variable DEFAULT_H2E_IDENTIFIER : string.

(** [aug_wifi_get_default_ap_config] without CONFIG_AP_MANUAL_CHANNEL
    (the channel stays 0 and is chosen by the scan at start). *)
Definition aug_wifi_get_default_ap_config : aug_wifi_ap_config_t :=
  let authmode :=
    if CONFIG_ESP_WIFI_SOFTAP_SAE_SUPPORT then WIFI_AUTH_WPA3_PSK else WIFI_AUTH_WPA2_PSK in
  let sae := if CONFIG_ESP_WIFI_SOFTAP_SAE_SUPPORT then WPA3_SAE_PWE_BOTH else 0 in
  let ap := mk_wifi_ap_config (char_array SSID_LEN CONFIG_AP_WIFI_SSID)
              (char_array PASSWORD_LEN CONFIG_AP_WIFI_PASSWORD)
              (Z.of_nat (String.length CONFIG_AP_WIFI_SSID)) 0
              (if Nat.eqb (String.length CONFIG_AP_WIFI_PASSWORD) 0 then WIFI_AUTH_OPEN
               else authmode)
              CONFIG_MAX_STA_CONN sae true in
  mk_aug_wifi_ap_config ap CONFIG_TIMEOUT_IDLE.

(** [aug_wifi_get_default_sta_config] (with CONFIG_WIFI_INFO). *)
Definition aug_wifi_get_default_sta_config : aug_wifi_sta_config_t :=
  mk_aug_wifi_sta_config
    (mk_wifi_sta_config (char_array SSID_LEN CONFIG_STA_WIFI_SSID)
       (char_array PASSWORD_LEN CONFIG_STA_WIFI_PASSWORD)
       DEFAULT_WIFI_SCAN_AUTH_MODE_THRESHOLD DEFAULT_WIFI_SAE_MODE
       (char_array SAE_H2E_IDENTIFIER_LEN DEFAULT_H2E_IDENTIFIER))
    CONFIG_MAXIMUM_RETRY.

Lemma default_ap_config_wf : ap_config_wf aug_wifi_get_default_ap_config.
Proof. split; simpl; apply length_char_array. Qed.

Lemma default_sta_config_wf : sta_config_wf aug_wifi_get_default_sta_config.
Proof. split; [|split]; simpl; apply length_char_array. Qed.

End Defaults.

Lemma zero_sta_config_wf : sta_config_wf zero_sta_config.
Proof. repeat split. Qed.

Lemma zero_ap_config_wf : ap_config_wf zero_ap_config.
Proof. repeat split. Qed.
