(* ===== verification/Platform.v ===== *)
(** * Platform: the ESP-IDF services the program calls, and the world

    The program's modules keep their state in static globals and talk to
    ESP-IDF (Wi-Fi driver, esp_event, HTTP server, MQTT client, NVS, OTA).
    This file gathers the globals of every modelled module in one record
    [World], in which the C functions of the following files are written
    as computations of the monad [M World] of [Prelude]:
    - [w_plat]: the result each ESP-IDF call returns, the capability
      providers of the spec; a healthy platform returns [ESP_OK] to all;
    - [w_radio]: the radio events the driver delivers next, consumed by
      the blocking waits (the environment's answers to connect attempts);
    - [w_scan]: the primary channels of the records the next scan returns;
    - [w_queue] and [w_handlers]: the custom event loop created in
      main.c ([event_loop_init], queue_size 2) and the handlers
      registered on it by [register_events];
    - [w_sta], [w_ap], [w_http], [w_mqtt]: the globals of
      aug_wifi_sta.c, aug_wifi_ap.c, aug_http_server.c and
      aug_mqtt_client.c (a pointer global is a [bool]: non-NULL or NULL);
    - [w_nvs]: the NVS flash, blobs by namespace and key;
    - [w_trace]: what the program did that can be observed (connect
      attempts, events posted, dispatched or dropped, NVS commits, HTTP
      responses, the restart), oldest first.

    [esp_event_post_to] with portMAX_DELAY appends to the queue when it
    has room; on a full queue the poster waits, and since the consumer
    is the loop task itself, a post made while the loop runs a callback
    waits forever ([Blocked]).  A post through a NULL loop handle is a
    load from address 0, a panic ([Abort NULL_DEREF]). *)

From stdpp Require Import gmap.
From S2P Require Import Prelude Utility Config.

(** ** The ESP-IDF calls whose results the code checks *)

Inductive api : Type :=
| API_esp_wifi_init | API_esp_wifi_deinit | API_esp_wifi_set_mode
| API_esp_wifi_set_config | API_esp_wifi_start | API_esp_wifi_stop
| API_esp_wifi_restore | API_handler_register | API_handler_unregister
| API_xTaskCreate | API_scan_get_ap_records | API_scan_get_ap_num
| API_httpd_start | API_httpd_register_uri_handler | API_httpd_stop
| API_mqtt_client_init | API_mqtt_register_event | API_mqtt_client_start
| API_mqtt_client_stop | API_mqtt_client_set_uri | API_mqtt_client_destroy
| API_nvs_open | API_nvs_get_blob | API_nvs_set_blob | API_nvs_commit | API_malloc
| API_ds18b20_init | API_event_loop_create
| API_httpd_resp_send | API_esp_ota_begin | API_esp_ota_write | API_esp_ota_end
| API_esp_ota_set_boot_partition
| API_nvs_flash_erase | API_esp_netif_init | API_esp_event_loop_create_default.

(** Events of the default loop that the Wi-Fi handlers receive. *)
Inductive radio_event : Type :=
| WIFI_EVENT_STA_START
| WIFI_EVENT_STA_CONNECTED
| WIFI_EVENT_STA_DISCONNECTED
| IP_EVENT_STA_GOT_IP
| WIFI_EVENT_AP_STACONNECTED
| WIFI_EVENT_AP_STADISCONNECTED.

(** Events of the custom loop, base and id together (aug_wifi_ap.h,
    aug_http_server.h, and the station header, which is not in src/). *)
Inductive loop_event : Type :=
| AUG_WIFI_STA_EVENT_FAILED_ATTEMPTS
| AUG_WIFI_AP_EVENT_IDLE
| AUG_HTTP_SERVER_EVENT_INIT_STA
| AUG_HTTP_SERVER_EVENT_INIT_MQTT
| AUG_HTTP_SERVER_EVENT_OTA_UPDATE
| AUG_HTTP_SERVER_EVENT_RESTART.

(** The callbacks of main.c that [register_events] installs. *)
Inductive callback : Type :=
| callback_init_ap
| callback_init_sta
| callback_init_mqtt
| callback_esp_restart.

Inductive obs : Type :=
| ObsWifiConnect
| ObsPost (e : loop_event)
| ObsDispatch (e : loop_event) (c : callback)
| ObsDrop (e : loop_event)
| ObsNvsCommit (namespace key : string)
| ObsResponse (status body : string)
| ObsOtaWrite (len : Z)
| ObsSetBootPartition
| ObsRestart.

#[export] Instance radio_event_eq_dec : EqDecision radio_event.
Proof. solve_decision. Defined.
#[export] Instance loop_event_eq_dec : EqDecision loop_event.
Proof. solve_decision. Defined.
#[export] Instance callback_eq_dec : EqDecision callback.
Proof. solve_decision. Defined.
#[export] Instance obs_eq_dec : EqDecision obs.
Proof. solve_decision. Defined.

(** ** The globals of the modules *)

Record sta_globals := mk_sta_globals {
  sta_config : aug_wifi_sta_config_t;
  sta_netif : bool;
  sta_event_loop : bool;
  sta_instance_any_id : bool;
  sta_instance_got_ip : bool;
  s_wifi_event_group : option (bool * bool);
  retry_num : Z
}.

Record ap_globals := mk_ap_globals {
  ap_config : aug_wifi_ap_config_t;
  ap_netif : bool;
  ap_event_loop : bool;
  current_connections : Z;
  idle_check_task_handle : bool;
  ap_instance_any_id : bool
}.

(** [esp_mqtt_client_config_t] of esp-mqtt, with the one field the
    program sets: [broker.address.uri], a pointer that is NULL or the
    address of [uri_str] (the only string main.c points it at). *)
Record esp_mqtt_client_config_t := mk_esp_mqtt_client_config {
  broker_address_uri : bool
}.

Record mqtt_globals := mk_mqtt_globals {
  uri_str : list ascii;
  mqtt_config : esp_mqtt_client_config_t;
  mqtt_client_handle : bool;
  mqtt_running : bool;
  mqtt_client_uri : string;
  is_connected : bool
}.

Definition set_sta_config (v : aug_wifi_sta_config_t) (g : sta_globals) : sta_globals :=
  mk_sta_globals v (sta_netif g) (sta_event_loop g) (sta_instance_any_id g) (sta_instance_got_ip g) (s_wifi_event_group g) (retry_num g).
Definition set_sta_netif (v : bool) (g : sta_globals) : sta_globals :=
  mk_sta_globals (sta_config g) v (sta_event_loop g) (sta_instance_any_id g) (sta_instance_got_ip g) (s_wifi_event_group g) (retry_num g).
Definition set_sta_event_loop (v : bool) (g : sta_globals) : sta_globals :=
  mk_sta_globals (sta_config g) (sta_netif g) v (sta_instance_any_id g) (sta_instance_got_ip g) (s_wifi_event_group g) (retry_num g).
Definition set_sta_instance_any_id (v : bool) (g : sta_globals) : sta_globals :=
  mk_sta_globals (sta_config g) (sta_netif g) (sta_event_loop g) v (sta_instance_got_ip g) (s_wifi_event_group g) (retry_num g).
Definition set_sta_instance_got_ip (v : bool) (g : sta_globals) : sta_globals :=
  mk_sta_globals (sta_config g) (sta_netif g) (sta_event_loop g) (sta_instance_any_id g) v (s_wifi_event_group g) (retry_num g).
Definition set_s_wifi_event_group (v : option (bool * bool)) (g : sta_globals) : sta_globals :=
  mk_sta_globals (sta_config g) (sta_netif g) (sta_event_loop g) (sta_instance_any_id g) (sta_instance_got_ip g) v (retry_num g).
Definition set_retry_num (v : Z) (g : sta_globals) : sta_globals :=
  mk_sta_globals (sta_config g) (sta_netif g) (sta_event_loop g) (sta_instance_any_id g) (sta_instance_got_ip g) (s_wifi_event_group g) v.

Definition set_ap_config (v : aug_wifi_ap_config_t) (g : ap_globals) : ap_globals :=
  mk_ap_globals v (ap_netif g) (ap_event_loop g) (current_connections g) (idle_check_task_handle g) (ap_instance_any_id g).
Definition set_ap_netif (v : bool) (g : ap_globals) : ap_globals :=
  mk_ap_globals (ap_config g) v (ap_event_loop g) (current_connections g) (idle_check_task_handle g) (ap_instance_any_id g).
Definition set_ap_event_loop (v : bool) (g : ap_globals) : ap_globals :=
  mk_ap_globals (ap_config g) (ap_netif g) v (current_connections g) (idle_check_task_handle g) (ap_instance_any_id g).
Definition set_current_connections (v : Z) (g : ap_globals) : ap_globals :=
  mk_ap_globals (ap_config g) (ap_netif g) (ap_event_loop g) v (idle_check_task_handle g) (ap_instance_any_id g).
Definition set_idle_check_task_handle (v : bool) (g : ap_globals) : ap_globals :=
  mk_ap_globals (ap_config g) (ap_netif g) (ap_event_loop g) (current_connections g) v (ap_instance_any_id g).
Definition set_ap_instance_any_id (v : bool) (g : ap_globals) : ap_globals :=
  mk_ap_globals (ap_config g) (ap_netif g) (ap_event_loop g) (current_connections g) (idle_check_task_handle g) v.

Definition set_uri_str (v : list ascii) (g : mqtt_globals) : mqtt_globals :=
  mk_mqtt_globals v (mqtt_config g) (mqtt_client_handle g) (mqtt_running g) (mqtt_client_uri g) (is_connected g).
Definition set_mqtt_config (v : esp_mqtt_client_config_t) (g : mqtt_globals) : mqtt_globals :=
  mk_mqtt_globals (uri_str g) v (mqtt_client_handle g) (mqtt_running g) (mqtt_client_uri g) (is_connected g).
Definition set_mqtt_client_handle (v : bool) (g : mqtt_globals) : mqtt_globals :=
  mk_mqtt_globals (uri_str g) (mqtt_config g) v (mqtt_running g) (mqtt_client_uri g) (is_connected g).
Definition set_mqtt_running (v : bool) (g : mqtt_globals) : mqtt_globals :=
  mk_mqtt_globals (uri_str g) (mqtt_config g) (mqtt_client_handle g) v (mqtt_client_uri g) (is_connected g).
Definition set_mqtt_client_uri (v : string) (g : mqtt_globals) : mqtt_globals :=
  mk_mqtt_globals (uri_str g) (mqtt_config g) (mqtt_client_handle g) (mqtt_running g) v (is_connected g).
Definition set_is_connected (v : bool) (g : mqtt_globals) : mqtt_globals :=
  mk_mqtt_globals (uri_str g) (mqtt_config g) (mqtt_client_handle g) (mqtt_running g) (mqtt_client_uri g) v.


(** An [httpd_uri_t] of aug_http_server.c: the URI, the method, the
    handler function, and whether [user_ctx] is the event loop handle
    pointer (non-NULL) or left NULL. *)
Inductive http_method : Type := HTTP_GET | HTTP_POST.

Inductive uri_handler : Type :=
| H_set_options_sta_handler | H_init_sta_handler | H_set_options_mqtt_handler
| H_init_mqtt_handler | H_ota_update_handler | H_restart_handler | H_index_handler.

Definition http_method_eqb (a b : http_method) : bool :=
  match a, b with
  | HTTP_GET, HTTP_GET | HTTP_POST, HTTP_POST => true
  | _, _ => false
  end.


Record httpd_uri_t := mk_httpd_uri {
  uri : string;
  method : http_method;
  handler : uri_handler;
  user_ctx : bool
}.

(** The server handle and the URI handlers registered on it. *)
Record http_globals := mk_http_globals {
  server : bool;
  uri_handlers : list httpd_uri_t
}.

(** ** The world *)

Record World := mk_world {
  w_plat : api -> esp_err_t;
  w_radio : list radio_event;
  w_scan : list Z;
  w_queue : list loop_event;
  w_handlers : list (loop_event * callback);
  w_sta : sta_globals;
  w_ap : ap_globals;
  w_http : http_globals;
  w_mqtt : mqtt_globals;
  w_nvs : gmap (string * string) (list ascii);
  w_trace : list obs
}.

Definition upd_radio (f : list radio_event -> list radio_event) (w : World) : World :=
  mk_world (w_plat w) (f (w_radio w)) (w_scan w) (w_queue w) (w_handlers w) (w_sta w) (w_ap w) (w_http w) (w_mqtt w) (w_nvs w) (w_trace w).
Definition upd_scan (f : list Z -> list Z) (w : World) : World :=
  mk_world (w_plat w) (w_radio w) (f (w_scan w)) (w_queue w) (w_handlers w) (w_sta w) (w_ap w) (w_http w) (w_mqtt w) (w_nvs w) (w_trace w).
Definition upd_queue (f : list loop_event -> list loop_event) (w : World) : World :=
  mk_world (w_plat w) (w_radio w) (w_scan w) (f (w_queue w)) (w_handlers w) (w_sta w) (w_ap w) (w_http w) (w_mqtt w) (w_nvs w) (w_trace w).
Definition upd_handlers (f : list (loop_event * callback) -> list (loop_event * callback)) (w : World) : World :=
  mk_world (w_plat w) (w_radio w) (w_scan w) (w_queue w) (f (w_handlers w)) (w_sta w) (w_ap w) (w_http w) (w_mqtt w) (w_nvs w) (w_trace w).
Definition upd_sta (f : sta_globals -> sta_globals) (w : World) : World :=
  mk_world (w_plat w) (w_radio w) (w_scan w) (w_queue w) (w_handlers w) (f (w_sta w)) (w_ap w) (w_http w) (w_mqtt w) (w_nvs w) (w_trace w).
Definition upd_ap (f : ap_globals -> ap_globals) (w : World) : World :=
  mk_world (w_plat w) (w_radio w) (w_scan w) (w_queue w) (w_handlers w) (w_sta w) (f (w_ap w)) (w_http w) (w_mqtt w) (w_nvs w) (w_trace w).
Definition upd_http (f : http_globals -> http_globals) (w : World) : World :=
  mk_world (w_plat w) (w_radio w) (w_scan w) (w_queue w) (w_handlers w) (w_sta w) (w_ap w) (f (w_http w)) (w_mqtt w) (w_nvs w) (w_trace w).
Definition upd_mqtt (f : mqtt_globals -> mqtt_globals) (w : World) : World :=
  mk_world (w_plat w) (w_radio w) (w_scan w) (w_queue w) (w_handlers w) (w_sta w) (w_ap w) (w_http w) (f (w_mqtt w)) (w_nvs w) (w_trace w).
Definition upd_nvs (f : gmap (string * string) (list ascii) -> gmap (string * string) (list ascii)) (w : World) : World :=
  mk_world (w_plat w) (w_radio w) (w_scan w) (w_queue w) (w_handlers w) (w_sta w) (w_ap w) (w_http w) (w_mqtt w) (f (w_nvs w)) (w_trace w).
Definition upd_trace (f : list obs -> list obs) (w : World) : World :=
  mk_world (w_plat w) (w_radio w) (w_scan w) (w_queue w) (w_handlers w) (w_sta w) (w_ap w) (w_http w) (w_mqtt w) (w_nvs w) (f (w_trace w)).


(** ** Platform primitives *)

(** A panic on a load through a NULL pointer. *)
Definition NULL_DEREF : esp_err_t := -2.

(** The queue size given to [esp_event_loop_create] in main.c. *)
Definition LOOP_QUEUE_SIZE : nat := 2.

(** An ESP-IDF call whose only effect the code sees is its result. *)
Definition call (a : api) : M World esp_err_t := fun w => (w, Ret (w_plat w a)).

(** Something observable happens. *)
Definition emit (o : obs) : M World unit := modify (upd_trace (fun t => t ++ [o])).

(** [esp_event_post_to] with portMAX_DELAY on the loop a handle pointer designates,
    through a handle pointer that is non-NULL when [handle_ok]. *)
Definition esp_event_post_to (handle_ok : bool) (e : loop_event) : M World esp_err_t :=
  if negb handle_ok then abort NULL_DEREF
  else fun w =>
    if Nat.ltb (length (w_queue w)) LOOP_QUEUE_SIZE
    then (upd_trace (fun t => t ++ [ObsPost e]) (upd_queue (fun q => q ++ [e]) w), Ret ESP_OK)
    else (w, Blocked).

(** The platform on which every call succeeds. *)
Definition plat_ok : api -> esp_err_t := fun _ => ESP_OK.

(** ** Updater lemmas *)

Lemma upd_sta_sta f w : w_sta (upd_sta f w) = f (w_sta w).
Proof. reflexivity. Qed.
Lemma upd_ap_ap f w : w_ap (upd_ap f w) = f (w_ap w).
Proof. reflexivity. Qed.

#[export] Hint Rewrite upd_sta_sta upd_ap_ap : aug_rw.

Lemma keeps_call {B} (f : World -> B) a : keeps f (call a).
Proof. intros w. reflexivity. Qed.

Lemma keeps_post {B} (f : World -> B) h e :
  (forall w, f (upd_trace (fun t => t ++ [ObsPost e]) (upd_queue (fun q => q ++ [e]) w)) = f w) ->
  keeps f (esp_event_post_to h e).
Proof.
  intros Hf w. unfold esp_event_post_to. destruct h; simpl; [|reflexivity].
  destruct (Nat.ltb _ _); simpl; auto.
Qed.

(** A post to a loop whose queue has room is queued last and recorded. *)
Lemma esp_event_post_to_room e w :
  (length (w_queue w) < LOOP_QUEUE_SIZE)%nat ->
  esp_event_post_to true e w =
  (upd_trace (fun t => t ++ [ObsPost e]) (upd_queue (fun q => q ++ [e]) w), Ret ESP_OK).
Proof. intros Hq. unfold esp_event_post_to. simpl. by rewrite (proj2 (Nat.ltb_lt _ _) Hq). Qed.

#[export] Hint Resolve keeps_call : keeps.

(** ** The static initialisers *)

(** [MQTT_MAX_URI_LEN] is CONFIG_HTTPD_MAX_URI_LEN, 512 by default. *)
Definition MQTT_MAX_URI_LEN : nat := 512.

Definition sta_globals_init : sta_globals :=
  mk_sta_globals zero_sta_config false false false false None 0.

Definition ap_globals_init : ap_globals :=
  mk_ap_globals zero_ap_config false false 0 false false.

Definition http_globals_init : http_globals := mk_http_globals false [].

Definition mqtt_globals_init : mqtt_globals :=
  mk_mqtt_globals (replicate (S MQTT_MAX_URI_LEN) NUL) (mk_esp_mqtt_client_config false) false false ""%string false.

(** The world at reset: the globals as the C initialisers leave them,
    an empty custom loop, and the given platform, radio, scan and
    flash. *)
Definition world_init (plat : api -> esp_err_t) (radio : list radio_event) (scan : list Z)
    (nvs : gmap (string * string) (list ascii)) : World :=
  mk_world plat radio scan [] [] sta_globals_init ap_globals_init http_globals_init
    mqtt_globals_init nvs [].
