(* ===== verification/WifiSta.v ===== *)
(** * WifiSta: the station module of src/main/aug_wifi_sta.c

    The module's globals are [w_sta] of the world ([sta_config],
    [sta_netif], [event_loop_handle], the two handler instances, the
    event group [s_wifi_event_group] and [retry_num]).  This file models
    [event_handler], the retry policy of the program, and the teardown
    [aug_wifi_sta_disconnect]; the blocking [aug_wifi_sta_connect], which
    also needs the access point's handler to deliver radio events, is in
    [WifiConnect].

    The retry policy: a disconnection while [retry_num < max_retry]
    calls [esp_wifi_connect] again and counts the retry; one with
    [retry_num >= max_retry] posts FAILED_ATTEMPTS to the custom loop,
    sets the FAIL bit and resets the counter; a GOT_IP resets the
    counter and sets the CONNECTED bit.  The theorems show that the
    counter stays within [0, max(0, max_retry)] (so [retry_num++] never
    overflows), that [max_retry] disconnections in a row only retry, and
    that the next one fails exactly once. *)

From S2P Require Import Prelude Utility Config Platform.

(** ** The model *)

Definition sta_update (f : sta_globals -> sta_globals) : M World unit := modify (upd_sta f).

(** [xEventGroupSetBits] on [s_wifi_event_group]; FreeRTOS asserts the
    group is not NULL. *)
Definition xEventGroupSetBits (connected fail : bool) : M World unit := fun w =>
  match s_wifi_event_group (w_sta w) with
  | None => (w, Abort NULL_DEREF)
  | Some (c, f) =>
      (upd_sta (set_s_wifi_event_group (Some (c || connected, f || fail))) w, Ret tt)
  end.

(** [esp_wifi_connect()]: its result is not checked; the attempt is
    observable. *)
Definition esp_wifi_connect : M World unit := emit ObsWifiConnect.

(** [event_handler] (aug_wifi_sta.c), registered for WIFI_EVENT and
    IP_EVENT_STA_GOT_IP. *)
Definition event_handler (e : radio_event) : M World unit :=
  match e with
  | WIFI_EVENT_STA_START => esp_wifi_connect
  | WIFI_EVENT_STA_DISCONNECTED =>
      g ← gets w_sta;
      if Z.ltb (retry_num g) (max_retry (sta_config g))
      then esp_wifi_connect ;; sta_update (set_retry_num (retry_num g + 1))
      else ESP_ERROR_CHECK (esp_event_post_to (sta_event_loop g) AUG_WIFI_STA_EVENT_FAILED_ATTEMPTS);
           xEventGroupSetBits false true ;;
           sta_update (set_retry_num 0)
  | IP_EVENT_STA_GOT_IP => sta_update (set_retry_num 0) ;; xEventGroupSetBits true false
  | _ => mret tt
  end.

(** [esp_event_handler_instance_unregister]: on success the instance is
    no longer registered ([clear] records that). *)
Definition handler_instance_unregister (clear : World -> World) : M World esp_err_t :=
  r ← call API_handler_unregister;
  (if Z.eqb r ESP_OK then modify clear else mret tt) ;;
  mret r.

(** [aug_wifi_sta_disconnect]: the handle is cleared first, then every
    step returns its error as soon as one fails. *)
Definition aug_wifi_sta_disconnect : M World esp_err_t :=
  sta_update (set_sta_event_loop false) ;;
  AUG_RETURN_CHECK (handler_instance_unregister (upd_sta (set_sta_instance_any_id false)));
  AUG_RETURN_CHECK (handler_instance_unregister (upd_sta (set_sta_instance_got_ip false)));
  AUG_RETURN_CHECK (call API_esp_wifi_restore);
  sta_update (set_s_wifi_event_group None) ;;
  AUG_RETURN_CHECK (call API_esp_wifi_deinit);
  sta_update (set_sta_netif false) ;;
  mret ESP_OK.

Definition aug_wifi_sta_is_init (w : World) : bool := sta_netif (w_sta w).

Definition aug_wifi_sta_get_config (w : World) : aug_wifi_sta_config_t := sta_config (w_sta w).

(** ** One step of the retry policy *)

(** The world after a retried disconnection. *)
Definition retry_step (w : World) : World :=
  upd_sta (set_retry_num (retry_num (w_sta w) + 1)) (upd_trace (fun t => t ++ [ObsWifiConnect]) w).

(** The world after the disconnection that gives up. *)
Definition fail_step (w : World) : World :=
  let '(c, f) := default (false, false) (s_wifi_event_group (w_sta w)) in
  upd_sta (set_retry_num 0)
    (upd_sta (set_s_wifi_event_group (Some (c, true)))
       (upd_trace (fun t => t ++ [ObsPost AUG_WIFI_STA_EVENT_FAILED_ATTEMPTS])
          (upd_queue (fun q => q ++ [AUG_WIFI_STA_EVENT_FAILED_ATTEMPTS]) w))).

Lemma event_handler_retry w :
  retry_num (w_sta w) < max_retry (sta_config (w_sta w)) ->
  event_handler WIFI_EVENT_STA_DISCONNECTED w = (retry_step w, Ret tt).
Proof.
  intros H. unfold event_handler. mrun.
  destruct (Z.ltb_spec (retry_num (w_sta w)) (max_retry (sta_config (w_sta w)))); [|lia].
  reflexivity.
Qed.

Lemma event_handler_give_up w bits :
  max_retry (sta_config (w_sta w)) <= retry_num (w_sta w) ->
  s_wifi_event_group (w_sta w) = Some bits ->
  sta_event_loop (w_sta w) = true ->
  (length (w_queue w) < LOOP_QUEUE_SIZE)%nat ->
  event_handler WIFI_EVENT_STA_DISCONNECTED w = (fail_step w, Ret tt).
Proof.
  intros Hge Hg Hl Hq. unfold event_handler, fail_step, xEventGroupSetBits, esp_event_post_to.
  rewrite Hg. destruct bits as [c f]. mrun.
  destruct (Z.ltb_spec (retry_num (w_sta w)) (max_retry (sta_config (w_sta w)))); [lia|].
  rewrite Hl. simpl. destruct (Nat.ltb_spec (length (w_queue w)) LOOP_QUEUE_SIZE); [|lia].
  simpl. rewrite Hg. unfold sta_update, modify. by rewrite orb_false_r, orb_true_r.
Qed.

Lemma event_handler_got_ip w bits :
  s_wifi_event_group (w_sta w) = Some bits ->
  event_handler IP_EVENT_STA_GOT_IP w =
  (upd_sta (set_s_wifi_event_group (Some (true, snd bits)))
     (upd_sta (set_retry_num 0) w), Ret tt).
Proof.
  intros Hg. unfold event_handler, xEventGroupSetBits, sta_update. mrun. rewrite Hg. destruct bits as [c f]. simpl.
  rewrite orb_true_r, orb_false_r. reflexivity.
Qed.

(** Observations of [retry_step] iterated. *)
Lemma retry_iter_obs k w :
  let w' := Nat.iter k retry_step w in
  retry_num (w_sta w') = retry_num (w_sta w) + Z.of_nat k /\
  w_trace w' = w_trace w ++ replicate k ObsWifiConnect /\
  w_queue w' = w_queue w /\
  sta_config (w_sta w') = sta_config (w_sta w) /\
  sta_event_loop (w_sta w') = sta_event_loop (w_sta w) /\
  s_wifi_event_group (w_sta w') = s_wifi_event_group (w_sta w).
Proof.
  induction k as [|k IH]; cbv zeta in *.
  - simpl. rewrite app_nil_r. repeat split; lia.
  - rewrite Nat.iter_succ. set (w0 := Nat.iter k retry_step w) in *.
    destruct IH as (Hr & Ht & Hq & Hc & Hl & Hg). unfold retry_step. simpl.
    rewrite Hr, Ht, Hq, Hc, Hl, Hg. repeat split; try lia.
    by rewrite <- app_assoc, <- replicate_S_end.
Qed.

(** [k] disconnections in a row, with room for [k] retries, retry [k]
    times. *)
Lemma disconnects_retry k w :
  retry_num (w_sta w) + Z.of_nat k <= max_retry (sta_config (w_sta w)) ->
  mapM_ event_handler (replicate k WIFI_EVENT_STA_DISCONNECTED) w = (Nat.iter k retry_step w, Ret tt).
Proof.
  revert w. induction k as [|k IH]; intros w Hk; [reflexivity|].
  simpl replicate. rewrite mapM_cons.
  rewrite (bind_run _ _ _ (retry_step w) tt) by (apply event_handler_retry; lia).
  rewrite IH.
  - f_equal. by rewrite Nat.iter_succ_r.
  - unfold retry_step. simpl. lia.
Qed.

#[export] Hint Resolve event_handler_retry event_handler_give_up : aug.

Lemma keeps_set_bits {B} (f : World -> B) c fl :
  (forall w v, f (upd_sta (set_s_wifi_event_group v) w) = f w) -> keeps f (xEventGroupSetBits c fl).
Proof.
  intros Hf w. unfold xEventGroupSetBits. destruct (s_wifi_event_group (w_sta w)) as [[]|]; simpl; auto.
Qed.

(** ** Properties of the retry policy *)

(** C4: Retry exhaustion: from a fresh counter with [max_retry = N >= 0],
    [N + 1] disconnections in a row call [esp_wifi_connect] [N] times,
    then post AUG_WIFI_STA_EVENT_FAILED_ATTEMPTS exactly once, set the
    FAIL bit of the event group and reset the counter to 0. *)
Theorem retry_exhaustion w N :
  retry_num (w_sta w) = 0 -> max_retry (sta_config (w_sta w)) = Z.of_nat N ->
  s_wifi_event_group (w_sta w) = Some (false, false) -> sta_event_loop (w_sta w) = true ->
  (length (w_queue w) < LOOP_QUEUE_SIZE)%nat ->
  exists w',
    mapM_ event_handler (replicate (S N) WIFI_EVENT_STA_DISCONNECTED) w = (w', Ret tt) /\
    w_trace w' = w_trace w ++ replicate N ObsWifiConnect
                   ++ [ObsPost AUG_WIFI_STA_EVENT_FAILED_ATTEMPTS] /\
    w_queue w' = w_queue w ++ [AUG_WIFI_STA_EVENT_FAILED_ATTEMPTS] /\
    retry_num (w_sta w') = 0 /\ s_wifi_event_group (w_sta w') = Some (false, true).
Proof.
  intros Hr Hm Hg Hl Hq.
  destruct (retry_iter_obs N w) as (Hr' & Ht' & Hq' & Hc' & Hl' & Hg').
  rewrite replicate_S_end, mapM_app.
  rewrite (bind_run _ _ _ (Nat.iter N retry_step w) tt) by (apply disconnects_retry; lia).
  simpl. rewrite (bind_run _ _ _ (fail_step (Nat.iter N retry_step w)) tt).
  2:{ apply event_handler_give_up with (bits := (false, false));
      rewrite ?Hc', ?Hr', ?Hg', ?Hl', ?Hq'; congruence || lia. }
  eexists. split; [reflexivity|]. unfold fail_step. rewrite Hg', Hg. simpl.
  rewrite Ht', Hq', app_assoc. by repeat split.
Qed.

Lemma retry_exhaustion_witness :
  exists w',
    mapM_ event_handler (replicate 4 WIFI_EVENT_STA_DISCONNECTED)
      (upd_sta (fun _ => mk_sta_globals (mk_aug_wifi_sta_config (sta_wifi_config zero_sta_config) 3)
                          true true true true (Some (false, false)) 0)
         (world_init plat_ok [] [] ∅)) = (w', Ret tt) /\
    w_trace w' = [ObsWifiConnect; ObsWifiConnect; ObsWifiConnect;
                  ObsPost AUG_WIFI_STA_EVENT_FAILED_ATTEMPTS].
Proof.
  edestruct (retry_exhaustion
    (upd_sta (fun _ => mk_sta_globals (mk_aug_wifi_sta_config (sta_wifi_config zero_sta_config) 3)
                        true true true true (Some (false, false)) 0)
       (world_init plat_ok [] [] ∅)) 3) as (w' & Hrun & Ht & _);
    [reflexivity .. | unfold LOOP_QUEUE_SIZE; simpl; lia |].
  exists w'. split; [exact Hrun | exact Ht].
Defined.

(** C5: The first [max_retry] disconnections only retry: from a fresh
    counter with [max_retry = N], [k <= N] disconnections in a row call
    [esp_wifi_connect] [k] times, post nothing and leave the event group
    bits as they were.  At [k = N] this is where the code and spec
    section 8 part: the spec has [N] disconnections raise FailedAttempts,
    the code needs [N + 1] ([retry_exhaustion]). *)
Theorem retries_before_failure w N k :
  retry_num (w_sta w) = 0 -> max_retry (sta_config (w_sta w)) = Z.of_nat N -> (k <= N)%nat ->
  exists w',
    mapM_ event_handler (replicate k WIFI_EVENT_STA_DISCONNECTED) w = (w', Ret tt) /\
    w_queue w' = w_queue w /\ w_trace w' = w_trace w ++ replicate k ObsWifiConnect /\
    s_wifi_event_group (w_sta w') = s_wifi_event_group (w_sta w) /\
    retry_num (w_sta w') = Z.of_nat k.
Proof.
  intros Hr Hm Hk. exists (Nat.iter k retry_step w).
  rewrite disconnects_retry by lia.
  destruct (retry_iter_obs k w) as (Hr' & Ht' & Hq' & _ & _ & Hg').
  split; [done|]. split; [done|]. split; [done|]. split; [done|]. lia.
Qed.

Lemma retries_before_failure_witness :
  exists w',
    mapM_ event_handler (replicate 3 WIFI_EVENT_STA_DISCONNECTED)
      (upd_sta (fun _ => mk_sta_globals (mk_aug_wifi_sta_config (sta_wifi_config zero_sta_config) 3)
                          true true true true (Some (false, false)) 0)
         (world_init plat_ok [] [] ∅)) = (w', Ret tt) /\
    w_queue w' = [] /\ s_wifi_event_group (w_sta w') = Some (false, false).
Proof.
  edestruct (retries_before_failure
    (upd_sta (fun _ => mk_sta_globals (mk_aug_wifi_sta_config (sta_wifi_config zero_sta_config) 3)
                        true true true true (Some (false, false)) 0)
       (world_init plat_ok [] [] ∅)) 3 3) as (w' & Hrun & Hq & _ & Hg & _);
    [reflexivity | reflexivity | lia |].
  exists w'. split; [exact Hrun|]. split; [exact Hq | exact Hg].
Defined.

(** The bound the retry counter keeps. *)
Definition retry_inv (g : sta_globals) : Prop :=
  0 <= retry_num g <= Z.max 0 (max_retry (sta_config g)).

(** C27: Bound on the retry counter: whenever [event_handler] returns,
    [retry_num] is still within [0, max(0, max_retry)] and the
    configuration is untouched; since [max_retry] is a C [int], the
    [retry_num++] of the code never overflows. *)
Theorem event_handler_retry_bound e w w' :
  retry_inv (w_sta w) -> max_retry (sta_config (w_sta w)) <= INT_MAX ->
  event_handler e w = (w', Ret tt) ->
  retry_inv (w_sta w') /\ sta_config (w_sta w') = sta_config (w_sta w) /\
  retry_num (w_sta w') <= INT_MAX.
Proof.
  unfold retry_inv. intros Hinv Hmax Hrun.
  destruct e; unfold event_handler, esp_wifi_connect, emit, sta_update, xEventGroupSetBits,
    esp_event_post_to in Hrun; mrun;
    repeat case_match; simplify_eq/=; try (injection Hrun as <-); simpl;
    rewrite ?Z.ltb_lt, ?Z.ltb_ge in *; unfold INT_MAX in *; repeat split; lia.
Qed.

Lemma event_handler_retry_bound_witness :
  retry_inv (mk_sta_globals (mk_aug_wifi_sta_config (sta_wifi_config zero_sta_config) 2)
               true true true true (Some (false, false)) 1) /\
  exists w',
    event_handler WIFI_EVENT_STA_DISCONNECTED
      (upd_sta (fun _ => mk_sta_globals (mk_aug_wifi_sta_config (sta_wifi_config zero_sta_config) 2)
                          true true true true (Some (false, false)) 1)
         (world_init plat_ok [] [] ∅)) = (w', Ret tt) /\
    retry_inv (w_sta w') /\ retry_num (w_sta w') = 2.
Proof.
  split; [unfold retry_inv; simpl; lia|].
  eexists. split; [reflexivity|].
  split; [|reflexivity].
  apply (event_handler_retry_bound WIFI_EVENT_STA_DISCONNECTED
    (upd_sta (fun _ => mk_sta_globals (mk_aug_wifi_sta_config (sta_wifi_config zero_sta_config) 2)
                        true true true true (Some (false, false)) 1)
       (world_init plat_ok [] [] ∅))); [unfold retry_inv; simpl; lia | simpl; unfold INT_MAX; lia |].
  reflexivity.
Defined.
