(* ===== verification/WifiAp.v ===== *)
(** * WifiAp: the access point of src/main/aug_wifi_ap.c, the radio
    event delivery, and the driver calls of the scan

    The module's globals are [w_ap] of the world ([ap_config],
    [ap_netif], [event_loop_handle], [current_connections], the idle
    task handle and the handler instance).  Modelled here:
    - [wifi_event_handler], which counts the stations joining and
      leaving;
    - [deliver], the default event loop handing a radio event to every
      handler registered for it (the station's [event_handler] of
      [WifiSta] and the access point's);
    - [aug_get_least_freq_channel], the driver calls of
      src/main/aug_wifi_scan.c around the computation of [Scan];
    - [aug_wifi_ap_start], [aug_wifi_ap_stop], [aug_wifi_ap_is_init];
    - [idle_check_tick], one iteration of the loop of [idle_check_task]:
      after a fixed delay of DEFAULT_TIMEOUT_IDLE seconds it posts IDLE
      if no station is connected at that instant.

    The idle check is a sample at the end of each period, not a window
    measured from the moment the count drops to zero, and it posts again
    at every period while the count stays zero; [idle_tick_after_visit]
    and [idle_check_repeats] state these two behaviours. *)

From S2P Require Import Prelude Utility Config Platform Scan WifiSta.

(** ** The model *)

Definition ap_update (f : ap_globals -> ap_globals) : M World unit := modify (upd_ap f).

(** [wifi_event_handler] (aug_wifi_ap.c): the test is on the event id
    only; the handler is registered for WIFI_EVENT. *)
Definition wifi_event_handler (e : radio_event) : M World unit :=
  match e with
  | WIFI_EVENT_AP_STACONNECTED =>
      ap_update (fun g => set_current_connections (current_connections g + 1) g)
  | WIFI_EVENT_AP_STADISCONNECTED =>
      ap_update (fun g => set_current_connections (current_connections g - 1) g)
  | _ => mret tt
  end.

Definition is_wifi_event (e : radio_event) : bool :=
  match e with IP_EVENT_STA_GOT_IP => false | _ => true end.

(** The default event loop delivers a radio event to the station's
    handler when its instance for that base is registered, and to the
    access point's handler when its WIFI_EVENT instance is. *)
Definition deliver (e : radio_event) : M World unit :=
  g ← gets w_sta;
  (if (if is_wifi_event e then sta_instance_any_id g else sta_instance_got_ip g)
   then event_handler e else mret tt) ;;
  a ← gets w_ap;
  if is_wifi_event e && ap_instance_any_id a then wifi_event_handler e else mret tt.

(** [esp_wifi_start] in station mode: when it succeeds the driver emits
    WIFI_EVENT_STA_START at once (the event task outranks the caller). *)
Definition esp_wifi_start_sta : M World esp_err_t :=
  r ← call API_esp_wifi_start;
  (if Z.eqb r ESP_OK then deliver WIFI_EVENT_STA_START else mret tt) ;;
  mret r.

(** [aug_get_least_freq_channel] (aug_wifi_scan.c): every driver call
    is under ESP_ERROR_CHECK; the scan returns the records of [w_scan]. *)
Definition aug_get_least_freq_channel : M World Z :=
  ESP_ERROR_CHECK (call API_esp_wifi_init);
  ESP_ERROR_CHECK (call API_esp_wifi_set_mode);
  ESP_ERROR_CHECK esp_wifi_start_sta;
  ESP_ERROR_CHECK (call API_scan_get_ap_records);
  ESP_ERROR_CHECK (call API_scan_get_ap_num);
  primaries ← gets w_scan;
  ESP_ERROR_CHECK (call API_esp_wifi_stop);
  ESP_ERROR_CHECK (call API_esp_wifi_deinit);
  mret (least_freq_channel primaries).

(** [esp_event_handler_instance_register]: on success the instance is
    registered ([mark] records that). *)
Definition handler_instance_register (mark : World -> World) : M World esp_err_t :=
  r ← call API_handler_register;
  (if Z.eqb r ESP_OK then modify mark else mret tt) ;;
  mret r.

(** [aug_wifi_ap_start] without CONFIG_AP_MANUAL_CHANNEL. *)
Definition aug_wifi_ap_start : M World esp_err_t :=
  ap_update (set_ap_event_loop true) ;;
  ap_update (set_current_connections 0) ;;
  ap_update (set_idle_check_task_handle false) ;;
  channel ← aug_get_least_freq_channel;
  ap_update (fun g => set_ap_config
               (mk_aug_wifi_ap_config
                  (let c := ap_wifi_config (ap_config g) in
                   mk_wifi_ap_config (ap_ssid c) (ap_password c) (ap_ssid_len c) channel
                     (ap_authmode c) (ap_max_connection c) (ap_sae_pwe_h2e c) (ap_pmf_required c))
                  (timeout_idle (ap_config g))) g) ;;
  ap_update (set_ap_netif true) ;;
  AUG_RETURN_CHECK (call API_esp_wifi_init);
  AUG_RETURN_CHECK (handler_instance_register (upd_ap (set_ap_instance_any_id true)));
  AUG_RETURN_CHECK (call API_esp_wifi_set_mode);
  AUG_RETURN_CHECK (call API_esp_wifi_set_config);
  AUG_RETURN_CHECK (call API_esp_wifi_start);
  r ← call API_xTaskCreate;
  if Z.eqb r ESP_OK
  then ap_update (set_idle_check_task_handle true) ;; mret ESP_OK
  else mret ESP_FAIL.

(** [vTaskDelete(handle)]: a NULL handle deletes the calling task,
    which then never continues. *)
Definition vTaskDelete_idle : M World unit :=
  a ← gets w_ap;
  if idle_check_task_handle a then ap_update (set_idle_check_task_handle false) else block.

(** [aug_wifi_ap_stop]. *)
Definition aug_wifi_ap_stop : M World esp_err_t :=
  ap_update (set_current_connections 0) ;;
  vTaskDelete_idle ;;
  ap_update (set_idle_check_task_handle false) ;;
  AUG_RETURN_CHECK (handler_instance_unregister (upd_ap (set_ap_instance_any_id false)));
  AUG_RETURN_CHECK (call API_esp_wifi_stop);
  AUG_RETURN_CHECK (call API_esp_wifi_restore);
  AUG_RETURN_CHECK (call API_esp_wifi_deinit);
  ap_update (set_ap_netif false) ;;
  mret ESP_OK.

Definition aug_wifi_ap_is_init (w : World) : bool := ap_netif (w_ap w).

Definition aug_wifi_ap_get_config (w : World) : aug_wifi_ap_config_t := ap_config (w_ap w).

(** One iteration of [idle_check_task], after its vTaskDelay of
    DEFAULT_TIMEOUT_IDLE seconds. *)
Definition idle_check_tick : M World unit :=
  a ← gets w_ap;
  if Z.eqb (current_connections a) 0
  then ESP_ERROR_CHECK (esp_event_post_to (ap_event_loop a) AUG_WIFI_AP_EVENT_IDLE); mret tt
  else mret tt.

(** ** Lemmas *)

Lemma deliver_ap_only e w :
  sta_instance_any_id (w_sta w) = false -> sta_instance_got_ip (w_sta w) = false ->
  deliver e w = (if is_wifi_event e && ap_instance_any_id (w_ap w)
                 then wifi_event_handler e else mret tt) w.
Proof. intros H1 H2. unfold deliver. mrun. rewrite H1, H2. by destruct (is_wifi_event e). Qed.

Lemma idle_check_tick_post w :
  current_connections (w_ap w) = 0 -> ap_event_loop (w_ap w) = true ->
  (length (w_queue w) < LOOP_QUEUE_SIZE)%nat ->
  idle_check_tick w =
  (upd_trace (fun t => t ++ [ObsPost AUG_WIFI_AP_EVENT_IDLE])
     (upd_queue (fun q => q ++ [AUG_WIFI_AP_EVENT_IDLE]) w), Ret tt).
Proof.
  intros Hc Hl Hq. unfold idle_check_tick, esp_event_post_to. mrun. rewrite Hc, Hl. simpl.
  destruct (Nat.ltb_spec (length (w_queue w)) LOOP_QUEUE_SIZE); [reflexivity | lia].
Qed.

Lemma idle_check_tick_busy w :
  current_connections (w_ap w) <> 0 -> idle_check_tick w = (w, Ret tt).
Proof.
  intros Hc. unfold idle_check_tick. mrun.
  destruct (Z.eqb_spec (current_connections (w_ap w)) 0); [congruence | reflexivity].
Qed.

#[export] Hint Resolve idle_check_tick_post idle_check_tick_busy : aug.

(** ** Station counting and the idle check *)

(** The radio as it is while the access point runs: only the access
    point's handler is registered. *)
Definition ap_radio (w : World) : Prop :=
  sta_instance_any_id (w_sta w) = false /\ sta_instance_got_ip (w_sta w) = false /\
  ap_instance_any_id (w_ap w) = true.

Definition station_delta (e : radio_event) : Z :=
  match e with
  | WIFI_EVENT_AP_STACONNECTED => 1
  | WIFI_EVENT_AP_STADISCONNECTED => -1
  | _ => 0
  end.

Definition stations_net (es : list radio_event) : Z := foldr (fun e z => station_delta e + z) 0 es.

Lemma deliver_ap_step e w :
  ap_radio w ->
  exists w', deliver e w = (w', Ret tt) /\ ap_radio w' /\
    current_connections (w_ap w') = current_connections (w_ap w) + station_delta e /\
    w_queue w' = w_queue w /\ w_trace w' = w_trace w /\
    ap_event_loop (w_ap w') = ap_event_loop (w_ap w).
Proof.
  intros (H1 & H2 & H3). rewrite deliver_ap_only by done. rewrite H3.
  destruct e; simpl; eexists; (split; [reflexivity|]); unfold ap_radio; simpl;
    repeat split; auto; lia.
Qed.

(** C28: Station counting: while the access point runs, delivering any
    sequence of radio events changes [current_connections] by the number
    of stations that joined minus the number that left, and posts
    nothing. *)
Theorem ap_station_count es w :
  ap_radio w ->
  exists w', mapM_ deliver es w = (w', Ret tt) /\ ap_radio w' /\
    current_connections (w_ap w') = current_connections (w_ap w) + stations_net es /\
    w_queue w' = w_queue w /\ w_trace w' = w_trace w /\
    ap_event_loop (w_ap w') = ap_event_loop (w_ap w).
Proof.
  revert w. induction es as [|e es IH]; intros w Hw.
  - exists w. split; [reflexivity|]. split; [done|]. unfold stations_net. simpl. repeat split; lia.
  - destruct (deliver_ap_step e w Hw) as (w1 & Hrun1 & Hw1 & Hc1 & Hq1 & Ht1 & Hl1).
    destruct (IH w1 Hw1) as (w2 & Hrun2 & Hw2 & Hc2 & Hq2 & Ht2 & Hl2).
    exists w2. rewrite mapM_cons, (bind_run _ _ _ _ _ Hrun1).
    split; [done|]. split; [done|]. unfold stations_net in *. simpl.
    repeat split; congruence || lia.
Qed.

(** A world with the access point running and nothing else. *)
Definition ap_world (cc : Z) : World :=
  upd_ap (fun _ => mk_ap_globals zero_ap_config true true cc true true)
    (world_init plat_ok [] [] ∅).

Lemma ap_station_count_witness :
  ap_radio (ap_world 0) /\
  exists w', mapM_ deliver [WIFI_EVENT_AP_STACONNECTED; WIFI_EVENT_AP_STACONNECTED;
                            WIFI_EVENT_AP_STADISCONNECTED] (ap_world 0) = (w', Ret tt) /\
             current_connections (w_ap w') = 1.
Proof.
  assert (H : ap_radio (ap_world 0)) by (repeat split).
  split; [exact H|].
  destruct (ap_station_count [WIFI_EVENT_AP_STACONNECTED; WIFI_EVENT_AP_STACONNECTED;
                              WIFI_EVENT_AP_STADISCONNECTED] _ H) as (w' & Hrun & _ & Hc & _).
  exists w'. split; [exact Hrun|]. rewrite Hc. reflexivity.
Defined.

(** C29: The idle check is a sample, not a window: if the stations that
    joined during the period have all left by its end, the next
    iteration of [idle_check_task] posts AUG_WIFI_AP_EVENT_IDLE.  Spec
    section 8 has a station joining before the timeout reset the window
    and suppress the event. *)
Theorem idle_tick_after_visit es w :
  ap_radio w -> current_connections (w_ap w) = 0 -> ap_event_loop (w_ap w) = true ->
  (length (w_queue w) < LOOP_QUEUE_SIZE)%nat -> stations_net es = 0 ->
  exists w', (mapM_ deliver es ;; idle_check_tick) w = (w', Ret tt) /\
    w_queue w' = w_queue w ++ [AUG_WIFI_AP_EVENT_IDLE].
Proof.
  intros Hw Hc Hl Hq Hnet.
  destruct (ap_station_count es w Hw) as (w1 & Hrun & _ & Hc1 & Hq1 & _ & Hl1).
  rewrite (bind_run _ _ _ _ _ Hrun).
  rewrite idle_check_tick_post by (rewrite ?Hc1, ?Hl1, ?Hq1; lia || done).
  eexists. split; [reflexivity|]. simpl. by rewrite Hq1.
Qed.

Lemma idle_tick_after_visit_witness :
  exists w', (mapM_ deliver [WIFI_EVENT_AP_STACONNECTED; WIFI_EVENT_AP_STADISCONNECTED] ;;
              idle_check_tick) (ap_world 0) = (w', Ret tt) /\
             w_queue w' = [AUG_WIFI_AP_EVENT_IDLE].
Proof.
  apply (idle_tick_after_visit [WIFI_EVENT_AP_STACONNECTED; WIFI_EVENT_AP_STADISCONNECTED]
           (ap_world 0)); try reflexivity.
  - repeat split.
  - unfold LOOP_QUEUE_SIZE. simpl. lia.
Defined.

(** C30: The idle check repeats: while no station is connected, each
    period of [idle_check_task] posts AUG_WIFI_AP_EVENT_IDLE again (two
    periods, two events), where spec section 4.3 has the monitor raise
    IdleTimeout once and hold. *)
Theorem idle_check_repeats w :
  current_connections (w_ap w) = 0 -> ap_event_loop (w_ap w) = true -> w_queue w = [] ->
  exists w', (idle_check_tick ;; idle_check_tick) w = (w', Ret tt) /\
    w_queue w' = [AUG_WIFI_AP_EVENT_IDLE; AUG_WIFI_AP_EVENT_IDLE].
Proof.
  intros Hc Hl Hq.
  rewrite (bind_run _ _ _ _ _ (idle_check_tick_post w Hc Hl ltac:(rewrite Hq; unfold LOOP_QUEUE_SIZE; simpl; lia))).
  rewrite idle_check_tick_post by (simpl; rewrite ?Hc, ?Hl, ?Hq; unfold LOOP_QUEUE_SIZE; simpl; lia || done).
  eexists. split; [reflexivity|]. simpl. by rewrite Hq.
Qed.

Lemma idle_check_repeats_witness :
  exists w', (idle_check_tick ;; idle_check_tick) (ap_world 0) = (w', Ret tt) /\
    w_queue w' = [AUG_WIFI_AP_EVENT_IDLE; AUG_WIFI_AP_EVENT_IDLE].
Proof. apply idle_check_repeats; reflexivity. Defined.

(** What a start that succeeded leaves: the netif and the idle task. *)
Lemma aug_wifi_ap_start_ok :
  hoare (fun _ => True) aug_wifi_ap_start
    (fun r w => r = ESP_OK -> ap_netif (w_ap w) = true /\ idle_check_task_handle (w_ap w) = true).
Proof.
  unfold aug_wifi_ap_start.
  do 5 (eapply hoare_bind; [apply hoare_true|intros ?]).
  eapply hoare_bind; [apply (hoare_modify _ _ (fun _ w => ap_netif (w_ap w) = true)); done|intros ?].
  do 5 (eapply hoare_return_check; [apply (hoare_ok_keeps (fun w => ap_netif (w_ap w)) (fun b => b = true));
    unfold handler_instance_register; solve_keeps_with idtac|]).
  eapply hoare_bind; [apply (hoare_keeps (fun w => ap_netif (w_ap w))), keeps_call|]. intros r.
  apply hoare_if; intros _.
  - eapply hoare_bind; [apply (hoare_modify _ _ (fun _ w => ap_netif (w_ap w) = true /\
      idle_check_task_handle (w_ap w) = true)); done|]. intros ?. by apply hoare_ret.
  - apply hoare_ret. intros ? ? ?. discriminate.
Qed.

Lemma aug_wifi_ap_stop_ok :
  hoare (fun _ => True) aug_wifi_ap_stop (fun r w => r = ESP_OK -> ap_netif (w_ap w) = false).
Proof.
  unfold aug_wifi_ap_stop.
  do 3 (eapply hoare_bind; [apply hoare_true|intros ?]).
  do 4 (eapply hoare_return_check; [apply (hoare_ok_only _ _ (fun _ => True)); done|]).
  eapply hoare_bind; [apply (hoare_modify _ _ (fun _ w => ap_netif (w_ap w) = false)); done|].
  intros ?. by apply hoare_ret.
Qed.

(** C26: aug_wifi_ap.h says that [aug_wifi_ap_start] "allocates resources
    that should be freed with aug_wifi_ap_stop".  After a start that
    succeeded, a stop on a platform whose calls succeed returns ESP_OK
    with the netif destroyed, the handler instance unregistered and the
    idle check task deleted, and the module no longer initialised: a
    later start allocates them afresh without leaking the old ones. *)
Theorem aug_wifi_ap_start_stop_frees w w1 :
  aug_wifi_ap_start w = (w1, Ret ESP_OK) -> w_plat w1 = plat_ok ->
  exists w2, aug_wifi_ap_stop w1 = (w2, Ret ESP_OK) /\
    ap_netif (w_ap w2) = false /\ ap_instance_any_id (w_ap w2) = false /\
    idle_check_task_handle (w_ap w2) = false /\ aug_wifi_ap_is_init w2 = false.
Proof.
  intros H Hp. destruct (aug_wifi_ap_start_ok w w1 ESP_OK I H eq_refl) as [_ Hi].
  destruct w1 as [plat ? ? ? ? ? [c n l k i inst] ? ? ? ?]; simpl in *; subst plat i.
  eexists. split; [reflexivity|]. repeat split.
Qed.

Lemma aug_wifi_ap_start_stop_frees_witness :
  exists w2, aug_wifi_ap_stop (fst (aug_wifi_ap_start (world_init plat_ok [] [] ∅))) = (w2, Ret ESP_OK) /\
    ap_netif (w_ap w2) = false /\ ap_instance_any_id (w_ap w2) = false /\
    idle_check_task_handle (w_ap w2) = false /\ aug_wifi_ap_is_init w2 = false.
Proof.
  apply (aug_wifi_ap_start_stop_frees (world_init plat_ok [] [] ∅)); [vm_compute; reflexivity|reflexivity].
Defined.
