(* ===== verification/WifiConnect.v ===== *)
(** * WifiConnect: [aug_wifi_sta_connect] of src/main/aug_wifi_sta.c

    The connection sets up the station (netif, driver, event group, the
    two handler instances, mode, config, start) and then blocks in
    [xEventGroupWaitBits] until the station's [event_handler] sets the
    CONNECTED or the FAIL bit.  The radio events that drive the handler
    come from the world's script [w_radio]: the wait takes them one at a
    time and [deliver]s each to the registered handlers.  Its fuel is
    one more than the length of the script, which no delivery lengthens,
    so the wait ends in [Blocked] only when the script runs out before a
    bit is set: the task would wait for ever on a radio that is silent.

    The theorems: with a script of disconnections the connection gives
    up after [max_retry - retry_num] retries and returns ESP_FAIL having
    posted FAILED_ATTEMPTS once; a GOT_IP within the budget makes it
    return ESP_OK with the counter reset.  [retry_num] is not reset when
    a connection starts, so a connection started while an earlier retry
    sequence was under way gets fewer retries. *)

From S2P Require Import Prelude Utility Config Platform Scan WifiSta WifiAp.

(** ** The model *)

(** The next radio event of the script, if any. *)
Definition pop_radio : M World (option radio_event) := fun w =>
  match w_radio w with
  | [] => (w, Ret None)
  | e :: _ => (upd_radio (drop 1) w, Ret (Some e))
  end.

Definition bits_set (bits : bool * bool) : bool := fst bits || snd bits.

(** The waiting loop of [xEventGroupWaitBits(group, CONNECTED | FAIL,
    pdFALSE, pdFALSE, portMAX_DELAY)]. *)
Fixpoint wait_bits (fuel : nat) : M World (bool * bool) :=
  match fuel with
  | O => block
  | S fuel' =>
      g ← gets (fun w => s_wifi_event_group (w_sta w));
      match g with
      | None => abort NULL_DEREF
      | Some bits =>
          if bits_set bits then mret bits
          else oe ← pop_radio;
               match oe with
               | None => block
               | Some e => deliver e ;; wait_bits fuel'
               end
      end
  end.

Definition xEventGroupWaitBits : M World (bool * bool) :=
  w ← get; wait_bits (S (length (w_radio w))).

(** [aug_wifi_sta_connect]. *)
Definition aug_wifi_sta_connect : M World esp_err_t :=
  sta_update (set_sta_event_loop true) ;;
  sta_update (set_sta_netif true) ;;
  AUG_RETURN_CHECK (call API_esp_wifi_init);
  sta_update (set_s_wifi_event_group (Some (false, false))) ;;
  AUG_RETURN_CHECK (handler_instance_register (upd_sta (set_sta_instance_any_id true)));
  AUG_RETURN_CHECK (handler_instance_register (upd_sta (set_sta_instance_got_ip true)));
  AUG_RETURN_CHECK (call API_esp_wifi_set_mode);
  AUG_RETURN_CHECK (call API_esp_wifi_set_config);
  AUG_RETURN_CHECK esp_wifi_start_sta;
  bits ← xEventGroupWaitBits;
  if fst (bits : bool * bool) then mret ESP_OK
  else if snd bits then mret ESP_FAIL
  else mret ESP_FAIL.

(** ** The waiting loop *)

(** What the station handler sees: both of its instances registered,
    the group created, the loop handle set. *)
Definition sta_waiting (w : World) : Prop :=
  sta_instance_any_id (w_sta w) = true /\ sta_instance_got_ip (w_sta w) = true /\
  sta_event_loop (w_sta w) = true.

(** A retried disconnection taken from the script. *)
Definition wait_retry_step (w : World) : World := retry_step (upd_radio (drop 1) w).

Lemma deliver_sta_disconnected w :
  sta_instance_any_id (w_sta w) = true ->
  deliver WIFI_EVENT_STA_DISCONNECTED w = (event_handler WIFI_EVENT_STA_DISCONNECTED ;; mret tt) w.
Proof.
  intros H. unfold deliver, mbind, M_bind, gets, mret, M_ret. rewrite H. cbn [is_wifi_event andb].
  destruct (event_handler WIFI_EVENT_STA_DISCONNECTED w) as [w' [[]| | |]]; [|reflexivity..].
  by destruct (ap_instance_any_id (w_ap w')).
Qed.

Lemma deliver_sta_got_ip w :
  sta_instance_got_ip (w_sta w) = true ->
  deliver IP_EVENT_STA_GOT_IP w = (event_handler IP_EVENT_STA_GOT_IP ;; mret tt) w.
Proof.
  intros H. unfold deliver, mbind, M_bind, gets, mret, M_ret. rewrite H. cbn [is_wifi_event andb].
  by destruct (event_handler IP_EVENT_STA_GOT_IP w) as [w' [[]| | |]].
Qed.

Lemma wait_retry_obs k w :
  let w' := Nat.iter k wait_retry_step w in
  retry_num (w_sta w') = retry_num (w_sta w) + Z.of_nat k /\
  w_trace w' = w_trace w ++ replicate k ObsWifiConnect /\
  w_queue w' = w_queue w /\ w_radio w' = drop k (w_radio w) /\
  sta_config (w_sta w') = sta_config (w_sta w) /\
  s_wifi_event_group (w_sta w') = s_wifi_event_group (w_sta w) /\
  (sta_waiting w' <-> sta_waiting w).
Proof.
  induction k as [|k IH]; cbv zeta in *.
  - simpl. rewrite app_nil_r. split; [lia|]. repeat (split; [reflexivity|]). reflexivity.
  - rewrite Nat.iter_succ. set (w0 := Nat.iter k wait_retry_step w) in *.
    destruct IH as (Hr & Ht & Hq & Hrad & Hc & Hg & Hs). unfold wait_retry_step, retry_step.
    unfold sta_waiting in *. simpl.
    rewrite Hr, Ht, Hq, Hrad, Hc, Hg, drop_drop. rewrite <- Hs.
    split; [lia|]. split; [by rewrite <- app_assoc, <- replicate_S_end|].
    split; [reflexivity|]. split; [f_equal; lia|]. split; [reflexivity|].
    split; [reflexivity | tauto].
Qed.

(** While the counter has room, each disconnection of the script is
    retried and the wait goes on. *)
Lemma wait_retries k fuel w rest :
  s_wifi_event_group (w_sta w) = Some (false, false) -> sta_waiting w ->
  w_radio w = replicate k WIFI_EVENT_STA_DISCONNECTED ++ rest ->
  retry_num (w_sta w) + Z.of_nat k <= max_retry (sta_config (w_sta w)) ->
  wait_bits (k + fuel) w = wait_bits fuel (Nat.iter k wait_retry_step w).
Proof.
  revert w. induction k as [|k IH]; intros w Hg Hs Hrad Hk; [reflexivity|].
  rewrite Nat.iter_succ_r, Nat.add_succ_l. cbn [wait_bits].
  rewrite bind_gets, Hg. cbn [bits_set fst snd orb].
  rewrite (bind_run _ _ _ (upd_radio (drop 1) w) (Some WIFI_EVENT_STA_DISCONNECTED))
    by (unfold pop_radio; by rewrite Hrad).
  destruct Hs as (Hs1 & Hs2 & Hs3).
  rewrite (bind_run _ _ _ (wait_retry_step w) tt).
  2:{ rewrite deliver_sta_disconnected by done.
      rewrite (bind_run _ _ _ (wait_retry_step w) tt); [reflexivity|].
      apply event_handler_retry. simpl. lia. }
  apply IH; unfold wait_retry_step, retry_step, sta_waiting; simpl; auto; try lia.
  by rewrite Hrad.
Qed.

(** The disconnection that exhausts the counter ends the wait. *)
Lemma wait_give_up fuel w rest :
  s_wifi_event_group (w_sta w) = Some (false, false) -> sta_waiting w ->
  w_radio w = WIFI_EVENT_STA_DISCONNECTED :: rest ->
  max_retry (sta_config (w_sta w)) <= retry_num (w_sta w) ->
  (length (w_queue w) < LOOP_QUEUE_SIZE)%nat ->
  wait_bits (S (S fuel)) w = (fail_step (upd_radio (drop 1) w), Ret (false, true)).
Proof.
  intros Hg (Hs1 & Hs2 & Hs3) Hrad Hk Hq. cbn [wait_bits].
  rewrite bind_gets, Hg. cbn [bits_set fst snd orb].
  rewrite (bind_run _ _ _ (upd_radio (drop 1) w) (Some WIFI_EVENT_STA_DISCONNECTED))
    by (unfold pop_radio; by rewrite Hrad).
  rewrite (bind_run _ _ _ (fail_step (upd_radio (drop 1) w)) tt).
  2:{ rewrite deliver_sta_disconnected by done.
      rewrite (bind_run _ _ _ (fail_step (upd_radio (drop 1) w)) tt); [reflexivity|].
      by apply event_handler_give_up with (bits := (false, false)). }
  cbn [wait_bits]. rewrite bind_gets. unfold fail_step. simpl. rewrite Hg. reflexivity.
Qed.

(** A GOT_IP ends the wait with the CONNECTED bit. *)
Lemma wait_got_ip fuel w rest :
  s_wifi_event_group (w_sta w) = Some (false, false) -> sta_waiting w ->
  w_radio w = IP_EVENT_STA_GOT_IP :: rest ->
  exists w', wait_bits (S (S fuel)) w = (w', Ret (true, false)) /\
    retry_num (w_sta w') = 0 /\ w_radio w' = rest /\ w_queue w' = w_queue w /\
    w_trace w' = w_trace w /\ sta_netif (w_sta w') = sta_netif (w_sta w).
Proof.
  intros Hg (Hs1 & Hs2 & Hs3) Hrad. cbn [wait_bits].
  rewrite bind_gets, Hg. cbn [bits_set fst snd orb].
  rewrite (bind_run _ _ _ (upd_radio (drop 1) w) (Some IP_EVENT_STA_GOT_IP))
    by (unfold pop_radio; by rewrite Hrad).
  set (w1 := upd_radio (drop 1) w).
  assert (Hd : deliver IP_EVENT_STA_GOT_IP w1 =
            (upd_sta (set_s_wifi_event_group (Some (true, false))) (upd_sta (set_retry_num 0) w1),
             Ret tt)).
  { rewrite deliver_sta_got_ip by done.
    rewrite (bind_run _ _ _ (upd_sta (set_s_wifi_event_group (Some (true, false)))
                               (upd_sta (set_retry_num 0) w1)) tt); [reflexivity|].
    by apply (event_handler_got_ip _ (false, false)). }
  rewrite (bind_run _ _ _ _ _ Hd). cbn [wait_bits]. rewrite bind_gets.
  eexists. split; [reflexivity|]. subst w1. simpl. rewrite Hrad. repeat split.
Qed.

(** The world in which the wait starts when every call succeeds: the
    STA_START that the start emits has made the first connect attempt. *)
Definition connect_setup (w : World) : World :=
  upd_trace (fun t => t ++ [ObsWifiConnect])
    (upd_sta (set_sta_instance_got_ip true)
      (upd_sta (set_sta_instance_any_id true)
        (upd_sta (set_s_wifi_event_group (Some (false, false)))
          (upd_sta (set_sta_netif true) (upd_sta (set_sta_event_loop true) w))))).

#[local] Opaque wait_bits.
Lemma sta_connect_healthy w :
  w_plat w = plat_ok ->
  aug_wifi_sta_connect w =
  (bits ← wait_bits (S (length (w_radio w)));
   if fst (bits : bool * bool) then mret ESP_OK else if snd bits then mret ESP_FAIL
   else mret ESP_FAIL) (connect_setup w).
Proof.
  intros Hp. unfold aug_wifi_sta_connect, xEventGroupWaitBits, sta_update, modify, return_check,
    handler_instance_register, esp_wifi_start_sta, call, deliver, event_handler, esp_wifi_connect,
    emit, mbind, M_bind, mret, M_ret, gets, get.
  destruct w as [plat ? ? ? ? ? ap ? ? ? ?]; simpl in Hp; subst plat. simpl.
  destruct (ap_instance_any_id ap); reflexivity.
Qed.
#[local] Transparent wait_bits.

Lemma connect_setup_obs w :
  let w0 := connect_setup w in
  s_wifi_event_group (w_sta w0) = Some (false, false) /\ sta_waiting w0 /\
  w_radio w0 = w_radio w /\ w_queue w0 = w_queue w /\
  w_trace w0 = w_trace w ++ [ObsWifiConnect] /\
  retry_num (w_sta w0) = retry_num (w_sta w) /\ sta_config (w_sta w0) = sta_config (w_sta w) /\
  sta_netif (w_sta w0) = true.
Proof. repeat split. Qed.

(** The world in which a connection that gives up after [k] retries
    ends. *)
Definition connect_fail_world (k : nat) (w : World) : World :=
  fail_step (upd_radio (drop 1) (Nat.iter k wait_retry_step (connect_setup w))).

Lemma connect_give_up_run w k rest :
  w_plat w = plat_ok ->
  w_radio w = replicate k WIFI_EVENT_STA_DISCONNECTED ++ WIFI_EVENT_STA_DISCONNECTED :: rest ->
  retry_num (w_sta w) + Z.of_nat k = max_retry (sta_config (w_sta w)) ->
  (length (w_queue w) < LOOP_QUEUE_SIZE)%nat ->
  aug_wifi_sta_connect w = (connect_fail_world k w, Ret ESP_FAIL).
Proof.
  intros Hp Hrad Hk Hq. rewrite sta_connect_healthy by done.
  destruct (connect_setup_obs w) as (Hg0 & Hs0 & Hr0 & Hq0 & Ht0 & Hn0 & Hc0 & _).
  assert (Hlen : (S (length (w_radio w)) = k + S (S (length rest)))%nat).
  { rewrite Hrad, length_app, length_replicate. simpl. lia. }
  destruct (wait_retry_obs k (connect_setup w)) as (Hr1 & Ht1 & Hq1 & Hrad1 & Hc1 & Hg1 & Hs1).
  assert (Hw : wait_bits (k + S (S (length rest))) (connect_setup w) =
               (connect_fail_world k w, Ret (false, true))).
  { rewrite (wait_retries k _ _ (WIFI_EVENT_STA_DISCONNECTED :: rest)); try congruence;
      [|rewrite Hn0, Hc0; lia].
    apply wait_give_up with rest; try tauto; try congruence; [|rewrite Hr1, Hc1, Hn0, Hc0; lia].
    rewrite Hrad1, Hr0, Hrad, drop_app_length'; [done|by rewrite length_replicate]. }
  by rewrite Hlen, (bind_run _ _ _ _ _ Hw).
Qed.

(** What the retries leave as it was. *)
Lemma wait_retry_iter_frame {B} (f : World -> B) k w :
  (forall w, f (wait_retry_step w) = f w) -> f (Nat.iter k wait_retry_step w) = f w.
Proof. intros Hf. induction k as [|k IH]; [done|]. by rewrite Nat.iter_succ, Hf. Qed.

Lemma connect_fail_world_obs k w w' :
  w' = connect_fail_world k w ->
  w_queue w' = w_queue w ++ [AUG_WIFI_STA_EVENT_FAILED_ATTEMPTS] /\
  w_trace w' = w_trace w ++ replicate (S k) ObsWifiConnect
                 ++ [ObsPost AUG_WIFI_STA_EVENT_FAILED_ATTEMPTS] /\
  retry_num (w_sta w') = 0 /\ s_wifi_event_group (w_sta w') = Some (false, true) /\
  w_radio w' = drop (S k) (w_radio w) /\ sta_netif (w_sta w') = true /\
  sta_config (w_sta w') = sta_config (w_sta w) /\
  w_plat w' = w_plat w /\ w_handlers w' = w_handlers w /\ w_ap w' = w_ap w /\
  w_http w' = w_http w /\ w_mqtt w' = w_mqtt w /\ w_nvs w' = w_nvs w.
Proof.
  intros ->. destruct (connect_setup_obs w) as (Hg0 & _ & Hr0 & Hq0 & Ht0 & _ & Hc0 & Hn0).
  destruct (wait_retry_obs k (connect_setup w)) as (_ & Ht1 & Hq1 & Hrad1 & Hc1 & Hg1 & _).
  unfold connect_fail_world, fail_step. simpl. rewrite Hg1, Hg0. simpl.
  rewrite Hq1, Hq0, Ht1, Ht0, Hrad1, Hr0, Hc1, Hc0, drop_drop, Nat.add_1_r.
  rewrite !(wait_retry_iter_frame (fun w => sta_netif (w_sta w))),
    !(wait_retry_iter_frame w_plat), !(wait_retry_iter_frame w_handlers),
    !(wait_retry_iter_frame w_ap), !(wait_retry_iter_frame w_http),
    !(wait_retry_iter_frame w_mqtt), !(wait_retry_iter_frame w_nvs) by done.
  repeat split; by rewrite <- ?app_assoc.
Qed.

(** C2: With every platform call succeeding and a radio that answers
    each attempt with a disconnection, [aug_wifi_sta_connect] makes the
    first attempt and [max_retry - retry_num] retries, then gives up:
    it returns ESP_FAIL, has posted FAILED_ATTEMPTS exactly once, has
    reset the counter and set the FAIL bit, and has consumed exactly the
    disconnections it needed. *)
Theorem sta_connect_gives_up w k rest :
  w_plat w = plat_ok ->
  w_radio w = replicate k WIFI_EVENT_STA_DISCONNECTED ++ WIFI_EVENT_STA_DISCONNECTED :: rest ->
  retry_num (w_sta w) + Z.of_nat k = max_retry (sta_config (w_sta w)) ->
  (length (w_queue w) < LOOP_QUEUE_SIZE)%nat ->
  exists w', aug_wifi_sta_connect w = (w', Ret ESP_FAIL) /\
    w_queue w' = w_queue w ++ [AUG_WIFI_STA_EVENT_FAILED_ATTEMPTS] /\
    w_trace w' = w_trace w ++ replicate (S k) ObsWifiConnect
                   ++ [ObsPost AUG_WIFI_STA_EVENT_FAILED_ATTEMPTS] /\
    retry_num (w_sta w') = 0 /\ s_wifi_event_group (w_sta w') = Some (false, true) /\
    w_radio w' = rest.
Proof.
  intros Hp Hrad Hk Hq. exists (connect_fail_world k w).
  rewrite (connect_give_up_run w k rest) by done.
  destruct (connect_fail_world_obs k w _ eq_refl) as (Hq' & Ht' & Hr' & Hg' & Hrad' & _).
  repeat split; try done. rewrite Hrad', Hrad.
  replace (S k) with (length (replicate k WIFI_EVENT_STA_DISCONNECTED) + 1)%nat
    by (rewrite length_replicate; lia).
  by rewrite <- drop_drop, drop_app_length.
Qed.

(** C3: With every platform call succeeding, a radio that answers with
    [k] disconnections and then GOT_IP, and room for [k] retries in the
    counter, [aug_wifi_sta_connect] returns ESP_OK: it has connected
    [k + 1] times, posted nothing, reset the counter, kept the network
    interface and consumed the script up to the GOT_IP. *)
Theorem sta_connect_succeeds w k rest :
  w_plat w = plat_ok ->
  w_radio w = replicate k WIFI_EVENT_STA_DISCONNECTED ++ IP_EVENT_STA_GOT_IP :: rest ->
  retry_num (w_sta w) + Z.of_nat k <= max_retry (sta_config (w_sta w)) ->
  exists w', aug_wifi_sta_connect w = (w', Ret ESP_OK) /\
    w_queue w' = w_queue w /\ w_trace w' = w_trace w ++ replicate (S k) ObsWifiConnect /\
    retry_num (w_sta w') = 0 /\ sta_netif (w_sta w') = true /\ w_radio w' = rest.
Proof.
  intros Hp Hrad Hk. rewrite sta_connect_healthy by done.
  destruct (connect_setup_obs w) as (Hg0 & Hs0 & Hr0 & Hq0 & Ht0 & Hn0 & Hc0 & Hnet0).
  set (w0 := connect_setup w) in *.
  assert (Hlen : (S (length (w_radio w)) = k + S (S (length rest)))%nat).
  { rewrite Hrad, length_app, length_replicate. simpl. lia. }
  destruct (wait_retry_obs k w0) as (Hr1 & Ht1 & Hq1 & Hrad1 & Hc1 & Hg1 & Hs1).
  destruct (wait_got_ip (length rest) (Nat.iter k wait_retry_step w0) rest)
    as (w2 & Hw2 & Hr2 & Hrad2 & Hq2 & Ht2 & Hnet2); try tauto; try congruence.
  { rewrite Hrad1, Hr0, Hrad, drop_app_length'; [done|by rewrite length_replicate]. }
  assert (Hw : wait_bits (k + S (S (length rest))) w0 = (w2, Ret (true, false))).
  { rewrite (wait_retries k _ w0 (IP_EVENT_STA_GOT_IP :: rest)); try congruence || (rewrite Hn0, Hc0; lia). }
  rewrite Hlen, (bind_run _ _ _ _ _ Hw). exists w2. split; [reflexivity|].
  rewrite Hq2, Hq1, Hq0, Ht2, Ht1, Ht0, Hnet2. rewrite <- app_assoc.
  repeat split; try done. clear -Hnet0. by induction k; [|rewrite Nat.iter_succ].
Qed.

(** A world whose station configuration allows [r] retries and whose
    radio plays [radio]. *)
Definition sta_world (r : Z) (radio : list radio_event) : World :=
  upd_sta (set_sta_config (mk_aug_wifi_sta_config (sta_wifi_config zero_sta_config) r))
    (world_init plat_ok radio [] ∅).

Lemma sta_connect_gives_up_witness :
  exists w', aug_wifi_sta_connect (sta_world 2 (replicate 3 WIFI_EVENT_STA_DISCONNECTED)) =
             (w', Ret ESP_FAIL) /\ w_queue w' = [AUG_WIFI_STA_EVENT_FAILED_ATTEMPTS].
Proof.
  edestruct (sta_connect_gives_up (sta_world 2 (replicate 3 WIFI_EVENT_STA_DISCONNECTED)) 2 [])
    as (w' & Hrun & Hq & _); [reflexivity | reflexivity | reflexivity | vm_compute; lia |].
  exists w'. split; [exact Hrun | exact Hq].
Defined.

Lemma sta_connect_succeeds_witness :
  exists w', aug_wifi_sta_connect
               (sta_world 2 [WIFI_EVENT_STA_DISCONNECTED; IP_EVENT_STA_GOT_IP]) = (w', Ret ESP_OK) /\
             retry_num (w_sta w') = 0.
Proof.
  edestruct (sta_connect_succeeds (sta_world 2 [WIFI_EVENT_STA_DISCONNECTED; IP_EVENT_STA_GOT_IP]) 1 [])
    as (w' & Hrun & _ & _ & Hr & _); [reflexivity | reflexivity | simpl; lia |].
  exists w'. split; [exact Hrun | exact Hr].
Defined.
