(* ===== verification/Mqtt.v ===== *)
(** * Mqtt: the MQTT client module of src/main/aug_mqtt_client.c

    The module's globals are [w_mqtt] of the world: the URI buffer
    [uri_str] of MQTT_MAX_URI_LEN + 1 bytes, the static client
    configuration [mqtt_config] (its broker URI pointer), the client
    handle, and the flag [is_connected] that [mqtt_event_handler] keeps.
    [aug_mqtt_get_uri] hands out the buffer's address as an
    [aug_mqtt_uri_t]; its users read the bytes behind it ([uri_bytes])
    when they use them.  The esp-mqtt
    client itself is a library; what the module relies on is modelled
    here as the library documents it: [esp_mqtt_client_init] copies the
    broker URI of the configuration (which main.c points at [uri_str])
    and returns NULL on failure; start and stop take a NULL handle as
    ESP_ERR_INVALID_ARG, and stop refuses a client that is not running
    with ESP_FAIL; [esp_mqtt_client_set_uri] copies the URI again.  The
    flag [mqtt_running] and the copy [mqtt_client_uri] are the library's
    state.

    The theorems: [aug_mqtt_init] on a configuration pointing at the
    buffer gives a client on the buffer's URI;
    [aug_mqtt_set_default_uri] leaves the default URI in the buffer as
    a C string; [aug_mqtt_set_uri] reconnects with the
    buffer's URI when the client runs, and fails with ESP_FAIL, leaving
    the client on its old URI, when it does not. *)

From S2P Require Import Prelude Config Platform.

(** ** The model *)

Definition mqtt_update (f : mqtt_globals -> mqtt_globals) : M World unit :=
  modify (upd_mqtt f).

(** The event ids [mqtt_event_handler] tells apart. *)
Inductive esp_mqtt_event_id_t : Type :=
| MQTT_EVENT_CONNECTED
| MQTT_EVENT_DISCONNECTED
| MQTT_EVENT_SUBSCRIBED
| MQTT_EVENT_UNSUBSCRIBED
| MQTT_EVENT_PUBLISHED
| MQTT_EVENT_DATA
| MQTT_EVENT_ERROR
| MQTT_EVENT_OTHER.

(** [mqtt_event_handler]: only the connection flag changes; the other
    cases log. *)
Definition mqtt_event_handler (e : esp_mqtt_event_id_t) : M World unit :=
  match e with
  | MQTT_EVENT_CONNECTED => mqtt_update (set_is_connected true)
  | MQTT_EVENT_DISCONNECTED => mqtt_update (set_is_connected false)
  | _ => mret tt
  end.

(** The esp-mqtt calls.  [esp_mqtt_client_init(&mqtt_config)] copies the
    string [broker.address.uri] points at; with a NULL URI the client
    has no broker address (the empty URI). *)
Definition esp_mqtt_client_init : M World bool :=
  r ← call API_mqtt_client_init;
  if Z.eqb r ESP_OK
  then mqtt_update (fun g =>
         set_mqtt_client_uri
           (if broker_address_uri (mqtt_config g) then c_str (uri_str g) else ""%string) g) ;;
       mret true
  else mret false.

Definition esp_mqtt_client_start : M World esp_err_t :=
  g ← gets w_mqtt;
  if negb (mqtt_client_handle g) then mret ESP_ERR_INVALID_ARG
  else if mqtt_running g then mret ESP_FAIL
  else r ← call API_mqtt_client_start;
       (if Z.eqb r ESP_OK then mqtt_update (set_mqtt_running true) else mret tt) ;;
       mret r.

Definition esp_mqtt_client_stop : M World esp_err_t :=
  g ← gets w_mqtt;
  if negb (mqtt_client_handle g) then mret ESP_ERR_INVALID_ARG
  else if negb (mqtt_running g) then mret ESP_FAIL
  else r ← call API_mqtt_client_stop;
       (if Z.eqb r ESP_OK then mqtt_update (set_mqtt_running false) else mret tt) ;;
       mret r.

Definition esp_mqtt_client_set_uri : M World esp_err_t :=
  g ← gets w_mqtt;
  if negb (mqtt_client_handle g) then mret ESP_ERR_INVALID_ARG
  else r ← call API_mqtt_client_set_uri;
       (if Z.eqb r ESP_OK
        then mqtt_update (fun g => set_mqtt_client_uri (c_str (uri_str g)) g) else mret tt) ;;
       mret r.

Definition esp_mqtt_client_destroy : M World esp_err_t :=
  g ← gets w_mqtt;
  if negb (mqtt_client_handle g) then mret ESP_ERR_INVALID_ARG
  else r ← call API_mqtt_client_destroy;
       (if Z.eqb r ESP_OK then mqtt_update (set_mqtt_running false) else mret tt) ;;
       mret r.

(** [aug_mqtt_init]. *)
Definition aug_mqtt_init : M World esp_err_t :=
  h ← esp_mqtt_client_init;
  mqtt_update (set_mqtt_client_handle h) ;;
  if negb h then mret ESP_FAIL
  else AUG_RETURN_CHECK (call API_mqtt_register_event);
       mret ESP_OK.

(** [aug_mqtt_deinit]. *)
Definition aug_mqtt_deinit : M World esp_err_t :=
  AUG_RETURN_CHECK esp_mqtt_client_destroy;
  mqtt_update (set_mqtt_client_handle false) ;;
  mqtt_update (set_is_connected false) ;;
  mret ESP_OK.

Definition aug_mqtt_start : M World esp_err_t := esp_mqtt_client_start.

Definition aug_mqtt_stop : M World esp_err_t := esp_mqtt_client_stop.

(** [aug_mqtt_set_uri]. *)
Definition aug_mqtt_set_uri : M World esp_err_t :=
  AUG_RETURN_CHECK esp_mqtt_client_stop;
  AUG_RETURN_CHECK esp_mqtt_client_set_uri;
  AUG_RETURN_CHECK esp_mqtt_client_start;
  mret ESP_OK.

(** [aug_mqtt_uri_t] (aug_mqtt_client.h).  Its [char* uri_str] is a
    pointer (non-NULL: the address of the module's buffer [uri_str]);
    the projection is [mqtt_uri_str], [uri_str] naming the buffer. *)
Record aug_mqtt_uri_t := mk_aug_mqtt_uri {
  mqtt_uri_str : bool;
  uri_len : nat
}.

(** The bytes behind such a pointer: the buffer, read when it is used. *)
Definition uri_bytes (p : bool) (w : World) : list ascii :=
  if p then uri_str (w_mqtt w) else [].

(** [aug_mqtt_get_uri]: the address of the buffer and the length the
    callers use, MQTT_MAX_URI_LEN, one byte short of the buffer. *)
Definition aug_mqtt_get_uri : aug_mqtt_uri_t :=
  mk_aug_mqtt_uri true MQTT_MAX_URI_LEN.

(** [aug_mqtt_get_config]: the static [mqtt_config], which main.c
    writes through the pointer returned ([set_broker_address_uri]). *)
Definition aug_mqtt_get_config (w : World) : esp_mqtt_client_config_t :=
  mqtt_config (w_mqtt w).

Definition set_broker_address_uri (v : bool) (c : esp_mqtt_client_config_t) : esp_mqtt_client_config_t :=
  mk_esp_mqtt_client_config v.

(** [aug_mqtt_set_default_uri], with the Kconfig CONFIG_BROKER_URI as
    argument: the buffer is zeroed, then the literal with its NUL is
    copied in. *)
Definition aug_mqtt_set_default_uri (DEFAULT_MQTT_BROKER_URI : string) : M World unit :=
  mqtt_update (fun g =>
    set_uri_str (memcpy (replicate (S MQTT_MAX_URI_LEN) NUL) (c_bytes DEFAULT_MQTT_BROKER_URI)) g).

Definition aug_mqtt_is_init (w : World) : bool := mqtt_client_handle (w_mqtt w).

Definition aug_mqtt_is_connected (w : World) : bool := is_connected (w_mqtt w).

(** ** Lemmas *)

Lemma esp_mqtt_client_stop_not_running w :
  mqtt_client_handle (w_mqtt w) = true -> mqtt_running (w_mqtt w) = false ->
  esp_mqtt_client_stop w = (w, Ret ESP_FAIL).
Proof. intros Hh Hr. unfold esp_mqtt_client_stop. mrun. by rewrite Hh, Hr. Qed.

Lemma esp_mqtt_client_stop_ok w :
  w_plat w = plat_ok -> mqtt_client_handle (w_mqtt w) = true -> mqtt_running (w_mqtt w) = true ->
  esp_mqtt_client_stop w = (upd_mqtt (set_mqtt_running false) w, Ret ESP_OK).
Proof.
  intros Hp Hh Hr. unfold esp_mqtt_client_stop, call, mqtt_update. mrun.
  rewrite Hh, Hr. simpl. rewrite Hp. reflexivity.
Qed.

(** ** Properties *)

(** [aug_mqtt_set_default_uri] leaves in the buffer a C string equal
    to the default broker URI, and keeps the buffer's size, whenever the
    literal fits (the static_assert of the code) and holds no NUL. *)
Theorem set_default_uri_c_str u w :
  (sizeof_str u <= S MQTT_MAX_URI_LEN)%nat -> NUL ∉ String.list_ascii_of_string u ->
  exists w', aug_mqtt_set_default_uri u w = (w', Ret tt) /\
    c_str (uri_str (w_mqtt w')) = u /\ length (uri_str (w_mqtt w')) = S MQTT_MAX_URI_LEN.
Proof.
  intros Hs Hn. eexists. split; [reflexivity|]. cbn [upd_mqtt w_mqtt set_uri_str uri_str]. split.
  - by apply c_str_memcpy.
  - rewrite length_memcpy; [apply length_replicate|]. by rewrite length_c_bytes, length_replicate.
Qed.

Lemma set_default_uri_c_str_witness :
  exists w', aug_mqtt_set_default_uri "mqtt://broker"%string (world_init plat_ok [] [] ∅) = (w', Ret tt) /\
    c_str (uri_str (w_mqtt w')) = "mqtt://broker"%string.
Proof.
  destruct (set_default_uri_c_str "mqtt://broker"%string (world_init plat_ok [] [] ∅))
    as (w' & Hrun & Hc & _); [vm_compute; lia | apply (bool_decide_unpack _); vm_compute; reflexivity |].
  exists w'. split; [exact Hrun | exact Hc].
Defined.

(** C32: [aug_mqtt_set_uri] on a client that is initialised but not
    running fails at its first step: esp_mqtt_client_stop returns
    ESP_FAIL, so the new URI is not given to the client. *)
Theorem aug_mqtt_set_uri_not_running w :
  mqtt_client_handle (w_mqtt w) = true -> mqtt_running (w_mqtt w) = false ->
  aug_mqtt_set_uri w = (w, Ret ESP_FAIL).
Proof.
  intros Hh Hr. unfold aug_mqtt_set_uri.
  by apply return_check_err with (s' := w) (e := ESP_FAIL); [apply esp_mqtt_client_stop_not_running|].
Qed.

(** On a running client and a platform whose calls succeed,
    [aug_mqtt_set_uri] restarts the client on the URI of the buffer. *)
Theorem aug_mqtt_set_uri_ok w :
  w_plat w = plat_ok -> mqtt_client_handle (w_mqtt w) = true -> mqtt_running (w_mqtt w) = true ->
  exists w', aug_mqtt_set_uri w = (w', Ret ESP_OK) /\
    mqtt_client_uri (w_mqtt w') = c_str (uri_str (w_mqtt w)) /\ mqtt_running (w_mqtt w') = true /\
    uri_str (w_mqtt w') = uri_str (w_mqtt w).
Proof.
  intros Hp Hh Hr. destruct w as [plat ? ? ? ? ? ? ? [] ? ?]; simpl in *; subst.
  eexists. split; [reflexivity|]. done.
Qed.

Lemma aug_mqtt_set_uri_ok_witness :
  exists w', aug_mqtt_set_uri (upd_mqtt (set_mqtt_running true ∘ set_mqtt_client_handle true)
                                 (world_init plat_ok [] [] ∅)) = (w', Ret ESP_OK) /\
             mqtt_running (w_mqtt w') = true.
Proof.
  destruct (aug_mqtt_set_uri_ok (upd_mqtt (set_mqtt_running true ∘ set_mqtt_client_handle true)
              (world_init plat_ok [] [] ∅))) as (w' & Hrun & _ & Hr & _); try reflexivity.
  exists w'. split; [exact Hrun | exact Hr].
Defined.

Lemma aug_mqtt_set_uri_not_running_witness :
  aug_mqtt_set_uri (upd_mqtt (set_mqtt_client_handle true) (world_init plat_ok [] [] ∅)) =
  (upd_mqtt (set_mqtt_client_handle true) (world_init plat_ok [] [] ∅), Ret ESP_FAIL).
Proof. apply aug_mqtt_set_uri_not_running; reflexivity. Defined.

(** [aug_mqtt_init] on a configuration whose broker URI points at
    [uri_str]: the client exists and holds the C string of the buffer. *)
Lemma aug_mqtt_init_uri :
  hoare (fun w => broker_address_uri (mqtt_config (w_mqtt w)) = true) aug_mqtt_init
    (fun r w => r = ESP_OK -> mqtt_client_handle (w_mqtt w) = true /\
       broker_address_uri (mqtt_config (w_mqtt w)) = true /\
       mqtt_client_uri (w_mqtt w) = c_str (uri_str (w_mqtt w))).
Proof.
  intros w w' r Hb. unfold aug_mqtt_init, esp_mqtt_client_init, call, mqtt_update, upd_mqtt. mrun.
  destruct (Z.eqb_spec (w_plat w API_mqtt_client_init) ESP_OK); simpl;
    [|intros H; inversion H; discriminate].
  rewrite Hb.
  destruct (Z.eqb_spec (w_plat w API_mqtt_register_event) ESP_OK); simpl; intros H; inversion H; subst;
    [done|congruence].
Qed.

(** [aug_mqtt_start] changes only whether the client runs. *)
Lemma keeps_mqtt_start_client :
  keeps (fun w => (mqtt_client_handle (w_mqtt w), mqtt_config (w_mqtt w), mqtt_client_uri (w_mqtt w),
                   uri_str (w_mqtt w))) aug_mqtt_start.
Proof.
  intros w. unfold aug_mqtt_start, esp_mqtt_client_start, call, mqtt_update, upd_mqtt. mrun.
  destruct (mqtt_client_handle (w_mqtt w)) eqn:E1, (mqtt_running (w_mqtt w)); simpl; rewrite ?E1;
    try reflexivity.
  destruct (w_plat w API_mqtt_client_start =? ESP_OK); cbn; by rewrite E1.
Qed.
