(* ===== verification/Nvs.v ===== *)
(** * Nvs: the configuration store of src/main/aug_nvs.c

    Three blobs live in NVS under (namespace, key): the station
    configuration under ("wifi_sta_config", "config"), the access point
    configuration under ("wifi_ap_config", "config") and the MQTT broker
    URI under ("mqtt_config", "uri").  [get_blob] and [set_blob] move the
    bytes of a buffer: the C code passes a struct through a [uint8_t*]
    cast, so what it stores is the object representation of the struct.

    The object representation is an interface, the class [ObjectRepr]:
    a size, the bytes of a value, the value read back from bytes, and
    the law that reading back the bytes of a well-formed value gives the
    value.  The theorems on the store are proved against the class; the
    instances for [aug_wifi_sta_config_t] and [aug_wifi_ap_config_t]
    lay the fields out in order with each [int] as four little-endian
    bytes (the compiler's layout is not in the repository, and nothing
    in the program depends on it beyond the law).

    The NVS library is modelled on the world's store [w_nvs]: nvs_open,
    nvs_get_blob, nvs_set_blob and nvs_commit return the platform's
    result, a missing key is ESP_ERR_NVS_NOT_FOUND, and a set that
    succeeds writes the store (ESP-IDF writes on set; commit only
    flushes). *)

From stdpp Require Import gmap.
From S2P Require Import Prelude Utility Config Platform Mqtt.

(** ** Object representations *)

Class ObjectRepr (T : Type) := {
  obj_size : nat;
  obj_wf : T -> Prop;
  to_bytes : T -> list ascii;
  of_bytes : list ascii -> T;
  length_to_bytes : forall x, length (to_bytes x) = obj_size;
  of_to_bytes : forall x, obj_wf x -> of_bytes (to_bytes x) = x
}.

(** A byte and a C [int] in four little-endian bytes. *)
Definition byte_of (z : Z) : ascii := ascii_of_N (Z.to_N (z mod 256)).
Definition Z_of_byte (b : ascii) : Z := Z.of_N (N_of_ascii b).

Definition le32 (z : Z) : list ascii :=
  let u := z mod 2 ^ 32 in
  [byte_of u; byte_of (u / 2 ^ 8); byte_of (u / 2 ^ 16); byte_of (u / 2 ^ 24)].

Definition of_le32 (l : list ascii) : Z :=
  let b i := Z_of_byte (nth i l NUL) in
  let u := b 0%nat + 2 ^ 8 * b 1%nat + 2 ^ 16 * b 2%nat + 2 ^ 24 * b 3%nat in
  if u <? 2 ^ 31 then u else u - 2 ^ 32.

Definition int_range (z : Z) : Prop := INT_MIN <= z <= INT_MAX.

(** A [char f[n]] field: exactly [n] bytes. *)
Definition fix_len (n : nat) (l : list ascii) : list ascii := take n (l ++ replicate n NUL).

Lemma Z_of_byte_of z : Z_of_byte (byte_of z) = z mod 256.
Proof.
  unfold Z_of_byte, byte_of. pose proof (Z.mod_pos_bound z 256).
  rewrite N_ascii_embedding; [lia|]. apply N2Z.inj_lt. rewrite Z2N.id; lia.
Qed.

Lemma le32_digits u :
  0 <= u < 2 ^ 32 ->
  u mod 256 + 2 ^ 8 * (u / 2 ^ 8 mod 256) + 2 ^ 16 * (u / 2 ^ 16 mod 256)
  + 2 ^ 24 * (u / 2 ^ 24 mod 256) = u.
Proof.
  intros Hu.
  replace (2 ^ 16) with (256 * 256) by reflexivity.
  replace (2 ^ 24) with (256 * 256 * 256) by reflexivity.
  replace (2 ^ 8) with 256 by reflexivity.
  rewrite <- !Z.div_div by lia.
  assert (Hc : u / 256 / 256 / 256 mod 256 = u / 256 / 256 / 256).
  { apply Z.mod_small. rewrite !Z.div_div by lia. split.
    - apply Z.div_pos; lia.
    - apply Z.div_lt_upper_bound; lia. }
  rewrite Hc.
  pose proof (Z.div_mod u 256 ltac:(lia)) as H1.
  pose proof (Z.div_mod (u / 256) 256 ltac:(lia)) as H2.
  pose proof (Z.div_mod (u / 256 / 256) 256 ltac:(lia)) as H3.
  set (a := u / 256) in *. set (b := a / 256) in *. set (c := b / 256) in *.
  clearbody a b c. lia.
Qed.

Lemma of_le32_le32 z : int_range z -> of_le32 (le32 z) = z.
Proof.
  unfold int_range, INT_MIN, INT_MAX, of_le32, le32. intros Hz. cbn [nth].
  rewrite !Z_of_byte_of.
  rewrite le32_digits by (apply Z.mod_pos_bound; lia).
  destruct (Z_le_gt_dec 0 z) as [Hp|Hn].
  - rewrite Z.mod_small by lia. destruct (Z.ltb_spec z (2 ^ 31)); lia.
  - rewrite <- (Z.mod_unique z (2 ^ 32) (-1) (z + 2 ^ 32)) by lia.
    destruct (Z.ltb_spec (z + 2 ^ 32) (2 ^ 31)); lia.
Qed.

Lemma length_le32 z : length (le32 z) = 4%nat.
Proof. reflexivity. Qed.

Lemma length_fix_len n l : length (fix_len n l) = n.
Proof. unfold fix_len. rewrite length_take, length_app, length_replicate. lia. Qed.

Lemma fix_len_id n l : length l = n -> fix_len n l = l.
Proof. intros <-. unfold fix_len. by rewrite take_app_length. Qed.

(** Reading the field [l1] off the front of [l1 ++ l2]. *)
Lemma take_drop_field n (l1 l2 : list ascii) :
  length l1 = n -> take n (l1 ++ l2) = l1 /\ drop n (l1 ++ l2) = l2.
Proof. intros <-. by rewrite take_app_length, drop_app_length. Qed.

#[export] Hint Rewrite length_le32 length_fix_len : aug_rw.

(** Peel the fields off the front of a concatenation. *)
Ltac peel_fields :=
  repeat first
    [ rewrite take_app_length' by (rewrite ?length_le32, ?length_fix_len; lia)
    | rewrite drop_app_length' by (rewrite ?length_le32, ?length_fix_len; lia)
    | rewrite take_ge by (rewrite ?length_le32, ?length_fix_len; lia) ].

(** The station configuration: ssid, password, threshold authmode, SAE
    mode, SAE identifier, then [max_retry]. *)
Definition sta_config_bytes (c : aug_wifi_sta_config_t) : list ascii :=
  let s := sta_wifi_config c in
  fix_len SSID_LEN (sta_ssid s) ++ fix_len PASSWORD_LEN (sta_password s) ++
  le32 (sta_threshold_authmode s) ++ le32 (sta_sae_pwe_h2e s) ++
  fix_len SAE_H2E_IDENTIFIER_LEN (sta_sae_h2e_identifier s) ++ le32 (max_retry c).

Definition sta_config_of_bytes (b : list ascii) : aug_wifi_sta_config_t :=
  let ssid := take SSID_LEN b in let b := drop SSID_LEN b in
  let pw := take PASSWORD_LEN b in let b := drop PASSWORD_LEN b in
  let auth := of_le32 (take 4 b) in let b := drop 4 b in
  let sae := of_le32 (take 4 b) in let b := drop 4 b in
  let id := take SAE_H2E_IDENTIFIER_LEN b in let b := drop SAE_H2E_IDENTIFIER_LEN b in
  mk_aug_wifi_sta_config (mk_wifi_sta_config ssid pw auth sae id) (of_le32 (take 4 b)).

Definition sta_repr_wf (c : aug_wifi_sta_config_t) : Prop :=
  sta_config_wf c /\ int_range (sta_threshold_authmode (sta_wifi_config c)) /\
  int_range (sta_sae_pwe_h2e (sta_wifi_config c)) /\ int_range (max_retry c).

#[export] Program Instance sta_config_repr : ObjectRepr aug_wifi_sta_config_t := {
  obj_size := 140;
  obj_wf := sta_repr_wf;
  to_bytes := sta_config_bytes;
  of_bytes := sta_config_of_bytes
}.
Next Obligation.
  intros c. unfold sta_config_bytes. rewrite !length_app, !length_fix_len, !length_le32. reflexivity.
Qed.
Next Obligation.
  intros [[ssid pw auth sae id] m] ((Hs & Hp & Hi) & Ha & Hsae & Hm). simpl in *.
  unfold sta_config_of_bytes, sta_config_bytes. cbv zeta.
  cbn [sta_wifi_config sta_ssid sta_password sta_threshold_authmode sta_sae_pwe_h2e
       sta_sae_h2e_identifier max_retry].
  rewrite !fix_len_id by done. peel_fields. by rewrite !of_le32_le32.
Qed.

(** The access point configuration: ssid, password, ssid_len, channel,
    authmode, max_connection, SAE mode, pmf required, then
    [timeout_idle]. *)
Definition ap_config_bytes (c : aug_wifi_ap_config_t) : list ascii :=
  let a := ap_wifi_config c in
  fix_len SSID_LEN (ap_ssid a) ++ fix_len PASSWORD_LEN (ap_password a) ++
  le32 (ap_ssid_len a) ++ le32 (ap_channel a) ++ le32 (ap_authmode a) ++
  le32 (ap_max_connection a) ++ le32 (ap_sae_pwe_h2e a) ++
  le32 (if ap_pmf_required a then 1 else 0) ++ le32 (timeout_idle c).

Definition ap_config_of_bytes (b : list ascii) : aug_wifi_ap_config_t :=
  let ssid := take SSID_LEN b in let b := drop SSID_LEN b in
  let pw := take PASSWORD_LEN b in let b := drop PASSWORD_LEN b in
  let ssid_len := of_le32 (take 4 b) in let b := drop 4 b in
  let channel := of_le32 (take 4 b) in let b := drop 4 b in
  let auth := of_le32 (take 4 b) in let b := drop 4 b in
  let maxc := of_le32 (take 4 b) in let b := drop 4 b in
  let sae := of_le32 (take 4 b) in let b := drop 4 b in
  let pmf := negb (Z.eqb (of_le32 (take 4 b)) 0) in let b := drop 4 b in
  mk_aug_wifi_ap_config (mk_wifi_ap_config ssid pw ssid_len channel auth maxc sae pmf)
    (of_le32 (take 4 b)).

Definition ap_repr_wf (c : aug_wifi_ap_config_t) : Prop :=
  let a := ap_wifi_config c in
  ap_config_wf c /\ int_range (ap_ssid_len a) /\ int_range (ap_channel a) /\
  int_range (ap_authmode a) /\ int_range (ap_max_connection a) /\
  int_range (ap_sae_pwe_h2e a) /\ int_range (timeout_idle c).

#[export] Program Instance ap_config_repr : ObjectRepr aug_wifi_ap_config_t := {
  obj_size := 124;
  obj_wf := ap_repr_wf;
  to_bytes := ap_config_bytes;
  of_bytes := ap_config_of_bytes
}.
Next Obligation.
  intros c. unfold ap_config_bytes. rewrite !length_app, !length_fix_len, !length_le32. reflexivity.
Qed.
Next Obligation.
  intros [[ssid pw sl ch au mc sae pmf] t] ((Hs & Hp) & H1 & H2 & H3 & H4 & H5 & H6). simpl in *.
  unfold ap_config_of_bytes, ap_config_bytes. cbv zeta.
  cbn [ap_wifi_config ap_ssid ap_password ap_ssid_len ap_channel ap_authmode ap_max_connection
       ap_sae_pwe_h2e ap_pmf_required timeout_idle].
  rewrite !fix_len_id by done. peel_fields.
  rewrite !of_le32_le32 by (done || (destruct pmf; unfold int_range, INT_MIN, INT_MAX; lia)).
  by destruct pmf.
Qed.

(** ** The NVS library on the world's store *)

Definition nvs_open : M World esp_err_t := call API_nvs_open.

(** [nvs_get_blob(handle, key, NULL, &size)]: the size of the blob. *)
Definition nvs_get_blob_size (ns key : string) : M World (esp_err_t * nat) :=
  r ← call API_nvs_get_blob;
  if negb (Z.eqb r ESP_OK) then mret (r, 0%nat)
  else st ← gets w_nvs;
       match st !! (ns, key) with
       | None => mret (ESP_ERR_NVS_NOT_FOUND, 0%nat)
       | Some b => mret (ESP_OK, length b)
       end.

(** [nvs_get_blob(handle, key, data, &size)]: the blob itself. *)
Definition nvs_get_blob_data (ns key : string) : M World (esp_err_t * list ascii) :=
  r ← call API_nvs_get_blob;
  if negb (Z.eqb r ESP_OK) then mret (r, [])
  else st ← gets w_nvs;
       match st !! (ns, key) with
       | None => mret (ESP_ERR_NVS_NOT_FOUND, [])
       | Some b => mret (ESP_OK, b)
       end.

Definition nvs_set_blob (ns key : string) (data : list ascii) : M World esp_err_t :=
  r ← call API_nvs_set_blob;
  (if Z.eqb r ESP_OK then modify (upd_nvs (<[(ns, key) := data]>)) else mret tt) ;;
  mret r.

Definition nvs_commit (ns key : string) : M World esp_err_t :=
  r ← call API_nvs_commit;
  (if Z.eqb r ESP_OK then emit (ObsNvsCommit ns key) else mret tt) ;;
  mret r.

(** ** aug_nvs.c *)

(** [get_blob]: every [goto out] returns the error it carries; the
    buffer is written only at the end, by [write] (a memcpy of
    [buffer_size] bytes into it). *)
Definition get_blob (ns key : string) (buffer_size : nat)
    (write : list ascii -> World -> World) : M World esp_err_t :=
  err ← nvs_open;
  if negb (Z.eqb err ESP_OK) then mret err else
  '(err, size_in_nvs) ← nvs_get_blob_size ns key;
  if negb (Z.eqb err ESP_OK) then mret err else
  if negb (Nat.eqb size_in_nvs buffer_size) then mret ESP_FAIL else
  m ← call API_malloc;
  if negb (Z.eqb m ESP_OK) then mret ESP_ERR_NO_MEM else
  '(err, data) ← nvs_get_blob_data ns key;
  if negb (Z.eqb err ESP_OK) then mret err else
  modify (write (take buffer_size data)) ;;
  mret ESP_OK.

(** [set_blob]: the first [buffer_size] bytes of the buffer. *)
Definition set_blob (ns key : string) (buffer : list ascii) (buffer_size : nat) : M World esp_err_t :=
  err ← nvs_open;
  if negb (Z.eqb err ESP_OK) then mret err else
  err ← nvs_set_blob ns key (take buffer_size buffer);
  if negb (Z.eqb err ESP_OK) then mret err else
  err ← nvs_commit ns key;
  if negb (Z.eqb err ESP_OK) then mret err else
  mret ESP_OK.

Definition wifi_ap_config_namespace_str : string := "wifi_ap_config".
Definition wifi_ap_config_config_str : string := "config".
Definition wifi_sta_config_namespace_str : string := "wifi_sta_config".
Definition wifi_sta_config_config_str : string := "config".
Definition mqtt_config_namespace_str : string := "mqtt_config".
Definition mqtt_config_config_str : string := "uri".

(** The memcpy into a struct seen through [(uint8_t* )]: its bytes are
    overwritten, and the struct is what the new bytes represent. *)
Definition struct_write {T} `{ObjectRepr T} (getc : World -> T) (setc : T -> World -> World)
    (data : list ascii) (w : World) : World :=
  setc (of_bytes (memcpy (to_bytes (getc w)) data)) w.

Definition aug_nvs_get_sta_config : M World esp_err_t :=
  get_blob wifi_sta_config_namespace_str wifi_sta_config_config_str
    (obj_size (T := aug_wifi_sta_config_t))
    (struct_write (fun w => sta_config (w_sta w)) (fun c => upd_sta (set_sta_config c))).

Definition aug_nvs_set_sta_config : M World esp_err_t :=
  w ← get;
  set_blob wifi_sta_config_namespace_str wifi_sta_config_config_str
    (to_bytes (sta_config (w_sta w))) (obj_size (T := aug_wifi_sta_config_t)).

Definition aug_nvs_get_ap_config : M World esp_err_t :=
  get_blob wifi_ap_config_namespace_str wifi_ap_config_config_str
    (obj_size (T := aug_wifi_ap_config_t))
    (struct_write (fun w => ap_config (w_ap w)) (fun c => upd_ap (set_ap_config c))).

Definition aug_nvs_set_ap_config : M World esp_err_t :=
  w ← get;
  set_blob wifi_ap_config_namespace_str wifi_ap_config_config_str
    (to_bytes (ap_config (w_ap w))) (obj_size (T := aug_wifi_ap_config_t)).

(** The URI: [uri_len] is MQTT_MAX_URI_LEN, one byte less than the
    buffer, whose last byte is left as it is. *)
Definition aug_nvs_get_mqtt_config : M World esp_err_t :=
  let mqtt_uri := aug_mqtt_get_uri in
  get_blob mqtt_config_namespace_str mqtt_config_config_str (uri_len mqtt_uri)
    (fun data => upd_mqtt (fun g => set_uri_str (memcpy (uri_str g) data) g)).

Definition aug_nvs_set_mqtt_config : M World esp_err_t :=
  let mqtt_uri := aug_mqtt_get_uri in
  bytes ← gets (uri_bytes (mqtt_uri_str mqtt_uri));
  set_blob mqtt_config_namespace_str mqtt_config_config_str bytes (uri_len mqtt_uri).

(** ** The blob operations *)

Section Blob.
Variables (ns key : string) (size : nat) (write : list ascii -> World -> World).

Lemma get_blob_ok w d :
  w_plat w = plat_ok -> w_nvs w !! (ns, key) = Some d -> length d = size ->
  get_blob ns key size write w = (write (take size d) w, Ret ESP_OK).
Proof.
  intros Hp Hl Hlen. destruct w as [plat ? ? ? ? ? ? ? ? nvs ?]; simpl in *; subst plat.
  unfold get_blob, nvs_open, nvs_get_blob_size, nvs_get_blob_data, call. mrun.
  rewrite Hl. simpl. rewrite Hlen, Nat.eqb_refl. simpl. rewrite Hl. reflexivity.
Qed.

Lemma get_blob_not_found w :
  w_plat w = plat_ok -> w_nvs w !! (ns, key) = None ->
  get_blob ns key size write w = (w, Ret ESP_ERR_NVS_NOT_FOUND).
Proof.
  intros Hp Hl. destruct w as [plat ? ? ? ? ? ? ? ? nvs ?]; simpl in *; subst plat.
  unfold get_blob, nvs_open, nvs_get_blob_size, call. mrun. by rewrite Hl.
Qed.

(** Whatever the platform does, a [get_blob] that returns an error has
    not written the buffer, nor anything else. *)
Lemma get_blob_error w w' r :
  get_blob ns key size write w = (w', Ret r) -> r <> ESP_OK -> w' = w.
Proof.
  unfold get_blob, nvs_open, nvs_get_blob_size, nvs_get_blob_data, call. mrun.
  intros Hrun Hne. repeat (case_match; simpl in *; simplify_eq/=; try done).
Qed.

Lemma set_blob_ok buf w :
  w_plat w = plat_ok ->
  set_blob ns key buf size w =
  (upd_trace (fun t => t ++ [ObsNvsCommit ns key]) (upd_nvs (<[(ns, key) := take size buf]>) w),
   Ret ESP_OK).
Proof.
  intros Hp. destruct w as [plat ? ? ? ? ? ? ? ? nvs ?]; simpl in *; subst plat.
  unfold set_blob, nvs_open, nvs_set_blob, nvs_commit, emit, call. mrun. reflexivity.
Qed.

End Blob.

Lemma memcpy_full {A} (dst src : list A) : length src = length dst -> memcpy dst src = src.
Proof. intros H. unfold memcpy. rewrite H, drop_all. apply app_nil_r. Qed.

Section StructSlot.
Context {T : Type} `{ObjectRepr T}.
Variables (getc : World -> T) (setc : T -> World -> World).

(** Reading back the bytes of a well-formed value writes that value. *)
Lemma struct_write_bytes c w :
  obj_wf c -> struct_write getc setc (take (obj_size (T := T)) (to_bytes c)) w = setc c w.
Proof.
  intros Hc. unfold struct_write.
  rewrite take_ge by (by rewrite length_to_bytes).
  rewrite memcpy_full by (by rewrite !length_to_bytes). by rewrite of_to_bytes.
Qed.

(** What [set_blob] stores from the struct, [get_blob] reads back into
    the struct of any later world with the same flash. *)
Lemma struct_roundtrip ns key w :
  w_plat w = plat_ok -> obj_wf (getc w) ->
  exists w1, set_blob ns key (to_bytes (getc w)) (obj_size (T := T)) w = (w1, Ret ESP_OK) /\
    forall w', w_plat w' = plat_ok -> w_nvs w' = w_nvs w1 ->
      get_blob ns key (obj_size (T := T)) (struct_write getc setc) w' = (setc (getc w) w', Ret ESP_OK).
Proof.
  intros Hp Hwf. eexists. split; [by apply set_blob_ok|].
  intros w' Hp' Hn.
  rewrite (get_blob_ok _ _ _ _ _ (take (obj_size (T := T)) (to_bytes (getc w)))); try done.
  - rewrite take_idemp. by rewrite struct_write_bytes.
  - rewrite Hn. simpl. by rewrite lookup_insert_eq.
  - rewrite length_take, length_to_bytes. lia.
Qed.

End StructSlot.

(** The C string of a buffer is fixed by its bytes up to the first NUL. *)
Lemma c_str_take n (l r : list ascii) :
  NUL ∈ take n l -> c_str (take n l ++ r) = c_str l.
Proof.
  revert n. induction l as [|c l IH]; intros n Hin; [rewrite take_nil in Hin; by apply not_elem_of_nil in Hin|].
  destruct n as [|n]; [rewrite take_0 in Hin; by apply not_elem_of_nil in Hin|].
  simpl in *. destruct (Ascii.eqb_spec c NUL) as [->|Hne]; [done|].
  rewrite IH; [done|]. apply elem_of_cons in Hin as [Heq|Hin]; [exfalso; apply Hne; symmetry; exact Heq|exact Hin].
Qed.

(** Reading a stored station configuration. *)
Lemma aug_nvs_get_sta_config_stored w c :
  w_plat w = plat_ok ->
  w_nvs w !! (wifi_sta_config_namespace_str, wifi_sta_config_config_str) = Some (to_bytes c) ->
  obj_wf c -> aug_nvs_get_sta_config w = (upd_sta (set_sta_config c) w, Ret ESP_OK).
Proof.
  intros Hp Hl Hc. unfold aug_nvs_get_sta_config.
  rewrite (get_blob_ok _ _ _ _ _ (to_bytes c)) by (done || apply length_to_bytes).
  by rewrite struct_write_bytes.
Qed.

(** ** Properties of the configuration store *)

(** C10: Round trip of the station configuration: on a platform whose
    calls succeed, [aug_nvs_set_sta_config] stores the configuration,
    and any later world with the same flash (after a reboot, with the
    globals changed) reads it back with [aug_nvs_get_sta_config]. *)
Theorem nvs_sta_config_roundtrip w :
  w_plat w = plat_ok -> obj_wf (sta_config (w_sta w)) ->
  exists w1, aug_nvs_set_sta_config w = (w1, Ret ESP_OK) /\
    forall w', w_plat w' = plat_ok -> w_nvs w' = w_nvs w1 ->
      aug_nvs_get_sta_config w' = (upd_sta (set_sta_config (sta_config (w_sta w))) w', Ret ESP_OK).
Proof. exact (struct_roundtrip (fun w => sta_config (w_sta w)) (fun c => upd_sta (set_sta_config c)) _ _ w). Qed.

(** The same round trip for the access point configuration. *)
Theorem nvs_ap_config_roundtrip w :
  w_plat w = plat_ok -> obj_wf (ap_config (w_ap w)) ->
  exists w1, aug_nvs_set_ap_config w = (w1, Ret ESP_OK) /\
    forall w', w_plat w' = plat_ok -> w_nvs w' = w_nvs w1 ->
      aug_nvs_get_ap_config w' = (upd_ap (set_ap_config (ap_config (w_ap w))) w', Ret ESP_OK).
Proof. exact (struct_roundtrip (fun w => ap_config (w_ap w)) (fun c => upd_ap (set_ap_config c)) _ _ w). Qed.

(** The round trip of the URI buffer, as the claims below use it. *)
Lemma uri_roundtrip w :
  w_plat w = plat_ok -> length (uri_str (w_mqtt w)) = S MQTT_MAX_URI_LEN ->
  exists w1, aug_nvs_set_mqtt_config w = (w1, Ret ESP_OK) /\
    forall w', w_plat w' = plat_ok -> w_nvs w' = w_nvs w1 ->
      length (uri_str (w_mqtt w')) = S MQTT_MAX_URI_LEN ->
      exists w'', aug_nvs_get_mqtt_config w' = (w'', Ret ESP_OK) /\
        uri_str (w_mqtt w'') = take MQTT_MAX_URI_LEN (uri_str (w_mqtt w)) ++
                               drop MQTT_MAX_URI_LEN (uri_str (w_mqtt w')) /\
        (NUL ∈ take MQTT_MAX_URI_LEN (uri_str (w_mqtt w)) ->
         c_str (uri_str (w_mqtt w'')) = c_str (uri_str (w_mqtt w))).
Proof.
  intros Hp Hlen. eexists. split; [unfold aug_nvs_set_mqtt_config; rewrite bind_gets; by apply set_blob_ok|].
  intros w' Hp' Hn Hlen'. unfold aug_nvs_get_mqtt_config, aug_mqtt_get_uri. cbn [uri_len].
  rewrite (get_blob_ok _ _ _ _ _ (take MQTT_MAX_URI_LEN (uri_str (w_mqtt w)))); try done.
  - eexists. split; [reflexivity|]. simpl. rewrite take_idemp.
    assert (Hu : memcpy (uri_str (w_mqtt w')) (take MQTT_MAX_URI_LEN (uri_str (w_mqtt w))) =
                 take MQTT_MAX_URI_LEN (uri_str (w_mqtt w)) ++ drop MQTT_MAX_URI_LEN (uri_str (w_mqtt w'))).
    { unfold memcpy. rewrite length_take, Hlen. by replace (Nat.min _ _) with MQTT_MAX_URI_LEN by lia. }
    rewrite Hu. split; [done|]. apply c_str_take.
  - rewrite Hn. simpl. by rewrite lookup_insert_eq.
  - rewrite length_take, Hlen. lia.
Qed.

(** C31: Round trip of the broker URI: the first MQTT_MAX_URI_LEN bytes
    of the buffer are stored and read back into a later world's buffer,
    whose last byte stays; when the URI's NUL is among the stored bytes
    the C string of the buffer is the URI that was stored. *)
Theorem nvs_mqtt_uri_roundtrip w :
  w_plat w = plat_ok -> length (uri_str (w_mqtt w)) = S MQTT_MAX_URI_LEN ->
  exists w1, aug_nvs_set_mqtt_config w = (w1, Ret ESP_OK) /\
    forall w', w_plat w' = plat_ok -> w_nvs w' = w_nvs w1 ->
      length (uri_str (w_mqtt w')) = S MQTT_MAX_URI_LEN ->
      exists w'', aug_nvs_get_mqtt_config w' = (w'', Ret ESP_OK) /\
        uri_str (w_mqtt w'') = take MQTT_MAX_URI_LEN (uri_str (w_mqtt w)) ++
                               drop MQTT_MAX_URI_LEN (uri_str (w_mqtt w')) /\
        (NUL ∈ take MQTT_MAX_URI_LEN (uri_str (w_mqtt w)) ->
         c_str (uri_str (w_mqtt w'')) = c_str (uri_str (w_mqtt w))).
Proof. exact (uri_roundtrip w). Qed.

(** C11: A read of the station configuration that fails, whatever the
    failure (flash, missing key, size mismatch, memory), leaves the
    configuration, and the whole state, as it was. *)
Theorem nvs_get_sta_config_error w w' r :
  aug_nvs_get_sta_config w = (w', Ret r) -> r <> ESP_OK -> w' = w.
Proof. apply get_blob_error. Qed.

(** A station blob of another size than the struct (written by a
    firmware whose struct differs) is refused with ESP_FAIL. *)
Theorem nvs_get_sta_config_size_mismatch w d :
  w_plat w = plat_ok ->
  w_nvs w !! (wifi_sta_config_namespace_str, wifi_sta_config_config_str) = Some d ->
  length d <> obj_size (T := aug_wifi_sta_config_t) ->
  aug_nvs_get_sta_config w = (w, Ret ESP_FAIL).
Proof.
  intros Hp Hl Hlen. destruct w as [plat ? ? ? ? ? ? ? ? nvs ?]; simpl in *; subst plat.
  unfold aug_nvs_get_sta_config, get_blob, nvs_open, nvs_get_blob_size, call. mrun.
  rewrite Hl. simpl. by rewrite (proj2 (Nat.eqb_neq _ _) Hlen).
Qed.

(** A station configuration for the witnesses. *)
Definition sample_sta_config : aug_wifi_sta_config_t :=
  mk_aug_wifi_sta_config
    (mk_wifi_sta_config (char_array SSID_LEN "home") (char_array PASSWORD_LEN "secret")
       WIFI_AUTH_WPA2_PSK WPA3_SAE_PWE_BOTH (char_array SAE_H2E_IDENTIFIER_LEN "id"))
    5.

Definition sample_sta_world : World :=
  upd_sta (set_sta_config sample_sta_config) (world_init plat_ok [] [] ∅).

Lemma sample_sta_config_wf : obj_wf sample_sta_config.
Proof.
  split; [repeat split; apply length_char_array|].
  simpl. unfold int_range, INT_MIN, INT_MAX, WIFI_AUTH_WPA2_PSK, WPA3_SAE_PWE_BOTH. lia.
Qed.

Lemma nvs_sta_config_roundtrip_witness :
  exists w1, aug_nvs_set_sta_config sample_sta_world = (w1, Ret ESP_OK) /\
    aug_nvs_get_sta_config (world_init plat_ok [] [] (w_nvs w1)) =
    (upd_sta (set_sta_config sample_sta_config) (world_init plat_ok [] [] (w_nvs w1)), Ret ESP_OK).
Proof.
  destruct (nvs_sta_config_roundtrip sample_sta_world eq_refl sample_sta_config_wf) as (w1 & H1 & H2).
  exists w1. split; [exact H1|]. by apply H2.
Defined.

Lemma nvs_ap_config_roundtrip_witness :
  exists w1, aug_nvs_set_ap_config (world_init plat_ok [] [] ∅) = (w1, Ret ESP_OK) /\
    aug_nvs_get_ap_config (world_init plat_ok [] [] (w_nvs w1)) =
    (upd_ap (set_ap_config zero_ap_config) (world_init plat_ok [] [] (w_nvs w1)), Ret ESP_OK).
Proof.
  destruct (nvs_ap_config_roundtrip (world_init plat_ok [] [] ∅) eq_refl) as (w1 & H1 & H2).
  { split; [repeat split|]. unfold int_range, INT_MIN, INT_MAX; simpl; lia. }
  exists w1. split; [exact H1|]. by apply H2.
Defined.

Lemma nvs_mqtt_uri_roundtrip_witness :
  exists w1, aug_nvs_set_mqtt_config (world_init plat_ok [] [] ∅) = (w1, Ret ESP_OK) /\
    exists w'', aug_nvs_get_mqtt_config (world_init plat_ok [] [] (w_nvs w1)) = (w'', Ret ESP_OK) /\
      c_str (uri_str (w_mqtt w'')) = ""%string.
Proof.
  destruct (nvs_mqtt_uri_roundtrip (world_init plat_ok [] [] ∅) eq_refl eq_refl) as (w1 & H1 & H2).
  exists w1. split; [exact H1|].
  destruct (H2 (world_init plat_ok [] [] (w_nvs w1)) eq_refl eq_refl eq_refl) as (w'' & Hr & _ & Hc).
  exists w''. split; [exact Hr|]. rewrite Hc; [reflexivity|]. left.
Defined.

Lemma nvs_get_sta_config_error_witness :
  exists w', aug_nvs_get_sta_config (world_init plat_ok [] [] ∅) = (w', Ret ESP_ERR_NVS_NOT_FOUND) /\
    w' = world_init plat_ok [] [] ∅.
Proof.
  eexists. split; [reflexivity|].
  apply (nvs_get_sta_config_error _ _ ESP_ERR_NVS_NOT_FOUND); [reflexivity | discriminate].
Defined.

Lemma nvs_get_sta_config_size_mismatch_witness :
  aug_nvs_get_sta_config
    (world_init plat_ok [] [] {[(wifi_sta_config_namespace_str, wifi_sta_config_config_str) := [NUL]]}) =
  (world_init plat_ok [] [] {[(wifi_sta_config_namespace_str, wifi_sta_config_config_str) := [NUL]]},
   Ret ESP_FAIL).
Proof.
  apply nvs_get_sta_config_size_mismatch with [NUL]; [reflexivity | | simpl; lia].
  apply lookup_singleton_eq.
Defined.
