(* ===== verification/Http.v ===== *)
(** * Http: the HTTP control surface of src/main/aug_http_server.c

    The module's global is the server handle, [server] of [w_http].
    [aug_http_start] starts the server and registers the seven URI
    handlers, each under AUG_RETURN_CHECK, into the server's table
    ([uri_handlers]); [aug_http_stop_webserver]
    stops it and clears the handle; [aug_http_is_init] tests it.  The
    httpd library is a capability: its calls return the platform's
    result, and [httpd_stop] takes a NULL handle as
    ESP_ERR_INVALID_ARG. *)

From S2P Require Import Prelude Utility Config Platform.

(** ** The server's lifecycle *)

Definition http_update (f : http_globals -> http_globals) : M World unit :=
  modify (upd_http f).

(** [httpd_start(&server, &config)]: the handle is written on success. *)
Definition httpd_start : M World esp_err_t :=
  r ← call API_httpd_start;
  (if Z.eqb r ESP_OK then http_update (fun _ => mk_http_globals true []) else mret tt) ;;
  mret r.

Definition httpd_stop : M World esp_err_t :=
  h ← gets w_http;
  if negb (server h) then mret ESP_ERR_INVALID_ARG else call API_httpd_stop.

(** [max_uri_handlers] of HTTPD_DEFAULT_CONFIG(). *)
Definition HTTPD_MAX_URI_HANDLERS : nat := 8.

Definition ESP_ERR_HTTPD_HANDLERS_FULL : esp_err_t := 45057.
Definition ESP_ERR_HTTPD_HANDLER_EXISTS : esp_err_t := 45058.

Definition same_route (u v : httpd_uri_t) : bool :=
  http_method_eqb (method u) (method v) && String.eqb (uri u) (uri v).

(** [httpd_register_uri_handler] of the httpd library: a NULL server
    is refused, so is a URI and method already registered, and a full
    table; otherwise the handler is stored if the allocation succeeds. *)
Definition httpd_register_uri_handler (u : httpd_uri_t) : M World esp_err_t :=
  h ← gets w_http;
  if negb (server h) then mret ESP_ERR_INVALID_ARG
  else if existsb (same_route u) (uri_handlers h) then mret ESP_ERR_HTTPD_HANDLER_EXISTS
  else if Nat.leb HTTPD_MAX_URI_HANDLERS (length (uri_handlers h)) then mret ESP_ERR_HTTPD_HANDLERS_FULL
  else
    r ← call API_httpd_register_uri_handler;
    (if Z.eqb r ESP_OK
     then http_update (fun g => mk_http_globals (server g) (uri_handlers g ++ [u]))
     else mret tt) ;;
    mret r.

(** ** The seven registrations *)

Definition register_set_options_sta_handler : M World esp_err_t :=
  httpd_register_uri_handler (mk_httpd_uri "/set_options/sta" HTTP_POST H_set_options_sta_handler false).

Definition register_init_sta_handler : M World esp_err_t :=
  httpd_register_uri_handler (mk_httpd_uri "/init/sta" HTTP_POST H_init_sta_handler true).

Definition register_set_options_mqtt_handler : M World esp_err_t :=
  httpd_register_uri_handler (mk_httpd_uri "/set_options/mqtt" HTTP_POST H_set_options_mqtt_handler false).

Definition register_init_mqtt_handler : M World esp_err_t :=
  httpd_register_uri_handler (mk_httpd_uri "/init/mqtt" HTTP_POST H_init_mqtt_handler true).

Definition register_ota_update_handler : M World esp_err_t :=
  httpd_register_uri_handler (mk_httpd_uri "/ota_update" HTTP_POST H_ota_update_handler true).

Definition register_restart_handler : M World esp_err_t :=
  httpd_register_uri_handler (mk_httpd_uri "/restart" HTTP_POST H_restart_handler true).

Definition register_index : M World esp_err_t :=
  httpd_register_uri_handler (mk_httpd_uri "/" HTTP_GET H_index_handler false).

(** [aug_http_start], with [context] the valid handle main.c passes. *)
Definition aug_http_start : M World esp_err_t :=
  AUG_RETURN_CHECK httpd_start;
  AUG_RETURN_CHECK register_set_options_sta_handler;
  AUG_RETURN_CHECK register_init_sta_handler;
  AUG_RETURN_CHECK register_set_options_mqtt_handler;
  AUG_RETURN_CHECK register_init_mqtt_handler;
  AUG_RETURN_CHECK register_ota_update_handler;
  AUG_RETURN_CHECK register_restart_handler;
  AUG_RETURN_CHECK register_index;
  mret ESP_OK.

Definition aug_http_stop_webserver : M World esp_err_t :=
  AUG_RETURN_CHECK httpd_stop;
  http_update (fun _ => mk_http_globals false []) ;;
  mret ESP_OK.

Definition aug_http_is_init (w : World) : bool := server (w_http w).
