(* ===== verification/Main.v ===== *)
(** * Main: the orchestrator of src/main/main.c

    main.c wires the modules together through a custom event loop
    ([event_loop_init], a queue of two events served by a task of the
    highest priority).  [register_events] installs the callbacks:
    FAILED_ATTEMPTS of the station starts the access point
    ([callback_init_ap]); IDLE of the access point and INIT_STA of the
    HTTP server start the station ([callback_init_sta]); INIT_MQTT
    reconfigures the broker ([callback_init_mqtt]); OTA_UPDATE and
    RESTART persist the configuration and reboot
    ([callback_esp_restart]).  [main_init] loads the configuration,
    makes the first connection, then registers the callbacks and starts
    the services.

    The loop is [loop_step]: it takes the oldest event of the queue and
    runs, in registration order, every callback registered for it; an
    event with no callback is dropped.  Because the loop task outranks
    every other task, an event is dispatched as soon as the task that
    posts it lets it run: [main_init] drains the queue right after the
    boot connection, before [register_events].

    The theorems: each callback that returns leaves at most one of the
    two Wi-Fi modes initialised (mode exclusivity, for any platform);
    the callbacks are registered for the events the table of
    [register_events] names; a station connection started from the loop
    that gives up falls back to the access point at the next loop step;
    the boot connection's FAILED_ATTEMPTS is dropped, so a device that
    boots with an unreachable network stays in station mode for ever;
    a boot that returns has created the MQTT client from a
    configuration pointing at the URI buffer, so the client holds the
    buffer's URI. *)

From stdpp Require Import gmap.
From S2P Require Import Prelude Utility Config Platform Scan WifiSta WifiAp WifiConnect Mqtt Nvs Http.

(** ** The callbacks *)

(** [deinit_modules]. *)
Definition deinit_modules : M World unit :=
  h ← gets aug_http_is_init;
  (if (h : bool) then ESP_ERROR_CHECK aug_http_stop_webserver; mret tt else mret tt) ;;
  s ← gets aug_wifi_sta_is_init;
  (if (s : bool) then ESP_ERROR_CHECK aug_wifi_sta_disconnect; mret tt else mret tt) ;;
  a ← gets aug_wifi_ap_is_init;
  if (a : bool) then ESP_ERROR_CHECK aug_wifi_ap_stop; mret tt else mret tt.

(** [write_nvs_data]. *)
Definition write_nvs_data : M World unit :=
  ESP_ERROR_CHECK aug_nvs_set_ap_config;
  ESP_ERROR_CHECK aug_nvs_set_sta_config;
  ESP_ERROR_CHECK aug_nvs_set_mqtt_config;
  mret tt.

(** The first lines of three callbacks: stop MQTT if it is connected. *)
Definition mqtt_stop_if_connected : M World unit :=
  c ← gets aug_mqtt_is_connected;
  if (c : bool) then ESP_ERROR_CHECK aug_mqtt_stop; mret tt else mret tt.

(** [esp_restart()]: does not return. *)
Definition esp_restart : M World unit := emit ObsRestart ;; reset.

Definition callback_init_sta_fn : M World unit :=
  mqtt_stop_if_connected ;;
  deinit_modules ;;
  r ← aug_wifi_sta_connect;
  if negb (Z.eqb r ESP_OK) then mret tt
  else aug_http_start ;;
       ESP_ERROR_CHECK aug_mqtt_start; mret tt.

Definition callback_init_ap_fn : M World unit :=
  mqtt_stop_if_connected ;;
  deinit_modules ;;
  ESP_ERROR_CHECK aug_wifi_ap_start;
  aug_http_start ;;
  mret tt.

Definition callback_init_mqtt_fn : M World unit :=
  ESP_ERROR_CHECK aug_mqtt_set_uri; mret tt.

Definition callback_esp_restart_fn : M World unit :=
  mqtt_stop_if_connected ;;
  deinit_modules ;;
  write_nvs_data ;;
  esp_restart.

Definition run_callback (c : callback) : M World unit :=
  match c with
  | callback_init_ap => callback_init_ap_fn
  | callback_init_sta => callback_init_sta_fn
  | callback_init_mqtt => callback_init_mqtt_fn
  | callback_esp_restart => callback_esp_restart_fn
  end.

(** ** The custom event loop *)

(** [esp_event_handler_instance_register_with] on the custom loop. *)
Definition handler_register_with (e : loop_event) (c : callback) : M World esp_err_t :=
  r ← call API_handler_register;
  (if Z.eqb r ESP_OK then modify (upd_handlers (fun hs => hs ++ [(e, c)])) else mret tt) ;;
  mret r.

(** [register_events]. *)
Definition register_events : M World unit :=
  ESP_ERROR_CHECK (handler_register_with AUG_WIFI_STA_EVENT_FAILED_ATTEMPTS callback_init_ap);
  ESP_ERROR_CHECK (handler_register_with AUG_WIFI_AP_EVENT_IDLE callback_init_sta);
  ESP_ERROR_CHECK (handler_register_with AUG_HTTP_SERVER_EVENT_INIT_STA callback_init_sta);
  ESP_ERROR_CHECK (handler_register_with AUG_HTTP_SERVER_EVENT_INIT_MQTT callback_init_mqtt);
  ESP_ERROR_CHECK (handler_register_with AUG_HTTP_SERVER_EVENT_OTA_UPDATE callback_esp_restart);
  ESP_ERROR_CHECK (handler_register_with AUG_HTTP_SERVER_EVENT_RESTART callback_esp_restart);
  mret tt.

(** The callbacks registered for an event, in registration order. *)
Definition handlers_for (e : loop_event) (hs : list (loop_event * callback)) : list callback :=
  map snd (filter (fun p => fst p = e) hs).

(** The loop task's dispatch of one event. *)
Definition loop_dispatch (e : loop_event) : M World unit :=
  hs ← gets w_handlers;
  match handlers_for e hs with
  | [] => emit (ObsDrop e)
  | cs => mapM_ (fun c => emit (ObsDispatch e c) ;; run_callback c) cs
  end.

(** One iteration of the loop task: [false] when the queue is empty. *)
Definition loop_step : M World bool :=
  q ← gets w_queue;
  match q with
  | [] => mret false
  | e :: _ => modify (upd_queue (drop 1)) ;; loop_dispatch e ;; mret true
  end.

(** The loop task serving the queue until it is empty, for at most
    [fuel] events. *)
Fixpoint loop_run (fuel : nat) : M World unit :=
  match fuel with
  | O => mret tt
  | S fuel' => more ← loop_step; if (more : bool) then loop_run fuel' else mret tt
  end.

(** ** Boot *)

Section Boot.

(** The Kconfig choices and defaults [main_init] uses. *)
Variable CONFIG_WIFI_INFO : bool.
Variable default_sta_config : aug_wifi_sta_config_t.
Variable default_ap_config : aug_wifi_ap_config_t.
Variable DEFAULT_MQTT_BROKER_URI : string.

(** [main_init] without the publish task.  The loop task runs as soon
    as the boot connection lets it, with no callback registered yet. *)
Definition main_init : M World unit :=
  ESP_ERROR_CHECK (call API_event_loop_create);
  is_sta_config_found ← aug_nvs_get_sta_config;
  (if negb (Z.eqb is_sta_config_found ESP_OK)
   then sta_update (set_sta_config zero_sta_config) ;;
        (if CONFIG_WIFI_INFO then sta_update (set_sta_config default_sta_config) else mret tt)
   else mret tt) ;;
  is_ap_config_found ← aug_nvs_get_ap_config;
  (if negb (Z.eqb is_ap_config_found ESP_OK)
   then ap_update (set_ap_config zero_ap_config) ;; ap_update (set_ap_config default_ap_config)
   else mret tt) ;;
  (if Z.eqb is_sta_config_found ESP_OK || CONFIG_WIFI_INFO
   then aug_wifi_sta_connect ;; mret tt
   else ESP_ERROR_CHECK aug_wifi_ap_start; mret tt) ;;
  w ← get;
  loop_run (length (w_queue w)) ;;
  m ← aug_nvs_get_mqtt_config;
  (if negb (Z.eqb m ESP_OK) then aug_mqtt_set_default_uri DEFAULT_MQTT_BROKER_URI else mret tt) ;;
  let mqtt_uri := aug_mqtt_get_uri in
  mqtt_config ← gets aug_mqtt_get_config;
  mqtt_update (set_mqtt_config (set_broker_address_uri (mqtt_uri_str mqtt_uri) mqtt_config)) ;;
  register_events ;;
  ESP_ERROR_CHECK (call API_ds18b20_init);
  aug_http_start ;;
  ESP_ERROR_CHECK aug_mqtt_init;
  s ← gets aug_wifi_sta_is_init;
  if (s : bool) then ESP_ERROR_CHECK aug_mqtt_start; mret tt else mret tt.

End Boot.

(** The two Wi-Fi modes are never initialised together. *)
Definition modes_exclusive (w : World) : Prop :=
  aug_wifi_sta_is_init w && aug_wifi_ap_is_init w = false.

(** ** Frame conditions of the modules *)

Lemma keeps_pop_radio {B} (f : World -> B) :
  (forall w, f (upd_radio (drop 1) w) = f w) -> keeps f pop_radio.
Proof. intros Hf w. unfold pop_radio. by destruct (w_radio w); simpl. Qed.

Ltac frame_unfold :=
  progress unfold aug_wifi_sta_connect, xEventGroupWaitBits, aug_wifi_sta_disconnect,
    aug_wifi_ap_start, aug_wifi_ap_stop, vTaskDelete_idle, aug_get_least_freq_channel,
    esp_wifi_start_sta, deliver, event_handler, wifi_event_handler, esp_wifi_connect,
    handler_instance_register, handler_instance_unregister, sta_update, ap_update, emit,
    aug_http_start, aug_http_stop_webserver, httpd_start, httpd_stop, httpd_register_uri_handler,
    register_set_options_sta_handler, register_init_sta_handler, register_set_options_mqtt_handler,
    register_init_mqtt_handler, register_ota_update_handler, register_restart_handler, register_index,
    http_update, aug_mqtt_start, aug_mqtt_stop, aug_mqtt_set_uri, esp_mqtt_client_start,
    esp_mqtt_client_stop, esp_mqtt_client_set_uri, mqtt_update, mqtt_stop_if_connected,
    aug_mqtt_is_connected.

Ltac frame :=
  solve_keeps_with ltac:(first
    [ frame_unfold
    | assumption
    | apply keeps_post; intros; reflexivity
    | apply keeps_set_bits; intros; reflexivity
    | apply keeps_pop_radio; intros; reflexivity ]).

Lemma keeps_wait_bits_ap fuel : keeps aug_wifi_ap_is_init (wait_bits fuel).
Proof. induction fuel as [|fuel IH]; cbn [wait_bits]; frame. Qed.

Lemma keeps_connect_ap : keeps aug_wifi_ap_is_init aug_wifi_sta_connect.
Proof. pose proof keeps_wait_bits_ap. frame. Qed.

Lemma keeps_disconnect_ap : keeps aug_wifi_ap_is_init aug_wifi_sta_disconnect.
Proof. frame. Qed.

Lemma keeps_ap_start_sta : keeps aug_wifi_sta_is_init aug_wifi_ap_start.
Proof. frame. Qed.

Lemma keeps_ap_stop_sta : keeps aug_wifi_sta_is_init aug_wifi_ap_stop.
Proof. frame. Qed.

(** The HTTP and MQTT modules touch neither Wi-Fi mode. *)
Section Services.
Context {B : Type} (f : World -> B).
Hypothesis Hf_http : forall g w, f (upd_http g w) = f w.
Hypothesis Hf_mqtt : forall g w, f (upd_mqtt g w) = f w.

Lemma keeps_http_start : keeps f aug_http_start.
Proof. frame. Qed.

Lemma keeps_http_stop : keeps f aug_http_stop_webserver.
Proof. frame. Qed.

Lemma keeps_mqtt_start : keeps f aug_mqtt_start.
Proof. frame. Qed.

Lemma keeps_mqtt_set_uri : keeps f aug_mqtt_set_uri.
Proof. frame. Qed.

Lemma keeps_mqtt_stop_if_connected : keeps f mqtt_stop_if_connected.
Proof. frame. Qed.

End Services.

(** ** What the teardown functions leave *)

(** Invert a run of a computation built from the monad's combinators. *)
Ltac run_inv :=
  mrun; intros ?Hrun; repeat (case_match; simpl in *; simplify_eq/=; try done);
  unfold ESP_OK in *;
  repeat match goal with H : Z.eqb _ _ = false |- _ => apply Z.eqb_neq in H end;
  try congruence.

Lemma disconnect_spec :
  hoare (fun _ => True) aug_wifi_sta_disconnect
    (fun r w => r = ESP_OK -> aug_wifi_sta_is_init w = false).
Proof.
  intros w w' r _ Hrun ->. revert Hrun.
  unfold aug_wifi_sta_disconnect, handler_instance_unregister, sta_update, call. run_inv.
Qed.

Lemma ap_stop_spec :
  hoare (fun _ => True) aug_wifi_ap_stop (fun r w => r = ESP_OK -> aug_wifi_ap_is_init w = false).
Proof.
  intros w w' r _ Hrun ->. revert Hrun.
  unfold aug_wifi_ap_stop, vTaskDelete_idle, handler_instance_unregister, ap_update, call. run_inv.
Qed.

(** The part of [f] a computation keeps, seen through [ESP_ERROR_CHECK]. *)
Lemma hoare_keeps_check (f : World -> bool) (c : M World esp_err_t) v :
  keeps f c -> hoare (fun w => f w = v) c (fun r w => r = ESP_OK -> f w = v).
Proof. intros Hk w w' r Hw Hrun _. by rewrite (keeps_run _ _ _ _ _ Hk Hrun). Qed.

(** After [deinit_modules] returns, neither mode is initialised. *)
Lemma deinit_modules_spec :
  hoare (fun _ => True) deinit_modules
    (fun _ w => aug_wifi_sta_is_init w = false /\ aug_wifi_ap_is_init w = false).
Proof.
  unfold deinit_modules.
  apply hoare_gets_bind. intros h. eapply hoare_bind with (Q := fun _ _ => True).
  { apply hoare_if; intros _; [|by apply hoare_ret].
    eapply hoare_error_check with (Q := fun _ => True); [|by apply hoare_ret].
    by intros ? ? ? ? ? ?. }
  intros _. apply hoare_gets_bind. intros s.
  eapply hoare_bind with (Q := fun _ w => aug_wifi_sta_is_init w = false).
  { apply hoare_if; intros Hs.
    - eapply hoare_error_check with (Q := fun w => aug_wifi_sta_is_init w = false);
        [|by apply hoare_ret].
      eapply hoare_weaken; [apply disconnect_spec| |]; auto; by intros ? _.
    - apply hoare_ret. intros w [_ Hw]. congruence. }
  intros _. apply hoare_gets_bind. intros a. apply hoare_if; intros Ha.
  - eapply hoare_error_check with
      (Q := fun w => aug_wifi_sta_is_init w = false /\ aug_wifi_ap_is_init w = false);
      [|by apply hoare_ret].
    intros w w' r [Hw _] Hrun Hr. split.
    + by rewrite (keeps_run _ _ _ _ _ keeps_ap_stop_sta Hrun).
    + by apply (ap_stop_spec w w' r).
  - apply hoare_ret. intros w [Hw Ha']. split; congruence.
Qed.

(** ** Mode exclusivity *)

Definition sta_off (w : World) : Prop := aug_wifi_sta_is_init w = false.
Definition ap_off (w : World) : Prop := aug_wifi_ap_is_init w = false.

Lemma keeps_http_start_sta : keeps aug_wifi_sta_is_init aug_http_start.
Proof. by apply keeps_http_start. Qed.
Lemma keeps_http_start_ap : keeps aug_wifi_ap_is_init aug_http_start.
Proof. by apply keeps_http_start. Qed.
Lemma keeps_mqtt_start_sta : keeps aug_wifi_sta_is_init aug_mqtt_start.
Proof. by apply keeps_mqtt_start. Qed.
Lemma keeps_mqtt_start_ap : keeps aug_wifi_ap_is_init aug_mqtt_start.
Proof. by apply keeps_mqtt_start. Qed.

(** The two first steps of the mode-switching callbacks. *)
Lemma hoare_teardown {A} P (k : M World A) R :
  hoare (fun w => sta_off w /\ ap_off w) k R -> hoare P (mqtt_stop_if_connected ;; deinit_modules ;; k) R.
Proof.
  intros Hk. eapply hoare_bind with (Q := fun _ _ => True); [by intros ? ? ? ? ?|].
  intros _. eapply hoare_bind; [apply deinit_modules_spec|]. intros ?. exact Hk.
Qed.

(** A step that keeps a mode off. *)
Lemma hoare_keeps_off {A} (f : World -> bool) (c : M World A) (R : A -> World -> Prop) (Q : World -> Prop) :
  keeps f c -> (forall a w, f w = false -> R a w) -> hoare (fun w => f w = false /\ Q w) c R.
Proof. intros Hk HR w w' a [Hf _] Hrun. apply HR. by rewrite (keeps_run _ _ _ _ _ Hk Hrun). Qed.

Lemma callback_init_sta_spec : hoare (fun _ => True) callback_init_sta_fn (fun _ => ap_off).
Proof.
  apply hoare_teardown. eapply hoare_bind with (Q := fun _ => ap_off).
  { eapply hoare_weaken; [apply (hoare_keeps _ _ false keeps_connect_ap)| intros w [_ Hw]; exact Hw | auto]. }
  intros r. apply hoare_if; intros _; [by apply hoare_ret|].
  eapply hoare_bind with (Q := fun _ => ap_off).
  { eapply hoare_weaken; [apply (hoare_keeps _ _ false keeps_http_start_ap)| |]; unfold ap_off; auto. }
  intros _. eapply hoare_error_check with (Q := ap_off); [|by apply hoare_ret].
  apply hoare_keeps_check, keeps_mqtt_start_ap.
Qed.

Lemma callback_init_ap_spec : hoare (fun _ => True) callback_init_ap_fn (fun _ => sta_off).
Proof.
  apply hoare_teardown. eapply hoare_error_check with (Q := sta_off).
  { intros w w' r [Hw _] Hrun _. unfold sta_off. by rewrite (keeps_run _ _ _ _ _ keeps_ap_start_sta Hrun). }
  eapply hoare_bind with (Q := fun _ => sta_off); [|intros _; by apply hoare_ret].
  eapply hoare_weaken; [apply (hoare_keeps _ _ false keeps_http_start_sta)| |]; unfold sta_off; auto.
Qed.

Definition modes (w : World) : bool * bool := (aug_wifi_sta_is_init w, aug_wifi_ap_is_init w).

Lemma keeps_emit_modes o : keeps modes (emit o).
Proof. frame. Qed.

(** [esp_restart] never returns. *)
Lemma esp_restart_spec P (Q : unit -> World -> Prop) : hoare P esp_restart Q.
Proof.
  unfold esp_restart. eapply hoare_bind with (Q := fun _ _ => True); [by intros ? ? ? ? ?|].
  intros ?. apply hoare_reset.
Qed.

Lemma modes_exclusive_keeps (c : M World unit) :
  keeps modes c -> hoare modes_exclusive c (fun _ => modes_exclusive).
Proof.
  intros Hk w w' a Hw Hrun. unfold modes_exclusive.
  pose proof (keeps_run _ _ _ _ _ Hk Hrun) as Hm. unfold modes in Hm. simplify_eq. by rewrite H, H0.
Qed.

Lemma run_callback_spec c : hoare modes_exclusive (run_callback c) (fun _ => modes_exclusive).
Proof.
  destruct c; simpl.
  - eapply hoare_weaken; [apply callback_init_ap_spec| done |].
    intros ? w Hw. unfold modes_exclusive, sta_off in *. by rewrite Hw.
  - eapply hoare_weaken; [apply callback_init_sta_spec| done |].
    intros ? w Hw. unfold modes_exclusive, ap_off in *. by rewrite Hw, andb_false_r.
  - apply modes_exclusive_keeps. unfold callback_init_mqtt_fn.
    apply keeps_error_check; [by apply keeps_mqtt_set_uri | apply keeps_ret].
  - unfold callback_esp_restart_fn.
    eapply hoare_bind with (Q := fun _ _ => True); [by intros ? ? ? ? ?|]. intros ?.
    eapply hoare_bind with (Q := fun _ _ => True); [by intros ? ? ? ? ?|]. intros ?.
    eapply hoare_bind with (Q := fun _ _ => True); [by intros ? ? ? ? ?|]. intros ?.
    apply esp_restart_spec.
Qed.

Lemma loop_dispatch_spec e : hoare modes_exclusive (loop_dispatch e) (fun _ => modes_exclusive).
Proof.
  unfold loop_dispatch. apply hoare_gets_bind. intros hs.
  eapply hoare_weaken with (P' := modes_exclusive) (Q' := fun _ => modes_exclusive); [| intros ? [? ?]; assumption | intros ? ? ?; assumption].
  destruct (handlers_for e hs) as [|c cs].
  - apply modes_exclusive_keeps, keeps_emit_modes.
  - apply hoare_mapM_. intros c'. eapply hoare_bind; [apply modes_exclusive_keeps, keeps_emit_modes|].
    intros ?. apply run_callback_spec.
Qed.

(** The callback each event of the custom loop is meant to run, as
    the transition table of spec section 4.4 lists the reactions (the
    statement of the boot
    theorem compares the registered handlers with it). *)
Definition event_callback (e : loop_event) : callback :=
  match e with
  | AUG_WIFI_STA_EVENT_FAILED_ATTEMPTS => callback_init_ap
  | AUG_WIFI_AP_EVENT_IDLE => callback_init_sta
  | AUG_HTTP_SERVER_EVENT_INIT_STA => callback_init_sta
  | AUG_HTTP_SERVER_EVENT_INIT_MQTT => callback_init_mqtt
  | AUG_HTTP_SERVER_EVENT_OTA_UPDATE => callback_esp_restart
  | AUG_HTTP_SERVER_EVENT_RESTART => callback_esp_restart
  end.

(** ** Properties of the orchestrator *)

(** C1: Mode exclusivity: whatever the platform returns and whatever
    event the loop task serves, a loop iteration that returns leaves
    the station and the access point not both initialised, if they were
    not before.  The callbacks that switch mode tear both modes down
    ([deinit_modules], whose every step is under ESP_ERROR_CHECK) before
    starting one. *)
Theorem loop_step_modes_exclusive w w' b :
  modes_exclusive w -> loop_step w = (w', Ret b) -> modes_exclusive w'.
Proof.
  revert w w' b. unfold loop_step. apply hoare_gets_bind. intros q.
  eapply hoare_weaken with (P' := modes_exclusive) (Q' := fun _ => modes_exclusive); [| intros ? [? ?]; assumption | intros ? ? ?; assumption].
  destruct q as [|e q]; [by apply hoare_ret|].
  eapply hoare_bind; [apply modes_exclusive_keeps; frame|]. intros ?.
  eapply hoare_bind; [apply loop_dispatch_spec|]. intros ?. by apply hoare_ret.
Qed.

Lemma loop_step_modes_exclusive_witness :
  modes_exclusive (upd_queue (fun _ => [AUG_HTTP_SERVER_EVENT_INIT_MQTT]) (world_init plat_ok [] [] ∅)) /\
  exists w', loop_step (upd_queue (fun _ => [AUG_HTTP_SERVER_EVENT_INIT_MQTT]) (world_init plat_ok [] [] ∅))
             = (w', Ret true) /\ modes_exclusive w'.
Proof.
  assert (H : modes_exclusive (upd_queue (fun _ => [AUG_HTTP_SERVER_EVENT_INIT_MQTT])
                                 (world_init plat_ok [] [] ∅))) by reflexivity.
  split; [exact H|]. eexists. split; [reflexivity|].
  exact (loop_step_modes_exclusive _ _ true H eq_refl).
Defined.

Definition registered_table : list (loop_event * callback) :=
  [(AUG_WIFI_STA_EVENT_FAILED_ATTEMPTS, callback_init_ap);
   (AUG_WIFI_AP_EVENT_IDLE, callback_init_sta);
   (AUG_HTTP_SERVER_EVENT_INIT_STA, callback_init_sta);
   (AUG_HTTP_SERVER_EVENT_INIT_MQTT, callback_init_mqtt);
   (AUG_HTTP_SERVER_EVENT_OTA_UPDATE, callback_esp_restart);
   (AUG_HTTP_SERVER_EVENT_RESTART, callback_esp_restart)].

Lemma register_events_ok w :
  w_plat w = plat_ok -> w_handlers w = [] ->
  register_events w = (upd_handlers (fun _ => registered_table) w, Ret tt).
Proof. intros Hp Hh. destruct w as [plat ? ? ? hs ? ? ? ? ? ?]; simpl in *; by subst. Qed.

(** An event with no callback registered is taken off the queue and
    dropped: nothing but the queue and the trace changes. *)
Lemma loop_step_drop w e q :
  w_queue w = e :: q -> handlers_for e (w_handlers w) = [] ->
  loop_step w = (upd_trace (fun t => t ++ [ObsDrop e]) (upd_queue (drop 1) w), Ret true).
Proof.
  intros Hq Hh. unfold loop_step. rewrite bind_gets, Hq.
  rewrite (bind_run _ _ _ (upd_queue (drop 1) w) tt) by reflexivity.
  unfold loop_dispatch. rewrite (bind_run _ _ _ (upd_trace (fun t => t ++ [ObsDrop e]) (upd_queue (drop 1) w)) tt);
    [reflexivity|].
  rewrite bind_gets. simpl. by rewrite Hh.
Qed.


(** The flash of a device whose station configuration [c] is stored. *)
Definition sta_store (c : aug_wifi_sta_config_t) : gmap (string * string) (list ascii) :=
  {[(wifi_sta_config_namespace_str, wifi_sta_config_config_str) := to_bytes c]}.

(** C6: The boot connection's failure is lost.  A device that boots
    with a stored station configuration whose network only ever
    refuses it ([max_retry = k]: [k + 1] disconnections) finishes
    [main_init] in station mode with the access point down: the
    FAILED_ATTEMPTS the station handler posted was dispatched before
    [register_events] ran and was dropped, and the queue is empty.
    Spec section 4.1 has a failed connection start the access point. *)
Theorem boot_failed_connect_stays_sta info dsta dap uri c k rest scan :
  obj_wf c -> max_retry c = Z.of_nat k ->
  exists w',
    main_init info dsta dap uri
      (world_init plat_ok (replicate (S k) WIFI_EVENT_STA_DISCONNECTED ++ rest) scan (sta_store c))
    = (w', Ret tt) /\
    aug_wifi_sta_is_init w' = true /\ aug_wifi_ap_is_init w' = false /\ w_queue w' = [] /\
    ObsDrop AUG_WIFI_STA_EVENT_FAILED_ATTEMPTS ∈ w_trace w' /\
    (forall e, handlers_for e (w_handlers w') = [event_callback e]).
Proof.
  intros Hc Hk.
  rewrite replicate_S_end.
  set (W0 := world_init plat_ok ((replicate k WIFI_EVENT_STA_DISCONNECTED ++ [WIFI_EVENT_STA_DISCONNECTED]) ++ rest) scan (sta_store c)).
  unfold main_init. rewrite (error_check_ok _ _ W0 W0) by reflexivity.
  rewrite (bind_run _ _ _ _ _ (aug_nvs_get_sta_config_stored W0 c eq_refl
             (lookup_singleton_eq _ _) Hc)).
  cbn [ESP_OK Z.eqb negb]. rewrite bind_ret_l.
  set (W1 := upd_sta (set_sta_config c) W0).
  rewrite (bind_run _ _ _ W1 ESP_ERR_NVS_NOT_FOUND) by (apply get_blob_not_found; reflexivity).
  cbn [ESP_ERR_NVS_NOT_FOUND ESP_OK Z.eqb negb Pos.eqb]. unfold ap_update at 1 2, modify at 1 2.
  rewrite (bind_run _ _ _ (upd_ap (set_ap_config dap) (upd_ap (set_ap_config zero_ap_config) W1)) tt)
    by reflexivity.
  set (W2 := upd_ap (set_ap_config dap) (upd_ap (set_ap_config zero_ap_config) W1)).
  cbn [orb]. rewrite (bind_run _ _ _ (connect_fail_world k W2) tt).
  2:{ rewrite (bind_run _ _ _ _ _ (connect_give_up_run W2 k rest eq_refl
                 ltac:(unfold W2, W1, W0; simpl; by rewrite <- app_assoc)
                 ltac:(simpl; rewrite Hk; lia) ltac:(simpl; unfold LOOP_QUEUE_SIZE; lia))).
      reflexivity. }
  destruct (connect_fail_world_obs k W2 _ eq_refl)
    as (Hq & Ht & _ & _ & _ & Hn & _ & Hp & Hh & Ha & Hhttp & Hm & Hnvs).
  generalize dependent (connect_fail_world k W2). intros W3 Hq Ht Hn Hp Hh Ha Hhttp Hm Hnvs.
  destruct W3 as [plat radio scan' queue hs sta ap http mq nvs tr]; simpl in *. clear Ht. subst.
  destruct sta as [? netif ? ? ? ? ?]; simpl in *; subst.
  lazymatch goal with |- exists w', (_ ≫= ?k) ?W = _ /\ _ =>
    rewrite (bind_run get k W W W eq_refl);
    rewrite (bind_run _ _ _ (upd_trace (fun t => t ++ [ObsDrop AUG_WIFI_STA_EVENT_FAILED_ATTEMPTS])
                               (upd_queue (drop 1) W)) tt) end.
  2:{ simpl. rewrite bind_run with (s' := upd_trace (fun t => t ++ [ObsDrop AUG_WIFI_STA_EVENT_FAILED_ATTEMPTS]) (upd_queue (drop 1) _)) (a := true)
        by (apply loop_step_drop with (q := []); reflexivity). reflexivity. }
  lazymatch goal with |- exists w', (_ ≫= ?k) ?W = _ /\ _ =>
    rewrite (bind_run _ k W W ESP_ERR_NVS_NOT_FOUND) by (apply get_blob_not_found; reflexivity) end.
  generalize (sta_store c). intros nvs.
  lazymatch goal with |- exists w', ?L = (w', Ret tt) /\ _ =>
    let v := eval vm_compute in L in exists (fst v) end.
  split; [vm_compute; reflexivity|].
  split; [reflexivity|]. split; [reflexivity|]. split; [reflexivity|]. split.
  - cbn [w_trace fst]. apply elem_of_app. right. by left.
  - intros []; reflexivity.
Qed.

Lemma boot_failed_connect_stays_sta_witness :
  exists w',
    main_init false sample_sta_config zero_ap_config "mqtt://broker"%string
      (world_init plat_ok (replicate 6 WIFI_EVENT_STA_DISCONNECTED) [] (sta_store sample_sta_config))
    = (w', Ret tt) /\ aug_wifi_ap_is_init w' = false.
Proof.
  destruct (boot_failed_connect_stays_sta false sample_sta_config zero_ap_config "mqtt://broker"%string
              sample_sta_config 5 [] [] sample_sta_config_wf eq_refl) as (w' & Hrun & _ & Hap & _).
  exists w'. split; [exact Hrun | exact Hap].
Defined.

(** The boot steps after the broker URI is set leave the MQTT globals. *)
Lemma keeps_register_events_mqtt : keeps (fun w => w_mqtt w) register_events.
Proof. unfold register_events, handler_register_with. frame. Qed.

Lemma keeps_http_start_mqtt : keeps (fun w => w_mqtt w) aug_http_start.
Proof. by apply keeps_http_start. Qed.

(** C7: [main_init] points [mqtt_config.broker.address.uri] at the URI
    buffer (main.c, after the stored or default URI is in it) before
    [aug_mqtt_init] creates the client: a boot that returns leaves an
    initialised client whose broker URI is the C string of [uri_str],
    and a configuration still pointing at that buffer. *)
Theorem main_init_mqtt_client_uri info dsta dap uri w w' :
  main_init info dsta dap uri w = (w', Ret tt) ->
  mqtt_client_handle (w_mqtt w') = true /\
  broker_address_uri (mqtt_config (w_mqtt w')) = true /\
  mqtt_client_uri (w_mqtt w') = c_str (uri_str (w_mqtt w')).
Proof.
  intros Hrun. refine (_ w w' tt I Hrun). unfold main_init.
  eapply (hoare_error_check _ (fun _ => True)); [done|].
  do 10 (eapply hoare_bind; [apply hoare_true|intros ?]). unfold mqtt_update at 1.
  eapply hoare_bind; [apply (hoare_modify _ _ (fun _ w => broker_address_uri (mqtt_config (w_mqtt w)) = true));
    done|intros ?].
  set (I := fun g : mqtt_globals => broker_address_uri (mqtt_config g) = true).
  eapply hoare_bind; [apply (hoare_keeps_inv _ I), keeps_register_events_mqtt|intros ?].
  apply (hoare_check_keeps_inv _ I); [apply keeps_call|].
  eapply hoare_bind; [apply (hoare_keeps_inv _ I), keeps_http_start_mqtt|intros ?].
  eapply hoare_error_check; [apply aug_mqtt_init_uri|].
  apply hoare_gets_bind. intros s. apply hoare_if; intros _.
  - set (f := fun w => (mqtt_client_handle (w_mqtt w), mqtt_config (w_mqtt w), mqtt_client_uri (w_mqtt w),
                        uri_str (w_mqtt w))).
    set (J := fun '(h, c, u, b) => h = true /\ broker_address_uri c = true /\ u = c_str b).
    apply (hoare_weaken _ (fun w => J (f w)) _ (fun _ w => J (f w))); [|intros w0 [Hq _]; exact Hq|done].
    apply hoare_check_keeps_inv; [apply keeps_mqtt_start_client|]. by apply hoare_ret.
  - apply hoare_ret. intros ? [Hq _]. exact Hq.
Qed.

Lemma main_init_mqtt_client_uri_witness :
  let r := main_init false sample_sta_config zero_ap_config "mqtt://broker"%string
             (world_init plat_ok (replicate 6 WIFI_EVENT_STA_DISCONNECTED) [] (sta_store sample_sta_config)) in
  r = (fst r, Ret tt) /\ mqtt_client_uri (w_mqtt (fst r)) = "mqtt://broker"%string.
Proof.
  intros r. assert (Hr : r = (fst r, Ret tt)) by (vm_compute; reflexivity).
  split; [exact Hr|].
  destruct (main_init_mqtt_client_uri false sample_sta_config zero_ap_config "mqtt://broker"%string
    (world_init plat_ok (replicate 6 WIFI_EVENT_STA_DISCONNECTED) [] (sta_store sample_sta_config))
    (fst r) Hr) as (_ & _ & ->).
  vm_compute. reflexivity.
Defined.
