(* ===== verification/HttpHandlers.v ===== *)
(** * HttpHandlers: the URI handlers of src/main/aug_http_server.c

    The handlers read the request's query string, write the options it
    names straight into the module globals (the station configuration
    behind [aug_wifi_sta_get_config], the URI buffer behind
    [aug_mqtt_get_uri]), answer the client, and post events to the
    custom loop.  The ESP-IDF pieces they rely on are modelled from the
    library's sources and documentation:
    - [httpd_query_key_value], the query scanner of esp_http_server
      (a loop over the query with [strchr] and [strncasecmp], ending in
      [strlcpy]); [query_find] is that loop, with fuel, and
      [query_find_terminates] shows that the fuel given is enough;
    - [atoi] of newlib, [strtol] on a 32-bit [long]: blanks, a sign,
      decimal digits, saturating at INT_MIN and INT_MAX;
    - [snprintf] of one [%s] or of the station report, which keeps at
      most [n - 1] characters;
    - a response, [httpd_resp_set_status] followed by
      [httpd_resp_sendstr], is an [ObsResponse] in the trace and a call
      whose result the platform gives.

    The request is an [httpd_req_t] record: its query ([None] when
    [httpd_req_get_url_query_str] fails), its content length and the
    results [httpd_req_recv] returns, in order. *)

From S2P Require Import Prelude Utility Config Platform WifiSta Mqtt Nvs Http.

(** ** Characters and C strings *)

Definition char_eqb (a b : ascii) : bool := Ascii.eqb a b.

(** [tolower] of the C locale. *)
Definition tolower (c : ascii) : ascii :=
  let n := nat_of_ascii c in
  if (65 <=? n)%nat && (n <=? 90)%nat then ascii_of_nat (n + 32) else c.

(** The part of a C string before the first [c], and the part after it. *)
Fixpoint split_at_char (c : ascii) (s : list ascii) : option (list ascii * list ascii) :=
  match s with
  | [] => None
  | x :: s' =>
      if char_eqb x c then Some ([], s')
      else match split_at_char c s' with
           | Some (pre, post) => Some (x :: pre, post)
           | None => None
           end
  end.

(** The characters up to the first [c], or all of them. *)
Definition upto_char (c : ascii) (s : list ascii) : list ascii :=
  match split_at_char c s with Some (pre, _) => pre | None => s end.

(** [offset == strlen(key) && !strncasecmp(qry_ptr, key, offset)]. *)
Definition key_matches (k key : list ascii) : bool :=
  Nat.eqb (length k) (length key) && bool_decide (map tolower k = map tolower key).

Definition CRLF : string := String "013"%char (String "010"%char EmptyString).

(** ** httpd_query_key_value *)

Inductive query_result : Type :=
| QFound (value : list ascii)
| QNotFound
| QOutOfFuel.

(** The scanning loop: at [qry_ptr], the key runs up to the first '=';
    a key that does not match skips to the character after the next '&'
    following that '='; a matching key's value runs up to the next '&'
    or the end.  Each round consumes at least the '='. *)
Fixpoint query_find (fuel : nat) (q key : list ascii) : query_result :=
  match fuel with
  | O => QOutOfFuel
  | S fuel' =>
      match q with
      | [] => QNotFound
      | _ =>
          match split_at_char "=" q with
          | None => QNotFound
          | Some (k, rest) =>
              if key_matches k key then QFound (upto_char "&" rest)
              else match split_at_char "&" rest with
                   | None => QNotFound
                   | Some (_, q') => query_find fuel' q' key
                   end
          end
      end
  end.

(** [strlcpy(val, val_ptr, MIN(val_size, buf_len))] on a value of
    [length v] characters into a buffer of [length dst] bytes. *)
Definition strlcpy (dst v : list ascii) (n : nat) : list ascii :=
  match n with
  | O => dst
  | S n' => memcpy dst (take n' v ++ [NUL])
  end.

(** [httpd_query_key_value(qry, key, val, val_size)], with [val] the
    caller's buffer: the result and what the buffer holds after. *)
Definition httpd_query_key_value (qry key : string) (val : list ascii) : esp_err_t * list ascii :=
  let q := String.list_ascii_of_string qry in
  match query_find (S (length q)) q (String.list_ascii_of_string key) with
  | QFound v =>
      let buf_len := length val in
      let val_size := S (length v) in
      let val' := strlcpy val v (Nat.min val_size buf_len) in
      if Nat.ltb buf_len val_size then (ESP_ERR_HTTPD_RESULT_TRUNC, val') else (ESP_OK, val')
  | _ => (ESP_ERR_NOT_FOUND, val)
  end.

(** ** atoi of newlib *)

Definition is_space (c : ascii) : bool :=
  let n := nat_of_ascii c in (n =? 32)%nat || ((9 <=? n)%nat && (n <=? 13)%nat).

Definition is_digit (c : ascii) : bool :=
  let n := nat_of_ascii c in (48 <=? n)%nat && (n <=? 57)%nat.

Definition digit_val (c : ascii) : Z := Z.of_nat (nat_of_ascii c) - 48.

(** The decimal digits at the front of [s], accumulated into [acc]. *)
Fixpoint strtol_digits (acc : Z) (s : list ascii) : Z :=
  match s with
  | c :: s' => if is_digit c then strtol_digits (acc * 10 + digit_val c) s' else acc
  | [] => acc
  end.

Fixpoint skip_spaces (s : list ascii) : list ascii :=
  match s with
  | c :: s' => if is_space c then skip_spaces s' else s
  | [] => []
  end.

Definition clamp_int (z : Z) : Z := Z.max INT_MIN (Z.min INT_MAX z).

(** [atoi(buffer)] = [(int)strtol(buffer, NULL, 10)]: an out-of-range
    value saturates at LONG_MIN or LONG_MAX, which are INT_MIN and
    INT_MAX on the 32-bit target. *)
Definition atoi_str (str : string) : Z :=
  match skip_spaces (String.list_ascii_of_string str) with
  | c :: s' =>
      if char_eqb c "-" then clamp_int (- strtol_digits 0 s')
      else if char_eqb c "+" then clamp_int (strtol_digits 0 s')
      else clamp_int (strtol_digits 0 (c :: s'))
  | [] => 0
  end.

Definition atoi (buffer : list ascii) : Z := atoi_str (c_str buffer).

(** ** Responses *)

(** [snprintf(buf, n, ...)] of a text [s]: at most [n - 1] characters. *)
Definition snprintf (n : nat) (s : string) : string := String.substring 0 (n - 1) s.

(** A format with one [%s]: the text before and after it. *)
Record fmt_s := mk_fmt_s { fmt_pre : string; fmt_post : string }.

(** [sizeof(msg)] of the format's literal, [%s] and NUL included. *)
Definition fmt_sizeof (m : fmt_s) : nat :=
  (String.length (fmt_pre m) + 2 + String.length (fmt_post m) + 1)%nat.

Definition fmt_apply (m : fmt_s) (arg : string) : string := (fmt_pre m ++ arg ++ fmt_post m)%string.

Definition msg_length_exceeds : fmt_s :=
  mk_fmt_s "<div>The " (" length exceeds the limit</div>" ++ CRLF)%string.
Definition msg_invalid_value : fmt_s :=
  mk_fmt_s "<div>The " (" has invalid value</div>" ++ CRLF)%string.

(** [httpd_resp_set_status(req, status)] then [httpd_resp_sendstr(req, body)]. *)
Definition resp_send (status body : string) : M World esp_err_t :=
  emit (ObsResponse status body) ;; call API_httpd_resp_send.

(** [send_bad_request_msg(msg, msg_len, option_str, option_len, req)]. *)
Definition send_bad_request_msg (msg : fmt_s) (msg_len : nat) (option_str : string) (option_len : nat)
    : M World unit :=
  let total_size := (msg_len + option_len + 1)%nat in
  resp_send "400 Bad Request" (snprintf total_size (fmt_apply msg option_str)) ;; mret tt.

(** The call the setters make: [sizeof(msg) - 2] and [strlen(option_str)]. *)
Definition bad_request (msg : fmt_s) (option_str : string) : M World unit :=
  send_bad_request_msg msg (fmt_sizeof msg - 2) option_str (String.length option_str).

Definition unexpected_error_body : string := ("<div>Unexpected error</div>" ++ CRLF)%string.

Definition send_unexpected_error : M World unit :=
  resp_send "500 Internal Server Error" unexpected_error_body ;; mret tt.

(** ** The option setters *)

(** The switch on the result of [httpd_query_key_value] the four
    setters share, with the [ESP_OK] case as [found]. *)
Definition query_switch (option_str : string) (result : esp_err_t) (found : M World esp_err_t)
    : M World esp_err_t :=
  if Z.eqb result ESP_ERR_HTTPD_RESULT_TRUNC
  then bad_request msg_length_exceeds option_str ;; mret ESP_ERR_HTTPD_RESULT_TRUNC
  else if Z.eqb result ESP_ERR_NOT_FOUND then mret ESP_OK
  else if Z.eqb result ESP_OK then found
  else send_unexpected_error ;; mret result.

(** [set_str_value]: the option's buffer, [buffer_size] bytes, is
    overwritten by the zero-initialised local buffer the value was
    copied into; [write] stores it behind [option_buffer]. *)
Definition set_str_value (query_str option_str : string) (buffer_size : nat)
    (write : list ascii -> World -> World) : M World esp_err_t :=
  let '(result, buffer) := httpd_query_key_value query_str option_str (replicate buffer_size NUL) in
  query_switch option_str result (modify (write buffer) ;; mret ESP_OK).

Definition max_int_chars : nat := 24.

(** [set_int_value]: [*option_number = atoi(buffer)]. *)
Definition set_int_value (query_str option_str : string) (write : Z -> World -> World)
    : M World esp_err_t :=
  let '(result, buffer) := httpd_query_key_value query_str option_str (replicate max_int_chars NUL) in
  query_switch option_str result (modify (write (atoi buffer)) ;; mret ESP_OK).

(** [set_auth_enum_value] and [set_sae_mode_enum_value]: the buffer has
    the table's largest size; the conversion writes the out parameter
    only when it finds the string (the [aug_str_to_*] loops), and a value it does not know is a
    400 with ESP_FAIL. *)
Definition set_enum_value (to_mode : string -> nat -> Z -> esp_err_t * Z) (mode_size : nat)
    (query_str option_str : string) (read : World -> Z) (write : Z -> World -> World)
    : M World esp_err_t :=
  let '(result, buffer) := httpd_query_key_value query_str option_str (replicate mode_size NUL) in
  query_switch option_str result
    (cur ← gets read;
     let '(found, mode) := to_mode (c_str buffer) (String.length (c_str buffer)) cur in
     if negb (Z.eqb found ESP_OK)
     then bad_request msg_invalid_value option_str ;; mret ESP_FAIL
     else modify (write mode) ;; mret ESP_OK).

Definition set_auth_enum_value := set_enum_value aug_str_to_auth_mode aug_get_auth_mode_size.
Definition set_sae_mode_enum_value := set_enum_value aug_str_to_sae_mode aug_get_sae_mode_size.

(** ** The station options *)

(** Writes through [aug_wifi_sta_get_config()], the address of the
    module's [sta_config]: one updater per field the setters reach. *)
Definition sta_config_update (f : aug_wifi_sta_config_t -> aug_wifi_sta_config_t) (w : World) : World :=
  upd_sta (fun g => set_sta_config (f (sta_config g)) g) w.

Definition wifi_sta_update (f : wifi_sta_config_t -> wifi_sta_config_t) (c : aug_wifi_sta_config_t)
    : aug_wifi_sta_config_t :=
  mk_aug_wifi_sta_config (f (sta_wifi_config c)) (max_retry c).

Definition set_ssid (v : list ascii) (s : wifi_sta_config_t) : wifi_sta_config_t :=
  mk_wifi_sta_config v (sta_password s) (sta_threshold_authmode s) (sta_sae_pwe_h2e s) (sta_sae_h2e_identifier s).
Definition set_password (v : list ascii) (s : wifi_sta_config_t) : wifi_sta_config_t :=
  mk_wifi_sta_config (sta_ssid s) v (sta_threshold_authmode s) (sta_sae_pwe_h2e s) (sta_sae_h2e_identifier s).
Definition set_authmode (v : Z) (s : wifi_sta_config_t) : wifi_sta_config_t :=
  mk_wifi_sta_config (sta_ssid s) (sta_password s) v (sta_sae_pwe_h2e s) (sta_sae_h2e_identifier s).
Definition set_sae_pwe_h2e (v : Z) (s : wifi_sta_config_t) : wifi_sta_config_t :=
  mk_wifi_sta_config (sta_ssid s) (sta_password s) (sta_threshold_authmode s) v (sta_sae_h2e_identifier s).
Definition set_sae_h2e_identifier (v : list ascii) (s : wifi_sta_config_t) : wifi_sta_config_t :=
  mk_wifi_sta_config (sta_ssid s) (sta_password s) (sta_threshold_authmode s) (sta_sae_pwe_h2e s) v.
Definition set_max_retry (v : Z) (c : aug_wifi_sta_config_t) : aug_wifi_sta_config_t :=
  mk_aug_wifi_sta_config (sta_wifi_config c) v.

(** [memcpy(field, buffer, sizeof(field))] for a character array of the
    station configuration. *)
Definition write_sta_chars (get : wifi_sta_config_t -> list ascii)
    (set : list ascii -> wifi_sta_config_t -> wifi_sta_config_t) (buffer : list ascii) : World -> World :=
  sta_config_update (wifi_sta_update (fun s => set (memcpy (get s) buffer) s)).

Definition cur_sta (f : wifi_sta_config_t -> Z) (w : World) : Z :=
  f (sta_wifi_config (aug_wifi_sta_get_config w)).

(** [set_sta_options(req, query_str, sta_config)]. *)
Definition set_sta_options (query_str : string) : M World esp_err_t :=
  AUG_RETURN_CHECK (set_str_value query_str "ssid" SSID_LEN (write_sta_chars sta_ssid set_ssid));
  AUG_RETURN_CHECK (set_str_value query_str "password" PASSWORD_LEN
                      (write_sta_chars sta_password set_password));
  AUG_RETURN_CHECK (set_int_value query_str "max_retry" (fun n => sta_config_update (set_max_retry n)));
  AUG_RETURN_CHECK (set_auth_enum_value query_str "auth_mode" (cur_sta sta_threshold_authmode)
                      (fun m => sta_config_update (wifi_sta_update (set_authmode m))));
  AUG_RETURN_CHECK (set_sae_mode_enum_value query_str "sae_mode" (cur_sta sta_sae_pwe_h2e)
                      (fun m => sta_config_update (wifi_sta_update (set_sae_pwe_h2e m))));
  sae ← gets (cur_sta sta_sae_pwe_h2e);
  if Z.eqb sae WPA3_SAE_PWE_HASH_TO_ELEMENT || Z.eqb sae WPA3_SAE_PWE_BOTH
  then AUG_RETURN_CHECK (set_str_value query_str "password_id" SAE_H2E_IDENTIFIER_LEN
                           (write_sta_chars sta_sae_h2e_identifier set_sae_h2e_identifier));
       mret ESP_OK
  else mret ESP_OK.

(** The request: its query string ([None] when
    [httpd_req_get_url_query_str] fails), [content_len], and the bytes
    the socket has ready at the [i]-th [httpd_req_recv] (or
    HTTPD_SOCK_ERR_TIMEOUT, or another error). *)
Record httpd_req_t := mk_req {
  req_query : option string;
  req_content_len : nat;
  req_recv : nat -> Z
}.

Definition options_are_set : string := ("<div>Options are set</div>" ++ CRLF)%string.

(** The handler body shared by [set_options_sta_handler] and
    [set_options_mqtt_handler]: read the query, apply the setter, and
    answer 500 on any failure or 200 when the options are set. *)
Definition set_options_with (setter : string -> M World esp_err_t) (req : httpd_req_t)
    : M World esp_err_t :=
  match req_query req with
  | None => send_unexpected_error ;; mret ESP_FAIL
  | Some query_str =>
      r ← setter query_str;
      if negb (Z.eqb r ESP_OK) then send_unexpected_error ;; mret ESP_FAIL
      else resp_send "200 Success" options_are_set
  end.

Definition set_options_sta_handler : httpd_req_t -> M World esp_err_t :=
  set_options_with set_sta_options.

(** [set_options_mqtt]: the URI goes into the buffer [mqtt_uri] points
    at, [uri_len] = MQTT_MAX_URI_LEN bytes of it. *)
Definition set_options_mqtt (query_str : string) (mqtt_uri : aug_mqtt_uri_t) : M World esp_err_t :=
  AUG_RETURN_CHECK (set_str_value query_str "uri" (uri_len mqtt_uri)
                      (fun b => upd_mqtt (fun g => set_uri_str (memcpy (uri_str g) b) g)));
  mret ESP_OK.

Definition set_options_mqtt_handler : httpd_req_t -> M World esp_err_t :=
  set_options_with (fun query_str => set_options_mqtt query_str aug_mqtt_get_uri).

(** The station configuration is one [aug_nvs_set_sta_config] can store
    and read back: arrays of their C sizes, [int]-ranged numbers. *)
Definition sta_ok (w : World) : Prop := sta_repr_wf (aug_wifi_sta_get_config w).

(** ** A reference for the query: a list of key=value pairs *)

(** A query [k1=v1&k2=v2&...] whose keys hold no '=' or '&' and whose
    values hold no '&' (nor NUL: the query is a C string). *)
Definition param_ok (p : string * string) : Prop :=
  ("="%char ∉ String.list_ascii_of_string (fst p)) /\ ("&"%char ∉ String.list_ascii_of_string (fst p)) /\
  ("&"%char ∉ String.list_ascii_of_string (snd p)) /\ (NUL ∉ String.list_ascii_of_string (snd p)).

#[export] Instance param_ok_dec p : Decision (param_ok p).
Proof. unfold param_ok. apply _. Defined.

Definition param_bytes (p : string * string) : list ascii :=
  String.list_ascii_of_string (fst p) ++ "="%char :: String.list_ascii_of_string (snd p).

Fixpoint query_bytes (ps : list (string * string)) : list ascii :=
  match ps with
  | [] => []
  | [p] => param_bytes p
  | p :: ps' => param_bytes p ++ "&"%char :: query_bytes ps'
  end.

Definition query_of (ps : list (string * string)) : string := String.string_of_list_ascii (query_bytes ps).

(** The reference: the value of the first key equal to [key] up to
    case. *)
Fixpoint query_lookup (ps : list (string * string)) (key : string) : option string :=
  match ps with
  | [] => None
  | (k, v) :: ps' =>
      if key_matches (String.list_ascii_of_string k) (String.list_ascii_of_string key)
      then Some v else query_lookup ps' key
  end.

(** ** An abstract specification of set_sta_options *)

(** Why a query is refused, and what the client is told. *)
Inductive option_error : Type :=
| OptTooLong (key : string)
| OptInvalid (key : string).

Definition option_error_code (e : option_error) : esp_err_t :=
  match e with OptTooLong _ => ESP_ERR_HTTPD_RESULT_TRUNC | OptInvalid _ => ESP_FAIL end.

Definition option_error_body (e : option_error) : string :=
  match e with
  | OptTooLong k => fmt_apply msg_length_exceeds k
  | OptInvalid k => fmt_apply msg_invalid_value k
  end.

(** The configuration reached, and the refusal if there is one: a
    refused option stops the others but keeps what was written. *)
Inductive spec_result : Type :=
| SOk (c : aug_wifi_sta_config_t)
| SErr (c : aug_wifi_sta_config_t) (e : option_error).

Definition sbind (r : spec_result) (f : aug_wifi_sta_config_t -> spec_result) : spec_result :=
  match r with SOk c => f c | SErr c e => SErr c e end.

Section Spec.
Variable ps : list (string * string).

(** A string option: a value shorter than the array replaces it. *)
Definition str_option (key : string) (size : nat)
    (set : list ascii -> wifi_sta_config_t -> wifi_sta_config_t) (c : aug_wifi_sta_config_t) : spec_result :=
  match query_lookup ps key with
  | None => SOk c
  | Some v =>
      if Nat.ltb (String.length v) size
      then SOk (wifi_sta_update (set (memcpy (replicate size NUL) (c_bytes v))) c)
      else SErr c (OptTooLong key)
  end.

(** The number option: any short enough value, as [atoi] reads it. *)
Definition int_option (key : string) (c : aug_wifi_sta_config_t) : spec_result :=
  match query_lookup ps key with
  | None => SOk c
  | Some v =>
      if Nat.ltb (String.length v) max_int_chars then SOk (set_max_retry (atoi_str v) c)
      else SErr c (OptTooLong key)
  end.

(** An enum option: a value the table knows. *)
Definition enum_option (to_mode : string -> nat -> Z -> esp_err_t * Z) (size : nat) (key : string)
    (get : wifi_sta_config_t -> Z) (set : Z -> wifi_sta_config_t -> wifi_sta_config_t)
    (c : aug_wifi_sta_config_t) : spec_result :=
  match query_lookup ps key with
  | None => SOk c
  | Some v =>
      if Nat.ltb (String.length v) size then
        let '(found, m) := to_mode v (String.length v) (get (sta_wifi_config c)) in
        if Z.eqb found ESP_OK then SOk (wifi_sta_update (set m) c) else SErr c (OptInvalid key)
      else SErr c (OptTooLong key)
  end.

Definition sae_needs_identifier (c : aug_wifi_sta_config_t) : bool :=
  let s := sta_sae_pwe_h2e (sta_wifi_config c) in
  Z.eqb s WPA3_SAE_PWE_HASH_TO_ELEMENT || Z.eqb s WPA3_SAE_PWE_BOTH.

(** The options in the order the code takes them; the password
    identifier only for an SAE mode that uses it. *)
Definition sta_options_spec (c : aug_wifi_sta_config_t) : spec_result :=
  sbind (str_option "ssid" SSID_LEN set_ssid c) (fun c =>
  sbind (str_option "password" PASSWORD_LEN set_password c) (fun c =>
  sbind (int_option "max_retry" c) (fun c =>
  sbind (enum_option aug_str_to_auth_mode aug_get_auth_mode_size "auth_mode"
           sta_threshold_authmode set_authmode c) (fun c =>
  sbind (enum_option aug_str_to_sae_mode aug_get_sae_mode_size "sae_mode"
           sta_sae_pwe_h2e set_sae_pwe_h2e c) (fun c =>
  if sae_needs_identifier c
  then str_option "password_id" SAE_H2E_IDENTIFIER_LEN set_sae_h2e_identifier c
  else SOk c))))).

End Spec.

(** ** The simulation between the setters and the specification *)

Definition sta_set (c : aug_wifi_sta_config_t) : World -> World := sta_config_update (fun _ => c).

(** What a step of the specification does to the world: the
    configuration, and a 400 with the refusal's message. *)
Definition spec_run (r : spec_result) (w : World) : World * outcome esp_err_t :=
  match r with
  | SOk c => (sta_set c w, Ret ESP_OK)
  | SErr c e =>
      (upd_trace (fun t => t ++ [ObsResponse "400 Bad Request" (option_error_body e)]) (sta_set c w),
       Ret (option_error_code e))
  end.

(** [m] implements [f] on storable configurations. *)
Definition implements (m : M World esp_err_t) (f : aug_wifi_sta_config_t -> spec_result) : Prop :=
  forall w, sta_ok w -> m w = spec_run (f (aug_wifi_sta_get_config w)) w.

(** Sample queries. *)

Definition sample_options : list (string * string) :=
  [("ssid", "office"); ("password", "pw123456"); ("max_retry", "7"); ("auth_mode", "wpa2_psk");
   ("sae_mode", "both"); ("password_id", "pid")]%string.

(** A password of 70 characters, too long for the 64 bytes of the array. *)
Definition long_password : string :=
  "aaaaaaaaaaaaaaaaaaaaaaaaaaaaaaaaaaaaaaaaaaaaaaaaaaaaaaaaaaaaaaaaaaaaaa".

Definition refused_options : list (string * string) :=
  [("ssid", "office"); ("password", long_password)]%string.


(** ** Lemmas: buffers and numbers *)

Lemma length_strlcpy dst v n : (n <= length dst)%nat -> length (strlcpy dst v n) = length dst.
Proof.
  destruct n as [|n]; simpl; [done|]. intros Hn. apply length_memcpy.
  rewrite length_app, length_take. simpl. lia.
Qed.

(** The caller's buffer keeps its size. *)
Lemma length_httpd_query_key_value qry key val :
  length (snd (httpd_query_key_value qry key val)) = length val.
Proof.
  unfold httpd_query_key_value. case_match; try done.
  destruct (Nat.ltb _ _); cbn [snd]; apply length_strlcpy, Nat.le_min_r.
Qed.

Lemma clamp_int_range z : int_range (clamp_int z).
Proof. unfold clamp_int, int_range, INT_MIN, INT_MAX. lia. Qed.

(** [atoi] returns an [int]. *)
Lemma atoi_range b : int_range (atoi b).
Proof.
  unfold atoi, atoi_str. destruct (skip_spaces _) as [|c s]; [unfold int_range, INT_MIN, INT_MAX; lia|].
  repeat case_match; apply clamp_int_range.
Qed.

(** A conversion of the tables returns the old mode or a table entry. *)
Lemma str_to_mode_range enums strs b n cur :
  Forall int_range enums -> int_range cur -> int_range (snd (str_to_mode enums strs b n cur)).
Proof.
  intros He Hc. unfold str_to_mode. case_match; simpl; [|done].
  apply nth_Forall; [done|]. unfold int_range, INT_MIN, INT_MAX. lia.
Qed.

Lemma auth_enum_range : Forall int_range AUG_AUTH_MODES_ENUM.
Proof. repeat constructor; cbv; discriminate. Qed.

Lemma sae_enum_range : Forall int_range AUG_SAE_MODES_ENUM.
Proof. repeat constructor; cbv; discriminate. Qed.

(** ** Lemmas: the station configuration stays storable *)

Lemma keeps_sta_resp_send st b : keeps w_sta (resp_send st b).
Proof. unfold resp_send, emit. solve_keeps_with idtac. Qed.

Lemma preserves_sta_ok_keeps {A} (c : M World A) : keeps w_sta c -> preserves sta_ok c.
Proof.
  intros Hc. apply (preserves_keeps _ w_sta); [done|].
  unfold sta_ok, aug_wifi_sta_get_config. intros s s' ->. done.
Qed.

Lemma keeps_sta_responses :
  keeps w_sta send_unexpected_error /\
  (forall m opt, keeps w_sta (bad_request m opt)).
Proof.
  split; [|intros m opt]; unfold send_unexpected_error, bad_request, send_bad_request_msg;
    apply keeps_bind; auto using keeps_sta_resp_send with keeps.
Qed.

Lemma preserves_query_switch opt r found :
  preserves sta_ok found -> preserves sta_ok (query_switch opt r found).
Proof.
  destruct keeps_sta_responses as [Hu Hb]. intros Hf. unfold query_switch.
  destruct (Z.eqb _ _); [apply preserves_bind; [apply preserves_sta_ok_keeps, Hb|auto with preserves]|].
  destruct (Z.eqb _ _); [apply preserves_ret|]. destruct (Z.eqb _ _); [exact Hf|].
  apply preserves_bind; [apply preserves_sta_ok_keeps, Hu|auto with preserves].
Qed.

Section Setters.
Variable query_str option_str : string.

Lemma preserves_set_str_value size write :
  (forall b w, length b = size -> sta_ok w -> sta_ok (write b w)) ->
  preserves sta_ok (set_str_value query_str option_str size write).
Proof.
  intros Hw. unfold set_str_value.
  pose proof (length_httpd_query_key_value query_str option_str (replicate size NUL)) as Hl.
  destruct (httpd_query_key_value _ _ _) as [r b]. simpl in Hl. rewrite length_replicate in Hl.
  apply preserves_query_switch, preserves_bind; [|intros; apply preserves_ret].
  apply preserves_modify. auto.
Qed.

Lemma preserves_set_int_value write :
  (forall n w, int_range n -> sta_ok w -> sta_ok (write n w)) ->
  preserves sta_ok (set_int_value query_str option_str write).
Proof.
  intros Hw. unfold set_int_value. destruct (httpd_query_key_value _ _ _) as [r b].
  apply preserves_query_switch, preserves_bind; [|intros; apply preserves_ret].
  apply preserves_modify. auto using atoi_range.
Qed.

Lemma preserves_set_enum_value enums strs size read write :
  Forall int_range enums -> (forall w, sta_ok w -> int_range (read w)) ->
  (forall n w, int_range n -> sta_ok w -> sta_ok (write n w)) ->
  preserves sta_ok (set_enum_value (str_to_mode enums strs) size query_str option_str read write).
Proof.
  intros He Hr Hw. unfold set_enum_value. destruct (httpd_query_key_value _ _ _) as [r b].
  apply preserves_query_switch, preserves_gets_bind. intros w Hok.
  pose proof (str_to_mode_range enums strs (c_str b) (String.length (c_str b)) (read w) He (Hr w Hok)).
  destruct (str_to_mode _ _ _ _ _) as [found mode]. cbn [snd] in *.
  revert w Hok. destruct (negb _); apply preserves_bind; auto with preserves.
  - apply preserves_sta_ok_keeps, keeps_sta_responses.
  - apply preserves_modify. auto.
Qed.

End Setters.

(** The field writers of [set_sta_options] keep the configuration
    storable: a character array gets a buffer of its own size, a number
    an [int]. *)
Ltac sta_ok_write :=
  intros ?b ?w ?Hb Hok; unfold sta_ok, sta_repr_wf, sta_config_wf, aug_wifi_sta_get_config in *;
  destruct Hok as ((? & ? & ?) & ? & ? & ?); simpl in *;
  rewrite ?length_memcpy by lia; repeat split; auto; unfold int_range in *; lia.

Lemma sta_ok_writers :
  (forall b w, length b = SSID_LEN -> sta_ok w -> sta_ok (write_sta_chars sta_ssid set_ssid b w)) /\
  (forall b w, length b = PASSWORD_LEN -> sta_ok w ->
     sta_ok (write_sta_chars sta_password set_password b w)) /\
  (forall b w, length b = SAE_H2E_IDENTIFIER_LEN -> sta_ok w ->
     sta_ok (write_sta_chars sta_sae_h2e_identifier set_sae_h2e_identifier b w)) /\
  (forall n w, int_range n -> sta_ok w -> sta_ok (sta_config_update (set_max_retry n) w)) /\
  (forall n w, int_range n -> sta_ok w -> sta_ok (sta_config_update (wifi_sta_update (set_authmode n)) w)) /\
  (forall n w, int_range n -> sta_ok w -> sta_ok (sta_config_update (wifi_sta_update (set_sae_pwe_h2e n)) w)).
Proof. split_and!; sta_ok_write. Qed.

Lemma sta_ok_reads :
  (forall w, sta_ok w -> int_range (cur_sta sta_threshold_authmode w)) /\
  (forall w, sta_ok w -> int_range (cur_sta sta_sae_pwe_h2e w)).
Proof. unfold sta_ok, sta_repr_wf, cur_sta. split; intros w; tauto. Qed.

Lemma set_sta_options_preserves q : preserves sta_ok (set_sta_options q).
Proof.
  destruct sta_ok_writers as (Hs & Hp & Hi & Hm & Ha & Hsae). destruct sta_ok_reads as [Hra Hrs].
  unfold set_sta_options, set_auth_enum_value, set_sae_mode_enum_value,
    aug_str_to_auth_mode, aug_str_to_sae_mode.
  apply preserves_return_check; [by apply preserves_set_str_value|].
  apply preserves_return_check; [by apply preserves_set_str_value|].
  apply preserves_return_check; [by apply preserves_set_int_value|].
  apply preserves_return_check; [apply preserves_set_enum_value; auto using auth_enum_range|].
  apply preserves_return_check; [apply preserves_set_enum_value; auto using sae_enum_range|].
  apply preserves_gets_bind. intros w Hw.
  match goal with |- context [if ?b then _ else _] => destruct b end; revert w Hw; [|apply preserves_ret].
  apply preserves_return_check; [by apply preserves_set_str_value|apply preserves_ret].
Qed.

(** C13: Whatever the query and whatever the platform returns,
    [set_options_sta_handler] leaves a station configuration that
    [aug_nvs_set_sta_config] can store and read back: every character
    array keeps its C size and every number stays an [int], on the
    error paths as well. *)
Theorem set_options_sta_keeps_config_storable req w :
  sta_ok w -> sta_ok (fst (set_options_sta_handler req w)).
Proof.
  destruct keeps_sta_responses as [Hu _]. revert w.
  unfold set_options_sta_handler, set_options_with. destruct (req_query req) as [q|].
  - apply preserves_bind; [apply set_sta_options_preserves|]. intros r.
    case_match; apply preserves_sta_ok_keeps; [|apply keeps_sta_resp_send].
    apply keeps_bind; auto with keeps.
  - apply preserves_sta_ok_keeps, keeps_bind; auto with keeps.
Qed.

(** ** Lemmas: the query scanner *)

Lemma split_at_char_Some c s pre post :
  split_at_char c s = Some (pre, post) -> s = pre ++ c :: post.
Proof.
  revert pre post. induction s as [|x s IH]; intros pre post; simpl; [done|].
  destruct (char_eqb x c) eqn:E.
  - intros [= <- <-]. apply Ascii.eqb_eq in E. by subst.
  - destruct (split_at_char c s) as [[p q]|]; [|done]. intros [= <- <-]. simpl. f_equal. auto.
Qed.

Lemma split_at_char_shorter c s pre post :
  split_at_char c s = Some (pre, post) -> (length post < length s)%nat.
Proof. intros H. apply split_at_char_Some in H as ->. rewrite length_app. simpl. lia. Qed.

Lemma split_at_char_app c pre post :
  c ∉ pre -> split_at_char c (pre ++ c :: post) = Some (pre, post).
Proof.
  induction pre as [|x pre IH]; simpl; intros Hn.
  - unfold char_eqb. by rewrite Ascii.eqb_refl.
  - rewrite not_elem_of_cons in Hn. destruct Hn as [Hx Hn].
    unfold char_eqb. destruct (Ascii.eqb_spec x c); [congruence|]. by rewrite IH.
Qed.

Lemma split_at_char_None c s : c ∉ s -> split_at_char c s = None.
Proof.
  induction s as [|x s IH]; simpl; intros Hn; [done|].
  rewrite not_elem_of_cons in Hn. destruct Hn as [Hx Hn].
  unfold char_eqb. destruct (Ascii.eqb_spec x c); [congruence|]. by rewrite IH.
Qed.

(** The scanning loop of [httpd_query_key_value] ends: every
    round consumes the key and its '=', so [length q + 1] rounds, the
    fuel the model gives, always reach an answer. *)
Lemma query_find_terminates fuel q key :
  (length q < fuel)%nat -> query_find fuel q key <> QOutOfFuel.
Proof.
  revert q. induction fuel as [|fuel IH]; intros q Hq; [lia|]. simpl.
  destruct q as [|x q']; [done|].
  destruct (split_at_char "=" _) as [[k rest]|] eqn:E1; [|done].
  destruct (key_matches k key); [done|].
  destruct (split_at_char "&" rest) as [[v q'']|] eqn:E2; [|done].
  apply split_at_char_shorter in E1, E2. apply IH. lia.
Qed.

Lemma query_find_cons fuel q key :
  q <> [] ->
  query_find (S fuel) q key =
  match split_at_char "=" q with
  | None => QNotFound
  | Some (k, rest) =>
      if key_matches k key then QFound (upto_char "&" rest)
      else match split_at_char "&" rest with
           | None => QNotFound
           | Some (_, q') => query_find fuel q' key
           end
  end.
Proof. by destruct q. Qed.

Lemma query_bytes_cons p ps :
  query_bytes (p :: ps) =
  String.list_ascii_of_string (fst p) ++ "="%char ::
    (String.list_ascii_of_string (snd p) ++ match ps with [] => [] | _ => "&"%char :: query_bytes ps end).
Proof. destruct ps; simpl; unfold param_bytes; [by rewrite app_nil_r|]. by rewrite <- app_assoc. Qed.

(** On a query made of [key=value] pairs joined by '&' (keys
    without '=' or '&', values without '&'), the scanning loop of
    [httpd_query_key_value] finds exactly what the reference lookup
    finds: the value of the first pair whose key equals the one asked
    for, ignoring case, and nothing when there is none. *)
Theorem query_find_lookup ps key fuel :
  Forall param_ok ps -> (length (query_bytes ps) < fuel)%nat ->
  query_find fuel (query_bytes ps) (String.list_ascii_of_string key) =
  match query_lookup ps key with
  | Some v => QFound (String.list_ascii_of_string v)
  | None => QNotFound
  end.
Proof.
  revert fuel. induction ps as [|[k v] ps IH]; intros fuel Hok Hlen; destruct fuel as [|fuel]; try lia.
  - reflexivity.
  - inversion Hok as [|? ? (Hk1 & Hk2 & Hv & _) Hok']; subst. simpl in Hk1, Hk2, Hv.
    rewrite query_bytes_cons in *. cbn [fst snd] in *.
    rewrite query_find_cons by (by destruct (String.list_ascii_of_string k)).
    rewrite split_at_char_app by done. simpl query_lookup.
    destruct (key_matches _ _); destruct ps as [|p ps].
    + unfold upto_char. by rewrite app_nil_r, split_at_char_None.
    + unfold upto_char. by rewrite split_at_char_app.
    + by rewrite app_nil_r, split_at_char_None.
    + rewrite split_at_char_app by done. apply IH; [done|].
      rewrite !length_app in Hlen. cbn [length] in Hlen. rewrite length_app in Hlen. cbn [length] in Hlen. lia.
Qed.

(** The query a client sends, [query_of ps], as [httpd_query_key_value]
    reads it into a zero-initialised buffer of [size] bytes. *)
Lemma httpd_query_key_value_of ps key size :
  Forall param_ok ps ->
  httpd_query_key_value (query_of ps) key (replicate size NUL) =
  match query_lookup ps key with
  | Some v =>
      if Nat.ltb (String.length v) size then (ESP_OK, memcpy (replicate size NUL) (c_bytes v))
      else (ESP_ERR_HTTPD_RESULT_TRUNC, strlcpy (replicate size NUL) (String.list_ascii_of_string v) size)
  | None => (ESP_ERR_NOT_FOUND, replicate size NUL)
  end.
Proof.
  intros Hps. unfold httpd_query_key_value, query_of.
  rewrite String.list_ascii_of_string_of_list_ascii, query_find_lookup by (done || lia).
  destruct (query_lookup ps key) as [v|]; [|done].
  rewrite length_replicate, length_list_ascii_of_string.
  destruct (Nat.ltb_spec (String.length v) size).
  - rewrite (proj2 (Nat.ltb_ge _ _)) by lia. rewrite Nat.min_l by lia. simpl.
    rewrite take_ge by (rewrite length_list_ascii_of_string; lia). done.
  - rewrite (proj2 (Nat.ltb_lt _ _)) by lia. by rewrite Nat.min_r by lia.
Qed.

Lemma sta_set_id w : sta_set (aug_wifi_sta_get_config w) w = w.
Proof. by destruct w as [? ? ? ? ? [] ? ? ? ? ?]. Qed.

Lemma spec_run_sta_set r c w : spec_run r (sta_set c w) = spec_run r w.
Proof. by destruct r. Qed.

Lemma implements_ret : implements (mret ESP_OK) SOk.
Proof. intros w _. simpl. by rewrite sta_set_id. Qed.

(** AUG_RETURN_CHECK composes the simulation as [sbind] composes the
    specification. *)
Lemma implements_return_check m1 f1 m2 f2 :
  implements m1 f1 -> preserves sta_ok m1 -> implements m2 f2 ->
  implements (return_check m1 m2) (fun c => sbind (f1 c) f2).
Proof.
  intros H1 Hp H2 w Hw. specialize (Hp w Hw). unfold return_check, mbind, M_bind.
  rewrite (H1 w Hw) in *. destruct (f1 _) as [c|c e]; simpl in *.
  - rewrite (H2 _ Hp). apply spec_run_sta_set.
  - by destruct e.
Qed.

(** ** Lemmas: responses and the three answers of the query *)

Lemma substring_all s m : (String.length s <= m)%nat -> String.substring 0 m s = s.
Proof.
  revert m. induction s as [|c s IH]; intros [|m] Hm; simpl in *; try done; [lia|]. f_equal. apply IH. lia.
Qed.

(** [snprintf] with room for the text and its NUL keeps all of it. *)
Lemma snprintf_fits n s : (String.length s < n)%nat -> snprintf n s = s.
Proof. intros H. apply substring_all. lia. Qed.

Lemma length_fmt_apply m arg :
  String.length (fmt_apply m arg) = (String.length (fmt_pre m) + String.length arg + String.length (fmt_post m))%nat.
Proof. unfold fmt_apply. rewrite !length_string_append. lia. Qed.

Lemma resp_send_run st b w :
  resp_send st b w = (upd_trace (fun t => t ++ [ObsResponse st b]) w, Ret (w_plat w API_httpd_resp_send)).
Proof. reflexivity. Qed.

(** The 400 of a setter carries the whole message. *)
Lemma bad_request_run m opt w :
  bad_request m opt w = (upd_trace (fun t => t ++ [ObsResponse "400 Bad Request" (fmt_apply m opt)]) w, Ret tt).
Proof.
  unfold bad_request, send_bad_request_msg. rewrite snprintf_fits; [reflexivity|].
  rewrite length_fmt_apply. unfold fmt_sizeof. lia.
Qed.

Lemma query_switch_ok opt found : query_switch opt ESP_OK found = found.
Proof. reflexivity. Qed.

Lemma query_switch_not_found opt found : query_switch opt ESP_ERR_NOT_FOUND found = mret ESP_OK.
Proof. reflexivity. Qed.

Lemma query_switch_trunc opt found w :
  query_switch opt ESP_ERR_HTTPD_RESULT_TRUNC found w =
  (upd_trace (fun t => t ++ [ObsResponse "400 Bad Request" (fmt_apply msg_length_exceeds opt)]) w,
   Ret ESP_ERR_HTTPD_RESULT_TRUNC).
Proof. unfold query_switch. simpl. by rewrite (bind_run _ _ _ _ _ (bad_request_run _ _ _)). Qed.

Lemma write_sta_chars_full get set b w :
  length b = length (get (sta_wifi_config (aug_wifi_sta_get_config w))) ->
  write_sta_chars get set b w = sta_set (wifi_sta_update (set b) (aug_wifi_sta_get_config w)) w.
Proof.
  intros H. unfold write_sta_chars, sta_set, sta_config_update, upd_sta, wifi_sta_update, aug_wifi_sta_get_config in *.
  cbn. by rewrite memcpy_full.
Qed.

Lemma c_str_c_bytes_buffer n v :
  NUL ∉ String.list_ascii_of_string v -> c_str (memcpy (replicate n NUL) (c_bytes v)) = v.
Proof. apply c_str_memcpy. Qed.

Section Steps.
Variable ps : list (string * string).
Hypothesis Hps : Forall param_ok ps.

Lemma lookup_no_nul key v : query_lookup ps key = Some v -> NUL ∉ String.list_ascii_of_string v.
Proof.
  revert Hps. induction ps as [|[k v'] ps' IH]; intros Hf; simpl; [done|].
  inversion Hf as [|? ? (_ & _ & _ & Hn) Hf']; subst.
  case_match; [by intros [= <-]|auto].
Qed.

Lemma implements_str key size get set :
  (forall w, sta_ok w -> length (get (sta_wifi_config (aug_wifi_sta_get_config w))) = size) ->
  implements (set_str_value (query_of ps) key size (write_sta_chars get set)) (str_option ps key size set).
Proof.
  intros Hl w Hw. unfold set_str_value, str_option. rewrite httpd_query_key_value_of by done.
  destruct (query_lookup ps key) as [v|]; [|simpl; by rewrite sta_set_id].
  destruct (Nat.ltb_spec (String.length v) size).
  - rewrite query_switch_ok.
    transitivity (write_sta_chars get set (memcpy (replicate size NUL) (c_bytes v)) w, Ret ESP_OK);
      [reflexivity|].
    rewrite write_sta_chars_full; [done|].
    rewrite Hl by done. rewrite length_memcpy; [apply length_replicate|].
    rewrite length_c_bytes, length_replicate. unfold sizeof_str. lia.
  - rewrite query_switch_trunc. simpl. by rewrite sta_set_id.
Qed.

Lemma implements_int key :
  implements (set_int_value (query_of ps) key (fun n => sta_config_update (set_max_retry n)))
    (int_option ps key).
Proof.
  intros w Hw. unfold set_int_value, int_option. rewrite httpd_query_key_value_of by done.
  destruct (query_lookup ps key) as [v|] eqn:Ev; [|simpl; by rewrite sta_set_id].
  destruct (Nat.ltb_spec (String.length v) max_int_chars).
  - rewrite query_switch_ok.
    transitivity (sta_config_update (set_max_retry (atoi (memcpy (replicate max_int_chars NUL) (c_bytes v)))) w,
                  Ret ESP_OK); [reflexivity|].
    unfold atoi. rewrite c_str_c_bytes_buffer by (by eapply lookup_no_nul). reflexivity.
  - rewrite query_switch_trunc. simpl. by rewrite sta_set_id.
Qed.

Lemma implements_enum to_mode size key get set :
  implements
    (set_enum_value to_mode size (query_of ps) key (cur_sta get)
       (fun m => sta_config_update (wifi_sta_update (set m))))
    (enum_option ps to_mode size key get set).
Proof.
  intros w Hw. unfold set_enum_value, enum_option. rewrite httpd_query_key_value_of by done.
  destruct (query_lookup ps key) as [v|] eqn:Ev; [|simpl; by rewrite sta_set_id].
  destruct (Nat.ltb_spec (String.length v) size).
  - rewrite query_switch_ok, bind_gets. rewrite c_str_c_bytes_buffer by (by eapply lookup_no_nul).
    unfold cur_sta. destruct (to_mode _ _ _) as [found m]. destruct (Z.eqb_spec found ESP_OK) as [->|Hf].
    + reflexivity.
    + simpl. rewrite (bind_run _ _ _ _ _ (bad_request_run _ _ _)). simpl. by rewrite sta_set_id.
  - rewrite query_switch_trunc. simpl. by rewrite sta_set_id.
Qed.

End Steps.

Lemma sbind_SOk r : sbind r SOk = r.
Proof. by destruct r. Qed.

Lemma sta_ok_lengths w :
  sta_ok w ->
  length (sta_ssid (sta_wifi_config (aug_wifi_sta_get_config w))) = SSID_LEN /\
  length (sta_password (sta_wifi_config (aug_wifi_sta_get_config w))) = PASSWORD_LEN /\
  length (sta_sae_h2e_identifier (sta_wifi_config (aug_wifi_sta_get_config w))) = SAE_H2E_IDENTIFIER_LEN.
Proof. unfold sta_ok, sta_repr_wf, sta_config_wf. tauto. Qed.

(** [set_sta_options] on the query of a list of pairs implements
    [sta_options_spec] on that list. *)
Lemma set_sta_options_run ps :
  Forall param_ok ps -> implements (set_sta_options (query_of ps)) (sta_options_spec ps).
Proof.
  intros Hps. destruct sta_ok_writers as (Hs & Hp & Hi & Hm & Ha & Hsae).
  destruct sta_ok_reads as [Hra Hrs].
  unfold set_sta_options, sta_options_spec, set_auth_enum_value, set_sae_mode_enum_value.
  apply implements_return_check;
    [apply implements_str; [done|apply sta_ok_lengths] | by apply preserves_set_str_value|].
  apply implements_return_check;
    [apply implements_str; [done|apply sta_ok_lengths] | by apply preserves_set_str_value|].
  apply implements_return_check; [by apply implements_int | by apply preserves_set_int_value|].
  apply implements_return_check;
    [by apply implements_enum | apply preserves_set_enum_value; auto using auth_enum_range|].
  apply implements_return_check;
    [by apply implements_enum | apply preserves_set_enum_value; auto using sae_enum_range|].
  intros w Hw. rewrite bind_gets. unfold sae_needs_identifier, cur_sta.
  destruct (_ || _); [|by apply implements_ret].
  rewrite <- (sbind_SOk (str_option _ _ _ _ _)). revert w Hw.
  apply (implements_return_check _ (str_option ps "password_id" SAE_H2E_IDENTIFIER_LEN set_sae_h2e_identifier));
    [apply implements_str; [done|apply sta_ok_lengths] | by apply preserves_set_str_value | apply implements_ret].
Qed.

(** ** The set_options handlers *)

Lemma upd_trace_snoc2 a b w :
  upd_trace (fun t => t ++ [b]) (upd_trace (fun t => t ++ [a]) w) = upd_trace (fun t => t ++ [a; b]) w.
Proof. unfold upd_trace. simpl. by rewrite <- app_assoc. Qed.

Section SetOptions.
Variable setter : string -> M World esp_err_t.
Variables (q : string) (n : nat) (recv : nat -> Z) (w w1 : World).

Lemma set_options_with_ok :
  setter q w = (w1, Ret ESP_OK) ->
  set_options_with setter (mk_req (Some q) n recv) w =
  (upd_trace (fun t => t ++ [ObsResponse "200 Success" options_are_set]) w1,
   Ret (w_plat w1 API_httpd_resp_send)).
Proof. intros H. unfold set_options_with. simpl. by rewrite (bind_run _ _ _ _ _ H). Qed.

Lemma set_options_with_err r :
  setter q w = (w1, Ret r) -> r <> ESP_OK ->
  set_options_with setter (mk_req (Some q) n recv) w =
  (upd_trace (fun t => t ++ [ObsResponse "500 Internal Server Error" unexpected_error_body]) w1, Ret ESP_FAIL).
Proof.
  intros H Hr. unfold set_options_with. simpl. rewrite (bind_run _ _ _ _ _ H).
  by rewrite (proj2 (Z.eqb_neq _ _) Hr).
Qed.

End SetOptions.

Lemma option_error_code_not_ok e : option_error_code e <> ESP_OK.
Proof. by destruct e. Qed.

(** C12: Refinement.  On a query of key=value pairs and a storable
    configuration, [set_options_sta_handler] does what the
    specification [sta_options_spec] says: when every option is
    accepted the configuration is the one the specification computes
    and the client gets "200 Success"; when an option is refused the
    configuration is the one reached before it, and the client gets the
    400 of the refusal followed by a 500. *)
Theorem set_options_sta_handler_refines ps n recv w :
  Forall param_ok ps -> sta_ok w ->
  set_options_sta_handler (mk_req (Some (query_of ps)) n recv) w =
  match sta_options_spec ps (aug_wifi_sta_get_config w) with
  | SOk c =>
      (upd_trace (fun t => t ++ [ObsResponse "200 Success" options_are_set]) (sta_set c w),
       Ret (w_plat w API_httpd_resp_send))
  | SErr c e =>
      (upd_trace (fun t => t ++ [ObsResponse "400 Bad Request" (option_error_body e);
                               ObsResponse "500 Internal Server Error" unexpected_error_body]) (sta_set c w),
       Ret ESP_FAIL)
  end.
Proof.
  intros Hps Hw. pose proof (set_sta_options_run ps Hps w Hw) as H.
  unfold set_options_sta_handler.
  destruct (sta_options_spec ps _) as [c|c e]; simpl in H.
  - by rewrite (set_options_with_ok _ _ _ _ _ _ H).
  - rewrite (set_options_with_err _ _ _ _ _ _ _ H (option_error_code_not_ok e)). by rewrite upd_trace_snoc2.
Qed.

(** ** Witnesses *)

Lemma set_options_sta_keeps_config_storable_witness :
  sta_ok (fst (set_options_sta_handler (mk_req (Some (query_of refused_options)) 0 (fun _ => 0))
                 sample_sta_world)).
Proof. apply set_options_sta_keeps_config_storable. exact sample_sta_config_wf. Defined.

Lemma set_options_sta_handler_refines_witness :
  max_retry (aug_wifi_sta_get_config
    (fst (set_options_sta_handler (mk_req (Some (query_of sample_options)) 0 (fun _ => 0)) sample_sta_world)))
  = 7.
Proof.
  rewrite (set_options_sta_handler_refines sample_options 0 (fun _ => 0) sample_sta_world).
  - vm_compute. reflexivity.
  - apply (bool_decide_unpack _). vm_compute. reflexivity.
  - exact sample_sta_config_wf.
Defined.

