(* ===== verification/Ota.v ===== *)
(** * Ota: the firmware update handler of src/main/aug_http_server.c

    [ota_update_handler] opens the next OTA partition (ESP_ERROR_CHECK
    of [esp_ota_begin]: a missing partition or a failed begin resets the
    device), then loops while [content_len > 0]: it asks
    [httpd_req_recv] for at most OTA_CHUNK_SIZE bytes, retries on
    HTTPD_SOCK_ERR_TIMEOUT, fails with a 500 on any other non-positive
    result or on a failed [esp_ota_write], and subtracts what it got.
    After the loop it validates the image ([esp_ota_end]), switches the
    boot partition, posts AUG_HTTP_SERVER_EVENT_OTA_UPDATE and answers
    200.

    The socket is the request's [req_recv]: the [i]-th reception returns
    what the socket has, at most the length asked.  [content_len] is a
    32-bit [size_t] and its subtraction wraps as in C.  The loop is
    [ota_receive] with fuel: a loop still running when the fuel is spent
    is [Blocked], the handler has not returned.  The flash is observed
    through the trace: [ObsOtaWrite n] for each [esp_ota_write] of [n]
    bytes, [ObsSetBootPartition] when the boot partition is switched.

    The theorems: the loop ends within [content_len + 1] rounds when the
    socket never times out; a socket that only times out keeps the
    handler looping for ever with nothing answered; the bytes written
    never exceed [content_len], and the boot partition is switched only
    after exactly [content_len] bytes were written and [esp_ota_end]
    accepted the image. *)

From S2P Require Import Prelude Platform HttpHandlers.

(** ** The model *)

Definition OTA_CHUNK_SIZE : Z := 1024.
Definition HTTPD_SOCK_ERR_TIMEOUT : Z := -3.

(** [size_t] is 32 bits wide on the target. *)
Definition SIZE_T_MODULUS : Z := 2 ^ 32.
Definition size_t_sub (a b : Z) : Z := (a - b) mod SIZE_T_MODULUS.

(** [httpd_req_recv(req, buf, len)] at its [i]-th call. *)
Definition httpd_req_recv (req : httpd_req_t) (i : nat) (len : Z) : Z :=
  let r := req_recv req i in if Z.ltb 0 r then Z.min r len else r.

Definition esp_ota_write (sent : Z) : M World esp_err_t :=
  emit (ObsOtaWrite sent) ;; call API_esp_ota_write.

Definition esp_ota_set_boot_partition : M World esp_err_t :=
  r ← call API_esp_ota_set_boot_partition;
  (if Z.eqb r ESP_OK then emit ObsSetBootPartition else mret tt) ;;
  mret r.

(** [content_len < OTA_CHUNK_SIZE ? content_len : OTA_CHUNK_SIZE]. *)
Definition recv_len (content_len : Z) : Z :=
  if Z.ltb content_len OTA_CHUNK_SIZE then content_len else OTA_CHUNK_SIZE.

(** The receive loop, from the [i]-th reception with [content_len]
    bytes still to come: [true] when it ends, [false] when the handler
    returns ESP_FAIL from inside it. *)
Fixpoint ota_receive (req : httpd_req_t) (fuel : nat) (i : nat) (content_len : Z) : M World bool :=
  match fuel with
  | O => block
  | S fuel' =>
      if Z.ltb 0 content_len then
        let sent := httpd_req_recv req i (recv_len content_len) in
        if Z.eqb sent HTTPD_SOCK_ERR_TIMEOUT then ota_receive req fuel' (S i) content_len
        else if Z.leb sent 0 then send_unexpected_error ;; mret false
        else r ← esp_ota_write sent;
             if negb (Z.eqb r ESP_OK) then send_unexpected_error ;; mret false
             else ota_receive req fuel' (S i) (size_t_sub content_len sent)
      else mret true
  end.

Definition firmware_complete : string := ("<div>Loading firmware complete</div>" ++ CRLF)%string.

(** What follows the loop: validate the image, switch the boot
    partition, post the event, answer.  The condition
    [esp_ota_end(..) != ESP_OK || esp_ota_set_boot_partition(..) != ESP_OK]
    evaluates its right side only after a successful end. *)
Definition ota_finish : M World esp_err_t :=
  e ← call API_esp_ota_end;
  failed ← (if negb (Z.eqb e ESP_OK) then mret true
            else b ← esp_ota_set_boot_partition; mret (negb (Z.eqb b ESP_OK)));
  if (failed : bool) then send_unexpected_error ;; mret ESP_FAIL
  else p ← esp_event_post_to true AUG_HTTP_SERVER_EVENT_OTA_UPDATE;
       if negb (Z.eqb p ESP_OK) then send_unexpected_error ;; mret ESP_FAIL
       else resp_send "200 Success" firmware_complete.

(** [ota_update_handler], with [fuel] rounds of the loop. *)
Definition ota_update_handler (fuel : nat) (req : httpd_req_t) : M World esp_err_t :=
  ESP_ERROR_CHECK (call API_esp_ota_begin);
  ok ← ota_receive req fuel 0 (Z.of_nat (req_content_len req));
  if negb ok then mret ESP_FAIL else ota_finish.

(** The bytes a trace shows written to the OTA partition. *)
Fixpoint ota_written (t : list obs) : Z :=
  match t with
  | [] => 0
  | ObsOtaWrite n :: t' => n + ota_written t'
  | _ :: t' => ota_written t'
  end.

(** Sample transfers: a socket that delivers 512 bytes at a time, and
    one that only times out. *)
Definition sample_ota_req : httpd_req_t := mk_req None 1500 (fun _ => 512).
Definition stalled_ota_req : httpd_req_t := mk_req None 1500 (fun _ => HTTPD_SOCK_ERR_TIMEOUT).
Definition sample_ota_world : World := world_init plat_ok [] [] ∅.

(** ** The loop, one round at a time *)

Section Loop.
Variables (req : httpd_req_t) (fuel i : nat) (n : Z) (w : World).
Let sent := httpd_req_recv req i (recv_len n).

Lemma ota_receive_done : n <= 0 -> ota_receive req (S fuel) i n w = (w, Ret true).
Proof. intros Hn. simpl. by rewrite (proj2 (Z.ltb_ge _ _) Hn). Qed.

Lemma ota_receive_timeout :
  0 < n -> sent = HTTPD_SOCK_ERR_TIMEOUT -> ota_receive req (S fuel) i n w = ota_receive req fuel (S i) n w.
Proof. intros Hn Hs. simpl. rewrite (proj2 (Z.ltb_lt _ _) Hn). fold sent. by rewrite Hs. Qed.

Lemma ota_receive_recv_error :
  0 < n -> sent <> HTTPD_SOCK_ERR_TIMEOUT -> sent <= 0 ->
  ota_receive req (S fuel) i n w =
  (upd_trace (fun t => t ++ [ObsResponse "500 Internal Server Error" unexpected_error_body]) w, Ret false).
Proof.
  intros Hn Ht Hs. simpl. rewrite (proj2 (Z.ltb_lt _ _) Hn). fold sent.
  rewrite (proj2 (Z.eqb_neq _ _) Ht), (proj2 (Z.leb_le _ _) Hs). reflexivity.
Qed.

Lemma ota_receive_write :
  0 < n -> 0 < sent ->
  ota_receive req (S fuel) i n w =
  let w1 := upd_trace (fun t => t ++ [ObsOtaWrite sent]) w in
  if Z.eqb (w_plat w API_esp_ota_write) ESP_OK
  then ota_receive req fuel (S i) (size_t_sub n sent) w1
  else (upd_trace (fun t => t ++ [ObsResponse "500 Internal Server Error" unexpected_error_body]) w1, Ret false).
Proof.
  intros Hn Hs. simpl. rewrite (proj2 (Z.ltb_lt _ _) Hn). fold sent.
  rewrite (proj2 (Z.eqb_neq sent HTTPD_SOCK_ERR_TIMEOUT)) by (unfold HTTPD_SOCK_ERR_TIMEOUT; lia).
  rewrite (proj2 (Z.leb_gt _ _) Hs).
  rewrite (bind_run _ _ _ (upd_trace (fun t => t ++ [ObsOtaWrite sent]) w) (w_plat w API_esp_ota_write))
    by reflexivity.
  cbv zeta. by destruct (Z.eqb (w_plat w API_esp_ota_write) ESP_OK).
Qed.

(** What one reception gives is at most what is left. *)
Lemma recv_le_content : 0 < n -> 0 < sent -> sent <= n.
Proof.
  intros Hn Hs. unfold sent, httpd_req_recv, recv_len, OTA_CHUNK_SIZE in *.
  destruct (Z.ltb_spec 0 (req_recv req i)); [|lia]. destruct (Z.ltb_spec n 1024); lia.
Qed.

End Loop.

Lemma size_t_sub_small a b : 0 <= b <= a -> a < SIZE_T_MODULUS -> size_t_sub a b = a - b.
Proof. intros Hb Ha. unfold size_t_sub. apply Z.mod_small. lia. Qed.

Lemma recv_len_pos n : 0 < n -> 0 < recv_len n.
Proof. unfold recv_len, OTA_CHUNK_SIZE. destruct (Z.ltb_spec n 1024); lia. Qed.

(** A socket that never times out never makes [httpd_req_recv] return
    HTTPD_SOCK_ERR_TIMEOUT. *)
Lemma recv_not_timeout req i len :
  0 < len -> req_recv req i <> HTTPD_SOCK_ERR_TIMEOUT -> httpd_req_recv req i len <> HTTPD_SOCK_ERR_TIMEOUT.
Proof.
  intros Hl Hr. unfold httpd_req_recv. unfold HTTPD_SOCK_ERR_TIMEOUT in *.
  destruct (Z.ltb_spec 0 (req_recv req i)); lia.
Qed.

(** ** The trace of the loop *)

(** Whatever the socket and the platform do, the loop only appends to
    the trace: writes of at most [n] bytes in all, all of them when it
    ends normally, and no switch of the boot partition. *)
Lemma ota_receive_trace req fuel i n w w' o :
  0 <= n < SIZE_T_MODULUS -> ota_receive req fuel i n w = (w', o) ->
  exists t, w_trace w' = w_trace w ++ t /\ (ObsSetBootPartition ∉ t) /\
    0 <= ota_written t <= n /\ (o = Ret true -> ota_written t = n) /\ w_plat w' = w_plat w.
Proof.
  revert i n w. induction fuel as [|fuel IH]; intros i n w Hn Hrun.
  { injection Hrun as <- <-. exists []. rewrite app_nil_r.
    split_and!; [done|apply not_elem_of_nil|simpl; lia|simpl; lia|discriminate|done]. }
  destruct (Z.ltb_spec 0 n) as [Hpos|Hz].
  2:{ rewrite ota_receive_done in Hrun by done. injection Hrun as <- <-.
      exists []. rewrite app_nil_r.
      split_and!; [done|apply not_elem_of_nil|simpl; lia|simpl; lia|simpl; lia|done]. }
  pose proof (recv_le_content req i n Hpos) as Hle.
  remember (httpd_req_recv req i (recv_len n)) as sent eqn:Es.
  destruct (Z.eqb_spec sent HTTPD_SOCK_ERR_TIMEOUT) as [Ht|Ht].
  { rewrite ota_receive_timeout in Hrun by congruence. eapply IH; eauto. }
  destruct (Z.leb_spec sent 0) as [Hs|Hs].
  { rewrite ota_receive_recv_error in Hrun by congruence. injection Hrun as <- <-.
    eexists. split; [reflexivity|]. split_and!; try done; simpl; try lia.
    rewrite list_elem_of_singleton. discriminate. }
  specialize (Hle Hs).
  rewrite ota_receive_write in Hrun by congruence. cbv zeta in Hrun. rewrite <- Es in Hrun.
  destruct (Z.eqb _ _).
  - rewrite size_t_sub_small in Hrun by lia.
    destruct (IH (S i) (n - sent) _ ltac:(lia) Hrun) as (t & Ht' & Hb & Hw & Hret & Hp).
    exists (ObsOtaWrite sent :: t). simpl in *. rewrite Ht', <- app_assoc.
    split; [done|]. split; [rewrite not_elem_of_cons; split; [discriminate|done]|].
    split; [lia|]. split; [intros Ho; specialize (Hret Ho); lia|done].
  - injection Hrun as <- <-. exists [ObsOtaWrite sent; ObsResponse "500 Internal Server Error" unexpected_error_body].
    simpl. rewrite <- app_assoc. split; [done|]. split; [|split; [lia|done]].
    rewrite !not_elem_of_cons. repeat split; try discriminate. apply not_elem_of_nil.
Qed.

(** ** Termination and its failure *)

(** C15: Termination.  When the socket never reports a timeout, the
    receive loop of [ota_update_handler] returns (to the code after the
    loop, or with ESP_FAIL) within [content_len + 1] rounds, whatever
    the platform's writes return: every round that does not leave the
    loop receives at least one byte. *)
Theorem ota_receive_terminates req fuel i n w :
  (forall j, req_recv req j <> HTTPD_SOCK_ERR_TIMEOUT) ->
  0 <= n < SIZE_T_MODULUS -> (Z.to_nat n < fuel)%nat ->
  exists w' b, ota_receive req fuel i n w = (w', Ret b).
Proof.
  intros Hto. revert i n w. induction fuel as [|fuel IH]; intros i n w Hn Hf; [lia|].
  destruct (Z.ltb_spec 0 n) as [Hpos|Hz]; [|rewrite ota_receive_done by done; eauto].
  pose proof (recv_le_content req i n Hpos) as Hle.
  pose proof (recv_not_timeout req i (recv_len n) (recv_len_pos n Hpos) (Hto i)) as Ht.
  remember (httpd_req_recv req i (recv_len n)) as sent eqn:Es.
  destruct (Z.leb_spec sent 0) as [Hs|Hs]; [rewrite ota_receive_recv_error by congruence; eauto|].
  specialize (Hle Hs). rewrite ota_receive_write by congruence. cbv zeta. rewrite <- Es.
  destruct (Z.eqb _ _); [|eauto].
  rewrite size_t_sub_small by lia. apply IH; lia.
Qed.

Lemma ota_receive_stalls req n :
  (forall j, req_recv req j = HTTPD_SOCK_ERR_TIMEOUT) -> 0 < n ->
  forall fuel i w, ota_receive req fuel i n w = (w, Blocked).
Proof.
  intros Hto Hn fuel. induction fuel as [|fuel IH]; intros i w; [reflexivity|].
  rewrite ota_receive_timeout; [apply IH|done|].
  unfold httpd_req_recv. rewrite Hto. reflexivity.
Qed.

(** C16: A client that stops sending keeps the handler for ever.  When
    every reception times out, [ota_update_handler] on a non-empty
    image never returns, however many rounds it is given: nothing is
    written, no response is sent, and the server task stays in the
    loop.  The spec says nothing of a stalled transfer. *)
Theorem ota_update_handler_stalls fuel req w :
  w_plat w API_esp_ota_begin = ESP_OK -> (0 < req_content_len req)%nat ->
  (forall j, req_recv req j = HTTPD_SOCK_ERR_TIMEOUT) ->
  ota_update_handler fuel req w = (w, Blocked).
Proof.
  intros Hb Hn Hto. unfold ota_update_handler.
  rewrite (error_check_ok _ _ w w) by (unfold call; by rewrite Hb).
  rewrite (bind_blocked _ _ _ w); [done|]. apply ota_receive_stalls; [done|lia].
Qed.

(** ** The boot partition is switched only for a complete image *)

(** After the loop, only responses, the switch of the boot partition
    and the post reach the trace, and the switch only after
    [esp_ota_end] succeeded. *)
Lemma ota_finish_trace w w' o :
  ota_finish w = (w', o) ->
  exists u, w_trace w' = w_trace w ++ u /\ ota_written u = 0 /\
    (ObsSetBootPartition ∈ u -> w_plat w API_esp_ota_end = ESP_OK).
Proof.
  intros H. unfold ota_finish, esp_ota_set_boot_partition, call, esp_event_post_to, resp_send,
    send_unexpected_error, emit, modify, mbind, M_bind, mret, M_ret in H. cbn in H.
  destruct (Z.eqb_spec (w_plat w API_esp_ota_end) ESP_OK) as [He|He].
  - cbn in H.
    destruct (Z.eqb_spec (w_plat w API_esp_ota_set_boot_partition) ESP_OK) as [Hb|Hb].
    + try rewrite Hb in H. cbn in H.
      destruct (Nat.leb (length (w_queue w)) 1); cbn in H; injection H as <- <-.
      * exists [ObsSetBootPartition; ObsPost AUG_HTTP_SERVER_EVENT_OTA_UPDATE;
                ObsResponse "200 Success" firmware_complete].
        simpl. rewrite <- !app_assoc. split; [done|]. split; [reflexivity|intros; exact He].
      * exists [ObsSetBootPartition]. split; [reflexivity|]. split; [reflexivity|intros; exact He].
    + try rewrite (proj2 (Z.eqb_neq _ _) Hb) in H. cbn in H. injection H as <- <-.
      eexists. split; [reflexivity|]. split; [reflexivity|intros; exact He].
  - cbn in H. injection H as <- <-.
    eexists. split; [reflexivity|]. split; [reflexivity|].
    rewrite list_elem_of_singleton. discriminate.
Qed.

Lemma ota_written_app t u : ota_written (t ++ u) = ota_written t + ota_written u.
Proof. induction t as [|[] t IH]; simpl; lia. Qed.

(** C14: No partial image is made bootable.  Whatever the socket and
    the platform do, [ota_update_handler] writes at most [content_len]
    bytes to the OTA partition (the request length given to
    [httpd_req_recv] never exceeds what is left, so the [size_t]
    subtraction never wraps), and it switches the boot partition only
    after exactly [content_len] bytes were written and [esp_ota_end]
    accepted the image (spec section 4.5). *)
Theorem ota_boot_only_complete_image fuel req w w' o :
  Z.of_nat (req_content_len req) < SIZE_T_MODULUS ->
  ota_update_handler fuel req w = (w', o) ->
  exists t, w_trace w' = w_trace w ++ t /\
    0 <= ota_written t <= Z.of_nat (req_content_len req) /\
    (ObsSetBootPartition ∈ t ->
     ota_written t = Z.of_nat (req_content_len req) /\ w_plat w API_esp_ota_end = ESP_OK).
Proof.
  intros Hn H. unfold ota_update_handler, error_check in H.
  rewrite (bind_run _ _ _ w (w_plat w API_esp_ota_begin)) in H by reflexivity.
  destruct (Z.eqb _ _).
  2:{ injection H as <- <-. exists []. rewrite app_nil_r. split; [done|]. split; [simpl; lia|].
      intros Hin. by apply not_elem_of_nil in Hin. }
  destruct (ota_receive req fuel 0 (Z.of_nat (req_content_len req)) w) as [w1 o1] eqn:E.
  destruct (ota_receive_trace req fuel 0 (Z.of_nat (req_content_len req)) w w1 o1 ltac:(lia) E) as (t1 & Ht1 & Hb1 & Hw1 & Hret1 & Hp1).
  unfold mbind, M_bind in H. rewrite E in H.
  destruct o1 as [[]| | |]; try (injection H as <- <-; exists t1; split; [done|]; split; [done|]; by intros).
  simpl in H.
  destruct (ota_finish_trace w1 w' o H) as (u & Hu & Hwu & Hbu).
  exists (t1 ++ u). rewrite Hu, Ht1, app_assoc. split; [done|].
  rewrite ota_written_app, Hwu, Z.add_0_r, (Hret1 eq_refl). split; [lia|].
  intros Hin. apply elem_of_app in Hin as [Hin|Hin]; [done|]. split; [done|]. rewrite <- Hp1. auto.
Qed.

(** ** Witnesses *)

Lemma ota_receive_terminates_witness :
  exists w' b, ota_receive sample_ota_req 1501 0 1500 sample_ota_world = (w', Ret b).
Proof.
  apply ota_receive_terminates; [intros j; simpl; unfold HTTPD_SOCK_ERR_TIMEOUT; lia| |];
    unfold SIZE_T_MODULUS; simpl; lia.
Defined.

Lemma ota_update_handler_stalls_witness :
  ota_update_handler 1000 stalled_ota_req sample_ota_world = (sample_ota_world, Blocked).
Proof. apply ota_update_handler_stalls; [reflexivity | simpl; lia | reflexivity]. Defined.

Lemma ota_boot_only_complete_image_witness :
  exists t, w_trace (fst (ota_update_handler 10 sample_ota_req sample_ota_world)) =
            w_trace sample_ota_world ++ t /\ ObsSetBootPartition ∈ t /\ ota_written t = 1500.
Proof.
  destruct (ota_boot_only_complete_image 10 sample_ota_req sample_ota_world _ _
              ltac:(unfold SIZE_T_MODULUS; simpl; lia) (surjective_pairing _)) as (t & Ht & _ & Hboot).
  exists t. split; [exact Ht|].
  assert (Hin : ObsSetBootPartition ∈ t).
  { vm_compute in Ht. subst t. apply (bool_decide_unpack _). vm_compute. reflexivity. }
  split; [exact Hin|]. apply Hboot, Hin.
Defined.
