(* ===== verification/HttpInfo.v ===== *)
(** * HttpInfo: the handlers of src/main/aug_http_server.c that report and post

    [init_sta_handler] answers with a report of the station
    configuration ([send_sta_info]) and then posts
    AUG_HTTP_SERVER_EVENT_INIT_STA; [init_mqtt_handler] does the same
    with the broker URI ([send_mqtt_info]) and INIT_MQTT;
    [restart_handler] posts RESTART and answers; [index_handler] sends
    the page embedded in the firmware, which is not in the repository
    and is a Section variable here.

    The report is written by [snprintf] into a buffer whose size the
    code adds up from the sizes of the fields and of the text around
    them; [%s] of a character array reads from the array up to the first
    NUL, past the array's end into the memory after it when the array
    holds none ([char_array_str]: the ssid is followed by the password,
    the password and the identifier by members of ESP-IDF's struct the
    model does not hold, the Variables of Section [StaInfo]); [%d]
    prints an [int] in decimal ([int_to_dec], with fuel 10: an [int]
    has at most ten digits).

    The theorems: [init_sta_handler] sends the whole station report of
    a storable configuration whose arrays hold their NUL, never cut by
    [snprintf], and only then posts; a 32-byte SSID without a NUL makes
    the "ssid:" line run into the password; an auth mode without a name
    makes it answer 500 twice; [init_mqtt_handler] sends the whole URI
    and then posts; [restart_handler] posts before it answers. *)

From S2P Require Import Prelude Utility Config Platform WifiSta Mqtt Nvs HttpHandlers.

(** ** Printing an int *)

Definition digit_char (d : N) : ascii := ascii_of_N (48 + d).

(** The decimal digits of [n] in front of [acc], least significant
    first into [acc], with one round of fuel per digit. *)
Fixpoint digits_of (fuel : nat) (n : N) (acc : list ascii) : list ascii :=
  match fuel with
  | O => acc
  | S f =>
      let acc' := digit_char (N.modulo n 10) :: acc in
      if N.ltb n 10 then acc' else digits_of f (N.div n 10) acc'
  end.

(** [%d] of snprintf. *)
Definition int_to_dec (z : Z) : string :=
  String.string_of_list_ascii
    (if Z.ltb z 0 then "-"%char :: digits_of 10 (Z.to_N (- z)) [] else digits_of 10 (Z.to_N z) []).

(** ** send_sta_info and init_sta_handler *)

Definition br : string := ("<br>" ++ CRLF)%string.

(** The format of the report, cut at its conversions. *)
Definition sta_info_parts : list string :=
  [("<div>Trying to connect to sta with options:" ++ br ++ "ssid: ")%string;
   (br ++ "password: ")%string; (br ++ "max retries: ")%string; (br ++ "auth mode: ")%string;
   (br ++ "sae mode: ")%string; (br ++ "password id: ")%string; ("</div>" ++ br)%string].

(** The format with its conversions replaced by [args]. *)
Fixpoint interleave (parts args : list string) : string :=
  match parts, args with
  | p :: parts', a :: args' => (p ++ a ++ interleave parts' args')%string
  | p :: parts', [] => (p ++ interleave parts' [])%string
  | [], _ => EmptyString
  end.

(** [info_str]: the format without its conversions. *)
Definition info_str : string := interleave sta_info_parts [].

(** [formatted_string_max_size] of [send_sta_info]. *)
Definition sta_info_size : nat :=
  (SSID_LEN + PASSWORD_LEN + max_int_chars + aug_get_auth_mode_size + aug_get_sae_mode_size
   + SAE_H2E_IDENTIFIER_LEN + sizeof_str info_str)%nat.

(** [%s] of a character array [arr]: the bytes from its first one up to
    the first NUL, reading past the end of the array into [next], the
    memory that follows it, when the array holds no NUL. *)
Definition char_array_str (arr next : list ascii) : string := c_str (arr ++ next).

(** The tail the three posting handlers share: post [e] on the loop
    [user_ctx] points to (main.c's valid handle), a 500 if that fails. *)
Definition post_or_fail (e : loop_event) : M World esp_err_t :=
  p ← esp_event_post_to true e;
  if negb (Z.eqb p ESP_OK) then send_unexpected_error ;; mret ESP_FAIL else mret ESP_OK.

Section StaInfo.

(** The memory after the password and after the identifier in ESP-IDF's
    [wifi_sta_config_t]: members the model does not hold (the password
    array follows the ssid array directly, both [uint8_t], so the ssid
    is followed by the password and then by [after_password]). *)
Variable after_password after_identifier : list ascii.

Definition send_sta_info (c : aug_wifi_sta_config_t) : M World esp_err_t :=
  let s := sta_wifi_config c in
  let '(r1, auth_mode_str) :=
    aug_auth_mode_to_str (sta_threshold_authmode s) (replicate aug_get_auth_mode_size NUL)
      aug_get_auth_mode_size in
  if negb (Z.eqb r1 ESP_OK) then send_unexpected_error ;; mret ESP_FAIL
  else
    let '(r2, sae_mode_str) :=
      aug_sae_mode_to_str (sta_sae_pwe_h2e s) (replicate aug_get_sae_mode_size NUL)
        aug_get_sae_mode_size in
    if negb (Z.eqb r2 ESP_OK) then send_unexpected_error ;; mret ESP_FAIL
    else resp_send "200 Success"
           (snprintf sta_info_size
              (interleave sta_info_parts
                 [char_array_str (sta_ssid s) (sta_password s ++ after_password);
                  char_array_str (sta_password s) after_password; int_to_dec (max_retry c);
                  c_str auth_mode_str; c_str sae_mode_str;
                  char_array_str (sta_sae_h2e_identifier s) after_identifier])).

Definition init_sta_handler (req : httpd_req_t) : M World esp_err_t :=
  c ← gets aug_wifi_sta_get_config;
  r ← send_sta_info c;
  if negb (Z.eqb r ESP_OK) then send_unexpected_error ;; mret ESP_FAIL
  else post_or_fail AUG_HTTP_SERVER_EVENT_INIT_STA.

End StaInfo.

(** The three character arrays of the station configuration each hold
    a NUL: their [%s] stays inside the array. *)
Definition sta_strings_terminated (c : aug_wifi_sta_config_t) : Prop :=
  NUL ∈ sta_ssid (sta_wifi_config c) /\ NUL ∈ sta_password (sta_wifi_config c) /\
  NUL ∈ sta_sae_h2e_identifier (sta_wifi_config c).

(** ** send_mqtt_info, init_mqtt_handler, restart_handler *)

Definition mqtt_info_fmt : fmt_s :=
  mk_fmt_s ("<div>Trying to connect to mqtt broker with options:" ++ br ++ "URI: ")%string
    ("</div>" ++ br)%string.

(** [info_str] of [send_mqtt_info]: the format without [%s]. *)
Definition mqtt_info_str : string := fmt_apply mqtt_info_fmt "".

Definition send_mqtt_info (mqtt_uri : aug_mqtt_uri_t) : M World esp_err_t :=
  let formatted_string_max_size := (uri_len mqtt_uri + sizeof_str mqtt_info_str + 1)%nat in
  bytes ← gets (uri_bytes (mqtt_uri_str mqtt_uri));
  resp_send "200 Success" (snprintf formatted_string_max_size (fmt_apply mqtt_info_fmt (c_str bytes))).

Definition init_mqtt_handler (req : httpd_req_t) : M World esp_err_t :=
  let mqtt_uri := aug_mqtt_get_uri in
  r ← send_mqtt_info mqtt_uri;
  if negb (Z.eqb r ESP_OK) then send_unexpected_error ;; mret ESP_FAIL
  else post_or_fail AUG_HTTP_SERVER_EVENT_INIT_MQTT.

Definition rebooting : string := ("<div>Rebooting...</div>" ++ CRLF)%string.

Definition restart_handler (req : httpd_req_t) : M World esp_err_t :=
  r ← post_or_fail AUG_HTTP_SERVER_EVENT_RESTART;
  if negb (Z.eqb r ESP_OK) then mret r else resp_send "200 Success" rebooting.

(** [index_handler]: the embedded page, with the default status. *)
Section Index.
Variable index_html : string.

Definition index_handler (req : httpd_req_t) : M World esp_err_t :=
  emit (ObsResponse "200 OK" index_html) ;; call API_httpd_resp_send.

End Index.

(** ** Lemmas: decimal digits *)

Lemma digits_of_length f n acc : (length (digits_of f n acc) <= f + length acc)%nat.
Proof.
  revert n acc. induction f as [|f IH]; intros n acc; simpl; [lia|].
  destruct (N.ltb n 10); simpl; [lia|]. specialize (IH (n / 10)%N (digit_char (n mod 10) :: acc)).
  simpl in IH. lia.
Qed.

(** The [%d] of [send_sta_info] has at most eleven characters. *)
Lemma length_int_to_dec z : (String.length (int_to_dec z) <= 11)%nat.
Proof.
  unfold int_to_dec. rewrite <- length_list_ascii_of_string, String.list_ascii_of_string_of_list_ascii.
  destruct (Z.ltb z 0); simpl; pose proof (digits_of_length 10 (Z.to_N (- z)) []);
    pose proof (digits_of_length 10 (Z.to_N z) []); simpl in *; lia.
Qed.

(** ** Lemmas: the report *)

Lemma length_interleave parts args :
  (length args < length parts)%nat ->
  String.length (interleave parts args) =
  (String.length (interleave parts []) + sum_list (map String.length args))%nat.
Proof.
  revert args. induction parts as [|p parts IH]; intros [|a args] Hl; simpl in *; try lia.
  rewrite !length_string_append, IH by lia. destruct parts; simpl in *; lia.
Qed.

Lemma length_c_str_le b : (String.length (c_str b) <= length b)%nat.
Proof. induction b as [|c b IH]; simpl; [lia|]. destruct (Ascii.eqb c NUL); simpl; lia. Qed.

(** Printing an enum of a table into a zeroed buffer of the table's
    size: the buffer holds the table's string, which reads back as the
    enum. *)
Lemma table_print enums strs max_size m :
  length enums = length strs -> NoDup strs -> NoDup enums ->
  Forall (fun s => no_nul s = true) strs -> Forall (fun s => (sizeof_str s <= max_size)%nat) strs ->
  m ∈ enums ->
  exists s buf, mode_to_str enums strs max_size m (replicate max_size NUL) max_size = (ESP_OK, buf) /\
    c_str buf = s /\ (String.length s < max_size)%nat /\
    str_to_mode enums strs s (String.length s) 0 = (ESP_OK, m).
Proof.
  intros Hl Hs He Hn Hm Hin. destruct (elem_of_nth_index _ _ Hin) as (i & Hi & ->).
  exists (nth i strs ""%string), (memcpy (replicate max_size NUL) (c_bytes (nth i strs ""%string))).
  split; [|split; [|split]].
  - rewrite <- (length_replicate max_size NUL) at 3. apply mode_to_str_nth; auto. by rewrite length_replicate.
  - apply c_str_memcpy, no_nul_spec, (nth_str_no_nul enums strs); auto.
  - assert (Hin' : nth i strs ""%string ∈ strs) by (apply list_elem_of_In, nth_In; lia).
    rewrite Forall_forall in Hm. specialize (Hm _ Hin'). unfold sizeof_str in Hm. lia.
  - apply str_to_mode_nth; auto. lia.
Qed.

Lemma string_app_assoc (a b c : string) : ((a ++ b) ++ c)%string = (a ++ b ++ c)%string.
Proof. induction a as [|x a IH]; [reflexivity|]. exact (f_equal (String x) IH). Qed.

(** [snprintf] keeps a prefix that fits in the buffer. *)
Lemma substring_app_prefix (a b : string) k :
  (String.length a <= k)%nat ->
  String.substring 0 k (a ++ b) = (a ++ String.substring 0 (k - String.length a) b)%string.
Proof.
  revert k. induction a as [|x a IH]; intros k Hk.
  - change (String.substring 0 k b = String.substring 0 (k - 0) b). by rewrite Nat.sub_0_r.
  - destruct k as [|k]; [simpl in Hk; lia|].
    change (String x (String.substring 0 k (a ++ b)) = String x (a ++ String.substring 0 (k - String.length a) b))%string.
    rewrite IH by (simpl in Hk; lia). reflexivity.
Qed.

Lemma unexpected_error_fail_run w :
  (send_unexpected_error ;; mret ESP_FAIL) w =
  (upd_trace (fun t => t ++ [ObsResponse "500 Internal Server Error" unexpected_error_body]) w, Ret ESP_FAIL).
Proof. reflexivity. Qed.

Lemma post_or_fail_room e w :
  (length (w_queue w) < LOOP_QUEUE_SIZE)%nat ->
  post_or_fail e w = (upd_trace (fun t => t ++ [ObsPost e]) (upd_queue (fun q => q ++ [e]) w), Ret ESP_OK).
Proof. intros Hq. unfold post_or_fail. by rewrite (bind_run _ _ _ _ _ (esp_event_post_to_room _ _ Hq)). Qed.

(** The shape of [init_sta_handler] and [init_mqtt_handler]: an answer
    that goes out, then a post to a queue with room. *)
Lemma answer_then_post (a : M World esp_err_t) e w w1 :
  a w = (w1, Ret ESP_OK) -> (length (w_queue w1) < LOOP_QUEUE_SIZE)%nat ->
  (r ← a; if negb (Z.eqb r ESP_OK) then send_unexpected_error ;; mret ESP_FAIL
          else post_or_fail e) w =
  (upd_trace (fun t => t ++ [ObsPost e]) (upd_queue (fun q => q ++ [e]) w1), Ret ESP_OK).
Proof.
  intros Ha Hq. rewrite (bind_run _ _ _ _ _ Ha). cbv [negb Z.eqb ESP_OK]. exact (post_or_fail_room _ _ Hq).
Qed.

(** The station report is never cut: [formatted_string_max_size]
    adds up room for the largest value of each conversion, so for a
    configuration whose arrays have their C sizes and whose modes are in
    the tables, every field, the decimal [max_retry] and the names of
    the two modes (names that read back as the modes) are sent. *)
Lemma send_sta_info_run ap ai c w :
  sta_config_wf c -> sta_strings_terminated c ->
  sta_threshold_authmode (sta_wifi_config c) ∈ AUG_AUTH_MODES_ENUM ->
  sta_sae_pwe_h2e (sta_wifi_config c) ∈ AUG_SAE_MODES_ENUM ->
  exists auth sae,
    send_sta_info ap ai c w =
    (upd_trace (fun t => t ++ [ObsResponse "200 Success"
       (interleave sta_info_parts
          [c_str (sta_ssid (sta_wifi_config c)); c_str (sta_password (sta_wifi_config c));
           int_to_dec (max_retry c); auth; sae; c_str (sta_sae_h2e_identifier (sta_wifi_config c))])]) w,
     Ret (w_plat w API_httpd_resp_send)) /\
    aug_str_to_auth_mode auth (String.length auth) 0 = (ESP_OK, sta_threshold_authmode (sta_wifi_config c)) /\
    aug_str_to_sae_mode sae (String.length sae) 0 = (ESP_OK, sta_sae_pwe_h2e (sta_wifi_config c)).
Proof.
  intros (Hs & Hp & Hi) (Ns & Np & Ni) Ha Hsae.
  destruct auth_table_facts as (Al & As & Ae & An & Am).
  destruct sae_table_facts as (Sl & Ss & Se & Sn & Sm).
  destruct (table_print _ _ _ _ Al As Ae An Am Ha) as (auth & ab & Hab & Hca & Hla & Hra).
  destruct (table_print _ _ _ _ Sl Ss Se Sn Sm Hsae) as (sae & sb & Hsb & Hcs & Hls & Hrs).
  exists auth, sae. split; [|done].
  unfold send_sta_info, aug_get_auth_mode_size, aug_get_sae_mode_size.
  rewrite aug_auth_mode_to_str_eq, aug_sae_mode_to_str_eq, Hab, Hsb. cbv [negb Z.eqb ESP_OK].
  unfold char_array_str. rewrite !c_str_app_has_nul by done.
  rewrite Hca, Hcs, snprintf_fits; [reflexivity|].
  rewrite length_interleave by (simpl; lia). simpl map. simpl sum_list.
  pose proof (length_c_str_le (sta_ssid (sta_wifi_config c))).
  pose proof (length_c_str_le (sta_password (sta_wifi_config c))).
  pose proof (length_c_str_le (sta_sae_h2e_identifier (sta_wifi_config c))).
  pose proof (length_int_to_dec (max_retry c)).
  unfold sta_info_size, sizeof_str, info_str, aug_get_auth_mode_size, aug_get_sae_mode_size,
    max_int_chars, SSID_LEN, PASSWORD_LEN, SAE_H2E_IDENTIFIER_LEN in *. lia.
Qed.

(** The report of [init_sta_handler]: the configuration's fields, the
    decimal [max_retry], and the mode names [auth] and [sae]. *)
Definition sta_report (c : aug_wifi_sta_config_t) (auth sae : string) : string :=
  interleave sta_info_parts
    [c_str (sta_ssid (sta_wifi_config c)); c_str (sta_password (sta_wifi_config c));
     int_to_dec (max_retry c); auth; sae; c_str (sta_sae_h2e_identifier (sta_wifi_config c))].

(** C17: [init_sta_handler] answers, then posts.  For a station
    configuration whose arrays have their C sizes and each hold a NUL,
    and whose modes are in the tables, with a queue that has room and a
    response that goes out, the handler sends the whole report of the
    configuration (each [%s] the C string of its array, whatever memory
    follows the arrays; never cut by [snprintf]; the mode names read
    back as the modes), and only then posts
    AUG_HTTP_SERVER_EVENT_INIT_STA, which is queued last. *)
Theorem init_sta_handler_reports_then_posts ap ai req w :
  sta_config_wf (aug_wifi_sta_get_config w) -> sta_strings_terminated (aug_wifi_sta_get_config w) ->
  sta_threshold_authmode (sta_wifi_config (aug_wifi_sta_get_config w)) ∈ AUG_AUTH_MODES_ENUM ->
  sta_sae_pwe_h2e (sta_wifi_config (aug_wifi_sta_get_config w)) ∈ AUG_SAE_MODES_ENUM ->
  w_plat w API_httpd_resp_send = ESP_OK -> (length (w_queue w) < LOOP_QUEUE_SIZE)%nat ->
  exists auth sae,
    init_sta_handler ap ai req w =
    (upd_trace (fun t => t ++ [ObsResponse "200 Success" (sta_report (aug_wifi_sta_get_config w) auth sae);
                             ObsPost AUG_HTTP_SERVER_EVENT_INIT_STA])
       (upd_queue (fun q => q ++ [AUG_HTTP_SERVER_EVENT_INIT_STA]) w), Ret ESP_OK) /\
    aug_str_to_auth_mode auth (String.length auth) 0 =
      (ESP_OK, sta_threshold_authmode (sta_wifi_config (aug_wifi_sta_get_config w))) /\
    aug_str_to_sae_mode sae (String.length sae) 0 =
      (ESP_OK, sta_sae_pwe_h2e (sta_wifi_config (aug_wifi_sta_get_config w))).
Proof.
  intros Hwf Ht Ha Hs Hp Hq.
  destruct (send_sta_info_run ap ai (aug_wifi_sta_get_config w) w Hwf Ht Ha Hs) as (auth & sae & Hrun & Hra & Hrs).
  exists auth, sae. split; [|done].
  unfold init_sta_handler. rewrite bind_gets, Hp in *. rewrite (answer_then_post _ _ _ _ Hrun Hq).
  unfold upd_trace, upd_queue. simpl. by rewrite <- app_assoc.
Qed.

(** C19: an auth mode outside the table is answered twice.  When the
    station configuration's auth mode has no name, [send_sta_info]
    answers 500 and fails, and [init_sta_handler] answers 500 again on
    the same request; nothing is posted and the handler fails. *)
Theorem init_sta_handler_unknown_mode_double_error ap ai req w :
  sta_threshold_authmode (sta_wifi_config (aug_wifi_sta_get_config w)) ∉ AUG_AUTH_MODES_ENUM ->
  init_sta_handler ap ai req w =
  (upd_trace (fun t => t ++ [ObsResponse "500 Internal Server Error" unexpected_error_body;
                           ObsResponse "500 Internal Server Error" unexpected_error_body]) w, Ret ESP_FAIL).
Proof.
  intros Hn. unfold init_sta_handler, send_sta_info. rewrite bind_gets.
  rewrite aug_auth_mode_to_str_eq, mode_to_str_fail; [|reflexivity|right; exact Hn].
  cbv [negb Z.eqb ESP_FAIL ESP_OK Z.compare Pos.compare Pos.compare_cont].
  rewrite (bind_run _ _ _ _ _ (unexpected_error_fail_run w)), unexpected_error_fail_run.
  unfold upd_trace. simpl. by rewrite <- app_assoc.
Qed.

(** C20: [init_mqtt_handler] answers with the whole URI, then posts.
    [formatted_string_max_size] of [send_mqtt_info] leaves room for
    every byte of the URI buffer ([MQTT_MAX_URI_LEN] + 1 bytes), so with
    a response that goes out and a queue with room the handler sends the
    report with the URI up to its NUL, uncut, and only then posts
    AUG_HTTP_SERVER_EVENT_INIT_MQTT, which is queued last. *)
Theorem init_mqtt_handler_reports_then_posts req w :
  (length (uri_str (w_mqtt w)) <= S MQTT_MAX_URI_LEN)%nat ->
  w_plat w API_httpd_resp_send = ESP_OK -> (length (w_queue w) < LOOP_QUEUE_SIZE)%nat ->
  init_mqtt_handler req w =
  (upd_trace (fun t => t ++ [ObsResponse "200 Success" (fmt_apply mqtt_info_fmt (c_str (uri_str (w_mqtt w))));
                           ObsPost AUG_HTTP_SERVER_EVENT_INIT_MQTT])
     (upd_queue (fun q => q ++ [AUG_HTTP_SERVER_EVENT_INIT_MQTT]) w), Ret ESP_OK).
Proof.
  intros Hl Hp Hq. unfold init_mqtt_handler.
  rewrite (answer_then_post _ _ _
             (upd_trace (fun t => t ++ [ObsResponse "200 Success"
                (fmt_apply mqtt_info_fmt (c_str (uri_str (w_mqtt w))))]) w)); [| |exact Hq].
  - unfold upd_trace, upd_queue. simpl. by rewrite <- app_assoc.
  - unfold send_mqtt_info, aug_mqtt_get_uri. rewrite bind_gets. cbn [uri_len mqtt_uri_str uri_bytes].
    rewrite snprintf_fits, resp_send_run, Hp; [reflexivity|].
    pose proof (length_c_str_le (uri_str (w_mqtt w))).
    unfold sizeof_str, mqtt_info_str. rewrite !length_fmt_apply. simpl (String.length ""). lia.
Qed.

(** [restart_handler] queues the restart before it answers: with
    room in the queue, AUG_HTTP_SERVER_EVENT_RESTART is posted and only
    then "Rebooting..." is sent, the handler returning what
    [httpd_resp_sendstr] returns. *)
Theorem restart_handler_posts_then_answers req w :
  (length (w_queue w) < LOOP_QUEUE_SIZE)%nat ->
  restart_handler req w =
  (upd_trace (fun t => t ++ [ObsPost AUG_HTTP_SERVER_EVENT_RESTART; ObsResponse "200 Success" rebooting])
     (upd_queue (fun q => q ++ [AUG_HTTP_SERVER_EVENT_RESTART]) w), Ret (w_plat w API_httpd_resp_send)).
Proof.
  intros Hq. unfold restart_handler. rewrite (bind_run _ _ _ _ _ (post_or_fail_room _ _ Hq)). cbv [negb Z.eqb ESP_OK]. rewrite resp_send_run.
  unfold upd_trace, upd_queue. simpl. by rewrite <- app_assoc.
Qed.

(** C18: The [%s] of a full SSID reads into the password.  The ssid
    array has 32 bytes and no room is kept for a NUL: a 32-character SSID
    (as [aug_wifi_get_default_sta_config] stores for a 32-character
    CONFIG_STA_WIFI_SSID) leaves the array without one, and [snprintf]
    then reads on into the password array that follows it.  Whatever
    the memory after the arrays holds, the report's "ssid:" line is the
    SSID immediately followed by the password. *)
Theorem send_sta_info_ssid_overrun ap ai c w :
  sta_config_wf c -> NUL ∉ sta_ssid (sta_wifi_config c) -> NUL ∈ sta_password (sta_wifi_config c) ->
  sta_threshold_authmode (sta_wifi_config c) ∈ AUG_AUTH_MODES_ENUM ->
  sta_sae_pwe_h2e (sta_wifi_config c) ∈ AUG_SAE_MODES_ENUM ->
  exists rest,
    send_sta_info ap ai c w =
    (upd_trace (fun t => t ++ [ObsResponse "200 Success"
       (nth 0 sta_info_parts "" ++ String.string_of_list_ascii (sta_ssid (sta_wifi_config c)) ++
        c_str (sta_password (sta_wifi_config c)) ++ br ++ rest)%string]) w,
     Ret (w_plat w API_httpd_resp_send)).
Proof.
  intros (Hs & Hp & Hi) Ns Np Ha Hsae.
  destruct auth_table_facts as (Al & As & Ae & An & Am).
  destruct sae_table_facts as (Sl & Ss & Se & Sn & Sm).
  destruct (table_print _ _ _ _ Al As Ae An Am Ha) as (auth & ab & Hab & _).
  destruct (table_print _ _ _ _ Sl Ss Se Sn Sm Hsae) as (sae & sb & Hsb & _).
  unfold send_sta_info, aug_get_auth_mode_size, aug_get_sae_mode_size.
  rewrite aug_auth_mode_to_str_eq, aug_sae_mode_to_str_eq, Hab, Hsb. cbv [negb Z.eqb ESP_OK].
  unfold char_array_str at 1. rewrite c_str_app_no_nul, c_str_app_has_nul by done.
  eexists. rewrite resp_send_run. do 3 f_equal.
  unfold snprintf, interleave at 1, sta_info_parts. cbn [nth]. rewrite !string_app_assoc.
  set (S := String.string_of_list_ascii (sta_ssid (sta_wifi_config c))).
  set (P := c_str (sta_password (sta_wifi_config c))).
  assert (HS : String.length S = 32%nat).
  { unfold S. rewrite <- length_list_ascii_of_string, String.list_ascii_of_string_of_list_ascii. exact Hs. }
  assert (HP : (String.length P <= 64)%nat).
  { pose proof (length_c_str_le (sta_password (sta_wifi_config c))). unfold P. unfold PASSWORD_LEN in Hp. lia. }
  rewrite (substring_app_prefix "<div>Trying to connect to sta with options:"), (substring_app_prefix br),
    (substring_app_prefix "ssid: "), (substring_app_prefix S), (substring_app_prefix P),
    (substring_app_prefix br); try reflexivity;
    unfold sta_info_size, sizeof_str, info_str, max_int_chars, SSID_LEN, PASSWORD_LEN,
      SAE_H2E_IDENTIFIER_LEN, aug_get_auth_mode_size, aug_get_sae_mode_size in *; simpl; lia.
Qed.

(** ** Witnesses *)

Lemma init_sta_handler_reports_then_posts_witness :
  exists auth sae,
    init_sta_handler [] [] (mk_req None 0 (fun _ => 0)) sample_sta_world =
    (upd_trace (fun t => t ++ [ObsResponse "200 Success" (sta_report sample_sta_config auth sae);
                             ObsPost AUG_HTTP_SERVER_EVENT_INIT_STA])
       (upd_queue (fun q => q ++ [AUG_HTTP_SERVER_EVENT_INIT_STA]) sample_sta_world), Ret ESP_OK) /\
    aug_str_to_auth_mode auth (String.length auth) 0 = (ESP_OK, WIFI_AUTH_WPA2_PSK) /\
    aug_str_to_sae_mode sae (String.length sae) 0 = (ESP_OK, WPA3_SAE_PWE_BOTH).
Proof.
  apply (init_sta_handler_reports_then_posts [] [] (mk_req None 0 (fun _ => 0)) sample_sta_world).
  - exact (proj1 sample_sta_config_wf).
  - split; [|split]; apply (bool_decide_unpack _); vm_compute; reflexivity.
  - apply (bool_decide_unpack _). vm_compute. reflexivity.
  - apply (bool_decide_unpack _). vm_compute. reflexivity.
  - reflexivity.
  - vm_compute. lia.
Defined.

Lemma init_mqtt_handler_reports_then_posts_witness :
  init_mqtt_handler (mk_req None 0 (fun _ => 0)) sample_sta_world =
  (upd_trace (fun t => t ++ [ObsResponse "200 Success"
                             (fmt_apply mqtt_info_fmt (c_str (uri_str (w_mqtt sample_sta_world))));
                           ObsPost AUG_HTTP_SERVER_EVENT_INIT_MQTT])
     (upd_queue (fun q => q ++ [AUG_HTTP_SERVER_EVENT_INIT_MQTT]) sample_sta_world), Ret ESP_OK).
Proof. apply init_mqtt_handler_reports_then_posts; vm_compute; [lia|reflexivity|lia]. Defined.

Lemma restart_handler_posts_then_answers_witness :
  restart_handler (mk_req None 0 (fun _ => 0)) sample_sta_world =
  (upd_trace (fun t => t ++ [ObsPost AUG_HTTP_SERVER_EVENT_RESTART; ObsResponse "200 Success" rebooting])
     (upd_queue (fun q => q ++ [AUG_HTTP_SERVER_EVENT_RESTART]) sample_sta_world), Ret ESP_OK).
Proof. apply restart_handler_posts_then_answers. vm_compute. lia. Defined.

Lemma init_sta_handler_unknown_mode_double_error_witness :
  init_sta_handler [] [] (mk_req None 0 (fun _ => 0)) (sta_set (mk_aug_wifi_sta_config
     (mk_wifi_sta_config (char_array SSID_LEN "home") (char_array PASSWORD_LEN "secret")
        42 WPA3_SAE_PWE_BOTH (char_array SAE_H2E_IDENTIFIER_LEN "")) 5) sample_sta_world) =
  (upd_trace (fun t => t ++ [ObsResponse "500 Internal Server Error" unexpected_error_body;
                           ObsResponse "500 Internal Server Error" unexpected_error_body])
     (sta_set (mk_aug_wifi_sta_config
        (mk_wifi_sta_config (char_array SSID_LEN "home") (char_array PASSWORD_LEN "secret")
           42 WPA3_SAE_PWE_BOTH (char_array SAE_H2E_IDENTIFIER_LEN "")) 5) sample_sta_world),
   Ret ESP_FAIL).
Proof.
  apply init_sta_handler_unknown_mode_double_error.
  apply (bool_decide_unpack _). vm_compute. reflexivity.
Defined.

Lemma send_sta_info_ssid_overrun_witness :
  exists rest,
    send_sta_info [] []
      (aug_wifi_get_default_sta_config "ABCDEFGHIJKLMNOPQRSTUVWXYZ012345" "secret" 5
         WIFI_AUTH_WPA2_PSK WPA3_SAE_PWE_BOTH "") sample_sta_world =
    (upd_trace (fun t => t ++ [ObsResponse "200 Success"
       (nth 0 sta_info_parts "" ++ "ABCDEFGHIJKLMNOPQRSTUVWXYZ012345" ++ "secret" ++ br ++ rest)%string])
       sample_sta_world, Ret ESP_OK).
Proof.
  destruct (send_sta_info_ssid_overrun [] []
              (aug_wifi_get_default_sta_config "ABCDEFGHIJKLMNOPQRSTUVWXYZ012345" "secret" 5
                 WIFI_AUTH_WPA2_PSK WPA3_SAE_PWE_BOTH "") sample_sta_world) as [rest H].
  - apply default_sta_config_wf.
  - apply (bool_decide_unpack _). vm_compute. reflexivity.
  - apply (bool_decide_unpack _). vm_compute. reflexivity.
  - apply (bool_decide_unpack _). vm_compute. reflexivity.
  - apply (bool_decide_unpack _). vm_compute. reflexivity.
  - exists rest. exact H.
Defined.
