(* ===== verification/Ds18b20.v ===== *)
(** * Ds18b20: src/main/aug_ds18b20.c

    The temperature sensors.  [aug_ds18b20_init] installs the 1-Wire
    bus, walks the bus with the driver's device iterator keeping the
    handles of the DS18B20s it finds in the static array [ds18b20s] of
    DEFAULT_ONEWIRE_MAX_DS18B20 cells, and sets every sensor to 12-bit
    resolution; [aug_get_sensors_number] and [aug_get_temperature]
    serve [publish_task] of main.c; [aug_ds18b20_deinit] forgets the
    sensors.

    The module's globals are the fields of [ds_world]; the 1-Wire
    driver (onewire_bus, ds18b20 components of ESP-IDF) enters as data:
    the results of its calls ([ds_plat]), what the search iterator
    yields ([ds_bus], then ESP_ERR_NOT_FOUND), the family-code test of
    [ds18b20_new_device], and the raw reading of each sensor.  A handle
    is the sensor's 64-bit ROM address, which is never 0 for a DS18B20
    (family code 0x28), so NULL is 0 as in the C array.

    DEFAULT_ONEWIRE_MAX_DS18B20 is a Kconfig value that is not in the
    repository: it is the Section variable [MAX_DS].  An [assert] that
    fails, and an access to the array out of its bounds (undefined
    behaviour in C), are aborts with their own codes, so that no
    theorem can pass over them. *)

From S2P Require Import Prelude.

(** ** The driver's data *)

(** What [onewire_device_iter_get_next] yields: a device with its ROM
    address, or an error of the search (a CRC mismatch, a bus error). *)
Inductive onewire_item : Type :=
| OneWireDevice (address : Z)
| OneWireError (e : esp_err_t).

Inductive ds_api : Type :=
| DS_onewire_new_bus_rmt | DS_onewire_new_device_iter | DS_onewire_del_device_iter
| DS_ds18b20_set_resolution | DS_ds18b20_trigger_temperature_conversion
| DS_ds18b20_get_temperature.

Record ds_world := mk_ds_world {
  ds_plat : ds_api -> esp_err_t;
  ds_bus : list onewire_item;
  ds_raw : Z -> Z;
  is_initialized : bool;
  ds18b20_device_num : Z;
  ds18b20s : list Z;
  ds_resolution_set : list Z
}.

Definition set_bus b s := mk_ds_world (ds_plat s) b (ds_raw s) (is_initialized s)
  (ds18b20_device_num s) (ds18b20s s) (ds_resolution_set s).
Definition set_is_initialized v s := mk_ds_world (ds_plat s) (ds_bus s) (ds_raw s) v
  (ds18b20_device_num s) (ds18b20s s) (ds_resolution_set s).
Definition set_device_num n s := mk_ds_world (ds_plat s) (ds_bus s) (ds_raw s) (is_initialized s)
  n (ds18b20s s) (ds_resolution_set s).
Definition set_ds18b20s a s := mk_ds_world (ds_plat s) (ds_bus s) (ds_raw s) (is_initialized s)
  (ds18b20_device_num s) a (ds_resolution_set s).
Definition add_resolution_set h s := mk_ds_world (ds_plat s) (ds_bus s) (ds_raw s) (is_initialized s)
  (ds18b20_device_num s) (ds18b20s s) (ds_resolution_set s ++ [h]).

(** Handles given 12-bit resolution, in the order of the calls. *)
Definition app_resolution_set (l : list Z) (s : ds_world) : ds_world :=
  mk_ds_world (ds_plat s) (ds_bus s) (ds_raw s) (is_initialized s)
    (ds18b20_device_num s) (ds18b20s s) (ds_resolution_set s ++ l).

(** [assert] calls abort(); an access out of a C array's bounds. *)
Definition ASSERT_ABORT : esp_err_t := -5.
Definition OUT_OF_BOUNDS : esp_err_t := -6.

Definition c_assert (b : bool) : M ds_world unit := if b then mret tt else abort ASSERT_ABORT.

Definition ds_call (a : ds_api) : M ds_world esp_err_t := gets (fun s => ds_plat s a).

(** A driver call on a device handle: the driver refuses NULL with
    ESP_ERR_INVALID_ARG (ESP_RETURN_ON_FALSE of ds18b20.c). *)
Definition ds_handle_call (h : Z) (a : ds_api) : M ds_world esp_err_t :=
  if Z.eqb h 0 then mret ESP_ERR_INVALID_ARG else ds_call a.

(** [ds18b20_new_device]: a device of family code 0x28 gets a handle. *)
Definition DS18B20_FAMILY_CODE : Z := 40.
Definition is_ds18b20 (address : Z) : bool := Z.eqb (Z.land address 255) DS18B20_FAMILY_CODE.

Definition ESP_ERR_NOT_SUPPORTED : esp_err_t := 262.

Definition ds18b20_new_device (address : Z) : esp_err_t * Z :=
  if is_ds18b20 address then (ESP_OK, address) else (ESP_ERR_NOT_SUPPORTED, 0).

(** [onewire_device_iter_get_next]: the next item; ESP_ERR_NOT_FOUND
    once the search is over. *)
Definition onewire_device_iter_get_next : M ds_world (esp_err_t * Z) := fun s =>
  match ds_bus s with
  | [] => (s, Ret (ESP_ERR_NOT_FOUND, 0))
  | OneWireDevice a :: b => (set_bus b s, Ret (ESP_OK, a))
  | OneWireError e :: b => (set_bus b s, Ret (e, 0))
  end.

Section Sensors.
Variable MAX_DS : nat.

(** [ds18b20s[i] = h]. *)
Definition store_handle (i : Z) (h : Z) : M ds_world unit := fun s =>
  if (0 <=? i) && (i <? Z.of_nat MAX_DS)
  then (set_ds18b20s (<[Z.to_nat i := h]> (ds18b20s s)) s, Ret tt)
  else (s, Abort OUT_OF_BOUNDS).

(** [ds18b20s[i]]. *)
Definition load_handle (i : Z) : M ds_world Z := fun s =>
  if (0 <=? i) && (i <? Z.of_nat MAX_DS)
  then (s, Ret (nth (Z.to_nat i) (ds18b20s s) 0))
  else (s, Abort OUT_OF_BOUNDS).

(** One round of the do-while of [search_ds18b20_devices]: [true]
    when the loop is left. *)
Definition search_round : M ds_world bool :=
  r ← onewire_device_iter_get_next;
  let '(search_result, address) := r in
  brk ← (if Z.eqb search_result ESP_OK then
           let '(e, h) := ds18b20_new_device address in
           if Z.eqb e ESP_OK then
             n ← gets ds18b20_device_num;
             store_handle n h ;;
             modify (set_device_num (n + 1)) ;;
             mret (Z.leb (Z.of_nat MAX_DS) (n + 1))
           else mret false
         else mret false);
  mret (brk || Z.eqb search_result ESP_ERR_NOT_FOUND).

(** The do-while, one round per unit of fuel; out of fuel it has not
    ended ([search_terminates] gives the fuel that is enough). *)
Fixpoint search_loop (fuel : nat) : M ds_world unit :=
  match fuel with
  | O => block
  | S f => search_round ≫= fun finished : bool => if finished then mret tt else search_loop f
  end.

Definition search_ds18b20_devices (fuel : nat) : M ds_world esp_err_t :=
  AUG_RETURN_CHECK (ds_call DS_onewire_new_device_iter);
  search_loop fuel ;;
  AUG_RETURN_CHECK (ds_call DS_onewire_del_device_iter);
  n ← gets ds18b20_device_num;
  mret (if Z.leb n 0 then ESP_FAIL else ESP_OK).

(** The for loop of [set_resolution_for_devices] from index [i]. *)
Fixpoint set_resolution_from (i : Z) (k : nat) : M ds_world esp_err_t :=
  match k with
  | O => mret ESP_OK
  | S k' =>
      h ← load_handle i;
      AUG_RETURN_CHECK (ds_handle_call h DS_ds18b20_set_resolution ≫= fun r =>
                        (if Z.eqb r ESP_OK then modify (add_resolution_set h) else mret tt) ;; mret r);
      set_resolution_from (i + 1) k'
  end.

Definition set_resolution_for_devices : M ds_world esp_err_t :=
  n ← gets ds18b20_device_num;
  set_resolution_from 0 (Z.to_nat n).

Definition initialize_onewire_bus : M ds_world esp_err_t :=
  AUG_RETURN_CHECK (ds_call DS_onewire_new_bus_rmt);
  mret ESP_OK.

Definition aug_ds18b20_init (fuel : nat) : M ds_world esp_err_t :=
  modify (set_device_num 0) ;;
  AUG_RETURN_CHECK initialize_onewire_bus;
  AUG_RETURN_CHECK (search_ds18b20_devices fuel);
  AUG_RETURN_CHECK set_resolution_for_devices;
  modify (set_is_initialized true) ;;
  mret ESP_OK.

Definition aug_ds18b20_deinit : M ds_world esp_err_t :=
  b ← gets is_initialized; c_assert b ;;
  modify (set_device_num 0) ;;
  modify (fun s => set_ds18b20s (replicate MAX_DS 0) s) ;;
  modify (set_is_initialized false) ;;
  mret ESP_OK.

Definition aug_get_sensors_number : M ds_world Z :=
  b ← gets is_initialized; c_assert b ;;
  gets ds18b20_device_num.

(** [aug_get_temperature]: the reading in sixteenths of a degree (the
    driver's float is the raw 12-bit value times 0.0625, exactly). *)
Definition aug_get_temperature (index : Z) : M ds_world Z :=
  b ← gets is_initialized; c_assert b ;;
  h ← load_handle index;
  ESP_ERROR_CHECK (ds_handle_call h DS_ds18b20_trigger_temperature_conversion);
  ESP_ERROR_CHECK (ds_handle_call h DS_ds18b20_get_temperature);
  gets (fun s => ds_raw s h).

(** ** What the search finds *)

(** The addresses the iterator yields before it reports the end. *)
Fixpoint search_addresses (b : list onewire_item) : list Z :=
  match b with
  | [] => []
  | OneWireDevice a :: b' => a :: search_addresses b'
  | OneWireError e :: b' => if Z.eqb e ESP_ERR_NOT_FOUND then [] else search_addresses b'
  end.

(** The DS18B20s the module keeps: the first [MAX_DS] of them. *)
Definition found_ds18b20s (b : list onewire_item) : list Z :=
  take MAX_DS (filter is_ds18b20 (search_addresses b)).

(** [l] written into [arr] from index [i] on. *)
Fixpoint write_from (i : nat) (l : list Z) (arr : list Z) : list Z :=
  match l with
  | [] => arr
  | x :: l' => write_from (S i) l' (<[i := x]> arr)
  end.

(** The fields a search does not touch. *)
Definition ds_frame (s s' : ds_world) : Prop :=
  ds_plat s' = ds_plat s /\ ds_raw s' = ds_raw s /\ is_initialized s' = is_initialized s /\
  ds_resolution_set s' = ds_resolution_set s.

End Sensors.

(** ** A sample bus *)

(** A DS18B20 (ROM ...0x28), a CRC error, a DS18S20 (family 0x10), and
    two more DS18B20s. *)
Definition ESP_ERR_INVALID_CRC : esp_err_t := 265.

Definition sample_bus : list onewire_item :=
  [OneWireDevice 296; OneWireError ESP_ERR_INVALID_CRC; OneWireDevice 272;
   OneWireDevice 552; OneWireDevice 808].

Definition sample_ds_world : ds_world :=
  mk_ds_world (fun _ => ESP_OK) sample_bus (fun _ => 0) false 0 [0; 0] [].

(** ** Lemmas: one round of the search *)

Lemma ds_frame_refl s : ds_frame s s.
Proof. repeat split. Qed.

Lemma ds_frame_trans s1 s2 s3 : ds_frame s1 s2 -> ds_frame s2 s3 -> ds_frame s1 s3.
Proof. unfold ds_frame. intros (?&?&?&?) (?&?&?&?). repeat split; congruence. Qed.

#[export] Hint Resolve ds_frame_refl : aug.

Section Round.
Variable MAX_DS : nat.

Lemma search_round_end s : ds_bus s = [] -> search_round MAX_DS s = (s, Ret true).
Proof.
  intros Hb. unfold search_round.
  rewrite (bind_run _ _ _ s (ESP_ERR_NOT_FOUND, 0)); [reflexivity|].
  unfold onewire_device_iter_get_next. by rewrite Hb.
Qed.

Lemma search_round_error s e b :
  ds_bus s = OneWireError e :: b ->
  search_round MAX_DS s = (set_bus b s, Ret (Z.eqb e ESP_ERR_NOT_FOUND)).
Proof.
  intros Hb. unfold search_round.
  rewrite (bind_run _ _ _ (set_bus b s) (e, 0)); [|unfold onewire_device_iter_get_next; by rewrite Hb].
  simpl.
  destruct (Z.eqb_spec e ESP_OK) as [->|]; reflexivity.
Qed.

Lemma search_round_other s a b :
  ds_bus s = OneWireDevice a :: b -> is_ds18b20 a = false ->
  search_round MAX_DS s = (set_bus b s, Ret false).
Proof.
  intros Hb Ha. unfold search_round.
  rewrite (bind_run _ _ _ (set_bus b s) (ESP_OK, a)); [|unfold onewire_device_iter_get_next; by rewrite Hb]. unfold ds18b20_new_device. by rewrite Ha.
Qed.

Lemma search_round_found s a b k :
  ds_bus s = OneWireDevice a :: b -> is_ds18b20 a = true ->
  ds18b20_device_num s = Z.of_nat k -> (k < MAX_DS)%nat ->
  search_round MAX_DS s =
  (set_device_num (Z.of_nat (S k)) (set_ds18b20s (<[k := a]> (ds18b20s s)) (set_bus b s)),
   Ret (Nat.leb MAX_DS (S k))).
Proof.
  intros Hb Ha Hn Hk. unfold search_round.
  rewrite (bind_run _ _ _ (set_bus b s) (ESP_OK, a)); [|unfold onewire_device_iter_get_next; by rewrite Hb]. unfold ds18b20_new_device. rewrite Ha.
  cbv [mbind M_bind gets modify mret M_ret store_handle ESP_OK ESP_ERR_NOT_FOUND Z.eqb].
  replace (ds18b20_device_num (set_bus b s)) with (Z.of_nat k) by done.
  assert (Hr : ((0 <=? Z.of_nat k) && (Z.of_nat k <? Z.of_nat MAX_DS))%Z = true).
  { apply andb_true_iff. split; [apply Z.leb_le | apply Z.ltb_lt]; lia. }
  rewrite Hr, Nat2Z.id, orb_false_r.
  replace (Z.of_nat k + 1)%Z with (Z.of_nat (S k)) by lia.
  destruct (Nat.leb_spec MAX_DS (S k)), (Z.leb_spec (Z.of_nat MAX_DS) (Z.of_nat (S k))); try lia;
    reflexivity.
Qed.

(** The loop: from [k] handles found, with fuel beyond the length of
    the bus, the search ends and appends the DS18B20s it finds, at most
    up to [MAX_DS], after the [k] already there. *)
Lemma search_loop_run fuel s k :
  ds18b20_device_num s = Z.of_nat k -> (k < MAX_DS)%nat -> (length (ds_bus s) < fuel)%nat ->
  let F := take (MAX_DS - k) (filter is_ds18b20 (search_addresses (ds_bus s))) in
  exists s', search_loop MAX_DS fuel s = (s', Ret tt) /\ ds_frame s s' /\
    ds18b20_device_num s' = Z.of_nat (k + length F) /\ ds18b20s s' = write_from k F (ds18b20s s).
Proof.
  remember (ds_bus s) as bus eqn:Hb. revert s k fuel Hb.
  induction bus as [|[a|e] b IH]; intros s k fuel Hb Hn Hk Hf F;
    (destruct fuel as [|fuel]; [simpl in Hf; lia|]); cbn [search_loop].
  - rewrite (bind_run _ _ _ _ _ (search_round_end s (eq_sym Hb))).
    exists s. subst F. replace (filter _ []) with (@nil Z) by reflexivity. rewrite take_nil.
    simpl. rewrite Nat.add_0_r. auto with aug.
  - destruct (is_ds18b20 a) eqn:Ha.
    + rewrite (bind_run _ _ _ _ _ (search_round_found s a b k (eq_sym Hb) Ha Hn Hk)).
      subst F. cbn [search_addresses]. rewrite filter_cons_True by (rewrite Ha; exact I).
      replace (MAX_DS - k)%nat with (S (MAX_DS - S k)) by lia. cbn [take length write_from].
      destruct (Nat.leb_spec MAX_DS (S k)).
      * replace (MAX_DS - S k)%nat with 0%nat by lia. eexists. split; [reflexivity|].
        split; [repeat split|]. simpl. split; [f_equal; lia | reflexivity].
      * edestruct (IH (set_device_num (Z.of_nat (S k)) (set_ds18b20s (<[k := a]> (ds18b20s s)) (set_bus b s)))
          (S k) fuel) as (s' & Hrun & Hfr & Hn' & Ha'); [reflexivity|reflexivity|exact H|simpl in Hf |- *; lia|].
        exists s'. split; [exact Hrun|]. split; [exact (ds_frame_trans _ _ _ (ltac:(repeat split)) Hfr)|].
        rewrite Hn', Ha'. split; [f_equal; simpl; lia | reflexivity].
    + rewrite (bind_run _ _ _ _ _ (search_round_other s a b (eq_sym Hb) Ha)).
      subst F. cbn [search_addresses]. rewrite filter_cons_False by (rewrite Ha; intros []).
      edestruct (IH (set_bus b s) k fuel) as (s' & Hrun & Hfr & Hn' & Ha'); [reflexivity|exact Hn|exact Hk
        |simpl in Hf |- *; lia|].
      exists s'. split; [exact Hrun|]. split; [exact (ds_frame_trans _ _ _ (ltac:(repeat split)) Hfr)|]. auto.
  - rewrite (bind_run _ _ _ _ _ (search_round_error s e b (eq_sym Hb))).
    subst F. cbn [search_addresses]. destruct (Z.eqb e ESP_ERR_NOT_FOUND).
    + eexists. split; [reflexivity|]. split; [repeat split|].
      replace (filter _ []) with (@nil Z) by reflexivity. rewrite take_nil. simpl.
      split; [f_equal; lia|reflexivity].
    + edestruct (IH (set_bus b s) k fuel) as (s' & Hrun & Hfr & Hn' & Ha'); [reflexivity|exact Hn|exact Hk
        |simpl in Hf |- *; lia|].
      exists s'. split; [exact Hrun|]. split; [exact (ds_frame_trans _ _ _ (ltac:(repeat split)) Hfr)|]. auto.
Qed.

End Round.

(** ** Lemmas: the handle array and the resolution loop *)

Lemma write_from_app i l arr :
  (i + length l <= length arr)%nat ->
  write_from i l arr = take i arr ++ l ++ drop (i + length l) arr.
Proof.
  revert i arr. induction l as [|x l IH]; intros i arr Hl; simpl in *.
  - rewrite Nat.add_0_r, take_drop. reflexivity.
  - rewrite IH by (rewrite length_insert; lia).
    rewrite insert_take_drop by lia.
    rewrite take_app, drop_app, length_take, take_take, (drop_ge (take i arr)) by (rewrite length_take; lia).
    replace (S i `min` i)%nat with i by lia. replace (S i - i `min` length arr)%nat with 1%nat by lia.
    replace (S i + length l - i `min` length arr)%nat with (S (length l)) by lia.
    simpl. rewrite drop_drop, take_0, <- app_assoc.
    replace (S i + length l)%nat with (i + S (length l))%nat by lia. reflexivity.
Qed.

Lemma length_write_from i l arr : length (write_from i l arr) = length arr.
Proof. revert i arr. induction l as [|x l IH]; intros i arr; simpl; [done|]. by rewrite IH, length_insert. Qed.

(** A DS18B20's handle is never NULL. *)
Lemma is_ds18b20_nonzero a : is_ds18b20 a = true -> a <> 0.
Proof. unfold is_ds18b20, DS18B20_FAMILY_CODE. intros H ->. discriminate H. Qed.

Lemma found_ds18b20s_nonzero MAX_DS b : Forall (fun a => a <> 0) (found_ds18b20s MAX_DS b).
Proof.
  unfold found_ds18b20s. apply Forall_take, Forall_forall. intros a Ha.
  apply list_elem_of_filter in Ha as [Ha _].
  destruct (is_ds18b20 a) eqn:E; [exact (is_ds18b20_nonzero a E) | contradiction].
Qed.

Lemma app_resolution_set_cons x l s :
  app_resolution_set l (add_resolution_set x s) = app_resolution_set (x :: l) s.
Proof. destruct s. unfold app_resolution_set, add_resolution_set. simpl. by rewrite <- app_assoc. Qed.

Lemma take_drop_cons (arr l : list Z) i x :
  take (S (length l)) (drop i arr) = x :: l ->
  nth i arr 0 = x /\ take (length l) (drop (S i) arr) = l.
Proof.
  intros Ht. destruct (drop i arr) as [|y r] eqn:Hd; [discriminate Ht|].
  simpl in Ht. injection Ht as -> Ht. split.
  - apply nth_lookup_Some. rewrite <- (Nat.add_0_r i), <- lookup_drop, Hd. reflexivity.
  - replace (drop (S i) arr) with (drop 1 (drop i arr)) by (rewrite drop_drop; f_equal; lia).
    rewrite Hd. exact Ht.
Qed.

Lemma set_resolution_from_run MAX_DS l i s :
  ds_plat s DS_ds18b20_set_resolution = ESP_OK -> Forall (fun a => a <> 0) l ->
  (0 <= i)%Z -> (Z.to_nat i + length l <= MAX_DS)%nat ->
  take (length l) (drop (Z.to_nat i) (ds18b20s s)) = l ->
  set_resolution_from MAX_DS i (length l) s = (app_resolution_set l s, Ret ESP_OK).
Proof.
  revert i s. induction l as [|x l IH]; intros i s Hp Hnz Hi Hb Ht.
  - destruct s. unfold app_resolution_set. simpl. by rewrite app_nil_r.
  - apply Forall_cons in Hnz as [Hx Hl]. apply take_drop_cons in Ht as [Hnth Ht].
    cbn [length set_resolution_from].
    assert (Hload : load_handle MAX_DS i s = (s, Ret x)).
    { unfold load_handle. simpl in Hb.
      replace ((0 <=? i) && (i <? Z.of_nat MAX_DS))%Z with true
        by (symmetry; apply andb_true_iff; split; [apply Z.leb_le | apply Z.ltb_lt]; lia).
      by rewrite Hnth. }
    assert (Hc : (ds_handle_call x DS_ds18b20_set_resolution ≫= fun r =>
                   (if Z.eqb r ESP_OK then modify (add_resolution_set x) else mret tt) ;; mret r) s
                 = (add_resolution_set x s, Ret ESP_OK)).
    { unfold ds_handle_call. rewrite (proj2 (Z.eqb_neq x 0) Hx). unfold ds_call.
      rewrite bind_gets, Hp. reflexivity. }
    rewrite (bind_run _ _ _ _ _ Hload). unfold return_check. rewrite (bind_run _ _ _ _ _ Hc).
    cbv [Z.eqb ESP_OK]. rewrite <- app_resolution_set_cons. apply IH; auto; simpl in Hb |- *; try lia.
    replace (Z.to_nat (i + 1)) with (S (Z.to_nat i)) by lia. exact Ht.
Qed.

(** ** Lemmas: search_ds18b20_devices *)

Lemma ds_call_run a s : ds_call a s = (s, Ret (ds_plat s a)).
Proof. reflexivity. Qed.

Lemma search_ds18b20_devices_run MAX_DS fuel s :
  (0 < MAX_DS)%nat -> ds18b20_device_num s = 0%Z -> (length (ds_bus s) < fuel)%nat ->
  ds_plat s DS_onewire_new_device_iter = ESP_OK -> ds_plat s DS_onewire_del_device_iter = ESP_OK ->
  let F := found_ds18b20s MAX_DS (ds_bus s) in
  exists s', search_ds18b20_devices MAX_DS fuel s =
      (s', Ret (if bool_decide (F = []) then ESP_FAIL else ESP_OK)) /\
    ds_frame s s' /\ ds18b20_device_num s' = Z.of_nat (length F) /\
    ds18b20s s' = write_from 0 F (ds18b20s s).
Proof.
  intros Hmax Hn Hf Hi Hd F. unfold search_ds18b20_devices.
  rewrite (return_check_ok _ _ _ s); [|by rewrite ds_call_run, Hi].
  destruct (search_loop_run MAX_DS fuel s 0 Hn Hmax Hf) as (s' & Hrun & Hfr & Hn' & Ha').
  rewrite Nat.sub_0_r in Hn', Ha'. fold (found_ds18b20s MAX_DS (ds_bus s)) in Hn', Ha'. fold F in Hn', Ha'.
  rewrite (bind_run _ _ _ _ _ Hrun).
  destruct Hfr as (Hp & Hr & Hin & Hres).
  rewrite (return_check_ok _ _ _ s'); [|by rewrite ds_call_run, Hp, Hd].
  rewrite bind_gets, Hn'. exists s'. split; [|split; [repeat split; auto | auto]].
  destruct F as [|a F']; [reflexivity|].
  rewrite (bool_decide_eq_false_2 (a :: F' = [])) by done.
  replace (Z.of_nat (length (a :: F')) <=? 0)%Z with false by (symmetry; apply Z.leb_gt; simpl; lia).
  reflexivity.
Qed.

Lemma take_write_from0 l arr :
  (length l <= length arr)%nat -> take (length l) (write_from 0 l arr) = l.
Proof. intros H. rewrite write_from_app by lia. simpl. by rewrite take_app_length. Qed.

Lemma length_found_ds18b20s MAX_DS b : (length (found_ds18b20s MAX_DS b) <= MAX_DS)%nat.
Proof. unfold found_ds18b20s. rewrite length_take. lia. Qed.

(** C21: [aug_ds18b20_init] keeps the DS18B20s of the bus.  With the
    driver's calls succeeding and fuel beyond the length of the bus,
    the init ends; the sensors it keeps are the first
    DEFAULT_ONEWIRE_MAX_DS18B20 devices of family 0x28 the search
    yields before ESP_ERR_NOT_FOUND, in that order, at the front of the
    array (never written past its end); each of them, and no other, is
    set to 12-bit resolution; and it succeeds and marks the module
    initialised exactly when it found one.  A bus with no DS18B20 gives
    ESP_FAIL, which [main_init] turns into an abort. *)
Theorem aug_ds18b20_init_finds MAX_DS fuel s :
  (0 < MAX_DS)%nat -> length (ds18b20s s) = MAX_DS -> (length (ds_bus s) < fuel)%nat ->
  (forall a, ds_plat s a = ESP_OK) ->
  let F := found_ds18b20s MAX_DS (ds_bus s) in
  exists s', aug_ds18b20_init MAX_DS fuel s =
      (s', Ret (if bool_decide (F = []) then ESP_FAIL else ESP_OK)) /\
    ds18b20_device_num s' = Z.of_nat (length F) /\ take (length F) (ds18b20s s') = F /\
    is_initialized s' = (bool_decide (F <> []) || is_initialized s) /\
    ds_resolution_set s' = ds_resolution_set s ++ F.
Proof.
  intros Hmax Hlen Hf Hp F. unfold aug_ds18b20_init.
  rewrite (bind_run _ _ _ (set_device_num 0 s) tt eq_refl).
  rewrite (return_check_ok _ _ _ (set_device_num 0 s)); 
    [|unfold initialize_onewire_bus; rewrite (return_check_ok _ _ _ (set_device_num 0 s));
      [reflexivity | rewrite ds_call_run; simpl; by rewrite Hp]].
  destruct (search_ds18b20_devices_run MAX_DS fuel (set_device_num 0 s) Hmax eq_refl Hf (Hp _) (Hp _))
    as (s1 & Hrun & (Hp1 & _ & Hin1 & Hres1) & Hn1 & Ha1).
  change (found_ds18b20s MAX_DS (ds_bus (set_device_num 0 s))) with F in Hrun, Hn1, Ha1.
  assert (Htake : take (length F) (ds18b20s s1) = F).
  { rewrite Ha1. apply take_write_from0. simpl. rewrite Hlen. apply length_found_ds18b20s. }
  destruct (decide (F = [])) as [HF|HF].
  - rewrite bool_decide_eq_true_2 in Hrun |- * by exact HF.
    rewrite (return_check_err _ _ _ _ _ Hrun) by discriminate.
    exists s1. rewrite bool_decide_eq_false_2 by auto. rewrite Hres1, HF, app_nil_r.
    split; [reflexivity|]. split; [by rewrite Hn1, HF|]. split; [reflexivity|]. split; [exact Hin1|reflexivity].
  - rewrite bool_decide_eq_false_2 in Hrun |- * by exact HF.
    rewrite (return_check_ok _ _ _ _ Hrun).
    rewrite (return_check_ok _ _ _ (app_resolution_set F s1)).
    + eexists. split; [reflexivity|]. rewrite bool_decide_eq_true_2 by exact HF. simpl.
      repeat split; auto. by rewrite Hres1.
    + unfold set_resolution_for_devices. rewrite bind_gets, Hn1, Nat2Z.id.
      apply set_resolution_from_run; [rewrite Hp1; apply Hp | apply found_ds18b20s_nonzero | lia | |].
      * apply length_found_ds18b20s.
      * exact Htake.
Qed.

Lemma aug_ds18b20_init_finds_witness :
  exists s', aug_ds18b20_init 2 6 sample_ds_world = (s', Ret ESP_OK) /\
    take 2 (ds18b20s s') = [296; 552] /\ is_initialized s' = true /\ ds_resolution_set s' = [296; 552].
Proof.
  destruct (aug_ds18b20_init_finds 2 6 sample_ds_world ltac:(lia) eq_refl ltac:(simpl; lia) (fun _ => eq_refl))
    as (s' & Hrun & _ & Htake & Hin & Hres).
  change (found_ds18b20s 2 (ds_bus sample_ds_world)) with [296; 552] in Hrun, Htake, Hin, Hres.
  exists s'. split; [exact Hrun|]. split; [exact Htake|]. split; [exact Hin | exact Hres].
Defined.

(** ** Reading a sensor *)

Lemma aug_get_temperature_run MAX_DS i d :
  is_initialized d = true -> (0 <= i < Z.of_nat MAX_DS)%Z -> nth (Z.to_nat i) (ds18b20s d) 0 <> 0 ->
  ds_plat d DS_ds18b20_trigger_temperature_conversion = ESP_OK ->
  ds_plat d DS_ds18b20_get_temperature = ESP_OK ->
  aug_get_temperature MAX_DS i d = (d, Ret (ds_raw d (nth (Z.to_nat i) (ds18b20s d) 0))).
Proof.
  intros Hin Hi Hh Ht Hg. unfold aug_get_temperature. rewrite bind_gets, Hin.
  rewrite (bind_run _ _ _ d tt eq_refl).
  assert (Hload : load_handle MAX_DS i d = (d, Ret (nth (Z.to_nat i) (ds18b20s d) 0))).
  { unfold load_handle. replace ((0 <=? i) && (i <? Z.of_nat MAX_DS))%Z with true; [reflexivity|].
    symmetry. apply andb_true_iff. split; [apply Z.leb_le | apply Z.ltb_lt]; lia. }
  rewrite (bind_run _ _ _ _ _ Hload).
  unfold ds_handle_call. rewrite (proj2 (Z.eqb_neq _ 0) Hh).
  unfold error_check. rewrite (bind_run _ _ _ d ESP_OK); [|by rewrite ds_call_run, Ht].
  cbv [Z.eqb ESP_OK]. rewrite (bind_run _ _ _ d 0); [reflexivity|by rewrite ds_call_run, Hg].
Qed.

(** The for loop of [set_resolution_for_devices] keeps the count. *)
Lemma keeps_set_resolution_from MAX_DS i k :
  keeps ds18b20_device_num (set_resolution_from MAX_DS i k).
Proof.
  revert i. induction k as [|k IH]; intros i; simpl; [apply keeps_ret|].
  unfold load_handle, ds_handle_call, ds_call.
  apply keeps_bind; [intros s; simpl; by case_match|intros h].
  apply keeps_return_check; [|apply IH]. solve_keeps_with idtac.
Qed.

Lemma keeps_set_resolution_for_devices MAX_DS :
  keeps ds18b20_device_num (set_resolution_for_devices MAX_DS).
Proof.
  unfold set_resolution_for_devices. apply keeps_bind; [apply keeps_gets|intros n].
  apply keeps_set_resolution_from.
Qed.

Lemma search_ds18b20_devices_ok MAX_DS fuel :
  hoare (fun _ => True) (search_ds18b20_devices MAX_DS fuel)
    (fun r s => r = ESP_OK -> 0 < ds18b20_device_num s).
Proof.
  unfold search_ds18b20_devices.
  eapply hoare_return_check; [apply (hoare_ok_only _ _ (fun _ => True)); done|].
  eapply hoare_bind; [apply hoare_true|intros ?].
  eapply hoare_return_check; [apply (hoare_ok_only _ _ (fun _ => True)); done|].
  apply hoare_gets_bind. intros n. apply hoare_ret. intros s [_ <-] Hok.
  destruct (Z.leb_spec (ds18b20_device_num s) 0); [discriminate|lia].
Qed.

Lemma aug_ds18b20_init_ok MAX_DS fuel :
  hoare (fun _ => True) (aug_ds18b20_init MAX_DS fuel)
    (fun r s => r = ESP_OK -> is_initialized s = true /\ 0 < ds18b20_device_num s).
Proof.
  unfold aug_ds18b20_init.
  eapply hoare_bind; [apply hoare_true|intros ?].
  eapply hoare_return_check; [apply (hoare_ok_only _ _ (fun _ => True)); done|].
  eapply (hoare_return_check _ (fun s => 0 < ds18b20_device_num s)).
  { eapply hoare_weaken; [apply search_ds18b20_devices_ok|done|].
    intros r s0 Hr. destruct (Z.eqb_spec r ESP_OK); simpl; [auto|by intros]. }
  eapply hoare_return_check; [apply (hoare_ok_keeps ds18b20_device_num (fun n => 0 < n)),
    keeps_set_resolution_for_devices|].
  eapply hoare_bind; [apply (hoare_modify _ _ (fun _ s => is_initialized s = true /\ 0 < ds18b20_device_num s));
    done|].
  intros ?. apply hoare_ret. auto.
Qed.
