(* ===== verification/Publish.v ===== *)
(** * Publish: [get_mac_hash] and [publish_task] of src/main/main.c

    [publish_task] reads the number of sensors once, then every
    DEFAULT_PUBLISH_RATE seconds walks the sensors while the MQTT
    client is connected and publishes three messages per sensor: the
    type, the read-only flag and the temperature printed with "%.2f"
    into an 8-byte buffer.  The topics carry [get_mac_hash], an 8-bit
    hash of the base MAC address, and the 1-based sensor index.

    The state of a period ([pub_world]) is the sensor module's
    [ds_world], the answers [aug_mqtt_is_connected] gives at each
    check (the MQTT event handler runs in another task, so the
    connection can drop between two sensors: the answers are data),
    and the messages published.  A temperature is the driver's reading
    in sixteenths of a degree; "%.2f" rounds the exact value to
    hundredths, ties to even (newlib's dtoa in mode 3). *)

From S2P Require Import Prelude Ds18b20 HttpHandlers HttpInfo.

(** ** get_mac_hash *)

(** [hash = hash * hash + mac[i]] with [uint8_t hash]: the product is
    computed in [int] and the sum truncated to 8 bits. *)
Definition mac_hash_step (hash b : Z) : Z := (hash * hash + b) mod 256.

(** [get_mac_hash], from the result of [esp_base_mac_addr_get] and
    the six bytes it writes. *)
Definition get_mac_hash (ret : esp_err_t) (mac : list Z) : Z :=
  if negb (Z.eqb ret ESP_OK) then 0 else fold_left mac_hash_step mac 0.

(** ** The conversions of the three snprintf calls *)

(** [%i] of a [size_t] argument: its 32 bits read as an [int]. *)
Definition size_t_as_int (v : Z) : Z := if Z.ltb v (2 ^ 31) then v else v - 2 ^ 32.

(** The integer nearest to [n / d] ([d > 0]), ties to even. *)
Definition round_half_even (n d : Z) : Z :=
  let q := n / d in
  let r := n mod d in
  if Z.ltb (2 * r) d then q
  else if Z.ltb d (2 * r) then q + 1
  else if Z.even q then q else q + 1.

Definition digit_of (d : Z) : ascii := ascii_of_nat (48 + Z.to_nat d).

(** "%.2f" of [raw / 16]. *)
Definition fmt_temperature (raw : Z) : string :=
  let h := round_half_even (Z.abs raw * 100) 16 in
  ((if Z.ltb raw 0 then "-" else "") ++ int_to_dec (h / 100) ++ "." ++
   String (digit_of (h mod 100 / 10)) (String (digit_of (h mod 10)) EmptyString))%string.

Definition topic_prefix : string := "/devices/rtl-esp-wroom".

Definition topic (mac_hash : Z) (i : Z) (suffix : string) : string :=
  snprintf 128 (topic_prefix ++ int_to_dec mac_hash ++ "[" ++ int_to_dec (size_t_as_int (i + 1)) ++ "]"
                ++ suffix)%string.

Definition suffix_type : string := "/controls/temperature/meta/type".
Definition suffix_readonly : string := "/controls/temperature/meta/readonly".
Definition suffix_value : string := "/controls/temperature".

(** ** One period of publish_task *)

Record pub_world := mk_pub_world {
  pw_ds : ds_world;
  pw_connected : list bool;
  pw_published : list (string * string)
}.

(** A sensor-module operation run on the sensor state. *)
Definition lift_ds {A} (c : M ds_world A) : M pub_world A := fun p =>
  let '(d', o) := c (pw_ds p) in (mk_pub_world d' (pw_connected p) (pw_published p), o).

(** A call of [aug_mqtt_is_connected] from [publish_task]: the next
    answer of the script; no answer left is a dropped connection. *)
Definition next_is_connected : M pub_world bool := fun p =>
  match pw_connected p with
  | [] => (p, Ret false)
  | c :: cs => (mk_pub_world (pw_ds p) cs (pw_published p), Ret c)
  end.

(** [aug_mqtt_publish_str]: the message goes to the client; the
    function returns ESP_OK whatever [esp_mqtt_client_publish] does. *)
Definition aug_mqtt_publish_str (t data : string) : M pub_world esp_err_t := fun p =>
  (mk_pub_world (pw_ds p) (pw_connected p) (pw_published p ++ [(t, data)]), Ret ESP_OK).

Section Period.
Variable MAX_DS : nat.
Variable mac_hash : Z.
Variable sensors_number : Z.

(** The body of the for loop for sensor [i]. *)
Definition publish_sensor (i : Z) : M pub_world unit :=
  temperature ← lift_ds (aug_get_temperature MAX_DS i);
  aug_mqtt_publish_str (topic mac_hash i suffix_type) "temperature" ;;
  aug_mqtt_publish_str (topic mac_hash i suffix_readonly) "1" ;;
  aug_mqtt_publish_str (topic mac_hash i suffix_value) (snprintf 8 (fmt_temperature temperature)) ;;
  mret tt.

(** The for loop from index [i], [k] rounds at most: the loop leaves
    when [i < sensors_number] fails, which is at the latest after
    [sensors_number - i] rounds; the check of the connection is only
    made when the index is in range (the [&&] of C). *)
Fixpoint publish_from (k : nat) (i : Z) : M pub_world unit :=
  match k with
  | O => mret tt
  | S k' =>
      if Z.ltb i sensors_number then
        next_is_connected ≫= fun c : bool =>
        if c then publish_sensor i ;; publish_from k' (i + 1) else mret tt
      else mret tt
  end.

Definition publish_period : M pub_world unit := publish_from (Z.to_nat sensors_number) 0.

End Period.

(** Two sensors found by the init, reading 22.5 and 25 degrees. *)
Definition sample_sensors : ds_world :=
  mk_ds_world (fun _ => ESP_OK) [] (fun a => if Z.eqb a 296 then 360 else 400) true 2 [296; 552] [296; 552].

(** The number of checks in a row that find the client connected. *)
Fixpoint leading_true (l : list bool) : nat :=
  match l with
  | true :: l' => S (leading_true l')
  | _ => O
  end.

(** The messages of sensor [i] with reading [raw]. *)
Definition sensor_messages (mac_hash i raw : Z) : list (string * string) :=
  [(topic mac_hash i suffix_type, "temperature"%string);
   (topic mac_hash i suffix_readonly, "1"%string);
   (topic mac_hash i suffix_value, fmt_temperature raw)].

(** ** Lemmas: the printed temperature *)

Lemma digits_of_length_lt f k n acc :
  (n < 10 ^ N.of_nat (S k))%N -> (length (digits_of f n acc) <= S k + length acc)%nat.
Proof.
  revert k n acc. induction f as [|f IH]; intros k n acc Hn; simpl; [lia|].
  destruct (N.ltb_spec n 10); simpl; [lia|].
  destruct k as [|k]; [simpl in Hn; lia|].
  specialize (IH k (n / 10)%N (digit_char (n mod 10) :: acc)). simpl in IH.
  enough (n / 10 < 10 ^ N.of_nat (S k))%N by (specialize (IH H0); lia).
  apply N.Div0.div_lt_upper_bound. rewrite <- N.pow_succ_r'. by rewrite <- Nat2N.inj_succ.
Qed.

Lemma length_int_to_dec_nonneg z k :
  (0 <= z < 10 ^ Z.of_nat (S k))%Z -> (String.length (int_to_dec z) <= S k)%nat.
Proof.
  intros Hz. unfold int_to_dec. rewrite <- length_list_ascii_of_string, String.list_ascii_of_string_of_list_ascii.
  destruct (Z.ltb_spec z 0); [lia|].
  enough (length (digits_of 10 (Z.to_N z) []) <= S k + 0)%nat by lia.
  apply digits_of_length_lt. apply N2Z.inj_lt. rewrite N2Z.inj_pow, Z2N.id, nat_N_Z by lia. lia.
Qed.

Lemma round_half_even_bounds n d :
  (0 < d)%Z -> (n / d <= round_half_even n d <= n / d + 1)%Z.
Proof.
  intros Hd. unfold round_half_even.
  repeat match goal with |- context [if ?b then _ else _] => destruct b end; lia.
Qed.

(** [round_half_even] is a nearest integer. *)
Lemma round_half_even_nearest n d :
  (0 < d)%Z -> (2 * Z.abs (d * round_half_even n d - n) <= d)%Z.
Proof.
  intros Hd. pose proof (Z.div_mod n d ltac:(lia)). pose proof (Z.mod_pos_bound n d Hd).
  unfold round_half_even.
  repeat match goal with |- context [if ?b then _ else _] => destruct b eqn:? end;
    rewrite ?Z.ltb_lt, ?Z.ltb_ge in *; lia.
Qed.

(** For a reading of the DS18B20's range, -55 to +125 degrees, the
    text has at most six characters. *)
Lemma fmt_temperature_length raw :
  (-880 <= raw <= 2000)%Z -> (String.length (fmt_temperature raw) <= 6)%nat.
Proof.
  intros Hr. unfold fmt_temperature.
  pose proof (round_half_even_bounds (Z.abs raw * 100) 16 ltac:(lia)) as Hb.
  set (h := round_half_even (Z.abs raw * 100) 16) in *.
  rewrite !length_string_append. cbn [String.length].
  destruct (Z.ltb_spec raw 0); cbn [String.length].
  - assert (0 <= Z.abs raw * 100 / 16 <= 5500)%Z by (split; [apply Z.div_pos | apply Z.div_le_upper_bound]; lia).
    pose proof (length_int_to_dec_nonneg (h / 100) 1) as Hl. change (10 ^ Z.of_nat 2)%Z with 100%Z in Hl.
    enough (0 <= h / 100 < 100)%Z by (specialize (Hl ltac:(lia)); lia).
    split; [apply Z.div_pos|apply Z.div_lt_upper_bound]; lia.
  - assert (0 <= Z.abs raw * 100 / 16 <= 12500)%Z by (split; [apply Z.div_pos | apply Z.div_le_upper_bound]; lia).
    pose proof (length_int_to_dec_nonneg (h / 100) 2) as Hl. change (10 ^ Z.of_nat 3)%Z with 1000%Z in Hl.
    enough (0 <= h / 100 < 1000)%Z by (specialize (Hl ltac:(lia)); lia).
    split; [apply Z.div_pos|apply Z.div_lt_upper_bound]; lia.
Qed.

(** ** Lemmas: a period of publish_task *)

Lemma lift_ds_run {A} (c : M ds_world A) d cs pub d' a :
  c d = (d', Ret a) -> lift_ds c (mk_pub_world d cs pub) = (mk_pub_world d' cs pub, Ret a).
Proof. intros H. unfold lift_ds. simpl. by rewrite H. Qed.

Lemma publish_str_run t data d cs pub :
  aug_mqtt_publish_str t data (mk_pub_world d cs pub) = (mk_pub_world d cs (pub ++ [(t, data)]), Ret ESP_OK).
Proof. reflexivity. Qed.

Section PeriodRun.
Variables (MAX_DS : nat) (mac_hash sensors_number : Z) (d : ds_world).
Hypothesis Hinit : is_initialized d = true.
Hypothesis Hn : (0 <= sensors_number)%Z.
Hypothesis Hmax : (Z.to_nat sensors_number <= MAX_DS)%nat.
Hypothesis Htrig : ds_plat d DS_ds18b20_trigger_temperature_conversion = ESP_OK.
Hypothesis Hget : ds_plat d DS_ds18b20_get_temperature = ESP_OK.
Hypothesis Hsensors : forall j, (j < Z.to_nat sensors_number)%nat ->
  nth j (ds18b20s d) 0 <> 0 /\ (-880 <= ds_raw d (nth j (ds18b20s d) 0) <= 2000)%Z.

Lemma publish_sensor_run j cs pub :
  (j < Z.to_nat sensors_number)%nat ->
  publish_sensor MAX_DS mac_hash (Z.of_nat j) (mk_pub_world d cs pub) =
  (mk_pub_world d cs (pub ++ sensor_messages mac_hash (Z.of_nat j) (ds_raw d (nth j (ds18b20s d) 0))), Ret tt).
Proof.
  intros Hj. destruct (Hsensors j Hj) as [Hh Hr]. unfold publish_sensor.
  rewrite (bind_run _ _ _ _ _ (lift_ds_run _ d cs pub d _
    (aug_get_temperature_run MAX_DS (Z.of_nat j) d Hinit ltac:(lia) ltac:(by rewrite Nat2Z.id) Htrig Hget))).
  rewrite Nat2Z.id.
  rewrite (bind_run _ _ _ _ _ (publish_str_run _ _ _ _ _)), (bind_run _ _ _ _ _ (publish_str_run _ _ _ _ _)),
    (bind_run _ _ _ _ _ (publish_str_run _ _ _ _ _)).
  rewrite snprintf_fits by (pose proof (fmt_temperature_length _ Hr); lia).
  unfold sensor_messages. by rewrite <- !app_assoc.
Qed.

Lemma publish_from_run k j cs pub :
  (j + k = Z.to_nat sensors_number)%nat ->
  let m := Nat.min k (leading_true cs) in
  exists cs', publish_from MAX_DS mac_hash sensors_number k (Z.of_nat j) (mk_pub_world d cs pub) =
    (mk_pub_world d cs' (pub ++ concat (map (fun i => sensor_messages mac_hash (Z.of_nat i) (ds_raw d (nth i (ds18b20s d) 0)))
                                           (seq j m))), Ret tt).
Proof.
  revert j cs pub. induction k as [|k IH]; intros j cs pub Hk m.
  - exists cs. subst m. simpl. by rewrite app_nil_r.
  - cbn [publish_from]. rewrite (proj2 (Z.ltb_lt _ _)) by lia.
    destruct cs as [|[|] cs].
    + exists []. subst m. simpl. by rewrite app_nil_r.
    + rewrite (bind_run next_is_connected _ (mk_pub_world d (true :: cs) pub) (mk_pub_world d cs pub) true
                eq_refl).
      rewrite (bind_run _ _ _ _ _ (publish_sensor_run j cs pub ltac:(lia))).
      replace (Z.of_nat j + 1)%Z with (Z.of_nat (S j)) by lia.
      destruct (IH (S j) cs (pub ++ sensor_messages mac_hash (Z.of_nat j) (ds_raw d (nth j (ds18b20s d) 0))) ltac:(lia))
        as (cs' & Hrun).
      exists cs'. rewrite Hrun. subst m. simpl. by rewrite <- app_assoc.
    + exists cs. subst m. simpl. by rewrite app_nil_r.
Qed.

End PeriodRun.

(** C22: one period of [publish_task].  For sensors the init found
    (non-NULL handles, readings in the DS18B20's range) and drivers that
    answer, the period publishes, sensor after sensor in the order of
    the array, the type, the read-only flag and the temperature with
    two decimals, uncut by the 8-byte buffer; it stops at the first
    check that finds the client disconnected, so exactly the sensors
    before that check are published, and the sensor state is unchanged. *)
Theorem publish_period_messages MAX_DS mac_hash n d cs pub :
  is_initialized d = true -> (0 <= n)%Z -> (Z.to_nat n <= MAX_DS)%nat ->
  ds_plat d DS_ds18b20_trigger_temperature_conversion = ESP_OK ->
  ds_plat d DS_ds18b20_get_temperature = ESP_OK ->
  (forall j, (j < Z.to_nat n)%nat ->
     nth j (ds18b20s d) 0 <> 0 /\ (-880 <= ds_raw d (nth j (ds18b20s d) 0) <= 2000)%Z) ->
  exists cs', publish_period MAX_DS mac_hash n (mk_pub_world d cs pub) =
    (mk_pub_world d cs' (pub ++ concat (map (fun j => sensor_messages mac_hash (Z.of_nat j)
                                                        (ds_raw d (nth j (ds18b20s d) 0)))
                                         (seq 0 (Nat.min (Z.to_nat n) (leading_true cs))))), Ret tt).
Proof.
  intros Hi Hn Hm Ht Hg Hs. unfold publish_period.
  change 0%Z with (Z.of_nat 0). apply publish_from_run; auto.
Qed.

Lemma publish_period_messages_witness :
  exists cs', publish_period 2 77 2 (mk_pub_world sample_sensors [true; false] []) =
    (mk_pub_world sample_sensors cs' (sensor_messages 77 0 360), Ret tt) /\
    fmt_temperature 360 = "22.50"%string.
Proof.
  destruct (publish_period_messages 2 77 2 sample_sensors [true; false] [] eq_refl ltac:(lia) ltac:(simpl; lia)
              eq_refl eq_refl) as [cs' Hrun].
  - intros j Hj. simpl in Hj. destruct j as [|[|j]]; [| |lia]; simpl; split; lia.
  - exists cs'. split; [rewrite Hrun; reflexivity | vm_compute; reflexivity].
Defined.
