(* ===== verification/HttpServer.v ===== *)
(** * HttpServer: the routing of requests to the handlers of aug_http_server.c

    [aug_http_start] (Http.v) fills the server's table with seven
    [httpd_uri_t]; the httpd library then serves each request with the
    first handler whose URI and method match ([httpd_uri] below, a model
    of the library's dispatch), and answers 405 when the URI is known
    with another method and 404 when it is not known at all.

    [route] is the routing the module promises: POST on the six control
    URIs, GET on "/".  The theorem of this file is that the table
    [aug_http_start] builds implements it, and that every handler that
    reads [user_ctx] gets the event loop handle. *)

From S2P Require Import Prelude Platform Http HttpHandlers Ota HttpInfo.

(** The handler functions, by the constructor the table stores. *)
Definition run_uri_handler (fuel : nat) (index_html : string) (ap ai : list ascii) (h : uri_handler)
    : httpd_req_t -> M World esp_err_t :=
  match h with
  | H_set_options_sta_handler => set_options_sta_handler
  | H_init_sta_handler => init_sta_handler ap ai
  | H_set_options_mqtt_handler => set_options_mqtt_handler
  | H_init_mqtt_handler => init_mqtt_handler
  | H_ota_update_handler => ota_update_handler fuel
  | H_restart_handler => restart_handler
  | H_index_handler => index_handler index_html
  end.

(** The handlers that post through [*(esp_event_loop_handle_t* )req->user_ctx]. *)
Definition uses_user_ctx (h : uri_handler) : bool :=
  match h with
  | H_init_sta_handler | H_init_mqtt_handler | H_ota_update_handler | H_restart_handler => true
  | _ => false
  end.

(** The library's lookup: the first entry with the method and the URI. *)
Definition httpd_find_uri_handler (table : list httpd_uri_t) (m : http_method) (path : string)
    : option httpd_uri_t :=
  find (fun u => http_method_eqb (method u) m && String.eqb (uri u) path) table.

Definition uri_known (table : list httpd_uri_t) (path : string) : bool :=
  existsb (fun u => String.eqb (uri u) path) table.

(** [httpd_resp_send_err] for the two errors of the dispatch. *)
Definition send_method_not_allowed : M World esp_err_t :=
  resp_send "405 Method Not Allowed" "Request method for this URI is not handled by server" ;;
  mret ESP_ERR_NOT_FOUND.

Definition send_not_found : M World esp_err_t :=
  resp_send "404 Not Found" "This URI does not exist" ;; mret ESP_ERR_NOT_FOUND.

(** The library's [httpd_uri]: one request, [fuel] for the OTA loop, [ap ai]
    for the memory after the station arrays ([send_sta_info]) and
    the embedded page for "/". *)
Definition httpd_uri (fuel : nat) (index_html : string) (ap ai : list ascii) (m : http_method) (path : string)
    (req : httpd_req_t) : M World esp_err_t :=
  h ← gets w_http;
  match httpd_find_uri_handler (uri_handlers h) m path with
  | Some u => run_uri_handler fuel index_html ap ai (handler u) req
  | None => if uri_known (uri_handlers h) path then send_method_not_allowed else send_not_found
  end.

(** ** The routing the module promises *)

Definition control_uris : list (string * uri_handler) :=
  [("/set_options/sta", H_set_options_sta_handler); ("/init/sta", H_init_sta_handler);
   ("/set_options/mqtt", H_set_options_mqtt_handler); ("/init/mqtt", H_init_mqtt_handler);
   ("/ota_update", H_ota_update_handler); ("/restart", H_restart_handler)].

Definition route (m : http_method) (path : string) : option uri_handler :=
  match m with
  | HTTP_POST => option_map snd (find (fun p => String.eqb (fst p) path) control_uris)
  | HTTP_GET => if String.eqb "/" path then Some H_index_handler else None
  end.

Definition route_known (path : string) : bool :=
  String.eqb "/" path || existsb (fun p => String.eqb (fst p) path) control_uris.

(** What serving a request does under [route]. *)
Definition route_run (fuel : nat) (index_html : string) (ap ai : list ascii) (m : http_method) (path : string)
    (req : httpd_req_t) : M World esp_err_t :=
  match route m path with
  | Some h => run_uri_handler fuel index_html ap ai h req
  | None => if route_known path then send_method_not_allowed else send_not_found
  end.

(** The table [aug_http_start] builds. *)
Definition start_table : list httpd_uri_t :=
  [mk_httpd_uri "/set_options/sta" HTTP_POST H_set_options_sta_handler false;
   mk_httpd_uri "/init/sta" HTTP_POST H_init_sta_handler true;
   mk_httpd_uri "/set_options/mqtt" HTTP_POST H_set_options_mqtt_handler false;
   mk_httpd_uri "/init/mqtt" HTTP_POST H_init_mqtt_handler true;
   mk_httpd_uri "/ota_update" HTTP_POST H_ota_update_handler true;
   mk_httpd_uri "/restart" HTTP_POST H_restart_handler true;
   mk_httpd_uri "/" HTTP_GET H_index_handler false].

(** ** Lemmas: the start *)

Lemma httpd_register_uri_handler_run u w :
  server (w_http w) = true -> existsb (same_route u) (uri_handlers (w_http w)) = false ->
  (length (uri_handlers (w_http w)) < HTTPD_MAX_URI_HANDLERS)%nat ->
  w_plat w API_httpd_register_uri_handler = ESP_OK ->
  httpd_register_uri_handler u w =
  (upd_http (fun g => mk_http_globals (server g) (uri_handlers g ++ [u])) w, Ret ESP_OK).
Proof.
  intros Hs He Hl Hp. unfold httpd_register_uri_handler. rewrite bind_gets, Hs, He.
  rewrite (proj2 (Nat.leb_gt _ _) Hl). cbv beta iota delta [negb].
  rewrite (bind_run (call API_httpd_register_uri_handler) _ w w ESP_OK); [reflexivity|].
  unfold call. by rewrite Hp.
Qed.

Lemma aug_http_start_run w :
  w_plat w API_httpd_start = ESP_OK -> w_plat w API_httpd_register_uri_handler = ESP_OK ->
  aug_http_start w = (upd_http (fun _ => mk_http_globals true start_table) w, Ret ESP_OK).
Proof.
  intros Hs Hr. unfold aug_http_start.
  rewrite (return_check_ok _ _ _ (upd_http (fun _ => mk_http_globals true []) w));
    [|unfold httpd_start; rewrite (bind_run (call API_httpd_start) _ w w ESP_OK);
      [reflexivity | unfold call; by rewrite Hs]].
  unfold register_set_options_sta_handler, register_init_sta_handler, register_set_options_mqtt_handler,
    register_init_mqtt_handler, register_ota_update_handler, register_restart_handler, register_index.
  do 7 (erewrite return_check_ok;
    [|apply httpd_register_uri_handler_run; [reflexivity | reflexivity | simpl; unfold HTTPD_MAX_URI_HANDLERS; lia | exact Hr]]).
  reflexivity.
Qed.

(** ** Lemmas: the lookup in the start table *)

Lemma find_start_table m path :
  option_map handler (httpd_find_uri_handler start_table m path) = route m path.
Proof.
  destruct m; unfold httpd_find_uri_handler, route, start_table, control_uris;
    cbn [find uri method handler fst snd http_method_eqb andb option_map];
    repeat match goal with |- context [String.eqb ?a path] => destruct (String.eqb a path) end;
    reflexivity.
Qed.

Lemma uri_known_start_table path : uri_known start_table path = route_known path.
Proof.
  unfold uri_known, route_known, start_table, control_uris. cbn [existsb uri fst].
  repeat match goal with |- context [String.eqb ?a path] => destruct (String.eqb a path) end;
    reflexivity.
Qed.

Lemma start_table_user_ctx :
  Forall (fun u => uses_user_ctx (handler u) = true -> user_ctx u = true) start_table.
Proof. repeat constructor; simpl; congruence. Qed.

(** A refused registration: [aug_http_start] returns the error with the
    server running and its table empty, so that every request is
    answered 404; [main_init] does not look at the result. *)
Lemma aug_http_start_register_refused w e :
  w_plat w API_httpd_start = ESP_OK -> w_plat w API_httpd_register_uri_handler = e -> e <> ESP_OK ->
  aug_http_start w = (upd_http (fun _ => mk_http_globals true []) w, Ret e) /\
  forall fuel index_html ap ai m path req,
    httpd_uri fuel index_html ap ai m path req (upd_http (fun _ => mk_http_globals true []) w) =
    send_not_found (upd_http (fun _ => mk_http_globals true []) w).
Proof.
  intros Hs Hr He. split.
  - unfold aug_http_start.
    rewrite (return_check_ok _ _ _ (upd_http (fun _ => mk_http_globals true []) w));
      [|unfold httpd_start; rewrite (bind_run (call API_httpd_start) _ w w ESP_OK);
        [reflexivity | unfold call; by rewrite Hs]].
    apply return_check_err; [|exact He].
    unfold register_set_options_sta_handler, httpd_register_uri_handler. rewrite bind_gets.
    cbn [w_http upd_http server uri_handlers existsb negb length HTTPD_MAX_URI_HANDLERS Nat.leb].
    set (w1 := upd_http (fun _ => mk_http_globals true []) w).
    rewrite (bind_run (call API_httpd_register_uri_handler) _ w1 w1 e); [|unfold call; by rewrite <- Hr].
    destruct (Z.eqb_spec e ESP_OK); [contradiction | reflexivity].
  - intros. reflexivity.
Qed.

(** C23: [aug_http_start] serves the promised routes.  When the httpd
    library starts and accepts the registrations, the start succeeds
    (the seven handlers fit the eight slots of HTTPD_DEFAULT_CONFIG) and
    from then on every request, whatever its method and URI, is served
    as [route] says: POST on a control URI runs that URI's handler, GET
    on "/" the index page, a known URI with the other method is answered
    405 and an unknown one 404.  Every handler that posts through
    [user_ctx] was registered with the event loop handle. *)
Theorem aug_http_start_routes fuel index_html ap ai w :
  w_plat w API_httpd_start = ESP_OK -> w_plat w API_httpd_register_uri_handler = ESP_OK ->
  exists w', aug_http_start w = (w', Ret ESP_OK) /\ aug_http_is_init w' = true /\
    (forall m path req, httpd_uri fuel index_html ap ai m path req w' = route_run fuel index_html ap ai m path req w') /\
    (forall u, u ∈ uri_handlers (w_http w') -> uses_user_ctx (handler u) = true -> user_ctx u = true).
Proof.
  intros Hs Hr. eexists. split; [exact (aug_http_start_run w Hs Hr)|].
  split; [reflexivity|]. split.
  - intros m path req. unfold httpd_uri, route_run. rewrite bind_gets. cbn [w_http upd_http uri_handlers].
    pose proof (find_start_table m path) as Hf.
    destruct (httpd_find_uri_handler start_table m path) as [u|]; simpl in Hf; rewrite <- Hf; [reflexivity|].
    by rewrite uri_known_start_table.
  - intros u Hu. cbn in Hu. exact (proj1 (Forall_forall _ _) start_table_user_ctx u Hu).
Qed.

Lemma aug_http_start_routes_witness :
  exists w', aug_http_start (world_init plat_ok [] [] ∅) = (w', Ret ESP_OK) /\ aug_http_is_init w' = true /\
    (forall m path req, httpd_uri 1 "" [] [] m path req w' = route_run 1 "" [] [] m path req w') /\
    (forall u, u ∈ uri_handlers (w_http w') -> uses_user_ctx (handler u) = true -> user_ctx u = true).
Proof. apply aug_http_start_routes; reflexivity. Defined.

(** A start that succeeded leaves the server running. *)
Lemma aug_http_start_ok :
  hoare (fun _ => True) aug_http_start (fun r w => r = ESP_OK -> aug_http_is_init w = true).
Proof.
  unfold aug_http_start. eapply hoare_return_check.
  { apply (hoare_ok_only _ _ (fun w => server (w_http w) = true)).
    unfold httpd_start, http_update, call. mrun. intros s s' _.
    destruct (Z.eqb_spec (w_plat s API_httpd_start) ESP_OK); simpl; intros; simplify_eq/=; done. }
  unfold register_set_options_sta_handler, register_init_sta_handler, register_set_options_mqtt_handler,
    register_init_mqtt_handler, register_ota_update_handler, register_restart_handler, register_index.
  do 7 (eapply hoare_return_check; [apply (hoare_ok_keeps (fun w => server (w_http w)) (fun b => b = true));
    unfold httpd_register_uri_handler, http_update; solve_keeps_with idtac|]).
  apply hoare_ret. done.
Qed.
