(* ===== verification/App.v ===== *)
(** * App: the start of the firmware

    [app_main] (src/main/main.c) prepares the NVS partition
    ([aug_nvs_init]), confirms a freshly updated image ([verify_app]),
    creates the TCP/IP stack and the default event loop ([aug_wifi_init]
    of src/main/aug_wifi.c) and hands over to [main_loop], which runs
    [main_init] (Main.v) and then parks the main task for good.

    These steps act on more of the device than the [World] of the other
    files: the NVS partition as [nvs_flash_init] finds it, whether
    [esp_netif_init] ran, whether the default event loop exists, and the
    state of the running OTA image.  [Device] holds these beside the
    [World]; [on_world] runs a computation of [M World] on its world.
    The ESP-IDF functions are modelled from their documented behaviour:
    [nvs_flash_init] fails with ESP_ERR_NVS_NO_FREE_PAGES or
    ESP_ERR_NVS_NEW_VERSION_FOUND on a full or newer-format partition,
    [nvs_flash_erase] empties the whole partition,
    [esp_event_loop_create_default] refuses a second default loop and
    [esp_event_loop_delete_default] a missing one with
    ESP_ERR_INVALID_STATE, and [esp_ota_mark_app_valid_cancel_rollback]
    makes the running image VALID. *)

From stdpp Require Import gmap.
From S2P Require Import Prelude Utility Config Platform Main.

Definition ESP_ERR_INVALID_STATE : esp_err_t := 259.
Definition ESP_ERR_NVS_NO_FREE_PAGES : esp_err_t := 4365.
Definition ESP_ERR_NVS_NEW_VERSION_FOUND : esp_err_t := 4368.

(** [esp_ota_img_states_t] of esp_ota_ops.h. *)
Inductive esp_ota_img_states_t : Type :=
| ESP_OTA_IMG_NEW
| ESP_OTA_IMG_PENDING_VERIFY
| ESP_OTA_IMG_VALID
| ESP_OTA_IMG_INVALID
| ESP_OTA_IMG_ABORTED
| ESP_OTA_IMG_UNDEFINED.

(** The NVS partition as [nvs_flash_init] finds it. *)
Inductive nvs_partition : Type :=
| NVS_PARTITION_OK
| NVS_PARTITION_FULL
| NVS_PARTITION_NEWER
| NVS_PARTITION_BROKEN (e : esp_err_t).

Record Device := mk_device {
  d_partition : nvs_partition;
  d_netif : bool;
  d_default_loop : bool;
  (** [None] when [esp_ota_get_state_partition] fails (no otadata). *)
  d_ota_state : option esp_ota_img_states_t;
  d_world : World
}.

Definition set_partition (v : nvs_partition) (d : Device) : Device :=
  mk_device v (d_netif d) (d_default_loop d) (d_ota_state d) (d_world d).
Definition set_netif (v : bool) (d : Device) : Device :=
  mk_device (d_partition d) v (d_default_loop d) (d_ota_state d) (d_world d).
Definition set_default_loop (v : bool) (d : Device) : Device :=
  mk_device (d_partition d) (d_netif d) v (d_ota_state d) (d_world d).
Definition set_ota_state (v : option esp_ota_img_states_t) (d : Device) : Device :=
  mk_device (d_partition d) (d_netif d) (d_default_loop d) v (d_world d).
Definition set_world (v : World) (d : Device) : Device :=
  mk_device (d_partition d) (d_netif d) (d_default_loop d) (d_ota_state d) v.

(** A computation of the modules' world, run on the device's. *)
Definition on_world {A} (c : M World A) : M Device A :=
  fun d => let '(w', o) := c (d_world d) in (set_world w' d, o).

Definition plat (a : api) : M Device esp_err_t := gets (fun d => w_plat (d_world d) a).

(** ** ESP-IDF *)

Definition nvs_flash_init : M Device esp_err_t :=
  gets (fun d =>
    match d_partition d with
    | NVS_PARTITION_OK => ESP_OK
    | NVS_PARTITION_FULL => ESP_ERR_NVS_NO_FREE_PAGES
    | NVS_PARTITION_NEWER => ESP_ERR_NVS_NEW_VERSION_FOUND
    | NVS_PARTITION_BROKEN e => e
    end).

(** Every namespace of the partition goes. *)
Definition erased (d : Device) : Device :=
  set_world (upd_nvs (fun _ => ∅) (d_world d)) (set_partition NVS_PARTITION_OK d).

Definition nvs_flash_erase : M Device esp_err_t :=
  r ← plat API_nvs_flash_erase;
  if Z.eqb r ESP_OK then modify erased ;; mret ESP_OK else mret r.

Definition esp_netif_init : M Device esp_err_t :=
  r ← plat API_esp_netif_init;
  if Z.eqb r ESP_OK then modify (set_netif true) ;; mret ESP_OK else mret r.

Definition esp_event_loop_create_default : M Device esp_err_t :=
  l ← gets d_default_loop;
  if (l : bool) then mret ESP_ERR_INVALID_STATE
  else
    r ← plat API_esp_event_loop_create_default;
    if Z.eqb r ESP_OK then modify (set_default_loop true) ;; mret ESP_OK else mret r.

Definition esp_event_loop_delete_default : M Device esp_err_t :=
  l ← gets d_default_loop;
  if (l : bool) then modify (set_default_loop false) ;; mret ESP_OK
  else mret ESP_ERR_INVALID_STATE.

(** [esp_ota_get_state_partition(esp_ota_get_running_partition(), &ota_state)]. *)
Definition esp_ota_get_state_partition : M Device (option esp_ota_img_states_t) := gets d_ota_state.

Definition esp_ota_mark_app_valid_cancel_rollback : M Device esp_err_t :=
  modify (set_ota_state (Some ESP_OTA_IMG_VALID)) ;; mret ESP_OK.

(** ** aug_wifi.c *)

(** [aug_wifi_init]: the TCP/IP stack, then the default event loop. *)
Definition aug_wifi_init : M Device esp_err_t :=
  AUG_RETURN_CHECK esp_netif_init;
  AUG_RETURN_CHECK esp_event_loop_create_default;
  mret ESP_OK.

(** [aug_wifi_deinit]: the default event loop only; the
    [esp_netif_deinit] call is commented out in the source. *)
Definition aug_wifi_deinit : M Device esp_err_t :=
  AUG_RETURN_CHECK esp_event_loop_delete_default;
  mret ESP_OK.

(** ** main.c *)

(** [aug_nvs_init]: a full or newer-format partition is erased and
    initialised again; any other error aborts. *)
Definition aug_nvs_init : M Device unit :=
  ret ← nvs_flash_init;
  ret ← (if Z.eqb ret ESP_ERR_NVS_NO_FREE_PAGES || Z.eqb ret ESP_ERR_NVS_NEW_VERSION_FOUND
         then ESP_ERROR_CHECK nvs_flash_erase; nvs_flash_init
         else mret ret);
  error_check_val ret (mret tt).

(** [verify_app]: an image still waiting for its first confirmation is
    confirmed, cancelling the rollback. *)
Definition verify_app : M Device unit :=
  st ← esp_ota_get_state_partition;
  match st with
  | Some ESP_OTA_IMG_PENDING_VERIFY => esp_ota_mark_app_valid_cancel_rollback ;; mret tt
  | _ => mret tt
  end.

(** What [verify_app] leaves of the image state. *)
Definition confirmed (st : option esp_ota_img_states_t) : option esp_ota_img_states_t :=
  match st with
  | Some ESP_OTA_IMG_PENDING_VERIFY => Some ESP_OTA_IMG_VALID
  | _ => st
  end.

Section App.
Variable CONFIG_WIFI_INFO : bool.
Variable default_sta_config : aug_wifi_sta_config_t.
Variable default_ap_config : aug_wifi_ap_config_t.
Variable DEFAULT_MQTT_BROKER_URI : string.

(** [main_loop]: [main_init], then [while (!shutdown) vTaskDelay(5000);]
    with [shutdown] never set: the main task sleeps for good
    ([block]) while the loop task serves the events. *)
Definition main_loop : M Device unit :=
  on_world (main_init CONFIG_WIFI_INFO default_sta_config default_ap_config DEFAULT_MQTT_BROKER_URI) ;;
  block.

Definition app_main : M Device unit :=
  aug_nvs_init ;;
  verify_app ;;
  ESP_ERROR_CHECK aug_wifi_init;
  main_loop.

End App.

(** ** Lemmas: the steps of the start *)

Lemma on_world_run {A} (c : M World A) d w' o :
  c (d_world d) = (w', o) -> on_world c d = (set_world w' d, o).
Proof. intros H. unfold on_world. by rewrite H. Qed.

Lemma keeps_on_world_ota {A} (c : M World A) : keeps d_ota_state (on_world c).
Proof. intros d. unfold on_world. by destruct (c (d_world d)). Qed.

#[export] Hint Resolve keeps_on_world_ota : keeps.

Lemma aug_nvs_init_ok d : d_partition d = NVS_PARTITION_OK -> aug_nvs_init d = (d, Ret tt).
Proof. intros Hp. unfold aug_nvs_init, nvs_flash_init. mrun. by rewrite Hp. Qed.

(** A full or newer-format partition is erased, every namespace with it. *)
Lemma aug_nvs_init_full d :
  d_partition d = NVS_PARTITION_FULL \/ d_partition d = NVS_PARTITION_NEWER ->
  w_plat (d_world d) API_nvs_flash_erase = ESP_OK ->
  aug_nvs_init d = (erased d, Ret tt).
Proof.
  intros [Hp|Hp] He; unfold aug_nvs_init, nvs_flash_init, nvs_flash_erase, plat; mrun;
    rewrite Hp; simpl; by rewrite He.
Qed.

Lemma aug_nvs_init_erase_fails d e :
  d_partition d = NVS_PARTITION_FULL \/ d_partition d = NVS_PARTITION_NEWER ->
  w_plat (d_world d) API_nvs_flash_erase = e -> e <> ESP_OK ->
  aug_nvs_init d = (d, Abort e).
Proof.
  intros [Hp|Hp] He Hne; unfold aug_nvs_init, nvs_flash_init, nvs_flash_erase, plat; mrun;
    apply Z.eqb_neq in Hne; rewrite Hp; simpl; rewrite He, Hne; simpl; rewrite Hne; reflexivity.
Qed.

(** Any other error of [nvs_flash_init] aborts the start. *)
Lemma aug_nvs_init_broken d e :
  d_partition d = NVS_PARTITION_BROKEN e -> e <> ESP_OK ->
  e <> ESP_ERR_NVS_NO_FREE_PAGES -> e <> ESP_ERR_NVS_NEW_VERSION_FOUND ->
  aug_nvs_init d = (d, Abort e).
Proof.
  intros Hp H0 H1 H2. unfold aug_nvs_init, nvs_flash_init. mrun. rewrite Hp.
  destruct (Z.eqb_spec e ESP_ERR_NVS_NO_FREE_PAGES); [done|].
  destruct (Z.eqb_spec e ESP_ERR_NVS_NEW_VERSION_FOUND); [done|]. simpl.
  by destruct (Z.eqb_spec e ESP_OK).
Qed.

Lemma keeps_aug_nvs_init_ota : keeps d_ota_state aug_nvs_init.
Proof.
  unfold aug_nvs_init, nvs_flash_init, nvs_flash_erase, error_check_val, plat.
  solve_keeps_with idtac.
Qed.

Lemma keeps_aug_wifi_init_ota : keeps d_ota_state aug_wifi_init.
Proof.
  unfold aug_wifi_init, esp_netif_init, esp_event_loop_create_default, plat.
  solve_keeps_with idtac.
Qed.

Lemma verify_app_run d :
  verify_app d =
  (match d_ota_state d with
   | Some ESP_OTA_IMG_PENDING_VERIFY => set_ota_state (Some ESP_OTA_IMG_VALID) d
   | _ => d
   end, Ret tt).
Proof. unfold verify_app, esp_ota_get_state_partition. mrun. by repeat case_match. Qed.

Lemma aug_wifi_init_run d :
  d_default_loop d = false -> w_plat (d_world d) API_esp_netif_init = ESP_OK ->
  w_plat (d_world d) API_esp_event_loop_create_default = ESP_OK ->
  aug_wifi_init d = (set_default_loop true (set_netif true d), Ret ESP_OK).
Proof.
  intros Hl Hn Hc. unfold aug_wifi_init, esp_netif_init, esp_event_loop_create_default, plat.
  mrun. rewrite Hn. simpl. rewrite Hl. simpl. rewrite Hc. reflexivity.
Qed.

(** The rest of the start, after [aug_nvs_init]. *)
Lemma app_main_after_nvs info dsta dap uri d d' :
  aug_nvs_init d = (d', Ret tt) ->
  app_main info dsta dap uri d =
  (verify_app ;; ESP_ERROR_CHECK aug_wifi_init; main_loop info dsta dap uri) d'.
Proof. intros H. unfold app_main. exact (bind_run _ _ _ _ _ H). Qed.

(** ** The theorems *)

(** C9: Booting on an NVS partition that [nvs_flash_init] finds full or
    of a newer format is booting a device whose flash holds nothing:
    when [nvs_flash_erase] succeeds, [app_main] behaves exactly as on
    the same device with a healthy, empty partition, so the station,
    access point and MQTT configurations saved there are gone before
    [main_init] looks for them. *)
Theorem app_main_full_partition_forgets info dsta dap uri d :
  d_partition d = NVS_PARTITION_FULL \/ d_partition d = NVS_PARTITION_NEWER ->
  w_plat (d_world d) API_nvs_flash_erase = ESP_OK ->
  app_main info dsta dap uri d = app_main info dsta dap uri (erased d).
Proof.
  intros Hp He.
  rewrite (app_main_after_nvs _ _ _ _ _ _ (aug_nvs_init_full d Hp He)).
  symmetry. apply app_main_after_nvs, aug_nvs_init_ok. reflexivity.
Qed.

Lemma app_main_full_partition_forgets_witness :
  let d := mk_device NVS_PARTITION_FULL false false None
             (world_init plat_ok [] [] {[("wifi_sta", "config") := []]}) in
  app_main false zero_sta_config zero_ap_config "" d = app_main false zero_sta_config zero_ap_config "" (erased d).
Proof. intros d. apply app_main_full_partition_forgets; [left|]; reflexivity. Defined.

(** C8: [app_main] confirms a freshly updated image before anything of
    the Wi-Fi or of [main_init] has run: once [aug_nvs_init] has
    returned, an image in ESP_OTA_IMG_PENDING_VERIFY is VALID at the end
    of [app_main] whatever its outcome, also when
    [ESP_ERROR_CHECK(aug_wifi_init())] or [main_init] aborts, so the
    bootloader never rolls such an image back. *)
Theorem app_main_confirms_image info dsta dap uri d d' :
  d_ota_state d = Some ESP_OTA_IMG_PENDING_VERIFY -> aug_nvs_init d = (d', Ret tt) ->
  d_ota_state (fst (app_main info dsta dap uri d)) = Some ESP_OTA_IMG_VALID.
Proof.
  intros Hs Hn. rewrite (app_main_after_nvs _ _ _ _ _ _ Hn).
  rewrite (bind_run _ _ _ _ _ (verify_app_run d')).
  rewrite <- (keeps_run _ _ _ _ _ keeps_aug_nvs_init_ota Hn) in Hs. rewrite Hs.
  match goal with |- d_ota_state (fst (?c ?s)) = _ => assert (Hk : keeps d_ota_state c) end;
    [unfold main_loop; solve_keeps_with ltac:(apply keeps_aug_wifi_init_ota)|].
  by rewrite Hk.
Qed.

Lemma app_main_confirms_image_witness :
  let d := mk_device NVS_PARTITION_OK false false (Some ESP_OTA_IMG_PENDING_VERIFY)
             (world_init (fun a => match a with API_esp_netif_init => ESP_FAIL | _ => ESP_OK end) [] [] ∅) in
  d_ota_state (fst (app_main false zero_sta_config zero_ap_config "" d)) = Some ESP_OTA_IMG_VALID.
Proof. intros d. apply (app_main_confirms_image _ _ _ _ d d); reflexivity. Defined.

(** C25: [aug_wifi_init] and [aug_wifi_deinit] follow the default event
    loop: on a device without one and a platform that accepts the calls,
    [aug_wifi_init] succeeds, a second [aug_wifi_init] is refused with
    ESP_ERR_INVALID_STATE and changes nothing, [aug_wifi_deinit] deletes
    the loop (and only the loop: the TCP/IP stack stays, its deinit being
    commented out), after which [aug_wifi_init] succeeds again; a second
    [aug_wifi_deinit] is refused with ESP_ERR_INVALID_STATE. *)
Theorem aug_wifi_init_deinit d :
  d_default_loop d = false -> w_plat (d_world d) API_esp_netif_init = ESP_OK ->
  w_plat (d_world d) API_esp_event_loop_create_default = ESP_OK ->
  exists d1 d2,
    aug_wifi_init d = (d1, Ret ESP_OK) /\ d_netif d1 = true /\ d_default_loop d1 = true /\
    aug_wifi_init d1 = (d1, Ret ESP_ERR_INVALID_STATE) /\
    aug_wifi_deinit d1 = (d2, Ret ESP_OK) /\ d_netif d2 = true /\ d_default_loop d2 = false /\
    aug_wifi_deinit d2 = (d2, Ret ESP_ERR_INVALID_STATE) /\
    aug_wifi_init d2 = (d1, Ret ESP_OK).
Proof.
  intros Hl Hn Hc. do 2 eexists.
  split; [exact (aug_wifi_init_run d Hl Hn Hc)|]. split; [done|]. split; [done|].
  split; [unfold aug_wifi_init, esp_netif_init, esp_event_loop_create_default, plat; mrun; by rewrite Hn|].
  split; [reflexivity|]. do 2 (split; [done|]). split; [reflexivity|].
  rewrite aug_wifi_init_run; [reflexivity | reflexivity | exact Hn | exact Hc].
Qed.

Lemma aug_wifi_init_deinit_witness :
  exists d1 d2,
    let d := mk_device NVS_PARTITION_OK false false None (world_init plat_ok [] [] ∅) in
    aug_wifi_init d = (d1, Ret ESP_OK) /\ d_netif d1 = true /\ d_default_loop d1 = true /\
    aug_wifi_init d1 = (d1, Ret ESP_ERR_INVALID_STATE) /\
    aug_wifi_deinit d1 = (d2, Ret ESP_OK) /\ d_netif d2 = true /\ d_default_loop d2 = false /\
    aug_wifi_deinit d2 = (d2, Ret ESP_ERR_INVALID_STATE) /\
    aug_wifi_init d2 = (d1, Ret ESP_OK).
Proof. apply (aug_wifi_init_deinit (mk_device NVS_PARTITION_OK false false None (world_init plat_ok [] [] ∅))); reflexivity. Defined.

(** C24: The start that works: on a healthy partition, with the TCP/IP
    stack and the default loop created, [app_main] confirms a pending
    image, runs [main_init] on the world as it found it, and then never
    returns: the main task parks ([Blocked]) with the device as
    [main_init] left it, the stack and the default loop up. *)
Theorem app_main_parks info dsta dap uri d w' :
  d_partition d = NVS_PARTITION_OK -> d_default_loop d = false ->
  w_plat (d_world d) API_esp_netif_init = ESP_OK ->
  w_plat (d_world d) API_esp_event_loop_create_default = ESP_OK ->
  main_init info dsta dap uri (d_world d) = (w', Ret tt) ->
  app_main info dsta dap uri d =
  (mk_device NVS_PARTITION_OK true true (confirmed (d_ota_state d)) w', Blocked).
Proof.
  intros Hp Hl Hn Hc Hm. rewrite (app_main_after_nvs _ _ _ _ _ _ (aug_nvs_init_ok d Hp)).
  rewrite (bind_run _ _ _ _ _ (verify_app_run d)).
  destruct d as [p nf l st w]; simpl in *; subst p.
  destruct st as [[]|]; simpl;
    (erewrite error_check_ok; [|apply aug_wifi_init_run; assumption]);
    unfold main_loop; (erewrite bind_run; [|apply on_world_run; exact Hm]); reflexivity.
Qed.

Lemma app_main_parks_witness :
  app_main false zero_sta_config zero_ap_config ""
    (mk_device NVS_PARTITION_OK false false (Some ESP_OTA_IMG_PENDING_VERIFY) (world_init plat_ok [] [] ∅)) =
  (mk_device NVS_PARTITION_OK true true (Some ESP_OTA_IMG_VALID)
     (fst (main_init false zero_sta_config zero_ap_config "" (world_init plat_ok [] [] ∅))), Blocked).
Proof.
  apply (app_main_parks false zero_sta_config zero_ap_config ""
    (mk_device NVS_PARTITION_OK false false (Some ESP_OTA_IMG_PENDING_VERIFY) (world_init plat_ok [] [] ∅)));
    [reflexivity..|vm_compute; reflexivity].
Defined.

(** [aug_wifi_init] that returned ESP_OK has created the netif and the
    default loop. *)
Lemma aug_wifi_init_ok :
  hoare (fun _ => True) aug_wifi_init (fun r d => r = ESP_OK -> d_netif d = true /\ d_default_loop d = true).
Proof.
  unfold aug_wifi_init. eapply (hoare_return_check _ (fun d => d_netif d = true)).
  { apply hoare_ok_only. intros s s' _. unfold esp_netif_init, plat. rewrite bind_gets.
    destruct (Z.eqb (w_plat (d_world s) API_esp_netif_init) ESP_OK) eqn:E; intros H;
      cbv [mbind M_bind modify mret M_ret] in H; inversion H; subst; [done|apply Z.eqb_neq in E; congruence]. }
  eapply (hoare_return_check _ (fun d => d_netif d = true /\ d_default_loop d = true)).
  { apply hoare_ok_only. intros s s' Hs. unfold esp_event_loop_create_default, plat. rewrite bind_gets.
    destruct (d_default_loop s); [intros H; inversion H|]. rewrite bind_gets.
    destruct (Z.eqb (w_plat (d_world s) API_esp_event_loop_create_default) ESP_OK) eqn:E; intros H;
      cbv [mbind M_bind modify mret M_ret] in H; inversion H; subst; [done|apply Z.eqb_neq in E; congruence]. }
  apply hoare_ret. auto.
Qed.
